(** * The Karmada resource detector (pkg/detector/detector.go)

    A shallow embedding of the matching, claiming and binding engine of the
    resource detector, and the properties of its reconcilers.

    The detector talks to an API server, an informer cache and two work
    queues.  All of that is made explicit: a [World] record holds the
    stores, the waiting list, the queue and the logs, and every function of
    the detector is a computation in a state-and-error monad over [World].
    Calls that leave the process (API reads and writes, REST mapping, type
    conversion) may fail; which of them fail is decided by a script of
    outcomes carried in the world, so that every theorem quantifies over all
    failure patterns. *)

From stdpp Require Import gmap strings list fin_maps.
From Stdlib Require Import ZArith Ascii.

Local Open Scope string_scope.
Local Open Scope list_scope.

(** ** Errors *)

(** Go's [error] values.  [NotFound] and [Conflict] are the two API status
    errors the detector inspects (apierrors.IsNotFound, IsConflict),
    [AlreadyExists] is what a create of an existing object returns;
    [Errorf] is [fmt.Errorf] with its message; [Aggregate] is the non-empty
    result of [errors.NewAggregate]. *)
#[local] Set Warnings "-register-all".
Inductive error : Type :=
| NotFound
| Conflict
| AlreadyExists
| Errorf (msg : string)
| Aggregate (errs : list error).
#[local] Set Warnings "register-all".

Definition IsNotFound (e : error) : bool :=
  match e with NotFound => true | _ => false end.

Definition IsConflict (e : error) : bool :=
  match e with Conflict => true | _ => false end.

(** errors.NewAggregate: nil for an empty list. *)
Definition NewAggregate (errs : list error) : option error :=
  match errs with [] => None | _ => Some (Aggregate errs) end.

Inductive result (A : Type) : Type :=
| Ok (a : A)
| Err (e : error).
Arguments Ok {A} a.
Arguments Err {A} e.

Definition is_ok {A} (r : result A) : bool :=
  match r with Ok _ => true | Err _ => false end.

(** ** Data model *)

Module keys.
(** keys.ClusterWideKey *)
Record ClusterWideKey : Type := mkClusterWideKey {
  Group : string;
  Version : string;
  Kind : string;
  Namespace : string;
  Name : string
}.

(** keys.ClusterWideKeyWithConfig *)
Record ClusterWideKeyWithConfig : Type := mkClusterWideKeyWithConfig {
  ClusterWideKey_ : ClusterWideKey;
  ResourceChangeByKarmada : bool
}.
End keys.

#[global] Instance ClusterWideKey_eq_dec : EqDecision keys.ClusterWideKey.
Proof. solve_decision. Defined.

#[global] Instance ClusterWideKey_countable : Countable keys.ClusterWideKey.
Proof.
  refine (inj_countable
    (λ k, [keys.Group k; keys.Version k; keys.Kind k; keys.Namespace k; keys.Name k])
    (λ l, match l with
          | [g; v; k; ns; n] => Some (keys.mkClusterWideKey g v k ns n)
          | _ => None
          end) _).
  by intros [].
Defined.

(** util.QueueKey is [interface{}]: the reconcilers recover the key by a
    type assertion.  The two key types of the detector are kept apart from
    everything else a queue could hold. *)
Inductive QueueKey : Type :=
| QClusterWideKey (k : keys.ClusterWideKey)
| QClusterWideKeyWithConfig (k : keys.ClusterWideKeyWithConfig)
| QOther (v : string).

Module metav1.
(** metav1.OwnerReference; [Controller] and [BlockOwnerDeletion] are
    [*bool] in Go. *)
Record OwnerReference : Type := mkOwnerReference {
  APIVersion : string;
  Kind : string;
  Name : string;
  UID : string;
  Controller : option bool;
  BlockOwnerDeletion : option bool
}.

(** metav1.ObjectMeta, the fields the detector reads or writes. *)
Record ObjectMeta : Type := mkObjectMeta {
  ObjName : string;
  ObjNamespace : string;
  ObjUID : string;
  ResourceVersion : string;
  Labels : gmap string string;
  Annotations : gmap string string;
  OwnerReferences : list OwnerReference;
  Finalizers : list string;
  DeletionTimestamp : option Z
}.

Definition setLabels (l : gmap string string) (m : ObjectMeta) : ObjectMeta :=
  mkObjectMeta (ObjName m) (ObjNamespace m) (ObjUID m) (ResourceVersion m)
    l (Annotations m) (OwnerReferences m) (Finalizers m) (DeletionTimestamp m).

Definition setAnnotations (a : gmap string string) (m : ObjectMeta) : ObjectMeta :=
  mkObjectMeta (ObjName m) (ObjNamespace m) (ObjUID m) (ResourceVersion m)
    (Labels m) a (OwnerReferences m) (Finalizers m) (DeletionTimestamp m).

Definition setOwnerReferences (o : list OwnerReference) (m : ObjectMeta) : ObjectMeta :=
  mkObjectMeta (ObjName m) (ObjNamespace m) (ObjUID m) (ResourceVersion m)
    (Labels m) (Annotations m) o (Finalizers m) (DeletionTimestamp m).

Definition setFinalizers (f : list string) (m : ObjectMeta) : ObjectMeta :=
  mkObjectMeta (ObjName m) (ObjNamespace m) (ObjUID m) (ResourceVersion m)
    (Labels m) (Annotations m) (OwnerReferences m) f (DeletionTimestamp m).

(** metav1.GetControllerOfNoCopy: the first owner reference whose
    [Controller] pointer is set and true. *)
Fixpoint controllerOf (refs : list OwnerReference) : option OwnerReference :=
  match refs with
  | [] => None
  | r :: rest =>
      match Controller r with
      | Some true => Some r
      | _ => controllerOf rest
      end
  end.

Definition GetControllerOfNoCopy (m : ObjectMeta) : option OwnerReference :=
  controllerOf (OwnerReferences m).
End metav1.

Module schema.
(** GroupVersion.String(): "version" for the core group, otherwise
    "group/version". *)
Definition GroupVersionString (group version : string) : string :=
  if decide (group = "") then version else group +:+ "/" +:+ version.
End schema.

Module unstructured.
(** unstructured.Unstructured: a resource template.  The apiVersion is
    kept split into group and version, as GroupVersionKind() returns it. *)
Record Unstructured : Type := mkUnstructured {
  Group : string;
  Version : string;
  Kind : string;
  Meta : metav1.ObjectMeta
}.

Definition GetAPIVersion (o : Unstructured) : string :=
  schema.GroupVersionString (Group o) (Version o).
Definition GetKind (o : Unstructured) : string := Kind o.
Definition GetNamespace (o : Unstructured) : string := metav1.ObjNamespace (Meta o).
Definition GetName (o : Unstructured) : string := metav1.ObjName (Meta o).
Definition GetUID (o : Unstructured) : string := metav1.ObjUID (Meta o).
Definition GetResourceVersion (o : Unstructured) : string := metav1.ResourceVersion (Meta o).
Definition GetLabels (o : Unstructured) : gmap string string := metav1.Labels (Meta o).
Definition GetAnnotations (o : Unstructured) : gmap string string := metav1.Annotations (Meta o).

Definition SetLabels (l : gmap string string) (o : Unstructured) : Unstructured :=
  mkUnstructured (Group o) (Version o) (Kind o) (metav1.setLabels l (Meta o)).
Definition SetAnnotations (a : gmap string string) (o : Unstructured) : Unstructured :=
  mkUnstructured (Group o) (Version o) (Kind o) (metav1.setAnnotations a (Meta o)).

(** The cluster-wide key under which the API server stores the object. *)
Definition keyOf (o : Unstructured) : keys.ClusterWideKey :=
  keys.mkClusterWideKey (Group o) (Version o) (Kind o) (GetNamespace o) (GetName o).
End unstructured.

Module policyv1alpha1.
(** Modelled from the spec: the label and annotation keys are declared in
    the policy API package, not in detector.go.  The spec calls them the
    pp-ID and cpp-ID labels and the pp-namespace, pp-name and cpp-name
    annotations; only their being distinct keys matters below. *)
Definition PropagationPolicyPermanentIDLabel : string :=
  "propagationpolicy.karmada.io/permanent-id".
Definition ClusterPropagationPolicyPermanentIDLabel : string :=
  "clusterpropagationpolicy.karmada.io/permanent-id".
Definition PropagationPolicyNamespaceAnnotation : string :=
  "propagationpolicy.karmada.io/namespace".
Definition PropagationPolicyNameAnnotation : string :=
  "propagationpolicy.karmada.io/name".
Definition ClusterPropagationPolicyAnnotation : string :=
  "clusterpropagationpolicy.karmada.io/name".

(** Modelled from the spec: [activationPreference] is the enum
    Immediate | Lazy and [preemption] the enum Never | Always (section 3
    of the spec); the type declarations are not in detector.go. *)
Inductive ActivationPreference : Type := Immediate | Lazy.
Inductive PreemptionBehavior : Type := PreemptNever | PreemptAlways.

(** A resource selector is only handed to util.ResourceMatches. *)
Record ResourceSelector : Type := mkResourceSelector {
  SelAPIVersion : string;
  SelKind : string;
  SelNamespace : string;
  SelName : string
}.

(** policyv1alpha1.PropagationSpec.  Placement and failover are opaque
    to the detector, which only copies them. *)
Record PropagationSpec : Type := mkPropagationSpec {
  ResourceSelectors : list ResourceSelector;
  PropagateDeps : bool;
  Placement : list string;
  Priority : option Z;
  Preemption : PreemptionBehavior;
  SchedulerName : string;
  Failover : option string;
  ConflictResolution : string;
  ActivationPreference_ : ActivationPreference
}.

Record PropagationPolicy : Type := mkPropagationPolicy {
  PPMeta : metav1.ObjectMeta;
  PPSpec : PropagationSpec
}.

Record ClusterPropagationPolicy : Type := mkClusterPropagationPolicy {
  CPPMeta : metav1.ObjectMeta;
  CPPSpec : PropagationSpec
}.
End policyv1alpha1.

Module workv1alpha2.
(** workv1alpha2.ObjectReference *)
Record ObjectReference : Type := mkObjectReference {
  APIVersion : string;
  Kind : string;
  Namespace : string;
  Name : string;
  UID : string;
  ResourceVersion : string
}.

(** workv1alpha2.ResourceBindingSpec with the fields of section 3 of the
    spec.  [Clusters] is the scheduling result, owned by the scheduler;
    [Placement] is a pointer in Go. *)
Record ResourceBindingSpec : Type := mkResourceBindingSpec {
  Resource : ObjectReference;
  PropagateDeps : bool;
  ReplicaRequirements : option string;
  Replicas : Z;
  Clusters : list (string * Z);
  Placement : option (list string);
  SchedulerName : string;
  Failover : option string;
  ConflictResolution : string
}.

Record ResourceBinding : Type := mkResourceBinding {
  RBMeta : metav1.ObjectMeta;
  RBSpec : ResourceBindingSpec
}.

Record ClusterResourceBinding : Type := mkClusterResourceBinding {
  CRBMeta : metav1.ObjectMeta;
  CRBSpec : ResourceBindingSpec
}.
End workv1alpha2.

Module bindingspec.
Import workv1alpha2.
(** Assignments to single fields of a ResourceBindingSpec. *)
Definition setResource (v : ObjectReference) (s : ResourceBindingSpec) :=
  mkResourceBindingSpec v (PropagateDeps s) (ReplicaRequirements s) (Replicas s)
    (Clusters s) (Placement s) (SchedulerName s) (Failover s) (ConflictResolution s).
Definition setPropagateDeps (v : bool) (s : ResourceBindingSpec) :=
  mkResourceBindingSpec (Resource s) v (ReplicaRequirements s) (Replicas s)
    (Clusters s) (Placement s) (SchedulerName s) (Failover s) (ConflictResolution s).
Definition setReplicaRequirements (v : option string) (s : ResourceBindingSpec) :=
  mkResourceBindingSpec (Resource s) (PropagateDeps s) v (Replicas s)
    (Clusters s) (Placement s) (SchedulerName s) (Failover s) (ConflictResolution s).
Definition setReplicas (v : Z) (s : ResourceBindingSpec) :=
  mkResourceBindingSpec (Resource s) (PropagateDeps s) (ReplicaRequirements s) v
    (Clusters s) (Placement s) (SchedulerName s) (Failover s) (ConflictResolution s).
Definition setPlacement (v : option (list string)) (s : ResourceBindingSpec) :=
  mkResourceBindingSpec (Resource s) (PropagateDeps s) (ReplicaRequirements s) (Replicas s)
    (Clusters s) v (SchedulerName s) (Failover s) (ConflictResolution s).
Definition setSchedulerName (v : string) (s : ResourceBindingSpec) :=
  mkResourceBindingSpec (Resource s) (PropagateDeps s) (ReplicaRequirements s) (Replicas s)
    (Clusters s) (Placement s) v (Failover s) (ConflictResolution s).
Definition setFailover (v : option string) (s : ResourceBindingSpec) :=
  mkResourceBindingSpec (Resource s) (PropagateDeps s) (ReplicaRequirements s) (Replicas s)
    (Clusters s) (Placement s) (SchedulerName s) v (ConflictResolution s).
Definition setConflictResolution (v : string) (s : ResourceBindingSpec) :=
  mkResourceBindingSpec (Resource s) (PropagateDeps s) (ReplicaRequirements s) (Replicas s)
    (Clusters s) (Placement s) (SchedulerName s) (Failover s) v.
End bindingspec.

Module util.
(** Modelled from the spec: the claimed-by label key and the controller
    finalizers are constants of package util, not of detector.go. *)
Definition ResourceTemplateClaimedByLabel : string :=
  "resourcetemplate.karmada.io/claimed-by".
Definition BindingControllerFinalizer : string :=
  "karmada.io/binding-controller".
Definition ClusterResourceBindingControllerFinalizer : string :=
  "karmada.io/cluster-resource-binding-controller".
Definition PropagationPolicyControllerFinalizer : string :=
  "karmada.io/propagation-policy-controller".
Definition ClusterPropagationPolicyControllerFinalizer : string :=
  "karmada.io/cluster-propagation-policy-controller".

(** util.GetLabelValue: the empty string for a nil map or a missing key,
    as a Go map lookup gives. *)
Definition GetLabelValue (labels : gmap string string) (labelKey : string) : string :=
  default "" (labels !! labelKey).

(** util.DedupeAndMergeLabels / DedupeAndMergeAnnotations: the new
    entries are written over the existing map. *)
Definition DedupeAndMergeLabels (existLabel newLabel : gmap string string)
  : gmap string string := newLabel ∪ existLabel.
Definition DedupeAndMergeAnnotations (existAnnotation newAnnotation : gmap string string)
  : gmap string string := newAnnotation ∪ existAnnotation.

(** util.RemoveLabels / RemoveAnnotations on a metav1.Object. *)
Definition RemoveLabels (ks : list string) (m : metav1.ObjectMeta) : metav1.ObjectMeta :=
  metav1.setLabels (foldr delete (metav1.Labels m) ks) m.
Definition RemoveAnnotations (ks : list string) (m : metav1.ObjectMeta) : metav1.ObjectMeta :=
  metav1.setAnnotations (foldr delete (metav1.Annotations m) ks) m.

(** Modelled from the spec: util.IsLazyActivationEnabled holds exactly for
    [activationPreference = Lazy] (the lazy gate of section 4.3). *)
Definition IsLazyActivationEnabled (p : policyv1alpha1.ActivationPreference) : bool :=
  match p with policyv1alpha1.Lazy => true | policyv1alpha1.Immediate => false end.
End util.

(** ** The world of the detector *)

(** API calls observed on the server side.  Every write the detector
    attempts is recorded, with its outcome ([None] for success). *)
Inductive event : Type :=
| EvUpdateTemplate (key : keys.ClusterWideKey) (outcome : option error)
| EvCreateRB (key : string * string) (outcome : option error)
| EvUpdateRB (key : string * string) (outcome : option error)
| EvCreateCRB (name : string) (outcome : option error)
| EvUpdateCRB (name : string) (outcome : option error)
| EvUpdatePP (key : string * string) (outcome : option error)
| EvUpdateCPP (name : string) (outcome : option error).

Record World : Type := mkWorld {
  (** informer cache of resource templates *)
  cache : gmap keys.ClusterWideKey unstructured.Unstructured;
  (** resource templates held by the API server *)
  templates : gmap keys.ClusterWideKey unstructured.Unstructured;
  (** ResourceBindings by (namespace, name), ClusterResourceBindings by name *)
  rbs : gmap (string * string) workv1alpha2.ResourceBinding;
  crbs : gmap string workv1alpha2.ClusterResourceBinding;
  (** policies by (namespace, name) and by name *)
  pps : gmap (string * string) policyv1alpha1.PropagationPolicy;
  cpps : gmap string policyv1alpha1.ClusterPropagationPolicy;
  (** d.waitingObjects *)
  waitingObjects : gset keys.ClusterWideKey;
  (** keys handed to d.Processor.Add, oldest first *)
  processor : list keys.ClusterWideKeyWithConfig;
  (** write calls received by the API server, oldest first *)
  trace : list event;
  (** klog.Error / klog.Errorf lines (the format strings), oldest first *)
  klog : list string;
  (** outcomes of the coming external calls: [Some e] makes the call fail
      with [e]; when the script is exhausted calls succeed *)
  faults : list (option error)
}.

Definition set_templates (t : gmap keys.ClusterWideKey unstructured.Unstructured)
    (w : World) : World :=
  mkWorld (cache w) t (rbs w) (crbs w) (pps w) (cpps w) (waitingObjects w)
    (processor w) (trace w) (klog w) (faults w).
Definition set_rbs (r : gmap (string * string) workv1alpha2.ResourceBinding)
    (w : World) : World :=
  mkWorld (cache w) (templates w) r (crbs w) (pps w) (cpps w) (waitingObjects w)
    (processor w) (trace w) (klog w) (faults w).
Definition set_crbs (r : gmap string workv1alpha2.ClusterResourceBinding)
    (w : World) : World :=
  mkWorld (cache w) (templates w) (rbs w) r (pps w) (cpps w) (waitingObjects w)
    (processor w) (trace w) (klog w) (faults w).
Definition set_pps (p : gmap (string * string) policyv1alpha1.PropagationPolicy)
    (w : World) : World :=
  mkWorld (cache w) (templates w) (rbs w) (crbs w) p (cpps w) (waitingObjects w)
    (processor w) (trace w) (klog w) (faults w).
Definition set_cpps (p : gmap string policyv1alpha1.ClusterPropagationPolicy)
    (w : World) : World :=
  mkWorld (cache w) (templates w) (rbs w) (crbs w) (pps w) p (waitingObjects w)
    (processor w) (trace w) (klog w) (faults w).
Definition set_waitingObjects (s : gset keys.ClusterWideKey) (w : World) : World :=
  mkWorld (cache w) (templates w) (rbs w) (crbs w) (pps w) (cpps w) s
    (processor w) (trace w) (klog w) (faults w).
Definition set_processor (q : list keys.ClusterWideKeyWithConfig) (w : World) : World :=
  mkWorld (cache w) (templates w) (rbs w) (crbs w) (pps w) (cpps w) (waitingObjects w)
    q (trace w) (klog w) (faults w).
Definition set_trace (t : list event) (w : World) : World :=
  mkWorld (cache w) (templates w) (rbs w) (crbs w) (pps w) (cpps w) (waitingObjects w)
    (processor w) t (klog w) (faults w).
Definition set_klog (l : list string) (w : World) : World :=
  mkWorld (cache w) (templates w) (rbs w) (crbs w) (pps w) (cpps w) (waitingObjects w)
    (processor w) (trace w) l (faults w).
Definition set_faults (f : list (option error)) (w : World) : World :=
  mkWorld (cache w) (templates w) (rbs w) (crbs w) (pps w) (cpps w) (waitingObjects w)
    (processor w) (trace w) (klog w) f.

(** ** The state-and-error monad

    A Go function returning [(T, error)] and mutating the detector or the
    cluster becomes a function from the world to a result and the new
    world.  The world is kept on failure: what was written before the error
    stays written. *)
Definition M (A : Type) : Type := World → result A * World.

Definition ret {A} (a : A) : M A := λ w, (Ok a, w).
Definition fail {A} (e : error) : M A := λ w, (Err e, w).
Definition bind {A B} (m : M A) (f : A → M B) : M B :=
  λ w, match m w with
       | (Ok a, w') => f a w'
       | (Err e, w') => (Err e, w')
       end.

(** [err := f(...)] followed by a test of [err]: the error becomes a value. *)
Definition try {A} (m : M A) : M (result A) :=
  λ w, match m w with (r, w') => (Ok r, w') end.

Definition modify (f : World → World) : M unit := λ w, (Ok tt, f w).
Definition gets {A} (f : World → A) : M A := λ w, (Ok (f w), w).

Notation "'let*' x ':=' c1 'in' c2" := (bind c1 (λ x, c2))
  (at level 10, x name, c1 at level 100, c2 at level 200, only parsing).

(** An external call: the next scripted outcome decides whether it fails. *)
Definition external : M unit :=
  λ w, match faults w with
       | [] => (Ok tt, w)
       | None :: fs => (Ok tt, set_faults fs w)
       | Some e :: fs => (Err e, set_faults fs w)
       end.

Definition klog_Error (line : string) : M unit :=
  modify (λ w, set_klog (klog w ++ [line]) w).

Definition record (e : event) : M unit :=
  modify (λ w, set_trace (trace w ++ [e]) w).

#[global] Instance OwnerReference_eq_dec : EqDecision metav1.OwnerReference.
Proof. solve_decision. Defined.
#[global] Instance ObjectMeta_eq_dec : EqDecision metav1.ObjectMeta.
Proof. solve_decision. Defined.
#[global] Instance ObjectReference_eq_dec : EqDecision workv1alpha2.ObjectReference.
Proof. solve_decision. Defined.
#[global] Instance ResourceBindingSpec_eq_dec : EqDecision workv1alpha2.ResourceBindingSpec.
Proof. solve_decision. Defined.
#[global] Instance ResourceBinding_eq_dec : EqDecision workv1alpha2.ResourceBinding.
Proof. solve_decision. Defined.
#[global] Instance ClusterResourceBinding_eq_dec : EqDecision workv1alpha2.ClusterResourceBinding.
Proof. solve_decision. Defined.

(** controllerutil.OperationResult *)
Inductive OperationResult : Type :=
| OperationResultNone
| OperationResultCreated
| OperationResultUpdated.

(** ** Clients *)

(** A write call on the API server.  [rejected] is the server's own reason
    to refuse: an update of a missing object is answered NotFound, a create
    of an existing one AlreadyExists.  The call is recorded with its
    outcome, and the store changes only on success. *)
Definition apiWrite (ev : option error → event) (rejected : World → option error)
    (store : World → World) : M unit :=
  let* r := try external in
  match r with
  | Err e => let* _ := record (ev (Some e)) in fail e
  | Ok _ =>
      let* rej := gets rejected in
      match rej with
      | Some e => let* _ := record (ev (Some e)) in fail e
      | None => let* _ := record (ev None) in modify store
      end
  end.

Definition ifPresent {A} (o : option A) : option error :=
  match o with Some _ => None | None => Some NotFound end.
Definition ifAbsent {A} (o : option A) : option error :=
  match o with Some _ => Some AlreadyExists | None => None end.

(** client.Object, for the typed objects the detector upserts: the object
    key (client.ObjectKeyFromObject), the store of the API server that holds
    objects of the type, and the events its writes leave.  The two laws say
    that the store is a field of the world of its own. *)
Class ClientObject (K O : Type) `{Countable K} `{EqDecision O} : Type := {
  ObjectKeyFromObject : O → K;
  stored : World → gmap K O;
  set_stored : gmap K O → World → World;
  createEvent : K → option error → event;
  updateEvent : K → option error → event;
  stored_set_stored : ∀ s w, stored (set_stored s w) = s;
  stored_set_others : ∀ t l fs w,
    stored (set_trace t (set_klog l (set_faults fs w))) = stored w
}.

#[global, refine] Instance ResourceBinding_object
  : ClientObject (string * string) workv1alpha2.ResourceBinding := {
  ObjectKeyFromObject b :=
    (metav1.ObjNamespace (workv1alpha2.RBMeta b), metav1.ObjName (workv1alpha2.RBMeta b));
  stored := rbs;
  set_stored := set_rbs;
  createEvent := EvCreateRB;
  updateEvent := EvUpdateRB
}.
Proof. all: reflexivity. Defined.

#[global, refine] Instance ClusterResourceBinding_object
  : ClientObject string workv1alpha2.ClusterResourceBinding := {
  ObjectKeyFromObject b := metav1.ObjName (workv1alpha2.CRBMeta b);
  stored := crbs;
  set_stored := set_crbs;
  createEvent := EvCreateCRB;
  updateEvent := EvUpdateCRB
}.
Proof. all: reflexivity. Defined.

Section Client.
Context {K O : Type} `{ClientObject K O}.

(** d.Client.Get *)
Definition Get (key : K) : M O :=
  let* _ := external in
  let* found := gets (λ w, stored w !! key) in
  match found with Some o => ret o | None => fail NotFound end.

(** d.Client.Create *)
Definition Create (obj : O) : M unit :=
  let key := ObjectKeyFromObject obj in
  apiWrite (createEvent key) (λ w, ifAbsent (stored w !! key))
    (λ w, set_stored (<[key := obj]> (stored w)) w).

(** d.Client.Update *)
Definition Update (obj : O) : M unit :=
  let key := ObjectKeyFromObject obj in
  apiWrite (updateEvent key) (λ w, ifPresent (stored w !! key))
    (λ w, set_stored (<[key := obj]> (stored w)) w).

(** The wrapper of controllerutil around the mutation callback: the
    callback must not change the object key. *)
Definition mutate (f : O → result O) (key : K) (obj : O) : result O :=
  match f obj with
  | Err e => Err e
  | Ok obj' =>
      if decide (ObjectKeyFromObject obj' = key) then Ok obj'
      else Err (Errorf "MutateFn cannot mutate object name and/or object namespace")
  end.

(** controllerutil.CreateOrUpdate.  [obj] is the object the caller passed
    by pointer: Get overwrites it with the stored object when there is
    one, then the mutation callback [f] runs on it.  The callback may
    refuse (an error: nothing is written); an unchanged object is not
    written.  The second component of the answer is the content of [obj]
    afterwards, which the caller's retry loop sees. *)
Definition CreateOrUpdate (obj : O) (f : O → result O)
  : M (result OperationResult * O) :=
  let key := ObjectKeyFromObject obj in
  let* got := try (Get key) in
  match got with
  | Err e =>
      if IsNotFound e then
        match mutate f key obj with
        | Err e' => ret (Err e', obj)
        | Ok obj' =>
            let* r := try (Create obj') in
            match r with
            | Err e' => ret (Err e', obj')
            | Ok _ => ret (Ok OperationResultCreated, obj')
            end
        end
      else ret (Err e, obj)
  | Ok existing =>
      match mutate f key existing with
      | Err e' => ret (Err e', existing)
      | Ok obj' =>
          if decide (existing = obj') then ret (Ok OperationResultNone, obj')
          else
            let* r := try (Update obj') in
            match r with
            | Err e' => ret (Err e', obj')
            | Ok _ => ret (Ok OperationResultUpdated, obj')
            end
      end
  end.
End Client.

(** d.Client.Update / d.DynamicClient...Update on a resource template. *)
Definition UpdateTemplate (o : unstructured.Unstructured) : M unit :=
  apiWrite (EvUpdateTemplate (unstructured.keyOf o))
    (λ w, ifPresent (templates w !! unstructured.keyOf o))
    (λ w, set_templates (<[unstructured.keyOf o := o]> (templates w)) w).

Definition ppKey (p : policyv1alpha1.PropagationPolicy) : string * string :=
  (metav1.ObjNamespace (policyv1alpha1.PPMeta p), metav1.ObjName (policyv1alpha1.PPMeta p)).
Definition cppKey (p : policyv1alpha1.ClusterPropagationPolicy) : string :=
  metav1.ObjName (policyv1alpha1.CPPMeta p).

Definition UpdatePP (p : policyv1alpha1.PropagationPolicy) : M unit :=
  apiWrite (EvUpdatePP (ppKey p)) (λ w, ifPresent (pps w !! ppKey p))
    (λ w, set_pps (<[ppKey p := p]> (pps w)) w).
Definition UpdateCPP (p : policyv1alpha1.ClusterPropagationPolicy) : M unit :=
  apiWrite (EvUpdateCPP (cppKey p)) (λ w, ifPresent (cpps w !! cppKey p))
    (λ w, set_cpps (<[cppKey p := p]> (cpps w)) w).

(** retry.RetryOnConflict: [attempt] is run again while it fails with a
    conflict, at most [steps] times in all; retry.DefaultRetry has 5 steps.
    The object under construction is handed from one attempt to the next. *)
Fixpoint RetryOnConflict {O A} (steps : nat) (attempt : O → M (result A * O))
    (obj : O) (lastErr : error) : M A :=
  match steps with
  | 0 => fail lastErr
  | S n =>
      let* r := attempt obj in
      match r with
      | (Ok a, _) => ret a
      | (Err e, obj') =>
          if IsConflict e then RetryOnConflict n attempt obj' e else fail e
      end
  end.

Definition DefaultRetrySteps : nat := 5.

Module util_obj.
(** util.MergeLabel / util.MergeAnnotation on an unstructured object. *)
Definition MergeLabel (labelKey labelValue : string) (o : unstructured.Unstructured)
  : unstructured.Unstructured :=
  unstructured.SetLabels (<[labelKey := labelValue]> (unstructured.GetLabels o)) o.
Definition MergeAnnotation (annotationKey annotationValue : string)
    (o : unstructured.Unstructured) : unstructured.Unstructured :=
  unstructured.SetAnnotations
    (<[annotationKey := annotationValue]> (unstructured.GetAnnotations o)) o.
End util_obj.

(** metav1.NewControllerRef(object, object.GroupVersionKind()) *)
Definition NewControllerRef (object : unstructured.Unstructured) : metav1.OwnerReference :=
  metav1.mkOwnerReference (unstructured.GetAPIVersion object) (unstructured.GetKind object)
    (unstructured.GetName object) (unstructured.GetUID object) (Some true) (Some true).

(** Modelled from the spec: excludeClusterPolicy lives in another file of
    package detector.  Section 4.3 of the spec: on a PropagationPolicy apply
    to an object that bears the ClusterPropagationPolicy label, "the
    conflicting label is stripped in the same update"; the result tells
    whether there was such a label to clear. *)
Definition excludeClusterPolicy (objLabels : gmap string string)
    : bool * gmap string string :=
  match objLabels !! policyv1alpha1.ClusterPropagationPolicyPermanentIDLabel with
  | None => (false, objLabels)
  | Some _ => (true, delete policyv1alpha1.ClusterPropagationPolicyPermanentIDLabel objLabels)
  end.

Definition ownerMismatch : error :=
  Errorf ("failed to update binding due to different owner reference UID, will " +:+
          "try again later after binding is garbage collected, see https://github.com/karmada-io/karmada/issues/2090").

(** ** The detector *)

Section Detector.

(** Collaborators of the detector that are not part of detector.go: the
    binding-name generator, the resource interpreter, the selector
    matcher, and the helpers of package detector defined in other files. *)
Variable GenerateBindingName : string → string → string.
Variable HookEnabled : unstructured.Unstructured → bool.
Variable GetReplicas : unstructured.Unstructured → result (Z * option string).
Variable ResourceMatches :
  unstructured.Unstructured → policyv1alpha1.ResourceSelector → bool.
Variable propagateResource :
  unstructured.Unstructured → keys.ClusterWideKey → bool → M unit.

(** *** Waiting list *)

Definition isWaiting (objectKey : keys.ClusterWideKey) : M bool :=
  gets (λ w, bool_decide (objectKey ∈ waitingObjects w)).

Definition AddWaiting (objectKey : keys.ClusterWideKey) : M unit :=
  modify (λ w, set_waitingObjects ({[objectKey]} ∪ waitingObjects w) w).

Definition RemoveWaiting (objectKey : keys.ClusterWideKey) : M unit :=
  modify (λ w, set_waitingObjects (waitingObjects w ∖ {[objectKey]}) w).

(** *** Fetching a resource template *)

(** GetUnstructuredObject: REST mapping, then the informer cache; on a
    cache miss the dynamic client; then the conversion to unstructured. *)
Definition GetUnstructuredObject (objectKey : keys.ClusterWideKey)
  : M unstructured.Unstructured :=
  let* gvr := try external in
  match gvr with
  | Err err =>
      let* _ := klog_Error "Failed to get GVR of object: %s, error: %v" in fail err
  | Ok _ =>
      let* cached := gets (λ w, cache w !! objectKey) in
      match cached with
      | None =>
          let* live := try (let* _ := external in
                            let* o := gets (λ w, templates w !! objectKey) in
                            match o with Some o => ret o | None => fail NotFound end) in
          match live with
          | Ok object => ret object
          | Err err =>
              let* _ := klog_Error "Failed to get object(%s), error: %v" in fail err
          end
      | Some object =>
          let* conv := try external in
          match conv with
          | Err err =>
              let* _ := klog_Error "Failed to transform object(%s), error: %v" in fail err
          | Ok _ => ret object
          end
      end
  end.

(** *** Reconcile *)

Definition Reconcile (key : QueueKey) : M unit :=
  match key with
  | QClusterWideKeyWithConfig clusterWideKeyWithConfig =>
      let clusterWideKey := keys.ClusterWideKey_ clusterWideKeyWithConfig in
      let resourceChangeByKarmada :=
        keys.ResourceChangeByKarmada clusterWideKeyWithConfig in
      let* got := try (GetUnstructuredObject clusterWideKey) in
      match got with
      | Err err =>
          if IsNotFound err then RemoveWaiting clusterWideKey
          else
            let* _ := klog_Error "Failed to get unstructured object(%s), error: %v" in
            fail err
      | Ok object =>
          let resourceTemplateClaimedBy :=
            util.GetLabelValue (unstructured.GetLabels object)
              util.ResourceTemplateClaimedByLabel in
          if decide (resourceTemplateClaimedBy ≠ "") then RemoveWaiting clusterWideKey
          else propagateResource object clusterWideKey resourceChangeByKarmada
      end
  | _ =>
      let* _ := klog_Error "Invalid key" in
      fail (Errorf "invalid key")
  end.

(** *** Claiming *)

Definition ClaimPolicyForObject (object : unstructured.Unstructured)
    (policy : policyv1alpha1.PropagationPolicy) : M string :=
  let policyID :=
    util.GetLabelValue (metav1.Labels (policyv1alpha1.PPMeta policy))
      policyv1alpha1.PropagationPolicyPermanentIDLabel in
  let objLabels : gmap string string := unstructured.GetLabels object in
  let nonEmpty := bool_decide (0 < size objLabels) in
  let excluded : bool * gmap string string :=
    if nonEmpty then excludeClusterPolicy objLabels else (false, objLabels) in
  if nonEmpty && negb excluded.1 &&
     bool_decide (util.GetLabelValue excluded.2
                    policyv1alpha1.PropagationPolicyPermanentIDLabel = policyID)
  then ret policyID
  else
    let objLabels := <[policyv1alpha1.PropagationPolicyPermanentIDLabel := policyID]> excluded.2 in
    let objectAnnotations := unstructured.GetAnnotations object in
    let objectAnnotations :=
      <[policyv1alpha1.PropagationPolicyNamespaceAnnotation :=
          metav1.ObjNamespace (policyv1alpha1.PPMeta policy)]> objectAnnotations in
    let objectAnnotations :=
      <[policyv1alpha1.PropagationPolicyNameAnnotation :=
          metav1.ObjName (policyv1alpha1.PPMeta policy)]> objectAnnotations in
    let objectCopy := unstructured.SetLabels objLabels object in
    let objectCopy := unstructured.SetAnnotations objectAnnotations objectCopy in
    let* _ := UpdateTemplate objectCopy in
    ret policyID.

Definition ClaimClusterPolicyForObject (object : unstructured.Unstructured)
    (policy : policyv1alpha1.ClusterPropagationPolicy) : M string :=
  let policyID :=
    util.GetLabelValue (metav1.Labels (policyv1alpha1.CPPMeta policy))
      policyv1alpha1.ClusterPropagationPolicyPermanentIDLabel in
  let claimedID :=
    util.GetLabelValue (unstructured.GetLabels object)
      policyv1alpha1.ClusterPropagationPolicyPermanentIDLabel in
  if decide (claimedID = policyID) then ret policyID
  else
    let objectCopy :=
      util_obj.MergeLabel policyv1alpha1.ClusterPropagationPolicyPermanentIDLabel
        policyID object in
    let objectCopy :=
      util_obj.MergeAnnotation policyv1alpha1.ClusterPropagationPolicyAnnotation
        (metav1.ObjName (policyv1alpha1.CPPMeta policy)) objectCopy in
    let* _ := UpdateTemplate objectCopy in
    ret policyID.

(** *** Building bindings *)

Definition BuildResourceBinding (object : unstructured.Unstructured)
    (labels annotations : gmap string string)
    (policySpec : policyv1alpha1.PropagationSpec) : M workv1alpha2.ResourceBinding :=
  let bindingName :=
    GenerateBindingName (unstructured.GetKind object) (unstructured.GetName object) in
  let meta :=
    metav1.mkObjectMeta bindingName (unstructured.GetNamespace object) "" ""
      labels annotations [NewControllerRef object]
      [util.BindingControllerFinalizer] None in
  let resource :=
    workv1alpha2.mkObjectReference (unstructured.GetAPIVersion object)
      (unstructured.GetKind object) (unstructured.GetNamespace object)
      (unstructured.GetName object) (unstructured.GetUID object)
      (unstructured.GetResourceVersion object) in
  let spec replicaRequirements replicas :=
    workv1alpha2.mkResourceBindingSpec resource
      (policyv1alpha1.PropagateDeps policySpec) replicaRequirements replicas []
      (Some (policyv1alpha1.Placement policySpec))
      (policyv1alpha1.SchedulerName policySpec)
      (policyv1alpha1.Failover policySpec)
      (policyv1alpha1.ConflictResolution policySpec) in
  if HookEnabled object then
    match GetReplicas object with
    | Err err =>
        let* _ := klog_Error "Failed to customize replicas for %s(%s), %v" in fail err
    | Ok (replicas, replicaRequirements) =>
        ret (workv1alpha2.mkResourceBinding meta (spec replicaRequirements replicas))
    end
  else ret (workv1alpha2.mkResourceBinding meta (spec None 0%Z)).

Definition BuildClusterResourceBinding (object : unstructured.Unstructured)
    (labels annotations : gmap string string)
    (policySpec : policyv1alpha1.PropagationSpec)
  : M workv1alpha2.ClusterResourceBinding :=
  let bindingName :=
    GenerateBindingName (unstructured.GetKind object) (unstructured.GetName object) in
  let meta :=
    metav1.mkObjectMeta bindingName "" "" ""
      labels annotations [NewControllerRef object]
      [util.ClusterResourceBindingControllerFinalizer] None in
  let resource :=
    workv1alpha2.mkObjectReference (unstructured.GetAPIVersion object)
      (unstructured.GetKind object) ""
      (unstructured.GetName object) (unstructured.GetUID object)
      (unstructured.GetResourceVersion object) in
  let spec replicaRequirements replicas :=
    workv1alpha2.mkResourceBindingSpec resource
      (policyv1alpha1.PropagateDeps policySpec) replicaRequirements replicas []
      (Some (policyv1alpha1.Placement policySpec))
      (policyv1alpha1.SchedulerName policySpec)
      (policyv1alpha1.Failover policySpec)
      (policyv1alpha1.ConflictResolution policySpec) in
  if HookEnabled object then
    match GetReplicas object with
    | Err err =>
        let* _ := klog_Error "Failed to customize replicas for %s(%s), %v" in fail err
    | Ok (replicas, replicaRequirements) =>
        ret (workv1alpha2.mkClusterResourceBinding meta (spec replicaRequirements replicas))
    end
  else ret (workv1alpha2.mkClusterResourceBinding meta (spec None 0%Z)).

(** *** Applying a policy *)

(** [ownerRef != nil && ownerRef.UID != object.GetUID()] for the
    controller reference of the binding. *)
Definition ownerDiffers (object : unstructured.Unstructured) (m : metav1.ObjectMeta)
  : bool :=
  match metav1.GetControllerOfNoCopy m with
  | Some ownerRef => bool_decide (metav1.UID ownerRef ≠ unstructured.GetUID object)
  | None => false
  end.

(** The mutation callback of ApplyPolicy.  [binding] is the desired
    ResourceBinding, [bindingCopy] the object CreateOrUpdate works on. *)
Definition applyPolicyMutateFn (object : unstructured.Unstructured)
    (binding bindingCopy : workv1alpha2.ResourceBinding)
  : result workv1alpha2.ResourceBinding :=
  if ownerDiffers object (workv1alpha2.RBMeta bindingCopy) then Err ownerMismatch
  else
    let desired := workv1alpha2.RBSpec binding in
    let meta := workv1alpha2.RBMeta bindingCopy in
    let meta := metav1.setAnnotations
      (util.DedupeAndMergeAnnotations (metav1.Annotations meta)
         (metav1.Annotations (workv1alpha2.RBMeta binding))) meta in
    let meta := metav1.setLabels
      (util.DedupeAndMergeLabels (metav1.Labels meta)
         (metav1.Labels (workv1alpha2.RBMeta binding))) meta in
    let meta := metav1.setOwnerReferences
      (metav1.OwnerReferences (workv1alpha2.RBMeta binding)) meta in
    let meta := metav1.setFinalizers
      (metav1.Finalizers (workv1alpha2.RBMeta binding)) meta in
    let spec := workv1alpha2.RBSpec bindingCopy in
    let spec := bindingspec.setResource (workv1alpha2.Resource desired) spec in
    let spec := bindingspec.setReplicaRequirements
      (workv1alpha2.ReplicaRequirements desired) spec in
    let spec := bindingspec.setReplicas (workv1alpha2.Replicas desired) spec in
    let spec := bindingspec.setPropagateDeps (workv1alpha2.PropagateDeps desired) spec in
    let spec := bindingspec.setSchedulerName (workv1alpha2.SchedulerName desired) spec in
    let spec := bindingspec.setPlacement (workv1alpha2.Placement desired) spec in
    let spec := bindingspec.setFailover (workv1alpha2.Failover desired) spec in
    let spec := bindingspec.setConflictResolution
      (workv1alpha2.ConflictResolution desired) spec in
    let meta := metav1.setLabels (excludeClusterPolicy (metav1.Labels meta)).2 meta in
    Ok (workv1alpha2.mkResourceBinding meta spec).

(** The mutation callback of ApplyClusterPolicy for a ResourceBinding. *)
Definition applyClusterPolicyMutateRB (object : unstructured.Unstructured)
    (binding bindingCopy : workv1alpha2.ResourceBinding)
  : result workv1alpha2.ResourceBinding :=
  if ownerDiffers object (workv1alpha2.RBMeta bindingCopy) then Err ownerMismatch
  else
    let desired := workv1alpha2.RBSpec binding in
    let meta := workv1alpha2.RBMeta bindingCopy in
    let meta := metav1.setAnnotations
      (util.DedupeAndMergeAnnotations (metav1.Annotations meta)
         (metav1.Annotations (workv1alpha2.RBMeta binding))) meta in
    let meta := metav1.setLabels
      (util.DedupeAndMergeLabels (metav1.Labels meta)
         (metav1.Labels (workv1alpha2.RBMeta binding))) meta in
    let meta := metav1.setOwnerReferences
      (metav1.OwnerReferences (workv1alpha2.RBMeta binding)) meta in
    let meta := metav1.setFinalizers
      (metav1.Finalizers (workv1alpha2.RBMeta binding)) meta in
    let spec := workv1alpha2.RBSpec bindingCopy in
    let spec := bindingspec.setResource (workv1alpha2.Resource desired) spec in
    let spec := bindingspec.setReplicaRequirements
      (workv1alpha2.ReplicaRequirements desired) spec in
    let spec := bindingspec.setReplicas (workv1alpha2.Replicas desired) spec in
    let spec := bindingspec.setPropagateDeps (workv1alpha2.PropagateDeps desired) spec in
    let spec := bindingspec.setSchedulerName (workv1alpha2.SchedulerName desired) spec in
    let spec := bindingspec.setPlacement (workv1alpha2.Placement desired) spec in
    let spec := bindingspec.setFailover (workv1alpha2.Failover desired) spec in
    let spec := bindingspec.setConflictResolution
      (workv1alpha2.ConflictResolution desired) spec in
    Ok (workv1alpha2.mkResourceBinding meta spec).

(** The mutation callback of ApplyClusterPolicy for a
    ClusterResourceBinding. *)
Definition applyClusterPolicyMutateCRB (object : unstructured.Unstructured)
    (binding bindingCopy : workv1alpha2.ClusterResourceBinding)
  : result workv1alpha2.ClusterResourceBinding :=
  if ownerDiffers object (workv1alpha2.CRBMeta bindingCopy) then Err ownerMismatch
  else
    let desired := workv1alpha2.CRBSpec binding in
    let meta := workv1alpha2.CRBMeta bindingCopy in
    let meta := metav1.setAnnotations
      (util.DedupeAndMergeAnnotations (metav1.Annotations meta)
         (metav1.Annotations (workv1alpha2.CRBMeta binding))) meta in
    let meta := metav1.setLabels
      (util.DedupeAndMergeLabels (metav1.Labels meta)
         (metav1.Labels (workv1alpha2.CRBMeta binding))) meta in
    let meta := metav1.setOwnerReferences
      (metav1.OwnerReferences (workv1alpha2.CRBMeta binding)) meta in
    let meta := metav1.setFinalizers
      (metav1.Finalizers (workv1alpha2.CRBMeta binding)) meta in
    let spec := workv1alpha2.CRBSpec bindingCopy in
    let spec := bindingspec.setResource (workv1alpha2.Resource desired) spec in
    let spec := bindingspec.setReplicaRequirements
      (workv1alpha2.ReplicaRequirements desired) spec in
    let spec := bindingspec.setReplicas (workv1alpha2.Replicas desired) spec in
    let spec := bindingspec.setSchedulerName (workv1alpha2.SchedulerName desired) spec in
    let spec := bindingspec.setPlacement (workv1alpha2.Placement desired) spec in
    let spec := bindingspec.setFailover (workv1alpha2.Failover desired) spec in
    let spec := bindingspec.setConflictResolution
      (workv1alpha2.ConflictResolution desired) spec in
    Ok (workv1alpha2.mkClusterResourceBinding meta spec).

(** The upsert of a ResourceBinding: the desired binding is copied and
    [CreateOrUpdate] runs on the copy under [retry.RetryOnConflict]. *)
Definition upsertRB (binding : workv1alpha2.ResourceBinding)
    (f : workv1alpha2.ResourceBinding → result workv1alpha2.ResourceBinding)
  : M OperationResult :=
  RetryOnConflict DefaultRetrySteps (λ bindingCopy, CreateOrUpdate bindingCopy f)
    binding (Errorf "timed out waiting for the condition").

Definition upsertCRB (binding : workv1alpha2.ClusterResourceBinding)
    (f : workv1alpha2.ClusterResourceBinding → result workv1alpha2.ClusterResourceBinding)
  : M OperationResult :=
  RetryOnConflict DefaultRetrySteps (λ bindingCopy, CreateOrUpdate bindingCopy f)
    binding (Errorf "timed out waiting for the condition").

(** ApplyPolicy.  The deferred metrics observation and the event sent to
    the event recorder do not touch the cluster state and are left out;
    the function answers with the operation result it would report. *)
Definition ApplyPolicy (object : unstructured.Unstructured)
    (objectKey : keys.ClusterWideKey) (resourceChangeByKarmada : bool)
    (policy : policyv1alpha1.PropagationPolicy) : M OperationResult :=
  let* claimed := try (ClaimPolicyForObject object policy) in
  match claimed with
  | Err err =>
      let* _ := klog_Error "Failed to claim policy(%s/%s) for object: %s" in fail err
  | Ok policyID =>
      if resourceChangeByKarmada &&
         util.IsLazyActivationEnabled
           (policyv1alpha1.ActivationPreference_ (policyv1alpha1.PPSpec policy))
      then ret OperationResultNone
      else
        let policyLabels : gmap string string :=
          {[ policyv1alpha1.PropagationPolicyPermanentIDLabel := policyID ]} in
        let policyAnnotations : gmap string string :=
          <[ policyv1alpha1.PropagationPolicyNamespaceAnnotation :=
               metav1.ObjNamespace (policyv1alpha1.PPMeta policy) ]>
          {[ policyv1alpha1.PropagationPolicyNameAnnotation :=
               metav1.ObjName (policyv1alpha1.PPMeta policy) ]} in
        let* built := try (BuildResourceBinding object policyLabels policyAnnotations
                             (policyv1alpha1.PPSpec policy)) in
        match built with
        | Err err =>
            let* _ := klog_Error "Failed to build resourceBinding for object: %s. error: %v" in
            fail err
        | Ok binding =>
            let* r := try (upsertRB binding (applyPolicyMutateFn object binding)) in
            match r with
            | Err err =>
                let* _ := klog_Error "Failed to apply policy(%s) for object: %s. error: %v" in
                fail err
            | Ok operationResult => ret operationResult
            end
        end
  end.

Definition ApplyClusterPolicy (object : unstructured.Unstructured)
    (objectKey : keys.ClusterWideKey) (resourceChangeByKarmada : bool)
    (policy : policyv1alpha1.ClusterPropagationPolicy) : M OperationResult :=
  let* claimed := try (ClaimClusterPolicyForObject object policy) in
  match claimed with
  | Err err =>
      let* _ := klog_Error "Failed to claim cluster policy(%s) for object: %s" in fail err
  | Ok policyID =>
      if resourceChangeByKarmada &&
         util.IsLazyActivationEnabled
           (policyv1alpha1.ActivationPreference_ (policyv1alpha1.CPPSpec policy))
      then ret OperationResultNone
      else
        let policyLabels : gmap string string :=
          {[ policyv1alpha1.ClusterPropagationPolicyPermanentIDLabel := policyID ]} in
        let policyAnnotations : gmap string string :=
          {[ policyv1alpha1.ClusterPropagationPolicyAnnotation :=
               metav1.ObjName (policyv1alpha1.CPPMeta policy) ]} in
        if decide (unstructured.GetNamespace object ≠ "") then
          let* built := try (BuildResourceBinding object policyLabels policyAnnotations
                               (policyv1alpha1.CPPSpec policy)) in
          match built with
          | Err err =>
              let* _ := klog_Error "Failed to build resourceBinding for object: %s. error: %v" in
              fail err
          | Ok binding =>
              let* r := try (upsertRB binding (applyClusterPolicyMutateRB object binding)) in
              match r with
              | Err err =>
                  let* _ := klog_Error "Failed to apply cluster policy(%s) for object: %s. error: %v" in
                  fail err
              | Ok operationResult => ret operationResult
              end
          end
        else
          let* built := try (BuildClusterResourceBinding object policyLabels
                               policyAnnotations (policyv1alpha1.CPPSpec policy)) in
          match built with
          | Err err =>
              let* _ := klog_Error "Failed to build clusterResourceBinding for object: %s. error: %v" in
              fail err
          | Ok binding =>
              let* r := try (upsertCRB binding (applyClusterPolicyMutateCRB object binding)) in
              match r with
              | Err err =>
                  let* _ := klog_Error "Failed to apply cluster policy(%s) for object: %s. error: %v" in
                  fail err
              | Ok operationResult => ret operationResult
              end
          end
  end.

(** *** Cleanup of policy marks *)

(** schema.ParseGroupVersion: "" and "/" give the empty group-version, a
    string without slash is a version of the core group, a string with
    one slash is group/version, anything else is an error. *)
Fixpoint splitSlash (s : string) : string * list string :=
  match s with
  | EmptyString => ("", [])
  | String a rest =>
      let '(h, t) := splitSlash rest in
      if Ascii.eqb a "/"%char then ("", h :: t) else (String a h, t)
  end.

Definition ParseGroupVersion (gv : string) : result (string * string) :=
  if decide (gv = "" ∨ gv = "/") then Ok ("", "")
  else
    match splitSlash gv with
    | (v, []) => Ok ("", v)
    | (g, [v]) => Ok (g, v)
    | _ => Err (Errorf "unexpected GroupVersion string: %v")
    end.

(** helper.ConstructClusterWideKey *)
Definition ConstructClusterWideKey (resource : workv1alpha2.ObjectReference)
  : result keys.ClusterWideKey :=
  match ParseGroupVersion (workv1alpha2.APIVersion resource) with
  | Err err => Err err
  | Ok (g, v) =>
      Ok (keys.mkClusterWideKey g v (workv1alpha2.Kind resource)
            (workv1alpha2.Namespace resource) (workv1alpha2.Name resource))
  end.

(** Modelled from the spec: helper.FetchResourceTemplate is not part of
    detector.go.  Section 4.10 of the spec: the template is fetched
    "fresh via dynamic live client"; a template that is gone is answered
    NotFound. *)
Definition FetchResourceTemplate (objRef : workv1alpha2.ObjectReference)
  : M unstructured.Unstructured :=
  match ConstructClusterWideKey objRef with
  | Err err => fail err
  | Ok key =>
      let* _ := external in
      let* o := gets (λ w, templates w !! key) in
      match o with Some o => ret o | None => fail NotFound end
  end.

(** Modelled from the spec: helper.GetResourceBindings and
    helper.GetClusterResourceBindings are not part of detector.go.  They
    "enumerate RBs (and CRBs, for CPP) labeled with this policy's
    permanentID" (section 4.7 of the spec). *)
Definition GetResourceBindings (labelKey labelValue : string)
  : M (list workv1alpha2.ResourceBinding) :=
  let* _ := external in
  gets (λ w, filter (λ b, metav1.Labels (workv1alpha2.RBMeta b) !! labelKey
                            = Some labelValue)
               (map_to_list (rbs w)).*2).

Definition GetClusterResourceBindings (labelKey labelValue : string)
  : M (list workv1alpha2.ClusterResourceBinding) :=
  let* _ := external in
  gets (λ w, filter (λ b, metav1.Labels (workv1alpha2.CRBMeta b) !! labelKey
                            = Some labelValue)
               (map_to_list (crbs w)).*2).

Definition unstructuredCleanup (cleanupFunc : metav1.ObjectMeta → metav1.ObjectMeta)
    (o : unstructured.Unstructured) : unstructured.Unstructured :=
  unstructured.mkUnstructured (unstructured.Group o) (unstructured.Version o)
    (unstructured.Kind o) (cleanupFunc (unstructured.Meta o)).

Definition CleanupResourceTemplateMarks (objRef : workv1alpha2.ObjectReference)
    (cleanupFunc : metav1.ObjectMeta → metav1.ObjectMeta) : M unit :=
  let* fetched := try (FetchResourceTemplate objRef) in
  match fetched with
  | Err err =>
      if IsNotFound err then ret tt
      else
        let* _ := klog_Error "Failed to fetch resource(kind=%s, %s/%s): %v" in fail err
  | Ok workload =>
      let workload := unstructuredCleanup cleanupFunc workload in
      let* gvr := try external in
      match gvr with
      | Err err =>
          let* _ := klog_Error
            "Failed to delete resource(%s/%s) labels as mapping GVK to GVR failed: %v" in
          fail err
      | Ok _ =>
          let* updated := try (UpdateTemplate workload) in
          match updated with
          | Err err =>
              let* _ := klog_Error "Failed to update resource %v/%v, err is %v " in
              fail err
          | Ok _ => ret tt
          end
      end
  end.

(** One attempt of the conflict-retry loop of CleanupResourceBindingMarks;
    [rb] is the loop's binding variable, replaced by the stored binding
    after a failed update when it can be read back. *)
Definition cleanupRBAttempt (cleanupFunc : metav1.ObjectMeta → metav1.ObjectMeta)
    (rb : workv1alpha2.ResourceBinding)
  : M (result unit * workv1alpha2.ResourceBinding) :=
  let rb := workv1alpha2.mkResourceBinding (cleanupFunc (workv1alpha2.RBMeta rb))
              (workv1alpha2.RBSpec rb) in
  let* updated := try (Update rb) in
  match updated with
  | Ok _ => ret (Ok tt, rb)
  | Err updateErr =>
      let* got := try (Get (ObjectKeyFromObject rb)) in
      match got with
      | Ok updated => ret (Err updateErr, updated)
      | Err _ =>
          let* _ := klog_Error "Failed to get updated resource binding %s/%s: %v" in
          ret (Err updateErr, rb)
      end
  end.

Definition CleanupResourceBindingMarks (rb : workv1alpha2.ResourceBinding)
    (cleanupFunc : metav1.ObjectMeta → metav1.ObjectMeta) : M unit :=
  RetryOnConflict DefaultRetrySteps (cleanupRBAttempt cleanupFunc) rb
    (Errorf "timed out waiting for the condition").

Definition cleanupCRBAttempt (cleanupFunc : metav1.ObjectMeta → metav1.ObjectMeta)
    (crb : workv1alpha2.ClusterResourceBinding)
  : M (result unit * workv1alpha2.ClusterResourceBinding) :=
  let crb := workv1alpha2.mkClusterResourceBinding
               (cleanupFunc (workv1alpha2.CRBMeta crb)) (workv1alpha2.CRBSpec crb) in
  let* updated := try (Update crb) in
  match updated with
  | Ok _ => ret (Ok tt, crb)
  | Err updateErr =>
      let* got := try (Get (ObjectKeyFromObject crb)) in
      match got with
      | Ok updated => ret (Err updateErr, updated)
      | Err _ =>
          let* _ := klog_Error "Failed to get updated cluster resource binding %s: %v" in
          ret (Err updateErr, crb)
      end
  end.

Definition CleanupClusterResourceBindingMarks (crb : workv1alpha2.ClusterResourceBinding)
    (cleanupFunc : metav1.ObjectMeta → metav1.ObjectMeta) : M unit :=
  RetryOnConflict DefaultRetrySteps (cleanupCRBAttempt cleanupFunc) crb
    (Errorf "timed out waiting for the condition").

(** *** Policy deletion *)

Definition propagationPolicyMarkedLabels : list string :=
  [policyv1alpha1.PropagationPolicyPermanentIDLabel].
Definition propagationPolicyMarkedAnnotations : list string :=
  [policyv1alpha1.PropagationPolicyNamespaceAnnotation;
   policyv1alpha1.PropagationPolicyNameAnnotation].
Definition clusterPropagationPolicyMarkedLabels : list string :=
  [policyv1alpha1.ClusterPropagationPolicyPermanentIDLabel].
Definition clusterPropagationPolicyMarkedAnnotations : list string :=
  [policyv1alpha1.ClusterPropagationPolicyAnnotation].

(** A [for ... range items] loop that collects errors in [errs]. *)
Fixpoint forEach {A} (body : A → list error → M (list error)) (items : list A)
    (errs : list error) : M (list error) :=
  match items with
  | [] => ret errs
  | x :: rest => let* errs := body x errs in forEach body rest errs
  end.

(** [return errors.NewAggregate(errs)] *)
Definition returnAggregate (errs : list error) : M unit :=
  match NewAggregate errs with None => ret tt | Some e => fail e end.

(** The cleanup closure of HandlePropagationPolicyDeletion. *)
Definition cleanupMarksFunc (m : metav1.ObjectMeta) : metav1.ObjectMeta :=
  util.RemoveAnnotations propagationPolicyMarkedAnnotations
    (util.RemoveLabels propagationPolicyMarkedLabels m).

(** The cleanup closure of HandleClusterPropagationPolicyDeletion. *)
Definition cleanupMarksFun (m : metav1.ObjectMeta) : metav1.ObjectMeta :=
  util.RemoveAnnotations clusterPropagationPolicyMarkedAnnotations
    (util.RemoveLabels clusterPropagationPolicyMarkedLabels m).

(** Body of the loop of HandlePropagationPolicyDeletion. *)
Definition ppDeletionBody (binding : workv1alpha2.ResourceBinding) (errs : list error)
  : M (list error) :=
  let* t := try (CleanupResourceTemplateMarks
                   (workv1alpha2.Resource (workv1alpha2.RBSpec binding))
                   cleanupMarksFunc) in
  match t with
  | Err err =>
      let* _ := klog_Error
        "Failed to clean up marks from resource(%s-%s/%s) when propagationPolicy removed, error: %v" in
      ret (errs ++ [err])
  | Ok _ =>
      let* b := try (CleanupResourceBindingMarks binding cleanupMarksFunc) in
      match b with
      | Err err =>
          let* _ := klog_Error
            "Failed to clean up marks from resource binding(%s/%s) when propagationPolicy removed, error: %v" in
          ret (errs ++ [err])
      | Ok _ => ret errs
      end
  end.

Definition HandlePropagationPolicyDeletion (policyID : string) : M unit :=
  let* listed := try (GetResourceBindings
                        policyv1alpha1.PropagationPolicyPermanentIDLabel policyID) in
  match listed with
  | Err err =>
      let* _ := klog_Error
        "Failed to list propagation bindings with policy permanentID(%s): %v" in
      fail err
  | Ok items =>
      let* errs := forEach ppDeletionBody items [] in
      returnAggregate errs
  end.

(** Body of the ClusterResourceBinding loop of
    HandleClusterPropagationPolicyDeletion: a failed template cleanup is
    logged and the binding skipped; the error is not collected there. *)
Definition cppDeletionBodyCRB (binding : workv1alpha2.ClusterResourceBinding)
    (errs : list error) : M (list error) :=
  let* t := try (CleanupResourceTemplateMarks
                   (workv1alpha2.Resource (workv1alpha2.CRBSpec binding))
                   cleanupMarksFun) in
  match t with
  | Err err =>
      let* _ := klog_Error
        "Failed to clean up marks from resource(%s-%s) when clusterPropagationPolicy removed, error: %v" in
      ret errs
  | Ok _ =>
      let* b := try (CleanupClusterResourceBindingMarks binding cleanupMarksFun) in
      match b with
      | Err err =>
          let* _ := klog_Error
            "Failed to clean up marks from clusterResourceBinding(%s) when clusterPropagationPolicy removed, error: %v" in
          ret (errs ++ [err])
      | Ok _ => ret errs
      end
  end.

(** Body of the ResourceBinding loop of
    HandleClusterPropagationPolicyDeletion. *)
Definition cppDeletionBodyRB (binding : workv1alpha2.ResourceBinding)
    (errs : list error) : M (list error) :=
  let* t := try (CleanupResourceTemplateMarks
                   (workv1alpha2.Resource (workv1alpha2.RBSpec binding))
                   cleanupMarksFun) in
  match t with
  | Err err =>
      let* _ := klog_Error
        "Failed to clean up marks from resource(%s-%s/%s) when clusterPropagationPolicy removed, error: %v" in
      ret (errs ++ [err])
  | Ok _ =>
      let* b := try (CleanupResourceBindingMarks binding cleanupMarksFun) in
      match b with
      | Err err =>
          let* _ := klog_Error
            "Failed to clean up marks from resourceBinding(%s/%s) when clusterPropagationPolicy removed, error: %v" in
          ret (errs ++ [err])
      | Ok _ => ret errs
      end
  end.

Definition HandleClusterPropagationPolicyDeletion (policyID : string) : M unit :=
  let* crbsListed := try (GetClusterResourceBindings
                            policyv1alpha1.ClusterPropagationPolicyPermanentIDLabel
                            policyID) in
  let* errs :=
    match crbsListed with
    | Err err =>
        let* _ := klog_Error
          "Failed to list clusterResourceBindings with clusterPropagationPolicy permanentID(%s), error: %v" in
        ret [err]
    | Ok items => forEach cppDeletionBodyCRB items []
    end in
  let* rbsListed := try (GetResourceBindings
                           policyv1alpha1.ClusterPropagationPolicyPermanentIDLabel
                           policyID) in
  let* errs :=
    match rbsListed with
    | Err err =>
        let* _ := klog_Error
          "Failed to list resourceBindings with clusterPropagationPolicy permanentID(%s), error: %v" in
        ret (errs ++ [err])
    | Ok items => forEach cppDeletionBodyRB items errs
    end in
  returnAggregate errs.

(** *** Policy creation and update *)

(** Helpers of package detector and of package helper that are defined
    outside detector.go. *)
Variable cleanPPUnmatchedRBs :
  string → string → string → list policyv1alpha1.ResourceSelector → M unit.
Variable listPPDerivedRBs :
  string → string → string → M (list workv1alpha2.ResourceBinding).
Variable cleanCPPUnmatchedRBs :
  string → string → list policyv1alpha1.ResourceSelector → M unit.
Variable cleanUnmatchedCRBs :
  string → string → list policyv1alpha1.ResourceSelector → M unit.
Variable listCPPDerivedRBs :
  string → string → M (list workv1alpha2.ResourceBinding).
Variable listCPPDerivedCRBs :
  string → string → M (list workv1alpha2.ClusterResourceBinding).
Variable IsDependentOverridesPresent : policyv1alpha1.PropagationPolicy → M bool.
Variable IsDependentClusterOverridesPresent :
  policyv1alpha1.ClusterPropagationPolicy → M bool.
Variable preemptionEnabled : policyv1alpha1.PreemptionBehavior → bool.
Variable handlePropagationPolicyPreemption :
  policyv1alpha1.PropagationPolicy → M unit.
Variable handleClusterPropagationPolicyPreemption :
  policyv1alpha1.ClusterPropagationPolicy → M unit.

(** d.Processor.Add *)
Definition ProcessorAdd (key : keys.ClusterWideKeyWithConfig) : M unit :=
  modify (λ w, set_processor (processor w ++ [key]) w).

(** The loop of GetMatching over the waiting keys.  Go ranges over the
    map in an unspecified order; the keys are taken in the order of
    [elements]. *)
Fixpoint getMatchingLoop (resourceSelectors : list policyv1alpha1.ResourceSelector)
    (waitKeys : list keys.ClusterWideKey) (matchedResult : list keys.ClusterWideKey)
  : M (list keys.ClusterWideKey) :=
  match waitKeys with
  | [] => ret matchedResult
  | waitKey :: rest =>
      let* got := try (GetUnstructuredObject waitKey) in
      match got with
      | Err err =>
          let* _ := klog_Error "Failed to get object(%s), error: %v" in
          getMatchingLoop resourceSelectors rest matchedResult
      | Ok waitObj =>
          if existsb (ResourceMatches waitObj) resourceSelectors
          then getMatchingLoop resourceSelectors rest (matchedResult ++ [waitKey])
          else getMatchingLoop resourceSelectors rest matchedResult
      end
  end.

Definition GetMatching (resourceSelectors : list policyv1alpha1.ResourceSelector)
  : M (list keys.ClusterWideKey) :=
  let* waiting := gets (λ w, elements (waitingObjects w)) in
  getMatchingLoop resourceSelectors waiting [].

(** [for _, rb := range items]: enqueue the template of every derived
    binding; a reference that cannot be turned into a key ends the
    reconcile with that error. *)
Fixpoint enqueueDerived (resources : list workv1alpha2.ObjectReference) : M unit :=
  match resources with
  | [] => ret tt
  | r :: rest =>
      match ConstructClusterWideKey r with
      | Err err => fail err
      | Ok resourceKey =>
          let* _ := ProcessorAdd (keys.mkClusterWideKeyWithConfig resourceKey true) in
          enqueueDerived rest
      end
  end.

(** [for _, key := range matchedKeys] *)
Fixpoint releaseMatched (matchedKeys : list keys.ClusterWideKey) : M unit :=
  match matchedKeys with
  | [] => ret tt
  | key :: rest =>
      let* _ := RemoveWaiting key in
      let* _ := ProcessorAdd (keys.mkClusterWideKeyWithConfig key true) in
      releaseMatched rest
  end.

Definition waitingForOverrides : error := Errorf "waiting for dependent overrides".

Definition HandlePropagationPolicyCreationOrUpdate
    (policy : policyv1alpha1.PropagationPolicy) : M unit :=
  let meta := policyv1alpha1.PPMeta policy in
  let spec := policyv1alpha1.PPSpec policy in
  let policyID :=
    util.GetLabelValue (metav1.Labels meta)
      policyv1alpha1.PropagationPolicyPermanentIDLabel in
  let* _ := cleanPPUnmatchedRBs policyID (metav1.ObjNamespace meta) (metav1.ObjName meta)
              (policyv1alpha1.ResourceSelectors spec) in
  let* resourceBindings :=
    listPPDerivedRBs policyID (metav1.ObjNamespace meta) (metav1.ObjName meta) in
  let* _ := enqueueDerived
              (map (λ rb, workv1alpha2.Resource (workv1alpha2.RBSpec rb)) resourceBindings) in
  let* matchedKeys := GetMatching (policyv1alpha1.ResourceSelectors spec) in
  let* _ :=
    if bool_decide (0 < length matchedKeys) then
      let* present := try (IsDependentOverridesPresent policy) in
      match present with
      | Ok true => ret tt
      | _ => fail waitingForOverrides
      end
    else ret tt in
  let* _ := releaseMatched matchedKeys in
  if preemptionEnabled (policyv1alpha1.Preemption spec)
  then handlePropagationPolicyPreemption policy
  else ret tt.

Definition HandleClusterPropagationPolicyCreationOrUpdate
    (policy : policyv1alpha1.ClusterPropagationPolicy) : M unit :=
  let meta := policyv1alpha1.CPPMeta policy in
  let spec := policyv1alpha1.CPPSpec policy in
  let policyID :=
    util.GetLabelValue (metav1.Labels meta)
      policyv1alpha1.ClusterPropagationPolicyPermanentIDLabel in
  let* _ := cleanCPPUnmatchedRBs policyID (metav1.ObjName meta)
              (policyv1alpha1.ResourceSelectors spec) in
  let* _ := cleanUnmatchedCRBs policyID (metav1.ObjName meta)
              (policyv1alpha1.ResourceSelectors spec) in
  let* resourceBindings := listCPPDerivedRBs policyID (metav1.ObjName meta) in
  let* clusterResourceBindings := listCPPDerivedCRBs policyID (metav1.ObjName meta) in
  let* _ := enqueueDerived
              (map (λ rb, workv1alpha2.Resource (workv1alpha2.RBSpec rb)) resourceBindings) in
  let* _ := enqueueDerived
              (map (λ crb, workv1alpha2.Resource (workv1alpha2.CRBSpec crb))
                 clusterResourceBindings) in
  let* matchedKeys := GetMatching (policyv1alpha1.ResourceSelectors spec) in
  let* _ :=
    if bool_decide (0 < length matchedKeys) then
      let* present := try (IsDependentClusterOverridesPresent policy) in
      match present with
      | Ok true => ret tt
      | _ => fail waitingForOverrides
      end
    else ret tt in
  let* _ := releaseMatched matchedKeys in
  if preemptionEnabled (policyv1alpha1.Preemption spec)
  then handleClusterPropagationPolicyPreemption policy
  else ret tt.

(** *** Policy reconcilers *)

(** controllerutil.RemoveFinalizer: the finalizers without [finalizer],
    and whether one was removed. *)
Definition RemoveFinalizer (finalizer : string) (m : metav1.ObjectMeta)
  : bool * metav1.ObjectMeta :=
  let kept := filter (λ f, f ≠ finalizer) (metav1.Finalizers m) in
  (bool_decide (length kept ≠ length (metav1.Finalizers m)),
   metav1.setFinalizers kept m).

(** [DeletionTimestamp.IsZero()] *)
Definition deletionTimestampIsZero (m : metav1.ObjectMeta) : bool :=
  match metav1.DeletionTimestamp m with None => true | Some _ => false end.

Definition ReconcilePropagationPolicy (key : QueueKey) : M unit :=
  match key with
  | QClusterWideKey ckey =>
      let* got := try (let* _ := external in
                       let* p := gets (λ w, pps w !! (keys.Namespace ckey, keys.Name ckey)) in
                       match p with Some p => ret p | None => fail NotFound end) in
      match got with
      | Err err =>
          if IsNotFound err then ret tt
          else
            let* _ := klog_Error "Failed to get PropagationPolicy(%s): %v" in fail err
      | Ok propagationObject =>
          let* conv := try external in
          match conv with
          | Err err =>
              let* _ := klog_Error
                "Failed to convert PropagationPolicy(%s) from unstructured object: %v" in
              fail err
          | Ok _ =>
              let meta := policyv1alpha1.PPMeta propagationObject in
              if negb (deletionTimestampIsZero meta) then
                let* _ := HandlePropagationPolicyDeletion
                            (util.GetLabelValue (metav1.Labels meta)
                               policyv1alpha1.PropagationPolicyPermanentIDLabel) in
                let removed :=
                  RemoveFinalizer util.PropagationPolicyControllerFinalizer meta in
                if removed.1 then
                  let* upd := try (UpdatePP (policyv1alpha1.mkPropagationPolicy removed.2
                                               (policyv1alpha1.PPSpec propagationObject))) in
                  match upd with
                  | Err err =>
                      let* _ := klog_Error
                        "Failed to remove finalizer for PropagationPolicy(%s), err: %v" in
                      fail err
                  | Ok _ => ret tt
                  end
                else ret tt
              else HandlePropagationPolicyCreationOrUpdate propagationObject
          end
      end
  | _ =>
      let* _ := klog_Error "Found invalid key when reconciling propagation policy." in
      fail (Errorf "invalid key")
  end.

Definition ReconcileClusterPropagationPolicy (key : QueueKey) : M unit :=
  match key with
  | QClusterWideKey ckey =>
      let* got := try (let* _ := external in
                       let* p := gets (λ w, cpps w !! keys.Name ckey) in
                       match p with Some p => ret p | None => fail NotFound end) in
      match got with
      | Err err =>
          if IsNotFound err then ret tt
          else
            let* _ := klog_Error "Failed to get ClusterPropagationPolicy(%s): %v" in
            fail err
      | Ok propagationObject =>
          let* conv := try external in
          match conv with
          | Err err =>
              let* _ := klog_Error
                "Failed to convert ClusterPropagationPolicy(%s) from unstructured object: %v" in
              fail err
          | Ok _ =>
              let meta := policyv1alpha1.CPPMeta propagationObject in
              if negb (deletionTimestampIsZero meta) then
                let* _ := HandleClusterPropagationPolicyDeletion
                            (util.GetLabelValue (metav1.Labels meta)
                               policyv1alpha1.ClusterPropagationPolicyPermanentIDLabel) in
                let removed :=
                  RemoveFinalizer util.ClusterPropagationPolicyControllerFinalizer meta in
                if removed.1 then
                  let* upd := try (UpdateCPP (policyv1alpha1.mkClusterPropagationPolicy
                                                removed.2
                                                (policyv1alpha1.CPPSpec propagationObject))) in
                  match upd with
                  | Err err =>
                      let* _ := klog_Error
                        "Failed to remove finalizer for ClusterPropagationPolicy(%s), err: %v" in
                      fail err
                  | Ok _ => ret tt
                  end
                else ret tt
              else HandleClusterPropagationPolicyCreationOrUpdate propagationObject
          end
      end
  | _ =>
      let* _ := klog_Error "Found invalid key when reconciling cluster propagation policy." in
      fail (Errorf "invalid key")
  end.

End Detector.

(** *** Looking for the policy of a template *)

Section LookForMatched.
(** pkg/detector/compare.go *)
Variable getHighestPriorityPropagationPolicy :
  list policyv1alpha1.PropagationPolicy → unstructured.Unstructured →
  keys.ClusterWideKey → option policyv1alpha1.PropagationPolicy.
Variable getHighestPriorityClusterPropagationPolicy :
  list policyv1alpha1.ClusterPropagationPolicy → unstructured.Unstructured →
  keys.ClusterWideKey → option policyv1alpha1.ClusterPropagationPolicy.

(** [for index := range policyObjects]: every listed object is converted,
    a conversion error ends the search; policies being deleted are
    skipped. *)
Fixpoint collectPolicies
    (policyObjects policyList : list policyv1alpha1.PropagationPolicy)
  : M (list policyv1alpha1.PropagationPolicy) :=
  match policyObjects with
  | [] => ret policyList
  | policy :: rest =>
      let* conv := try external in
      match conv with
      | Err err =>
          let* _ := klog_Error
            "Failed to convert PropagationPolicy from unstructured object: %v" in
          fail err
      | Ok _ =>
          if negb (deletionTimestampIsZero (policyv1alpha1.PPMeta policy))
          then collectPolicies rest policyList
          else collectPolicies rest (policyList ++ [policy])
      end
  end.

(** [propagationPolicyLister.ByNamespace(namespace).List(labels.Everything())];
    the lister gives no order, the model lists in the order of the store. *)
Definition listPropagationPolicies (namespace : string)
  : M (list policyv1alpha1.PropagationPolicy) :=
  let* _ := external in
  gets (λ w, (filter (λ kv, kv.1.1 = namespace) (map_to_list (pps w))).*2).

Definition LookForMatchedPolicy (object : unstructured.Unstructured)
    (objectKey : keys.ClusterWideKey) : M (option policyv1alpha1.PropagationPolicy) :=
  if decide (keys.Namespace objectKey = "") then ret None
  else
    let* listed := try (listPropagationPolicies (keys.Namespace objectKey)) in
    match listed with
    | Err err =>
        let* _ := klog_Error "Failed to list propagation policy: %v" in fail err
    | Ok [] => ret None
    | Ok policyObjects =>
        let* policyList := collectPolicies policyObjects [] in
        ret (getHighestPriorityPropagationPolicy policyList object objectKey)
    end.

Fixpoint collectClusterPolicies
    (policyObjects policyList : list policyv1alpha1.ClusterPropagationPolicy)
  : M (list policyv1alpha1.ClusterPropagationPolicy) :=
  match policyObjects with
  | [] => ret policyList
  | policy :: rest =>
      let* conv := try external in
      match conv with
      | Err err =>
          let* _ := klog_Error
            "Failed to convert ClusterPropagationPolicy from unstructured object: %v" in
          fail err
      | Ok _ =>
          if negb (deletionTimestampIsZero (policyv1alpha1.CPPMeta policy))
          then collectClusterPolicies rest policyList
          else collectClusterPolicies rest (policyList ++ [policy])
      end
  end.

(** [clusterPropagationPolicyLister.List(labels.Everything())] *)
Definition listClusterPropagationPolicies
  : M (list policyv1alpha1.ClusterPropagationPolicy) :=
  let* _ := external in
  gets (λ w, (map_to_list (cpps w)).*2).

Definition LookForMatchedClusterPolicy (object : unstructured.Unstructured)
    (objectKey : keys.ClusterWideKey)
  : M (option policyv1alpha1.ClusterPropagationPolicy) :=
  let* listed := try listClusterPropagationPolicies in
  match listed with
  | Err err =>
      let* _ := klog_Error "Failed to list cluster propagation policy: %v" in fail err
  | Ok [] => ret None
  | Ok policyObjects =>
      let* policyList := collectClusterPolicies policyObjects [] in
      ret (getHighestPriorityClusterPropagationPolicy policyList object objectKey)
  end.
End LookForMatched.

(** ** The worker runtime *)

(** What a worker does with a key after its reconcile returned. *)
Inductive disposition : Type :=
| Forget
| AddRateLimited.

(** Modelled from the spec: util.AsyncWorker is not part of detector.go.
    Section 4.9 of the spec: each worker pulls a key, invokes the
    registered reconciler, "and on returned error re-adds the key with
    rate-limited delay; on nil error, forgets the key". *)
Definition worker (reconcileFunc : QueueKey → M unit) (key : QueueKey)
  : World → disposition * World :=
  λ w, match reconcileFunc key w with
       | (Ok _, w') => (Forget, w')
       | (Err _, w') => (AddRateLimited, w')
       end.

(** ** Sample data

    A small cluster used to run the definitions: a Deployment, a template
    taken over by another controller, a cluster-scoped template, a
    PropagationPolicy and a ClusterPropagationPolicy. *)
Module sample.
Definition GenerateBindingName (kind name : string) : string := name +:+ "-" +:+ kind.
Definition HookEnabled (_ : unstructured.Unstructured) : bool := false.
Definition GetReplicas (_ : unstructured.Unstructured) : result (Z * option string) :=
  Ok (0%Z, None).
Definition propagateResource (_ : unstructured.Unstructured)
    (_ : keys.ClusterWideKey) (_ : bool) : M unit :=
  fail (Errorf "propagateResource called").

Definition emptyWorld : World :=
  mkWorld ∅ ∅ ∅ ∅ ∅ ∅ ∅ [] [] [] [].

Definition meta (namespace name uid : string) (labels : gmap string string)
  : metav1.ObjectMeta :=
  metav1.mkObjectMeta name namespace uid "1" labels ∅ [] [] None.

Definition nginx : unstructured.Unstructured :=
  unstructured.mkUnstructured "apps" "v1" "Deployment"
    (meta "default" "nginx" "uid-nginx" ∅).
Definition nginxKey : keys.ClusterWideKey :=
  keys.mkClusterWideKey "apps" "v1" "Deployment" "default" "nginx".

(** nginx after a MultiClusterService took it over *)
Definition nginxTaken : unstructured.Unstructured :=
  unstructured.mkUnstructured "apps" "v1" "Deployment"
    (meta "default" "nginx" "uid-nginx"
       {[ util.ResourceTemplateClaimedByLabel := "multiclusterservice" ]}).

(** nginx after pp1 claimed it *)
Definition nginxClaimed : unstructured.Unstructured :=
  unstructured.mkUnstructured "apps" "v1" "Deployment"
    (meta "default" "nginx" "uid-nginx"
       {[ policyv1alpha1.PropagationPolicyPermanentIDLabel := "pp1-id" ]}).

(** a cluster-scoped template *)
Definition teamA : unstructured.Unstructured :=
  unstructured.mkUnstructured "" "v1" "Namespace" (meta "" "team-a" "uid-team-a" ∅).
Definition teamAKey : keys.ClusterWideKey :=
  keys.mkClusterWideKey "" "v1" "Namespace" "" "team-a".

(** team-a after cpp1 claimed it *)
Definition teamAClaimed : unstructured.Unstructured :=
  unstructured.mkUnstructured "" "v1" "Namespace"
    (meta "" "team-a" "uid-team-a"
       {[ policyv1alpha1.ClusterPropagationPolicyPermanentIDLabel := "cpp1-id" ]}).

Definition spec (deps : bool) (activation : policyv1alpha1.ActivationPreference)
  : policyv1alpha1.PropagationSpec :=
  policyv1alpha1.mkPropagationSpec [] deps ["member1"] None
    policyv1alpha1.PreemptNever "default-scheduler" None "Abort" activation.

Definition pp1 : policyv1alpha1.PropagationPolicy :=
  policyv1alpha1.mkPropagationPolicy
    (meta "default" "pp1" "uid-pp1"
       {[ policyv1alpha1.PropagationPolicyPermanentIDLabel := "pp1-id" ]})
    (spec true policyv1alpha1.Lazy).

Definition cpp1 : policyv1alpha1.ClusterPropagationPolicy :=
  policyv1alpha1.mkClusterPropagationPolicy
    (meta "" "cpp1" "uid-cpp1"
       {[ policyv1alpha1.ClusterPropagationPolicyPermanentIDLabel := "cpp1-id" ]})
    (spec true policyv1alpha1.Lazy).

(** a policy for every Deployment of its namespace, and its cluster-wide
    counterpart *)
Definition deployments : policyv1alpha1.PropagationPolicy :=
  policyv1alpha1.mkPropagationPolicy (policyv1alpha1.PPMeta pp1)
    (policyv1alpha1.mkPropagationSpec
       [policyv1alpha1.mkResourceSelector "apps/v1" "Deployment" "" ""]
       false ["member1"] None policyv1alpha1.PreemptNever "default-scheduler" None
       "Abort" policyv1alpha1.Immediate).
Definition clusterDeployments : policyv1alpha1.ClusterPropagationPolicy :=
  policyv1alpha1.mkClusterPropagationPolicy (policyv1alpha1.CPPMeta cpp1)
    (policyv1alpha1.PPSpec deployments).

(** the same policies with immediate activation *)
Definition pp2 : policyv1alpha1.PropagationPolicy :=
  policyv1alpha1.mkPropagationPolicy (policyv1alpha1.PPMeta pp1)
    (spec true policyv1alpha1.Immediate).
Definition cpp2 : policyv1alpha1.ClusterPropagationPolicy :=
  policyv1alpha1.mkClusterPropagationPolicy (policyv1alpha1.CPPMeta cpp1)
    (spec true policyv1alpha1.Immediate).

(** the binding of nginx, scheduled to member1 with two replicas;
    [ownerUID] is the UID its controller reference names *)
Definition bindingOfNginx (ownerUID : string) : workv1alpha2.ResourceBinding :=
  workv1alpha2.mkResourceBinding
    (metav1.mkObjectMeta "nginx-Deployment" "default" "uid-rb" "7"
       {[ policyv1alpha1.PropagationPolicyPermanentIDLabel := "old-id" ]} ∅
       [metav1.mkOwnerReference "apps/v1" "Deployment" "nginx" ownerUID
          (Some true) (Some true)]
       [util.BindingControllerFinalizer] None)
    (workv1alpha2.mkResourceBindingSpec
       (workv1alpha2.mkObjectReference "apps/v1" "Deployment" "default" "nginx"
          ownerUID "1")
       false None 0%Z [("member1", 2%Z)] (Some ["member2"]) "default-scheduler"
       None "Abort").
Definition nginxRB : workv1alpha2.ResourceBinding := bindingOfNginx "uid-nginx".
(** left over from an nginx that was deleted and created again *)
Definition staleRB : workv1alpha2.ResourceBinding := bindingOfNginx "uid-gone".

(** a stale binding of team-a *)
Definition staleCRB : workv1alpha2.ClusterResourceBinding :=
  workv1alpha2.mkClusterResourceBinding
    (metav1.mkObjectMeta "team-a-Namespace" "" "uid-crb" "7" ∅ ∅
       [metav1.mkOwnerReference "v1" "Namespace" "team-a" "uid-gone"
          (Some true) (Some true)]
       [util.ClusterResourceBindingControllerFinalizer] None)
    (workv1alpha2.mkResourceBindingSpec
       (workv1alpha2.mkObjectReference "v1" "Namespace" "" "team-a" "uid-gone" "1")
       false None 0%Z [("member1", 0%Z)] (Some ["member2"]) "default-scheduler"
       None "Abort").

(** the binding of team-a, built before the policy asked for dependencies *)
Definition teamACRB : workv1alpha2.ClusterResourceBinding :=
  workv1alpha2.mkClusterResourceBinding
    (metav1.mkObjectMeta "team-a-Namespace" "" "uid-crb" "7" ∅ ∅
       [metav1.mkOwnerReference "v1" "Namespace" "team-a" "uid-team-a"
          (Some true) (Some true)]
       [util.ClusterResourceBindingControllerFinalizer] None)
    (workv1alpha2.CRBSpec staleCRB).

(** a cluster with nginx and a binding for it *)
Definition worldWithRB (rb : workv1alpha2.ResourceBinding) : World :=
  mkWorld {[ nginxKey := nginx ]} {[ nginxKey := nginx ]}
    {[ ("default", "nginx-Deployment") := rb ]} ∅ ∅ ∅ ∅ [] [] [] [].

(** a cluster with team-a and a binding for it *)
Definition worldWithCRB (crb : workv1alpha2.ClusterResourceBinding) : World :=
  mkWorld {[ teamAKey := teamA ]} {[ teamAKey := teamA ]}
    ∅ {[ "team-a-Namespace" := crb ]} ∅ ∅ ∅ [] [] [] [].

(** a cluster where nginx and its binding both carry the marks of pp1 *)
Definition claimedWorld : World :=
  mkWorld {[ nginxKey := nginxClaimed ]} {[ nginxKey := nginxClaimed ]}
    {[ ("default", "nginx-Deployment") := nginxRB ]} ∅ ∅ ∅ ∅ [] [] [] [].

(** the next call that leaves the process fails *)
Definition unavailable (w : World) : World :=
  set_faults [Some (Errorf "etcdserver: request timed out")] w.

(** a cluster whose API server and cache hold [o] under [k] *)
Definition worldWith (k : keys.ClusterWideKey) (o : unstructured.Unstructured) : World :=
  mkWorld {[ k := o ]} {[ k := o ]} ∅ ∅ ∅ ∅ {[ k ]} [] [] [] [].
End sample.

Module sample_helpers.
(** Stand-ins for the helpers defined outside detector.go, used to run
    the policy reconcilers on the sample cluster. *)
Definition ResourceMatches (o : unstructured.Unstructured)
    (rs : policyv1alpha1.ResourceSelector) : bool :=
  bool_decide (policyv1alpha1.SelKind rs = unstructured.GetKind o).
Definition cleanPPUnmatchedRBs (_ _ _ : string)
    (_ : list policyv1alpha1.ResourceSelector) : M unit := ret tt.
Definition listPPDerivedRBs (policyID _ _ : string)
  : M (list workv1alpha2.ResourceBinding) :=
  GetResourceBindings policyv1alpha1.PropagationPolicyPermanentIDLabel policyID.
Definition cleanCPPUnmatchedRBs (_ _ : string)
    (_ : list policyv1alpha1.ResourceSelector) : M unit := ret tt.
Definition cleanUnmatchedCRBs (_ _ : string)
    (_ : list policyv1alpha1.ResourceSelector) : M unit := ret tt.
Definition listCPPDerivedRBs (policyID _ : string)
  : M (list workv1alpha2.ResourceBinding) :=
  GetResourceBindings policyv1alpha1.ClusterPropagationPolicyPermanentIDLabel policyID.
Definition listCPPDerivedCRBs (policyID _ : string)
  : M (list workv1alpha2.ClusterResourceBinding) :=
  GetClusterResourceBindings policyv1alpha1.ClusterPropagationPolicyPermanentIDLabel
    policyID.
Definition overridesMissing (_ : policyv1alpha1.PropagationPolicy) : M bool := ret false.
Definition clusterOverridesMissing (_ : policyv1alpha1.ClusterPropagationPolicy)
  : M bool := ret false.
Definition preemptionEnabled (p : policyv1alpha1.PreemptionBehavior) : bool :=
  match p with policyv1alpha1.PreemptAlways => true | _ => false end.
Definition noPreemption (_ : policyv1alpha1.PropagationPolicy) : M unit := ret tt.
Definition noClusterPreemption (_ : policyv1alpha1.ClusterPropagationPolicy) : M unit :=
  ret tt.
End sample_helpers.

(** Further sample data: policies on their way out, overrides that are
    present, and a namespace with two policies. *)

(** Policies that are being deleted, with the detector's finalizer still
    on them.  In [world] nginx and its binding bear the marks of the
    PropagationPolicy; in [clusterWorld] nginx, team-a and their bindings
    bear the marks of the ClusterPropagationPolicy. *)
Module retiring.
Definition pp : policyv1alpha1.PropagationPolicy :=
  policyv1alpha1.mkPropagationPolicy
    (metav1.mkObjectMeta "pp1" "default" "uid-pp1" "3"
       {[ policyv1alpha1.PropagationPolicyPermanentIDLabel := "old-id" ]} ∅ []
       [util.PropagationPolicyControllerFinalizer] (Some 1730000000%Z))
    (sample.spec true policyv1alpha1.Immediate).
Definition ppKey : keys.ClusterWideKey :=
  keys.mkClusterWideKey "policy.karmada.io" "v1alpha1" "PropagationPolicy" "default" "pp1".
Definition cpp : policyv1alpha1.ClusterPropagationPolicy :=
  policyv1alpha1.mkClusterPropagationPolicy
    (metav1.mkObjectMeta "cpp1" "" "uid-cpp1" "3"
       {[ policyv1alpha1.ClusterPropagationPolicyPermanentIDLabel := "cpp1-id" ]} ∅ []
       [util.ClusterPropagationPolicyControllerFinalizer] (Some 1730000000%Z))
    (sample.spec true policyv1alpha1.Immediate).
Definition cppKey : keys.ClusterWideKey :=
  keys.mkClusterWideKey "policy.karmada.io" "v1alpha1" "ClusterPropagationPolicy" "" "cpp1".
Definition world : World :=
  set_cpps {[ "cpp1" := cpp ]} (set_pps {[ ("default", "pp1") := pp ]} sample.claimedWorld).

(** nginx and its binding as cpp1 left them *)
Definition nginxOfCluster : unstructured.Unstructured :=
  unstructured.mkUnstructured "apps" "v1" "Deployment"
    (sample.meta "default" "nginx" "uid-nginx"
       {[ policyv1alpha1.ClusterPropagationPolicyPermanentIDLabel := "cpp1-id" ]}).
Definition nginxRB : workv1alpha2.ResourceBinding :=
  workv1alpha2.mkResourceBinding
    (metav1.setLabels
       {[ policyv1alpha1.ClusterPropagationPolicyPermanentIDLabel := "cpp1-id" ]}
       (workv1alpha2.RBMeta sample.nginxRB))
    (workv1alpha2.RBSpec sample.nginxRB).
(** the binding of team-a as cpp1 left it *)
Definition teamACRB : workv1alpha2.ClusterResourceBinding :=
  workv1alpha2.mkClusterResourceBinding
    (metav1.setLabels
       {[ policyv1alpha1.ClusterPropagationPolicyPermanentIDLabel := "cpp1-id" ]}
       (workv1alpha2.CRBMeta sample.teamACRB))
    (workv1alpha2.CRBSpec sample.teamACRB).
Definition clusterWorld : World :=
  mkWorld {[ sample.nginxKey := nginxOfCluster; sample.teamAKey := sample.teamAClaimed ]}
    {[ sample.nginxKey := nginxOfCluster; sample.teamAKey := sample.teamAClaimed ]}
    {[ ("default", "nginx-Deployment") := nginxRB ]}
    {[ "team-a-Namespace" := teamACRB ]}
    ∅ {[ "cpp1" := cpp ]} ∅ [] [] [] [].
End retiring.

Module releasing.
(** Stand-ins for the override check once the overrides exist. *)
Definition overridesPresent (_ : policyv1alpha1.PropagationPolicy) : M bool := ret true.
Definition clusterOverridesPresent (_ : policyv1alpha1.ClusterPropagationPolicy)
  : M bool := ret true.
End releasing.

(** A namespace with one policy on its way out and one in force; the
    stand-in for the priority comparison answers the first candidate. *)
Module matching.
Definition firstListed {P} (policyList : list P) (_ : unstructured.Unstructured)
    (_ : keys.ClusterWideKey) : option P := head policyList.
Definition pp2 : policyv1alpha1.PropagationPolicy :=
  policyv1alpha1.mkPropagationPolicy
    (sample.meta "default" "pp2" "uid-pp2"
       {[ policyv1alpha1.PropagationPolicyPermanentIDLabel := "pp2-id" ]})
    (sample.spec true policyv1alpha1.Immediate).
Definition cpp2 : policyv1alpha1.ClusterPropagationPolicy :=
  policyv1alpha1.mkClusterPropagationPolicy
    (sample.meta "" "cpp2" "uid-cpp2"
       {[ policyv1alpha1.ClusterPropagationPolicyPermanentIDLabel := "cpp2-id" ]})
    (sample.spec true policyv1alpha1.Immediate).
Definition world : World :=
  set_cpps {[ "cpp1" := retiring.cpp; "cpp2" := cpp2 ]}
    (set_pps {[ ("default", "pp1") := retiring.pp; ("default", "pp2") := pp2 ]}
       sample.emptyWorld).
End matching.

(** ** Key types *)

Definition isClusterWideKeyWithConfig (key : QueueKey) : bool :=
  match key with QClusterWideKeyWithConfig _ => true | _ => false end.
Definition isClusterWideKey (key : QueueKey) : bool :=
  match key with QClusterWideKey _ => true | _ => false end.

(** ** Vocabulary of the properties *)

(** [preserves R m]: the computation [m] relates every world to the world
    it leaves behind. *)
Definition preserves (R : World → World → Prop) {A} (m : M A) : Prop :=
  ∀ w, R w (m w).2.

(** A frame is a reflexive and transitive relation on worlds that does not
    look at the fault script or at the log. *)
Class Frame (R : World → World → Prop) : Prop := {
  frame_refl : ∀ w, R w w;
  frame_trans : ∀ w1 w2 w3, R w1 w2 → R w2 w3 → R w1 w3;
  frame_faults : ∀ w fs, R w (set_faults fs w);
  frame_klog : ∀ w l, R w (set_klog l w)
}.

Definition isTemplateWrite (e : event) : Prop :=
  match e with EvUpdateTemplate _ _ => True | _ => False end.

(** Nothing but resource templates is written: the binding stores are as
    they were and the API server saw template updates only. *)
Definition onlyTemplateWrites (w w' : World) : Prop :=
  rbs w' = rbs w ∧ crbs w' = crbs w ∧
  ∃ evs, trace w' = trace w ++ evs ∧ Forall isTemplateWrite evs.

(** [touched w w'] : [w'] is [w] up to the write trace, the log and the
    fault script; every store, the waiting list and the queue are equal. *)
Definition touched (w w' : World) : Prop :=
  ∃ t l fs, w' = set_trace t (set_klog l (set_faults fs w)).

(** Every binding that exists keeps existing, with the [Clusters] it had. *)
Definition clustersKept (w w' : World) : Prop :=
  (∀ k b, rbs w !! k = Some b →
     ∃ b', rbs w' !! k = Some b' ∧
           workv1alpha2.Clusters (workv1alpha2.RBSpec b')
           = workv1alpha2.Clusters (workv1alpha2.RBSpec b)) ∧
  (∀ k b, crbs w !! k = Some b →
     ∃ b', crbs w' !! k = Some b' ∧
           workv1alpha2.Clusters (workv1alpha2.CRBSpec b')
           = workv1alpha2.Clusters (workv1alpha2.CRBSpec b)).

(** The waiting list and the queue of the template reconciler are as they
    were. *)
Definition queuesKept (w w' : World) : Prop :=
  waitingObjects w' = waitingObjects w ∧ processor w' = processor w.

(** [m] leaves the waiting list alone. *)
Definition keepsWaiting {A} (m : M A) : Prop :=
  ∀ w, waitingObjects (m w).2 = waitingObjects w.

Definition isBindingWrite (e : event) : Prop :=
  match e with
  | EvCreateRB _ _ | EvUpdateRB _ _ | EvCreateCRB _ _ | EvUpdateCRB _ _ => True
  | _ => False
  end.

(** Nothing but bindings is written: the templates are as they were and
    the API server saw writes of bindings only. *)
Definition onlyBindingWrites (w w' : World) : Prop :=
  templates w' = templates w ∧
  ∃ evs, trace w' = trace w ++ evs ∧ Forall isBindingWrite evs.



(** The replica interpreter does not fail on the object: the hook is not
    enabled for it, or GetReplicas answers. *)
Definition interpretable (HookEnabled : unstructured.Unstructured → bool)
    (GetReplicas : unstructured.Unstructured → result (Z * option string))
    (object : unstructured.Unstructured) : Prop :=
  HookEnabled object = false ∨ ∃ v, GetReplicas object = Ok v.

(** What a mutation callback makes of the stored binding: [desired] is the
    binding that was built, [existing] the stored one and [updated] the
    callback's result.  [Clusters] stays; owner references, finalizers and
    the listed spec fields are those of the desired binding; labels and
    annotations are merged, the desired entries winning.  [keepDeps] says
    that PropagateDeps is not among the assigned fields, [stripClusterLabel]
    that the ClusterPropagationPolicy label is removed from the result. *)
Definition upserted (keepDeps stripClusterLabel : bool)
    (desiredMeta existingMeta updatedMeta : metav1.ObjectMeta)
    (desired existing updated : workv1alpha2.ResourceBindingSpec) : Prop :=
  workv1alpha2.Clusters updated = workv1alpha2.Clusters existing ∧
  metav1.OwnerReferences updatedMeta = metav1.OwnerReferences desiredMeta ∧
  metav1.Finalizers updatedMeta = metav1.Finalizers desiredMeta ∧
  metav1.Annotations updatedMeta
    = util.DedupeAndMergeAnnotations (metav1.Annotations existingMeta)
        (metav1.Annotations desiredMeta) ∧
  metav1.Labels updatedMeta
    = (let merged := util.DedupeAndMergeLabels (metav1.Labels existingMeta)
                       (metav1.Labels desiredMeta) in
       if stripClusterLabel then (excludeClusterPolicy merged).2 else merged) ∧
  workv1alpha2.Resource updated = workv1alpha2.Resource desired ∧
  workv1alpha2.ReplicaRequirements updated = workv1alpha2.ReplicaRequirements desired ∧
  workv1alpha2.Replicas updated = workv1alpha2.Replicas desired ∧
  workv1alpha2.SchedulerName updated = workv1alpha2.SchedulerName desired ∧
  workv1alpha2.Placement updated = workv1alpha2.Placement desired ∧
  workv1alpha2.Failover updated = workv1alpha2.Failover desired ∧
  workv1alpha2.ConflictResolution updated = workv1alpha2.ConflictResolution desired ∧
  workv1alpha2.PropagateDeps updated
    = workv1alpha2.PropagateDeps (if keepDeps then existing else desired).

(** The copy of a template a fetch finds when no call fails: the one in
    the informer cache, and the API server's when the cache has none. *)
Definition visible (w : World) (k : keys.ClusterWideKey)
  : option unstructured.Unstructured :=
  match cache w !! k with Some o => Some o | None => templates w !! k end.

(** Whether the visible copy of the template under [k] matches one of the
    selectors. *)
Definition selects
    (ResourceMatches : unstructured.Unstructured → policyv1alpha1.ResourceSelector → bool)
    (resourceSelectors : list policyv1alpha1.ResourceSelector) (w : World)
    (k : keys.ClusterWideKey) : bool :=
  match visible w k with
  | Some o => existsb (ResourceMatches o) resourceSelectors
  | None => false
  end.

(** No call reached the API server: the stores and the trace are as they
    were. *)
Definition quiet (w w' : World) : Prop :=
  templates w' = templates w ∧ rbs w' = rbs w ∧ crbs w' = crbs w ∧
  pps w' = pps w ∧ cpps w' = cpps w ∧ trace w' = trace w.

(** [appends n P m]: whatever the world, [m] makes at most [n] write calls
    to the API server, all of them of the kind [P]. *)
Definition appends (n : nat) (P : event → Prop) {A} (m : M A) : Prop :=
  ∀ w, ∃ evs, trace (m w).2 = trace w ++ evs ∧ (List.length evs ≤ n)%nat ∧ Forall P evs.

(** The API server keeps every binding under the binding's own key. *)
Definition wellKeyed {K O : Type} `{ClientObject K O} (store : gmap K O) : Prop :=
  ∀ k b, store !! k = Some b → ObjectKeyFromObject b = k.

(** What a cleanup closure makes of a binding: the marks go, the spec
    stays. *)
Definition cleanedRB (cleanupFunc : metav1.ObjectMeta → metav1.ObjectMeta)
    (rb : workv1alpha2.ResourceBinding) : workv1alpha2.ResourceBinding :=
  workv1alpha2.mkResourceBinding (cleanupFunc (workv1alpha2.RBMeta rb))
    (workv1alpha2.RBSpec rb).
Definition cleanedCRB (cleanupFunc : metav1.ObjectMeta → metav1.ObjectMeta)
    (crb : workv1alpha2.ClusterResourceBinding) : workv1alpha2.ClusterResourceBinding :=
  workv1alpha2.mkClusterResourceBinding (cleanupFunc (workv1alpha2.CRBMeta crb))
    (workv1alpha2.CRBSpec crb).


(** The ResourceBindings are as they were. *)
Definition rbsKept (w w' : World) : Prop := rbs w' = rbs w.

(** The stored policies are as they were. *)
Definition policiesKept (w w' : World) : Prop := pps w' = pps w ∧ cpps w' = cpps w.

(** The ClusterResourceBindings are as they were. *)
Definition crbsKept (w w' : World) : Prop := crbs w' = crbs w.

(** The ClusterResourceBindings were written, if at all, to take the value
    [labelValue] of the label [labelKey] off them: a binding that bears it
    afterwards is stored exactly as it was before. *)
Definition crbsStripped (labelKey labelValue : string) (w w' : World) : Prop :=
  wellKeyed (crbs w) →
  wellKeyed (crbs w') ∧
  ∀ k b, crbs w' !! k = Some b →
         metav1.Labels (workv1alpha2.CRBMeta b) !! labelKey = Some labelValue →
         crbs w !! k = Some b.

(** The world in which the keys [matchedKeys] have left the waiting list
    and have been put at the end of the queue, in their order, marked as
    changed by Karmada. *)
Definition released (matchedKeys : list keys.ClusterWideKey) (w : World) : World :=
  set_processor
    (processor w ++ map (λ k, keys.mkClusterWideKeyWithConfig k true) matchedKeys)
    (set_waitingObjects (waitingObjects w ∖ list_to_set matchedKeys) w).

(** [unchanged w w']: nothing but the log and the pending faults differs. *)
Definition unchanged (w w' : World) : Prop :=
  quiet w w' ∧ cache w' = cache w ∧ queuesKept w w'.

(** * Properties *)

(** ** Reconcile: templates claimed by another controller *)

(** Fetching a template reads; it writes nothing but log lines and the
    consumed part of the fault script. *)
Lemma GetUnstructuredObject_reads objectKey w :
  let w' := (GetUnstructuredObject objectKey w).2 in
  (cache w' = cache w ∧ templates w' = templates w ∧ rbs w' = rbs w ∧
   crbs w' = crbs w ∧ pps w' = pps w ∧ cpps w' = cpps w ∧
   waitingObjects w' = waitingObjects w ∧ processor w' = processor w ∧
   trace w' = trace w).
Proof.
  unfold GetUnstructuredObject, bind, try, external, gets, klog_Error, modify, ret, fail.
  destruct w as [c t r cr p cp wo pr tr kl fs]; simpl.
  destruct fs as [|[e|] fs]; simpl;
    repeat (match goal with
            | |- context [match ?x !! ?k with _ => _ end] => destruct (x !! k); simpl
            | |- context [match ?l with [] => _ | _ => _ end] => destruct l as [|[?|] ?]; simpl
            end); done.
Qed.

(** C6: a template whose fetched copy carries a non-empty claimed-by label
    is removed from the waiting list and the reconcile succeeds; no policy
    is looked up ([propagateResource] plays no part in the result), nothing
    is claimed, no binding is written and nothing is enqueued. *)
Theorem Reconcile_respects_external_claim
    (propagateResource : unstructured.Unstructured → keys.ClusterWideKey → bool → M unit)
    (key : keys.ClusterWideKeyWithConfig) (object : unstructured.Unstructured)
    (w w1 : World) :
  GetUnstructuredObject (keys.ClusterWideKey_ key) w = (Ok object, w1) →
  util.GetLabelValue (unstructured.GetLabels object) util.ResourceTemplateClaimedByLabel ≠ "" →
  let k := keys.ClusterWideKey_ key in
  let w' := (Reconcile propagateResource (QClusterWideKeyWithConfig key) w).2 in
  (Reconcile propagateResource (QClusterWideKeyWithConfig key) w
     = (Ok tt, set_waitingObjects (waitingObjects w1 ∖ {[k]}) w1) ∧
   (k ∉ waitingObjects w') ∧
   waitingObjects w' = waitingObjects w ∖ {[k]} ∧
   templates w' = templates w ∧ rbs w' = rbs w ∧ crbs w' = crbs w ∧
   processor w' = processor w ∧ trace w' = trace w).
Proof.
  intros Hget Hclaimed k w'.
  assert (Hrun : Reconcile propagateResource (QClusterWideKeyWithConfig key) w
                 = (Ok tt, set_waitingObjects (waitingObjects w1 ∖ {[k]}) w1)).
  { subst k. unfold Reconcile, bind, try. rewrite Hget. simpl.
    destruct (decide _) as [_|Hn]; [done | by destruct Hn]. }
  pose proof (GetUnstructuredObject_reads k w) as Hreads.
  subst k w'. rewrite Hget in Hreads. simpl in Hreads.
  destruct Hreads as (_ & Ht & Hr & Hc & _ & _ & Hw & Hp & Htr).
  rewrite Hrun. simpl.
  split; [done|]. split; [|by rewrite Hw].
  rewrite elem_of_difference, elem_of_singleton. tauto.
Qed.

Lemma Reconcile_respects_external_claim_witness :
  Reconcile sample.propagateResource
    (QClusterWideKeyWithConfig (keys.mkClusterWideKeyWithConfig sample.nginxKey false))
    (sample.worldWith sample.nginxKey sample.nginxTaken)
  = (Ok tt, set_waitingObjects (waitingObjects (sample.worldWith sample.nginxKey sample.nginxTaken)
                                  ∖ {[sample.nginxKey]})
              (sample.worldWith sample.nginxKey sample.nginxTaken)).
Proof.
  apply (Reconcile_respects_external_claim sample.propagateResource
           (keys.mkClusterWideKeyWithConfig sample.nginxKey false) sample.nginxTaken
           (sample.worldWith sample.nginxKey sample.nginxTaken)
           (sample.worldWith sample.nginxKey sample.nginxTaken)).
  - reflexivity.
  - discriminate.
Defined.

(** ** Invalid queue keys *)

Section InvalidKey.
Variable propagateResource :
  unstructured.Unstructured → keys.ClusterWideKey → bool → M unit.
Variable ResourceMatches :
  unstructured.Unstructured → policyv1alpha1.ResourceSelector → bool.
Variable cleanPPUnmatchedRBs :
  string → string → string → list policyv1alpha1.ResourceSelector → M unit.
Variable listPPDerivedRBs :
  string → string → string → M (list workv1alpha2.ResourceBinding).
Variable cleanCPPUnmatchedRBs :
  string → string → list policyv1alpha1.ResourceSelector → M unit.
Variable cleanUnmatchedCRBs :
  string → string → list policyv1alpha1.ResourceSelector → M unit.
Variable listCPPDerivedRBs :
  string → string → M (list workv1alpha2.ResourceBinding).
Variable listCPPDerivedCRBs :
  string → string → M (list workv1alpha2.ClusterResourceBinding).
Variable IsDependentOverridesPresent : policyv1alpha1.PropagationPolicy → M bool.
Variable IsDependentClusterOverridesPresent :
  policyv1alpha1.ClusterPropagationPolicy → M bool.
Variable preemptionEnabled : policyv1alpha1.PreemptionBehavior → bool.
Variable handlePropagationPolicyPreemption :
  policyv1alpha1.PropagationPolicy → M unit.
Variable handleClusterPropagationPolicyPreemption :
  policyv1alpha1.ClusterPropagationPolicy → M unit.

Local Abbreviation ReconcilePP :=
  (ReconcilePropagationPolicy ResourceMatches cleanPPUnmatchedRBs listPPDerivedRBs
     IsDependentOverridesPresent preemptionEnabled handlePropagationPolicyPreemption).
Local Abbreviation ReconcileCPP :=
  (ReconcileClusterPropagationPolicy ResourceMatches cleanCPPUnmatchedRBs
     cleanUnmatchedCRBs listCPPDerivedRBs listCPPDerivedCRBs
     IsDependentClusterOverridesPresent preemptionEnabled
     handleClusterPropagationPolicyPreemption).

(** C9, as the code has it: a key of the wrong type is logged and
    answered with the error "invalid key"; nothing else in the world
    changes.  Since the reconcile returned an error, the worker re-adds
    the key with rate limiting: the item is not dropped. *)
Theorem invalid_key_is_an_error (key : QueueKey) (w : World) :
  (isClusterWideKeyWithConfig key = false →
     Reconcile propagateResource key w
       = (Err (Errorf "invalid key"), set_klog (klog w ++ ["Invalid key"]) w) ∧
     (worker (Reconcile propagateResource) key w).1 = AddRateLimited) ∧
  (isClusterWideKey key = false →
     ReconcilePP key w
       = (Err (Errorf "invalid key"),
          set_klog (klog w ++ ["Found invalid key when reconciling propagation policy."]) w) ∧
     (worker ReconcilePP key w).1 = AddRateLimited ∧
     ReconcileCPP key w
       = (Err (Errorf "invalid key"),
          set_klog (klog w ++ ["Found invalid key when reconciling cluster propagation policy."]) w) ∧
     (worker ReconcileCPP key w).1 = AddRateLimited).
Proof.
  split; intros Hkey; destruct key; try discriminate Hkey; done.
Qed.
End InvalidKey.

Lemma invalid_key_is_an_error_witness :
  (worker (Reconcile sample.propagateResource)
     (QClusterWideKey sample.nginxKey) sample.emptyWorld).1 = AddRateLimited.
Proof.
  apply (invalid_key_is_an_error sample.propagateResource
           sample_helpers.ResourceMatches sample_helpers.cleanPPUnmatchedRBs
           sample_helpers.listPPDerivedRBs sample_helpers.cleanCPPUnmatchedRBs
           sample_helpers.cleanUnmatchedCRBs sample_helpers.listCPPDerivedRBs
           sample_helpers.listCPPDerivedCRBs sample_helpers.overridesMissing
           sample_helpers.clusterOverridesMissing sample_helpers.preemptionEnabled
           sample_helpers.noPreemption sample_helpers.noClusterPreemption
           (QClusterWideKey sample.nginxKey) sample.emptyWorld).
  reflexivity.
Defined.

(** C9, as the spec states it, fails: the template reconciler does not
    drop a key of the wrong type; the worker puts it back on the
    rate-limited retry path. *)
Lemma invalid_key_is_not_dropped :
  (worker (Reconcile sample.propagateResource) (QOther "job") sample.emptyWorld).1 ≠ Forget ∧
  (worker (ReconcilePropagationPolicy sample_helpers.ResourceMatches
             sample_helpers.cleanPPUnmatchedRBs sample_helpers.listPPDerivedRBs
             sample_helpers.overridesMissing sample_helpers.preemptionEnabled
             sample_helpers.noPreemption)
     (QOther "job") sample.emptyWorld).1 ≠ Forget ∧
  (worker (ReconcileClusterPropagationPolicy sample_helpers.ResourceMatches
             sample_helpers.cleanCPPUnmatchedRBs sample_helpers.cleanUnmatchedCRBs
             sample_helpers.listCPPDerivedRBs sample_helpers.listCPPDerivedCRBs
             sample_helpers.clusterOverridesMissing sample_helpers.preemptionEnabled
             sample_helpers.noClusterPreemption)
     (QOther "job") sample.emptyWorld).1 ≠ Forget.
Proof. repeat split; discriminate. Qed.

(** ** Frames

    Most properties below say that a computation leaves part of the world
    alone.  [preserves R m] says that [m] relates every world to the world
    it leaves behind; for a reflexive and transitive [R] that ignores the
    fault script and the log it is enough to look at the writes. *)

Section preserves.
Context (R : World → World → Prop) `{!Frame R}.

Lemma preserves_ret {A} (a : A) : preserves R (ret a).
Proof. intros w. apply frame_refl. Qed.

Lemma preserves_fail {A} (e : error) : preserves R (@fail A e).
Proof. intros w. apply frame_refl. Qed.

Lemma preserves_gets {A} (f : World → A) : preserves R (gets f).
Proof. intros w. apply frame_refl. Qed.

Lemma preserves_bind {A B} (m : M A) (f : A → M B) :
  preserves R m → (∀ a, preserves R (f a)) → preserves R (bind m f).
Proof.
  intros Hm Hf w. unfold bind. specialize (Hm w).
  destruct (m w) as [[a|e] w1]; simpl in *; [|done].
  eapply frame_trans; [exact Hm | apply Hf].
Qed.

Lemma preserves_try {A} (m : M A) : preserves R m → preserves R (try m).
Proof. intros Hm w. unfold try. specialize (Hm w). by destruct (m w). Qed.

Lemma preserves_external : preserves R external.
Proof.
  intros w. unfold external.
  destruct (faults w) as [|[e|] fs]; simpl;
    first [apply frame_refl | apply frame_faults].
Qed.

Lemma preserves_klog_Error (line : string) : preserves R (klog_Error line).
Proof. intros w. apply frame_klog. Qed.

Lemma preserves_apiWrite ev rejected store :
  (∀ w e, R w (set_trace (trace w ++ [ev (Some e)]) w)) →
  (∀ w, rejected w = None → R w (store (set_trace (trace w ++ [ev None]) w))) →
  preserves R (apiWrite ev rejected store).
Proof.
  intros Hev Hstore w. unfold apiWrite, bind, try, record, modify, gets, fail.
  pose proof (preserves_external w) as Hext.
  destruct (external w) as [[[]|e] w1]; simpl in *.
  - destruct (rejected w1) eqn:Hrej; simpl.
    + eapply frame_trans; [exact Hext | apply Hev].
    + eapply frame_trans; [exact Hext | by apply Hstore].
  - eapply frame_trans; [exact Hext | apply Hev].
Qed.

Lemma preserves_RetryOnConflict {O A} (steps : nat)
    (attempt : O → M (result A * O)) (obj : O) (lastErr : error) :
  (∀ o, preserves R (attempt o)) →
  preserves R (RetryOnConflict steps attempt obj lastErr).
Proof.
  intros Hat. revert obj lastErr.
  induction steps as [|n IH]; intros obj lastErr; simpl.
  - apply preserves_fail.
  - apply preserves_bind; [apply Hat|].
    intros [[a|e] obj']; [apply preserves_ret|].
    destruct (IsConflict e); [apply IH | apply preserves_fail].
Qed.

Lemma preserves_forEach {A} (body : A → list error → M (list error))
    (items : list A) (errs : list error) :
  (∀ x es, preserves R (body x es)) → preserves R (forEach body items errs).
Proof.
  intros Hbody. revert errs. induction items as [|x rest IH]; intros errs; simpl.
  - apply preserves_ret.
  - apply preserves_bind; [apply Hbody | intros es; apply IH].
Qed.
End preserves.

(** One step of a frame proof: peel the head construct of the computation. *)
Ltac frame_step :=
  lazymatch goal with
  | |- Frame _ => apply _
  | |- preserves _ (bind _ _) => apply preserves_bind; [apply _ | | intros ?]
  | |- preserves _ (try _) => apply preserves_try
  | |- preserves _ (ret _) => apply preserves_ret; apply _
  | |- preserves _ (fail _) => apply preserves_fail; apply _
  | |- preserves _ (gets _) => apply preserves_gets; apply _
  | |- preserves _ external => apply preserves_external; apply _
  | |- preserves _ (klog_Error _) => apply preserves_klog_Error; apply _
  | |- preserves _ (match ?x with _ => _ end) => destruct x
  end.
Ltac frame := repeat frame_step.

(** A run that answers [Ok a] is the pair of that answer and the world it
    leaves. *)
Lemma run_Ok {A} (m : M A) (w : World) (a : A) :
  (m w).1 = Ok a → m w = (Ok a, (m w).2).
Proof. destruct (m w) as [r w']. simpl. by intros ->. Qed.

(** ** Claiming is idempotent *)

Lemma apiWrite_Ok ev rejected store w w' :
  apiWrite ev rejected store w = (Ok tt, w') →
  ∃ w1, external w = (Ok tt, w1) ∧ rejected w1 = None ∧
        w' = store (set_trace (trace w1 ++ [ev None]) w1).
Proof.
  unfold apiWrite, bind, try, record, modify, gets, fail.
  destruct (external w) as [[[]|e] w1]; simpl; [|done].
  destruct (rejected w1) eqn:Hrej; simpl; [done|].
  intros [= <-]. by exists w1.
Qed.

Lemma external_stores w r w1 :
  external w = (r, w1) →
  templates w1 = templates w ∧ rbs w1 = rbs w ∧ crbs w1 = crbs w ∧
  trace w1 = trace w ∧ waitingObjects w1 = waitingObjects w ∧
  processor w1 = processor w.
Proof.
  unfold external. destruct (faults w) as [|[e|] fs]; intros [= <- <-]; done.
Qed.

Lemma claimed_labels_non_empty (labels : gmap string string) (k v : string) :
  labels !! k = Some v → bool_decide (0 < size labels) = true.
Proof.
  intros Hk. apply bool_decide_eq_true.
  destruct (decide (size labels = 0)) as [H0|]; [|lia].
  apply map_size_empty_inv in H0. subst. by rewrite lookup_empty in Hk.
Qed.

Lemma ClaimPolicyForObject_claimed object policy w :
  let policyID := util.GetLabelValue (metav1.Labels (policyv1alpha1.PPMeta policy))
                    policyv1alpha1.PropagationPolicyPermanentIDLabel in
  unstructured.GetLabels object !! policyv1alpha1.PropagationPolicyPermanentIDLabel
    = Some policyID →
  unstructured.GetLabels object !! policyv1alpha1.ClusterPropagationPolicyPermanentIDLabel
    = None →
  ClaimPolicyForObject object policy w = (Ok policyID, w).
Proof.
  intros policyID Hpp Hcpp. unfold ClaimPolicyForObject.
  rewrite (claimed_labels_non_empty _ _ _ Hpp).
  unfold excludeClusterPolicy. rewrite Hcpp. simpl.
  rewrite bool_decide_eq_true_2; [done|].
  unfold util.GetLabelValue at 1. by rewrite Hpp.
Qed.

Lemma ClaimClusterPolicyForObject_claimed object policy w :
  let policyID := util.GetLabelValue (metav1.Labels (policyv1alpha1.CPPMeta policy))
                    policyv1alpha1.ClusterPropagationPolicyPermanentIDLabel in
  unstructured.GetLabels object !! policyv1alpha1.ClusterPropagationPolicyPermanentIDLabel
    = Some policyID →
  ClaimClusterPolicyForObject object policy w = (Ok policyID, w).
Proof.
  intros policyID Hcpp. unfold ClaimClusterPolicyForObject.
  destruct (decide _) as [|Hn]; [done|]. destruct Hn.
  unfold util.GetLabelValue at 1. by rewrite Hcpp.
Qed.

Lemma excludeClusterPolicy_cleared (labels : gmap string string) :
  (excludeClusterPolicy labels).2 !! policyv1alpha1.ClusterPropagationPolicyPermanentIDLabel
    = None.
Proof.
  unfold excludeClusterPolicy.
  destruct (labels !! _) eqn:H; simpl; [apply lookup_delete_eq | done].
Qed.

Lemma UpdateTemplate_Ok o w w' :
  UpdateTemplate o w = (Ok tt, w') →
  templates w' !! unstructured.keyOf o = Some o.
Proof.
  intros H. apply apiWrite_Ok in H as (w1 & _ & _ & ->). simpl.
  apply lookup_insert_eq.
Qed.

(** C3: claiming is idempotent.  A template that already bears the
    policy's permanent ID under the label of the policy's scope (and, for a
    PropagationPolicy, no ClusterPropagationPolicy label that would have to
    be cleared) is left alone: the claim answers the ID and the world is
    unchanged, so no update is issued.  Hence a second claim on the
    template as the first claim left it on the server writes nothing. *)
Theorem claim_is_idempotent (object : unstructured.Unstructured)
    (policy : policyv1alpha1.PropagationPolicy)
    (clusterPolicy : policyv1alpha1.ClusterPropagationPolicy) (w : World) :
  let ppLabel := policyv1alpha1.PropagationPolicyPermanentIDLabel in
  let cppLabel := policyv1alpha1.ClusterPropagationPolicyPermanentIDLabel in
  let policyID := util.GetLabelValue (metav1.Labels (policyv1alpha1.PPMeta policy)) ppLabel in
  let clusterPolicyID :=
    util.GetLabelValue (metav1.Labels (policyv1alpha1.CPPMeta clusterPolicy)) cppLabel in
  (unstructured.GetLabels object !! ppLabel = Some policyID →
   unstructured.GetLabels object !! cppLabel = None →
   ClaimPolicyForObject object policy w = (Ok policyID, w)) ∧
  (unstructured.GetLabels object !! cppLabel = Some clusterPolicyID →
   ClaimClusterPolicyForObject object clusterPolicy w = (Ok clusterPolicyID, w)) ∧
  (∀ id w1,
     templates w !! unstructured.keyOf object = Some object →
     ClaimPolicyForObject object policy w = (Ok id, w1) →
     ∃ object', templates w1 !! unstructured.keyOf object = Some object' ∧
                ClaimPolicyForObject object' policy w1 = (Ok id, w1)) ∧
  (∀ id w1,
     templates w !! unstructured.keyOf object = Some object →
     ClaimClusterPolicyForObject object clusterPolicy w = (Ok id, w1) →
     ∃ object', templates w1 !! unstructured.keyOf object = Some object' ∧
                ClaimClusterPolicyForObject object' clusterPolicy w1 = (Ok id, w1)).
Proof.
  intros ppLabel cppLabel policyID clusterPolicyID.
  split; [apply ClaimPolicyForObject_claimed|].
  split; [apply ClaimClusterPolicyForObject_claimed|].
  split.
  - intros id w1 Hstored Hfirst. unfold ClaimPolicyForObject in Hfirst.
    fold ppLabel policyID in Hfirst.
    match type of Hfirst with
    | (if ?c then _ else _) _ = _ => destruct c eqn:Hc
    end.
    + injection Hfirst as <- <-. exists object. split; [done|].
      unfold ClaimPolicyForObject. fold ppLabel policyID. by rewrite Hc.
    + unfold bind in Hfirst.
      match type of Hfirst with
      | match UpdateTemplate ?o w with _ => _ end = _ =>
          set (objectCopy := o) in *
      end.
      destruct (UpdateTemplate objectCopy w) as [[[]|e] w2] eqn:Hupd; [|done].
      injection Hfirst as <- <-. exists objectCopy.
      split; [exact (UpdateTemplate_Ok _ _ _ Hupd)|].
      apply ClaimPolicyForObject_claimed.
      * subst objectCopy. simpl. apply lookup_insert_eq.
      * subst objectCopy. cbn. rewrite lookup_insert_ne by done.
        destruct (bool_decide _) eqn:Hsize; [apply excludeClusterPolicy_cleared|].
        simpl. apply bool_decide_eq_false in Hsize.
        assert (Hempty : size (unstructured.GetLabels object) = 0) by lia.
        apply map_size_empty_inv in Hempty.
        unfold unstructured.GetLabels in *. rewrite Hempty. apply lookup_empty.
  - intros id w1 Hstored Hfirst. unfold ClaimClusterPolicyForObject in Hfirst.
    fold cppLabel clusterPolicyID in Hfirst.
    destruct (decide _) as [Hc|Hc] in Hfirst.
    + injection Hfirst as <- <-. exists object. split; [done|].
      unfold ClaimClusterPolicyForObject. fold cppLabel clusterPolicyID.
      by destruct (decide _).
    + unfold bind in Hfirst.
      match type of Hfirst with
      | match UpdateTemplate ?o w with _ => _ end = _ =>
          set (objectCopy := o) in *
      end.
      destruct (UpdateTemplate objectCopy w) as [[[]|e] w2] eqn:Hupd; [|done].
      injection Hfirst as <- <-. exists objectCopy.
      split; [exact (UpdateTemplate_Ok _ _ _ Hupd)|].
      apply ClaimClusterPolicyForObject_claimed.
      subst objectCopy. cbn. apply lookup_insert_eq.
Qed.

Lemma claim_is_idempotent_witness :
  ClaimPolicyForObject sample.nginxClaimed sample.pp1
    (sample.worldWith sample.nginxKey sample.nginxClaimed)
    = (Ok "pp1-id", sample.worldWith sample.nginxKey sample.nginxClaimed) ∧
  ClaimClusterPolicyForObject sample.teamAClaimed sample.cpp1
    (sample.worldWith sample.teamAKey sample.teamAClaimed)
    = (Ok "cpp1-id", sample.worldWith sample.teamAKey sample.teamAClaimed) ∧
  (let w1 := (ClaimPolicyForObject sample.nginx sample.pp1
                (sample.worldWith sample.nginxKey sample.nginx)).2 in
   ∃ object', templates w1 !! unstructured.keyOf sample.nginx = Some object' ∧
              ClaimPolicyForObject object' sample.pp1 w1 = (Ok "pp1-id", w1)) ∧
  (let w1 := (ClaimClusterPolicyForObject sample.teamA sample.cpp1
                (sample.worldWith sample.teamAKey sample.teamA)).2 in
   ∃ object', templates w1 !! unstructured.keyOf sample.teamA = Some object' ∧
              ClaimClusterPolicyForObject object' sample.cpp1 w1 = (Ok "cpp1-id", w1)).
Proof.
  split; [|split; [|split]].
  - apply (claim_is_idempotent sample.nginxClaimed sample.pp1 sample.cpp1
             (sample.worldWith sample.nginxKey sample.nginxClaimed)); reflexivity.
  - apply (claim_is_idempotent sample.teamAClaimed sample.pp1 sample.cpp1
             (sample.worldWith sample.teamAKey sample.teamAClaimed)); reflexivity.
  - apply (claim_is_idempotent sample.nginx sample.pp1 sample.cpp1
             (sample.worldWith sample.nginxKey sample.nginx)); reflexivity.
  - apply (claim_is_idempotent sample.teamA sample.pp1 sample.cpp1
             (sample.worldWith sample.teamAKey sample.teamA)); reflexivity.
Defined.

(** ** The lazy gate *)

#[global] Instance onlyTemplateWrites_frame : Frame onlyTemplateWrites.
Proof.
  split.
  - intros w. repeat split. exists []. by rewrite app_nil_r.
  - intros w1 w2 w3 (Hr1 & Hc1 & evs1 & Ht1 & Hf1) (Hr2 & Hc2 & evs2 & Ht2 & Hf2).
    repeat split; [congruence | congruence |].
    exists (evs1 ++ evs2). rewrite Ht2, Ht1, <- app_assoc.
    split; [done | by apply Forall_app].
  - intros w fs. repeat split. exists []. by rewrite app_nil_r.
  - intros w l. repeat split. exists []. by rewrite app_nil_r.
Qed.

Lemma UpdateTemplate_onlyTemplateWrites o :
  preserves onlyTemplateWrites (UpdateTemplate o).
Proof.
  apply preserves_apiWrite; [apply _ | |].
  - intros w e. repeat split. eexists. split; [done|]. by repeat constructor.
  - intros w _. repeat split. eexists. split; [done|]. by repeat constructor.
Qed.

Lemma ClaimPolicyForObject_onlyTemplateWrites object policy :
  preserves onlyTemplateWrites (ClaimPolicyForObject object policy).
Proof.
  unfold ClaimPolicyForObject. cbv zeta.
  destruct (_ && _); frame. apply UpdateTemplate_onlyTemplateWrites.
Qed.

Lemma ClaimClusterPolicyForObject_onlyTemplateWrites object policy :
  preserves onlyTemplateWrites (ClaimClusterPolicyForObject object policy).
Proof.
  unfold ClaimClusterPolicyForObject. cbv zeta.
  destruct (decide _); frame. apply UpdateTemplate_onlyTemplateWrites.
Qed.

(** C5: when the change came from Karmada itself and the policy is
    activated lazily, the apply is the claim and nothing more: it succeeds
    with the world the claim left as soon as the claim succeeds, it fails
    with the claim's error otherwise, and in either case no binding is
    built or written (both binding stores are unchanged and the API server
    saw nothing but template updates). *)
Theorem lazy_gate_skips_binding
    (GenerateBindingName : string → string → string)
    (HookEnabled : unstructured.Unstructured → bool)
    (GetReplicas : unstructured.Unstructured → result (Z * option string))
    (object : unstructured.Unstructured) (objectKey : keys.ClusterWideKey)
    (policy : policyv1alpha1.PropagationPolicy)
    (clusterPolicy : policyv1alpha1.ClusterPropagationPolicy) (w : World) :
  (util.IsLazyActivationEnabled
     (policyv1alpha1.ActivationPreference_ (policyv1alpha1.PPSpec policy)) = true →
   let r := ApplyPolicy GenerateBindingName HookEnabled GetReplicas
              object objectKey true policy w in
   (∀ id w1, ClaimPolicyForObject object policy w = (Ok id, w1) →
             r = (Ok OperationResultNone, w1)) ∧
   (∀ e w1, ClaimPolicyForObject object policy w = (Err e, w1) → r.1 = Err e) ∧
   rbs r.2 = rbs w ∧ crbs r.2 = crbs w ∧
   ∃ evs, trace r.2 = trace w ++ evs ∧ Forall isTemplateWrite evs) ∧
  (util.IsLazyActivationEnabled
     (policyv1alpha1.ActivationPreference_ (policyv1alpha1.CPPSpec clusterPolicy)) = true →
   let r := ApplyClusterPolicy GenerateBindingName HookEnabled GetReplicas
              object objectKey true clusterPolicy w in
   (∀ id w1, ClaimClusterPolicyForObject object clusterPolicy w = (Ok id, w1) →
             r = (Ok OperationResultNone, w1)) ∧
   (∀ e w1, ClaimClusterPolicyForObject object clusterPolicy w = (Err e, w1) →
            r.1 = Err e) ∧
   rbs r.2 = rbs w ∧ crbs r.2 = crbs w ∧
   ∃ evs, trace r.2 = trace w ++ evs ∧ Forall isTemplateWrite evs).
Proof.
  split; intros Hlazy r; subst r.
  - pose proof (ClaimPolicyForObject_onlyTemplateWrites object policy w) as Hclaim.
    unfold ApplyPolicy, bind, try.
    destruct (ClaimPolicyForObject object policy w) as [[id|e] w1]; simpl in *.
    + rewrite Hlazy. simpl. split; [by intros ? ? [= <- <-]|]. split; [done|].
      exact Hclaim.
    + split; [done|]. split; [by intros ? ? [= <- <-]|]. exact Hclaim.
  - pose proof (ClaimClusterPolicyForObject_onlyTemplateWrites object clusterPolicy w)
      as Hclaim.
    unfold ApplyClusterPolicy, bind, try.
    destruct (ClaimClusterPolicyForObject object clusterPolicy w) as [[id|e] w1];
      simpl in *.
    + rewrite Hlazy. simpl. split; [by intros ? ? [= <- <-]|]. split; [done|].
      exact Hclaim.
    + split; [done|]. split; [by intros ? ? [= <- <-]|]. exact Hclaim.
Qed.

Lemma lazy_gate_skips_binding_witness :
  ApplyPolicy sample.GenerateBindingName sample.HookEnabled sample.GetReplicas
    sample.nginx sample.nginxKey true sample.pp1
    (sample.worldWith sample.nginxKey sample.nginx)
  = (Ok OperationResultNone,
     (ClaimPolicyForObject sample.nginx sample.pp1
        (sample.worldWith sample.nginxKey sample.nginx)).2) ∧
  ApplyClusterPolicy sample.GenerateBindingName sample.HookEnabled sample.GetReplicas
    sample.teamA sample.teamAKey true sample.cpp1
    (sample.worldWith sample.teamAKey sample.teamA)
  = (Ok OperationResultNone,
     (ClaimClusterPolicyForObject sample.teamA sample.cpp1
        (sample.worldWith sample.teamAKey sample.teamA)).2).
Proof.
  split.
  - apply (proj1 (lazy_gate_skips_binding sample.GenerateBindingName sample.HookEnabled
             sample.GetReplicas sample.nginx sample.nginxKey sample.pp1 sample.cpp1
             (sample.worldWith sample.nginxKey sample.nginx)) eq_refl) with (id := "pp1-id").
    reflexivity.
  - apply (proj2 (lazy_gate_skips_binding sample.GenerateBindingName sample.HookEnabled
             sample.GetReplicas sample.teamA sample.teamAKey sample.pp1 sample.cpp1
             (sample.worldWith sample.teamAKey sample.teamA)) eq_refl) with (id := "cpp1-id").
    reflexivity.
Defined.

(** ** Upserts *)

Lemma touched_refl w : touched w w.
Proof. exists (trace w), (klog w), (faults w). by destruct w. Qed.

Lemma touched_trans w1 w2 w3 : touched w1 w2 → touched w2 w3 → touched w1 w3.
Proof. intros (t & l & fs & ->) (t' & l' & fs' & ->). by exists t', l', fs'. Qed.

Lemma touched_set_trace w t : touched w (set_trace t w).
Proof. exists t, (klog w), (faults w). by destruct w. Qed.

Lemma touched_set_klog w l : touched w (set_klog l w).
Proof. exists (trace w), l, (faults w). by destruct w. Qed.

Lemma touched_set_faults w fs : touched w (set_faults fs w).
Proof. exists (trace w), (klog w), fs. by destruct w. Qed.

Lemma touched_stores w w' :
  touched w w' →
  cache w' = cache w ∧ templates w' = templates w ∧ rbs w' = rbs w ∧
  crbs w' = crbs w ∧ pps w' = pps w ∧ cpps w' = cpps w ∧
  waitingObjects w' = waitingObjects w ∧ processor w' = processor w.
Proof. by intros (t & l & fs & ->). Qed.

#[global] Instance touched_frame : Frame touched.
Proof.
  split; eauto using touched_refl, touched_trans, touched_set_faults, touched_set_klog.
Qed.

Lemma external_touched w r w1 : external w = (r, w1) → touched w w1.
Proof. intros H. pose proof (preserves_external touched w) as Hp. by rewrite H in Hp. Qed.

Lemma apiWrite_cases ev rejected store w r w' :
  apiWrite ev rejected store w = (r, w') →
  ∃ w1, touched w w1 ∧
    ((r = Ok tt ∧ rejected w1 = None ∧ w' = store (set_trace (trace w1 ++ [ev None]) w1)) ∨
     (∃ e, r = Err e ∧ w' = set_trace (trace w1 ++ [ev (Some e)]) w1)).
Proof.
  unfold apiWrite, bind, try, record, modify, gets, fail.
  destruct (external w) as [[[]|e] w1] eqn:Hext; simpl;
    apply external_touched in Hext; exists w1; (split; [done|]).
  - destruct (rejected w1) eqn:Hrej; simpl in *; injection H as <- <-; eauto.
  - injection H as <- <-; eauto.
Qed.

Section ClientFacts.
Context {K O : Type} `{ClientObject K O}.

Lemma touched_stored w w' : touched w w' → stored w' = stored w.
Proof. intros (t & l & fs & ->). apply stored_set_others. Qed.

Lemma Get_cases (key : K) w (r : result O) w1 :
  Get key w = (r, w1) →
  touched w w1 ∧ (∀ o, r = Ok o → stored w !! key = Some o).
Proof.
  unfold Get, bind, gets, ret, fail.
  destruct (external w) as [[[]|e] w2] eqn:Hext; apply external_touched in Hext.
  - rewrite (touched_stored _ _ Hext).
    destruct (stored w !! key) eqn:Hk; intros [= <- <-]; (split; [done|]);
      by intros ? [= <-].
  - intros [= <- <-]. split; [done|]. by intros ? [=].
Qed.

Lemma mutate_Ok (f : O → result O) (key : K) (o o' : O) :
  mutate f key o = Ok o' → f o = Ok o' ∧ ObjectKeyFromObject o' = key.
Proof.
  unfold mutate. destruct (f o) as [o2|e]; [|done].
  destruct (decide _); [|done]. by intros [= <-].
Qed.

Lemma mutate_Err (f : O → result O) (key : K) (o : O) (e : error) :
  (∀ b e, f b = Err e → IsConflict e = false) →
  mutate f key o = Err e → IsConflict e = false.
Proof.
  intros Hf. unfold mutate. destruct (f o) as [o2|e2] eqn:Hfo.
  - destruct (decide _); [done|]. by intros [= <-].
  - intros [= <-]. eauto.
Qed.

(** What one call of CreateOrUpdate can do: fail without a write that
    took effect, find the stored object up to date, or write once. *)
Lemma CreateOrUpdate_cases (obj : O) (f : O → result O) w r w' :
  (∀ b e, f b = Err e → IsConflict e = false) →
  CreateOrUpdate obj f w = (r, w') →
  let key := ObjectKeyFromObject obj in
  ∃ res obj' w0, r = Ok (res, obj') ∧ touched w w0 ∧
    ((w' = w0 ∧ ∃ e, res = Err e ∧
        (IsConflict e = true →
         ObjectKeyFromObject obj' = key ∧
         (obj' = obj ∨ f obj = Ok obj' ∨ is_Some (stored w !! key)))) ∨
     (w' = w0 ∧ res = Ok OperationResultNone ∧ stored w !! key = Some obj' ∧
        f obj' = Ok obj' ∧ ObjectKeyFromObject obj' = key) ∨
     (w' = set_stored (<[key := obj']> (stored w)) w0 ∧
        ObjectKeyFromObject obj' = key ∧
        ((res = Ok OperationResultCreated ∧ stored w !! key = None ∧ f obj = Ok obj') ∨
         (res = Ok OperationResultUpdated ∧
            ∃ existing, stored w !! key = Some existing ∧ f existing = Ok obj')))).
Proof.
  intros Hf Hrun key. unfold CreateOrUpdate in Hrun. fold key in Hrun.
  unfold bind, try in Hrun.
  destruct (Get key w) as [got w1] eqn:Hget.
  apply Get_cases in Hget as [Ht1 Hgot]. cbn in Hrun.
  destruct got as [existing|e].
  - specialize (Hgot _ eq_refl).
    destruct (mutate f key existing) as [obj'|e'] eqn:Hmut.
    + apply mutate_Ok in Hmut as [Hfe Hkey].
      destruct (decide (existing = obj')) as [->|Hne].
      * injection Hrun as <- <-. exists (Ok OperationResultNone), obj', w1.
        split; [done|]. split; [done|]. right; left. done.
      * unfold Update in Hrun. rewrite Hkey in Hrun.
        destruct (apiWrite _ _ _ w1) as [ru w2] eqn:Hw.
        apply apiWrite_cases in Hw as (w3 & Ht3 & [(-> & _ & ->)|(e & -> & ->)]);
          injection Hrun as <- <-.
        -- exists (Ok OperationResultUpdated), obj', (set_trace (trace w3 ++ [updateEvent key None]) w3).
           split; [done|].
           assert (Htw : touched w (set_trace (trace w3 ++ [updateEvent key None]) w3)).
           { eapply touched_trans; [exact Ht1|].
             eapply touched_trans; [exact Ht3 | apply touched_set_trace]. }
           split; [done|]. right; right.
           rewrite (touched_stored _ _ Htw). split; [done|]. split; [done|].
           right. eauto.
        -- exists (Err e), obj', (set_trace (trace w3 ++ [updateEvent key (Some e)]) w3).
           split; [done|]. split.
           { eapply touched_trans; [exact Ht1|].
             eapply touched_trans; [exact Ht3 | apply touched_set_trace]. }
           left. split; [done|]. exists e. split; [done|]. intros _.
           split; [done|]. right; right. by rewrite Hgot.
    + injection Hrun as <- <-. exists (Err e'), existing, w1.
      split; [done|]. split; [done|]. left. split; [done|]. exists e'. split; [done|].
      intros Hc. by rewrite (mutate_Err _ _ _ _ Hf Hmut) in Hc.
  - destruct (IsNotFound e) eqn:Hnf.
    + destruct (mutate f key obj) as [obj'|e'] eqn:Hmut.
      * apply mutate_Ok in Hmut as [Hfe Hkey].
        unfold Create in Hrun. rewrite Hkey in Hrun.
        destruct (apiWrite _ _ _ w1) as [ru w2] eqn:Hw.
        apply apiWrite_cases in Hw as (w3 & Ht3 & [(-> & Hrej & ->)|(e2 & -> & ->)]);
          injection Hrun as <- <-.
        -- exists (Ok OperationResultCreated), obj', (set_trace (trace w3 ++ [createEvent key None]) w3).
           split; [done|].
           assert (Htw : touched w (set_trace (trace w3 ++ [createEvent key None]) w3)).
           { eapply touched_trans; [exact Ht1|].
             eapply touched_trans; [exact Ht3 | apply touched_set_trace]. }
           split; [done|]. right; right.
           rewrite (touched_stored _ _ Htw). split; [done|]. split; [done|].
           left. split; [done|]. split; [|done].
           rewrite (touched_stored w w3) in Hrej
             by (eapply touched_trans; [exact Ht1 | exact Ht3]).
           by destruct (stored w !! key).
        -- exists (Err e2), obj', (set_trace (trace w3 ++ [createEvent key (Some e2)]) w3).
           split; [done|]. split.
           { eapply touched_trans; [exact Ht1|].
             eapply touched_trans; [exact Ht3 | apply touched_set_trace]. }
           left. split; [done|]. exists e2. split; [done|]. intros _. auto.
      * injection Hrun as <- <-. exists (Err e'), obj, w1.
        split; [done|]. split; [done|]. left. split; [done|]. exists e'.
        split; [done|]. intros _. auto.
    + injection Hrun as <- <-. exists (Err e), obj, w1.
      split; [done|]. split; [done|]. left. split; [done|]. exists e.
      split; [done|]. intros _. auto.
Qed.

(** The upsert loop: at most one write takes effect, and it stores at
    the key of the desired object what the callback made of the stored
    object (or of the desired object when nothing was stored). *)
Lemma upsert_cases (steps : nat) (obj : O) (f : O → result O) (lastErr : error)
    w r w' :
  (∀ b e, f b = Err e → IsConflict e = false) →
  RetryOnConflict steps (λ o, CreateOrUpdate o f) obj lastErr w = (r, w') →
  let key := ObjectKeyFromObject obj in
  ∃ w0, touched w w0 ∧
    ((w' = w0 ∧ ∃ e, r = Err e) ∨
     (w' = w0 ∧ r = Ok OperationResultNone ∧
        ∃ b, stored w !! key = Some b ∧ f b = Ok b ∧ ObjectKeyFromObject b = key) ∨
     (∃ b', w' = set_stored (<[key := b']> (stored w)) w0 ∧
        ObjectKeyFromObject b' = key ∧
        ((r = Ok OperationResultCreated ∧ stored w !! key = None) ∨
         (r = Ok OperationResultUpdated ∧
            ∃ existing, stored w !! key = Some existing ∧ f existing = Ok b')))).
Proof.
  intros Hf. revert obj lastErr w.
  induction steps as [|n IH]; intros obj lastErr w Hrun key; simpl in Hrun.
  - injection Hrun as <- <-. exists w. split; [apply touched_refl|]. left. eauto.
  - unfold bind in Hrun.
    destruct (CreateOrUpdate obj f w) as [ra w1] eqn:Hatt.
    apply CreateOrUpdate_cases in Hatt as (res & obj' & w0 & -> & Ht0 & Hcases);
      [|done].
    fold key in Hcases.
    destruct Hcases as [(-> & e & -> & Hkey)|[(-> & -> & Hst & Hfb & Hkey)|(-> & Hkey & Hw)]].
    + destruct (IsConflict e) eqn:Hc.
      * apply IH in Hrun as (w2 & Ht2 & Hcases).
        rewrite (proj1 (Hkey eq_refl)), (touched_stored _ _ Ht0) in Hcases.
        exists w2. split; [by eapply touched_trans|]. exact Hcases.
      * injection Hrun as <- <-. exists w0. split; [done|]. left. eauto.
    + injection Hrun as <- <-. exists w0. split; [done|]. right; left. eauto 10.
    + exists w0. split; [done|]. right; right. exists obj'.
      destruct Hw as [(-> & Hnone & _)|(-> & existing & Hst & Hfe)];
        injection Hrun as <- <-; eauto 10.
Qed.
(** The object a successful create stores went through the callback, and
    through nothing else, since the desired object was built. *)
Lemma upsert_created (P : O → Prop) (steps : nat) (obj : O) (f : O → result O)
    (lastErr : error) w w' :
  (∀ b e, f b = Err e → IsConflict e = false) →
  (∀ b b', P b → f b = Ok b' → P b') →
  P obj ∨ is_Some (stored w !! ObjectKeyFromObject obj) →
  RetryOnConflict steps (λ o, CreateOrUpdate o f) obj lastErr w
    = (Ok OperationResultCreated, w') →
  ∃ b', stored w' !! ObjectKeyFromObject obj = Some b' ∧ P b'.
Proof.
  intros Hf HP. revert obj lastErr w.
  induction steps as [|n IH]; intros obj lastErr w Hobj Hrun; simpl in Hrun; [done|].
  unfold bind in Hrun.
  destruct (CreateOrUpdate obj f w) as [ra w1] eqn:Hatt.
  apply CreateOrUpdate_cases in Hatt as (res & obj' & w0 & -> & Ht0 & Hcases); [|done].
  destruct Hcases as [(-> & e & -> & Hkey)|[(-> & -> & _)|(-> & Hkey & Hw)]].
  - destruct (IsConflict e) eqn:Hc; [|done].
    destruct (Hkey eq_refl) as [Hk Hobj']. rewrite <- Hk.
    apply (IH obj' e w0); [|done].
    rewrite Hk, (touched_stored _ _ Ht0).
    destruct Hobj' as [->|[Hfo|Hsome]]; [done | | by right].
    destruct Hobj as [Hp|Hsome]; [left; eauto | by right].
  - done.
  - destruct Hw as [(-> & Hnone & Hfo)|(-> & _)]; [|done].
    injection Hrun as <-. exists obj'.
    rewrite stored_set_stored, lookup_insert_eq. split; [done|].
    destruct Hobj as [Hp|[x Hx]]; [eauto | congruence].
Qed.
End ClientFacts.

(** ** The mutation callbacks *)

Lemma ownerMismatch_not_conflict : IsConflict ownerMismatch = false.
Proof. reflexivity. Qed.

(** What the callback of ApplyPolicy makes of the object it is given. *)
Lemma applyPolicyMutateFn_cases object binding bindingCopy :
  match applyPolicyMutateFn object binding bindingCopy with
  | Err e => ownerDiffers object (workv1alpha2.RBMeta bindingCopy) = true ∧ e = ownerMismatch
  | Ok b =>
      let m := workv1alpha2.RBMeta b in
      let s := workv1alpha2.RBSpec b in
      let desired := workv1alpha2.RBSpec binding in
      ownerDiffers object (workv1alpha2.RBMeta bindingCopy) = false ∧
      workv1alpha2.Clusters s = workv1alpha2.Clusters (workv1alpha2.RBSpec bindingCopy) ∧
      metav1.OwnerReferences m = metav1.OwnerReferences (workv1alpha2.RBMeta binding) ∧
      metav1.Finalizers m = metav1.Finalizers (workv1alpha2.RBMeta binding) ∧
      metav1.Annotations m =
        util.DedupeAndMergeAnnotations (metav1.Annotations (workv1alpha2.RBMeta bindingCopy))
          (metav1.Annotations (workv1alpha2.RBMeta binding)) ∧
      metav1.Labels m =
        (excludeClusterPolicy
           (util.DedupeAndMergeLabels (metav1.Labels (workv1alpha2.RBMeta bindingCopy))
              (metav1.Labels (workv1alpha2.RBMeta binding)))).2 ∧
      ObjectKeyFromObject b = ObjectKeyFromObject bindingCopy ∧
      workv1alpha2.Resource s = workv1alpha2.Resource desired ∧
      workv1alpha2.ReplicaRequirements s = workv1alpha2.ReplicaRequirements desired ∧
      workv1alpha2.Replicas s = workv1alpha2.Replicas desired ∧
      workv1alpha2.PropagateDeps s = workv1alpha2.PropagateDeps desired ∧
      workv1alpha2.SchedulerName s = workv1alpha2.SchedulerName desired ∧
      workv1alpha2.Placement s = workv1alpha2.Placement desired ∧
      workv1alpha2.Failover s = workv1alpha2.Failover desired ∧
      workv1alpha2.ConflictResolution s = workv1alpha2.ConflictResolution desired
  end.
Proof.
  unfold applyPolicyMutateFn.
  destruct (ownerDiffers object (workv1alpha2.RBMeta bindingCopy)); [done|].
  cbn. repeat split.
Qed.

(** The callback of ApplyClusterPolicy for a ResourceBinding. *)
Lemma applyClusterPolicyMutateRB_cases object binding bindingCopy :
  match applyClusterPolicyMutateRB object binding bindingCopy with
  | Err e => ownerDiffers object (workv1alpha2.RBMeta bindingCopy) = true ∧ e = ownerMismatch
  | Ok b =>
      let m := workv1alpha2.RBMeta b in
      let s := workv1alpha2.RBSpec b in
      let desired := workv1alpha2.RBSpec binding in
      ownerDiffers object (workv1alpha2.RBMeta bindingCopy) = false ∧
      workv1alpha2.Clusters s = workv1alpha2.Clusters (workv1alpha2.RBSpec bindingCopy) ∧
      metav1.OwnerReferences m = metav1.OwnerReferences (workv1alpha2.RBMeta binding) ∧
      metav1.Finalizers m = metav1.Finalizers (workv1alpha2.RBMeta binding) ∧
      metav1.Annotations m =
        util.DedupeAndMergeAnnotations (metav1.Annotations (workv1alpha2.RBMeta bindingCopy))
          (metav1.Annotations (workv1alpha2.RBMeta binding)) ∧
      metav1.Labels m =
        util.DedupeAndMergeLabels (metav1.Labels (workv1alpha2.RBMeta bindingCopy))
          (metav1.Labels (workv1alpha2.RBMeta binding)) ∧
      ObjectKeyFromObject b = ObjectKeyFromObject bindingCopy ∧
      workv1alpha2.Resource s = workv1alpha2.Resource desired ∧
      workv1alpha2.ReplicaRequirements s = workv1alpha2.ReplicaRequirements desired ∧
      workv1alpha2.Replicas s = workv1alpha2.Replicas desired ∧
      workv1alpha2.PropagateDeps s = workv1alpha2.PropagateDeps desired ∧
      workv1alpha2.SchedulerName s = workv1alpha2.SchedulerName desired ∧
      workv1alpha2.Placement s = workv1alpha2.Placement desired ∧
      workv1alpha2.Failover s = workv1alpha2.Failover desired ∧
      workv1alpha2.ConflictResolution s = workv1alpha2.ConflictResolution desired
  end.
Proof.
  unfold applyClusterPolicyMutateRB.
  destruct (ownerDiffers object (workv1alpha2.RBMeta bindingCopy)); [done|].
  cbn. repeat split.
Qed.

(** The callback of ApplyClusterPolicy for a ClusterResourceBinding:
    PropagateDeps is not among the fields it assigns. *)
Lemma applyClusterPolicyMutateCRB_cases object binding bindingCopy :
  match applyClusterPolicyMutateCRB object binding bindingCopy with
  | Err e => ownerDiffers object (workv1alpha2.CRBMeta bindingCopy) = true ∧ e = ownerMismatch
  | Ok b =>
      let m := workv1alpha2.CRBMeta b in
      let s := workv1alpha2.CRBSpec b in
      let desired := workv1alpha2.CRBSpec binding in
      ownerDiffers object (workv1alpha2.CRBMeta bindingCopy) = false ∧
      workv1alpha2.Clusters s = workv1alpha2.Clusters (workv1alpha2.CRBSpec bindingCopy) ∧
      metav1.OwnerReferences m = metav1.OwnerReferences (workv1alpha2.CRBMeta binding) ∧
      metav1.Finalizers m = metav1.Finalizers (workv1alpha2.CRBMeta binding) ∧
      metav1.Annotations m =
        util.DedupeAndMergeAnnotations (metav1.Annotations (workv1alpha2.CRBMeta bindingCopy))
          (metav1.Annotations (workv1alpha2.CRBMeta binding)) ∧
      metav1.Labels m =
        util.DedupeAndMergeLabels (metav1.Labels (workv1alpha2.CRBMeta bindingCopy))
          (metav1.Labels (workv1alpha2.CRBMeta binding)) ∧
      ObjectKeyFromObject b = ObjectKeyFromObject bindingCopy ∧
      workv1alpha2.Resource s = workv1alpha2.Resource desired ∧
      workv1alpha2.ReplicaRequirements s = workv1alpha2.ReplicaRequirements desired ∧
      workv1alpha2.Replicas s = workv1alpha2.Replicas desired ∧
      workv1alpha2.PropagateDeps s =
        workv1alpha2.PropagateDeps (workv1alpha2.CRBSpec bindingCopy) ∧
      workv1alpha2.SchedulerName s = workv1alpha2.SchedulerName desired ∧
      workv1alpha2.Placement s = workv1alpha2.Placement desired ∧
      workv1alpha2.Failover s = workv1alpha2.Failover desired ∧
      workv1alpha2.ConflictResolution s = workv1alpha2.ConflictResolution desired
  end.
Proof.
  unfold applyClusterPolicyMutateCRB.
  destruct (ownerDiffers object (workv1alpha2.CRBMeta bindingCopy)); [done|].
  cbn. repeat split.
Qed.

Lemma applyPolicyMutateFn_no_conflict object binding b e :
  applyPolicyMutateFn object binding b = Err e → IsConflict e = false.
Proof.
  intros He. pose proof (applyPolicyMutateFn_cases object binding b) as H.
  rewrite He in H. by destruct H as [_ ->].
Qed.

Lemma applyClusterPolicyMutateRB_no_conflict object binding b e :
  applyClusterPolicyMutateRB object binding b = Err e → IsConflict e = false.
Proof.
  intros He. pose proof (applyClusterPolicyMutateRB_cases object binding b) as H.
  rewrite He in H. by destruct H as [_ ->].
Qed.

Lemma applyClusterPolicyMutateCRB_no_conflict object binding b e :
  applyClusterPolicyMutateCRB object binding b = Err e → IsConflict e = false.
Proof.
  intros He. pose proof (applyClusterPolicyMutateCRB_cases object binding b) as H.
  rewrite He in H. by destruct H as [_ ->].
Qed.

(** ** Building *)

Section Building.
Variable GenerateBindingName : string → string → string.
Variable HookEnabled : unstructured.Unstructured → bool.
Variable GetReplicas : unstructured.Unstructured → result (Z * option string).

Lemma BuildResourceBinding_preserves R `{!Frame R} object labels annotations policySpec :
  preserves R (BuildResourceBinding GenerateBindingName HookEnabled GetReplicas
                 object labels annotations policySpec).
Proof. unfold BuildResourceBinding. cbv zeta. destruct (HookEnabled object); frame. Qed.

Lemma BuildClusterResourceBinding_preserves R `{!Frame R}
    object labels annotations policySpec :
  preserves R (BuildClusterResourceBinding GenerateBindingName HookEnabled GetReplicas
                 object labels annotations policySpec).
Proof.
  unfold BuildClusterResourceBinding. cbv zeta. destruct (HookEnabled object); frame.
Qed.

(** The desired ResourceBinding: where it lives, what it is labelled
    with, and that it carries the policy's PropagateDeps. *)
Lemma BuildResourceBinding_Ok object labels annotations policySpec w b w1 :
  BuildResourceBinding GenerateBindingName HookEnabled GetReplicas
    object labels annotations policySpec w = (Ok b, w1) →
  w1 = w ∧
  ObjectKeyFromObject b =
    (unstructured.GetNamespace object,
     GenerateBindingName (unstructured.GetKind object) (unstructured.GetName object)) ∧
  metav1.Labels (workv1alpha2.RBMeta b) = labels ∧
  workv1alpha2.Clusters (workv1alpha2.RBSpec b) = [] ∧
  workv1alpha2.PropagateDeps (workv1alpha2.RBSpec b) =
    policyv1alpha1.PropagateDeps policySpec.
Proof.
  unfold BuildResourceBinding. cbv zeta.
  destruct (HookEnabled object).
  - destruct (GetReplicas object) as [[replicas requirements]|e]; [|done].
    by intros [= <- <-].
  - by intros [= <- <-].
Qed.

(** The desired ClusterResourceBinding carries the policy's PropagateDeps
    as well. *)
Lemma BuildClusterResourceBinding_Ok object labels annotations policySpec w b w1 :
  BuildClusterResourceBinding GenerateBindingName HookEnabled GetReplicas
    object labels annotations policySpec w = (Ok b, w1) →
  w1 = w ∧
  ObjectKeyFromObject b =
    GenerateBindingName (unstructured.GetKind object) (unstructured.GetName object) ∧
  metav1.Labels (workv1alpha2.CRBMeta b) = labels ∧
  workv1alpha2.Clusters (workv1alpha2.CRBSpec b) = [] ∧
  workv1alpha2.PropagateDeps (workv1alpha2.CRBSpec b) =
    policyv1alpha1.PropagateDeps policySpec.
Proof.
  unfold BuildClusterResourceBinding. cbv zeta.
  destruct (HookEnabled object).
  - destruct (GetReplicas object) as [[replicas requirements]|e]; [|done].
    by intros [= <- <-].
  - by intros [= <- <-].
Qed.
End Building.

(** ** The scheduling result is preserved *)

Lemma sameBindings_clustersKept w w' :
  rbs w' = rbs w → crbs w' = crbs w → clustersKept w w'.
Proof. intros Hr Hc. split; intros k b Hk; exists b; by rewrite ?Hr, ?Hc. Qed.

#[global] Instance clustersKept_frame : Frame clustersKept.
Proof.
  split.
  - intros w. by apply sameBindings_clustersKept.
  - intros w1 w2 w3 [Hr1 Hc1] [Hr2 Hc2]. split; intros k b Hk.
    + destruct (Hr1 _ _ Hk) as (b2 & Hk2 & E2). destruct (Hr2 _ _ Hk2) as (b3 & Hk3 & E3).
      exists b3. split; [done | congruence].
    + destruct (Hc1 _ _ Hk) as (b2 & Hk2 & E2). destruct (Hc2 _ _ Hk2) as (b3 & Hk3 & E3).
      exists b3. split; [done | congruence].
  - intros w fs. by apply sameBindings_clustersKept.
  - intros w l. by apply sameBindings_clustersKept.
Qed.

Lemma preserves_weaken (R R' : World → World → Prop) {A} (m : M A) :
  (∀ w w', R w w' → R' w w') → preserves R m → preserves R' m.
Proof. intros HR Hm w. apply HR, Hm. Qed.

Lemma onlyTemplateWrites_clustersKept w w' : onlyTemplateWrites w w' → clustersKept w w'.
Proof. intros (Hr & Hc & _). by apply sameBindings_clustersKept. Qed.

Lemma upsertRB_clustersKept binding f :
  (∀ b e, f b = Err e → IsConflict e = false) →
  (∀ b b', f b = Ok b' →
     workv1alpha2.Clusters (workv1alpha2.RBSpec b')
     = workv1alpha2.Clusters (workv1alpha2.RBSpec b)) →
  preserves clustersKept (upsertRB binding f).
Proof.
  intros Hconf Hf w. unfold upsertRB.
  destruct (RetryOnConflict _ _ _ _ w) as [r w'] eqn:Hrun. simpl.
  apply upsert_cases in Hrun as (w0 & Ht & Hcases); [|done].
  apply touched_stores in Ht as (_ & _ & Hr & Hc & _).
  destruct Hcases as [(-> & _)|[(-> & _)|(b' & -> & Hkey & Hw)]];
    [by apply sameBindings_clustersKept..|].
  split; [|intros k b Hk; exists b; simpl; by rewrite Hc].
  intros k b Hk. simpl.
  destruct (decide (k = ObjectKeyFromObject binding)) as [->|Hne].
  - rewrite lookup_insert_eq. exists b'. split; [done|].
    destruct Hw as [(_ & Hnone)|(_ & existing & Hst & Hfe)]; simpl in *.
    + congruence.
    + rewrite Hk in Hst. injection Hst as <-. eauto.
  - rewrite lookup_insert_ne by done. eauto.
Qed.

Lemma upsertCRB_clustersKept binding f :
  (∀ b e, f b = Err e → IsConflict e = false) →
  (∀ b b', f b = Ok b' →
     workv1alpha2.Clusters (workv1alpha2.CRBSpec b')
     = workv1alpha2.Clusters (workv1alpha2.CRBSpec b)) →
  preserves clustersKept (upsertCRB binding f).
Proof.
  intros Hconf Hf w. unfold upsertCRB.
  destruct (RetryOnConflict _ _ _ _ w) as [r w'] eqn:Hrun. simpl.
  apply upsert_cases in Hrun as (w0 & Ht & Hcases); [|done].
  apply touched_stores in Ht as (_ & _ & Hr & Hc & _).
  destruct Hcases as [(-> & _)|[(-> & _)|(b' & -> & Hkey & Hw)]];
    [by apply sameBindings_clustersKept..|].
  split; [intros k b Hk; exists b; simpl; by rewrite Hr|].
  intros k b Hk. simpl.
  destruct (decide (k = ObjectKeyFromObject binding)) as [->|Hne].
  - rewrite lookup_insert_eq. exists b'. split; [done|].
    destruct Hw as [(_ & Hnone)|(_ & existing & Hst & Hfe)]; simpl in *.
    + congruence.
    + rewrite Hk in Hst. injection Hst as <-. eauto.
  - rewrite lookup_insert_ne by done. eauto.
Qed.

Section SchedulePreserved.
Variable GenerateBindingName : string → string → string.
Variable HookEnabled : unstructured.Unstructured → bool.
Variable GetReplicas : unstructured.Unstructured → result (Z * option string).

Lemma ApplyPolicy_clustersKept object objectKey resourceChangeByKarmada policy :
  preserves clustersKept
    (ApplyPolicy GenerateBindingName HookEnabled GetReplicas
       object objectKey resourceChangeByKarmada policy).
Proof.
  unfold ApplyPolicy. frame_step.
  { apply preserves_try.
    eapply preserves_weaken;
      [exact onlyTemplateWrites_clustersKept
      | apply ClaimPolicyForObject_onlyTemplateWrites]. }
  destruct a as [policyID|err]; [|frame].
  destruct (_ && _); [frame|]. cbv zeta. frame_step.
  { apply preserves_try, BuildResourceBinding_preserves, _. }
  destruct a as [binding|err]; [|frame]. frame_step; [|frame].
  apply preserves_try, upsertRB_clustersKept.
  - apply applyPolicyMutateFn_no_conflict.
  - intros b b' Hb. pose proof (applyPolicyMutateFn_cases object binding b) as H.
    rewrite Hb in H. apply H.
Qed.

Lemma ApplyClusterPolicy_clustersKept object objectKey resourceChangeByKarmada policy :
  preserves clustersKept
    (ApplyClusterPolicy GenerateBindingName HookEnabled GetReplicas
       object objectKey resourceChangeByKarmada policy).
Proof.
  unfold ApplyClusterPolicy. frame_step.
  { apply preserves_try.
    eapply preserves_weaken;
      [exact onlyTemplateWrites_clustersKept
      | apply ClaimClusterPolicyForObject_onlyTemplateWrites]. }
  destruct a as [policyID|err]; [|frame].
  destruct (_ && _); [frame|]. cbv zeta. destruct (decide _).
  - frame_step.
    { apply preserves_try, BuildResourceBinding_preserves, _. }
    destruct a as [binding|err]; [|frame]. frame_step; [|frame].
    apply preserves_try, upsertRB_clustersKept.
    + apply applyClusterPolicyMutateRB_no_conflict.
    + intros b b' Hb.
      pose proof (applyClusterPolicyMutateRB_cases object binding b) as H.
      rewrite Hb in H. apply H.
  - frame_step.
    { apply preserves_try, BuildClusterResourceBinding_preserves, _. }
    destruct a as [binding|err]; [|frame]. frame_step; [|frame].
    apply preserves_try, upsertCRB_clustersKept.
    + apply applyClusterPolicyMutateCRB_no_conflict.
    + intros b b' Hb.
      pose proof (applyClusterPolicyMutateCRB_cases object binding b) as H.
      rewrite Hb in H. apply H.
Qed.

(** C1: the mutation callbacks of ApplyPolicy and ApplyClusterPolicy set
    the owner references and the finalizers of the desired binding, merge
    its labels and annotations into the stored ones and overwrite the
    listed spec fields, and leave [spec.clusters] as they found it; and
    whatever ApplyPolicy or ApplyClusterPolicy does, whether it succeeds
    or fails and whichever calls fail, every ResourceBinding and
    ClusterResourceBinding that existed before still exists afterwards
    with the [spec.clusters] it had. *)
Theorem upsert_never_writes_clusters
    (object : unstructured.Unstructured) (objectKey : keys.ClusterWideKey)
    (resourceChangeByKarmada : bool)
    (policy : policyv1alpha1.PropagationPolicy)
    (clusterPolicy : policyv1alpha1.ClusterPropagationPolicy) (w : World) :
  (∀ binding existing updated,
     applyPolicyMutateFn object binding existing = Ok updated →
     upserted false true
       (workv1alpha2.RBMeta binding) (workv1alpha2.RBMeta existing)
       (workv1alpha2.RBMeta updated)
       (workv1alpha2.RBSpec binding) (workv1alpha2.RBSpec existing)
       (workv1alpha2.RBSpec updated)) ∧
  (∀ binding existing updated,
     applyClusterPolicyMutateRB object binding existing = Ok updated →
     upserted false false
       (workv1alpha2.RBMeta binding) (workv1alpha2.RBMeta existing)
       (workv1alpha2.RBMeta updated)
       (workv1alpha2.RBSpec binding) (workv1alpha2.RBSpec existing)
       (workv1alpha2.RBSpec updated)) ∧
  (∀ binding existing updated,
     applyClusterPolicyMutateCRB object binding existing = Ok updated →
     upserted true false
       (workv1alpha2.CRBMeta binding) (workv1alpha2.CRBMeta existing)
       (workv1alpha2.CRBMeta updated)
       (workv1alpha2.CRBSpec binding) (workv1alpha2.CRBSpec existing)
       (workv1alpha2.CRBSpec updated)) ∧
  clustersKept w
    (ApplyPolicy GenerateBindingName HookEnabled GetReplicas
       object objectKey resourceChangeByKarmada policy w).2 ∧
  clustersKept w
    (ApplyClusterPolicy GenerateBindingName HookEnabled GetReplicas
       object objectKey resourceChangeByKarmada clusterPolicy w).2.
Proof.
  split; [|split; [|split; [|split]]].
  - intros binding existing updated. unfold applyPolicyMutateFn.
    destruct (ownerDiffers _ _); [done|]. intros [= <-]. by repeat split.
  - intros binding existing updated. unfold applyClusterPolicyMutateRB.
    destruct (ownerDiffers _ _); [done|]. intros [= <-]. by repeat split.
  - intros binding existing updated. unfold applyClusterPolicyMutateCRB.
    destruct (ownerDiffers _ _); [done|]. intros [= <-]. by repeat split.
  - apply ApplyPolicy_clustersKept.
  - apply ApplyClusterPolicy_clustersKept.
Qed.
End SchedulePreserved.

Lemma upsert_never_writes_clusters_witness :
  ∃ b', rbs (ApplyPolicy sample.GenerateBindingName sample.HookEnabled sample.GetReplicas
               sample.nginx sample.nginxKey false sample.pp2
               (sample.worldWithRB sample.nginxRB)).2
          !! ("default", "nginx-Deployment") = Some b' ∧
        workv1alpha2.Clusters (workv1alpha2.RBSpec b') = [("member1", 2%Z)].
Proof.
  apply (proj1 (proj2 (proj2 (proj2
           (upsert_never_writes_clusters sample.GenerateBindingName sample.HookEnabled
              sample.GetReplicas sample.nginx sample.nginxKey false sample.pp2
              sample.cpp2 (sample.worldWithRB sample.nginxRB))))))
    with (b := sample.nginxRB).
  reflexivity.
Defined.

(** On the sample cluster the binding of nginx is updated in place: it
    takes the placement of the policy and keeps its scheduling result. *)
Example ApplyPolicy_updates_nginxRB :
  let run := ApplyPolicy sample.GenerateBindingName sample.HookEnabled sample.GetReplicas
               sample.nginx sample.nginxKey false sample.pp2
               (sample.worldWithRB sample.nginxRB) in
  run.1 = Ok OperationResultUpdated ∧
  (workv1alpha2.RBSpec <$> rbs run.2 !! ("default", "nginx-Deployment"))
  = Some (workv1alpha2.mkResourceBindingSpec
            (workv1alpha2.mkObjectReference "apps/v1" "Deployment" "default" "nginx"
               "uid-nginx" "1")
            true None 0%Z [("member1", 2%Z)] (Some ["member1"]) "default-scheduler"
            None "Abort").
Proof. split; reflexivity. Qed.

(** ** Owner identity *)

Section ClientRefusal.
Context {K O : Type} `{ClientObject K O}.

(** An upsert whose callback refuses the stored object fails, and no
    store changes. *)
Lemma upsert_refused (steps : nat) (binding existing : O) (f : O → result O)
    (lastErr e0 : error) w :
  (∀ b e, f b = Err e → IsConflict e = false) →
  stored w !! ObjectKeyFromObject binding = Some existing →
  f existing = Err e0 →
  let run := RetryOnConflict steps (λ o, CreateOrUpdate o f) binding lastErr w in
  (∃ e, run.1 = Err e) ∧ touched w run.2.
Proof.
  intros Hconf Hst Hfe run. subst run.
  destruct (RetryOnConflict _ _ _ _ w) as [r w'] eqn:Hrun. simpl.
  apply upsert_cases in Hrun as (w0 & Ht & Hcases); [|done].
  destruct Hcases as [(-> & He)|[(-> & _ & b & Hb & Hfb & _)|(b' & _ & _ & Hw)]].
  - done.
  - rewrite Hst in Hb. injection Hb as <-. congruence.
  - destruct Hw as [(_ & Hnone)|(_ & ex & Hex & Hfex)]; [congruence|].
    rewrite Hst in Hex. injection Hex as <-. congruence.
Qed.

(** When the read of the stored object is not failed from outside, the
    upsert fails with the callback's error before any write call. *)
Lemma upsert_refused_exactly (steps : nat) (binding existing : O) (f : O → result O)
    (lastErr e0 : error) w :
  IsConflict e0 = false →
  stored w !! ObjectKeyFromObject binding = Some existing →
  f existing = Err e0 →
  (external w).1 = Ok tt →
  RetryOnConflict (S steps) (λ o, CreateOrUpdate o f) binding lastErr w
    = (Err e0, (external w).2).
Proof.
  intros Hconf Hst Hfe Hext. simpl.
  unfold bind, CreateOrUpdate, bind, try, Get, bind, gets.
  destruct (external w) as [[[]|e] w1] eqn:Hw; [|done]. simpl.
  rewrite (touched_stored w w1) by (by eapply external_touched).
  rewrite Hst. simpl. unfold mutate. rewrite Hfe. simpl. by rewrite Hconf.
Qed.
End ClientRefusal.

Section OwnerIdentity.
Variable GenerateBindingName : string → string → string.
Variable HookEnabled : unstructured.Unstructured → bool.
Variable GetReplicas : unstructured.Unstructured → result (Z * option string).

Local Abbreviation ApplyPP :=
  (ApplyPolicy GenerateBindingName HookEnabled GetReplicas).
Local Abbreviation ApplyCPP :=
  (ApplyClusterPolicy GenerateBindingName HookEnabled GetReplicas).

Local Abbreviation buildable := (interpretable HookEnabled GetReplicas).

Lemma BuildResourceBinding_buildable object labels annotations policySpec w :
  buildable object →
  ∃ b, BuildResourceBinding GenerateBindingName HookEnabled GetReplicas
         object labels annotations policySpec w = (Ok b, w).
Proof.
  unfold BuildResourceBinding. cbv zeta. intros [->|[[replicas requirements] Hv]].
  - eauto.
  - rewrite Hv. destruct (HookEnabled object); eauto.
Qed.

Lemma BuildClusterResourceBinding_buildable object labels annotations policySpec w :
  buildable object →
  ∃ b, BuildClusterResourceBinding GenerateBindingName HookEnabled GetReplicas
         object labels annotations policySpec w = (Ok b, w).
Proof.
  unfold BuildClusterResourceBinding. cbv zeta. intros [->|[[replicas requirements] Hv]].
  - eauto.
  - rewrite Hv. destruct (HookEnabled object); eauto.
Qed.

Lemma ownerDiffers_refused object :
  (∀ binding existing, ownerDiffers object (workv1alpha2.RBMeta existing) = true →
     applyPolicyMutateFn object binding existing = Err ownerMismatch ∧
     applyClusterPolicyMutateRB object binding existing = Err ownerMismatch) ∧
  (∀ binding existing, ownerDiffers object (workv1alpha2.CRBMeta existing) = true →
     applyClusterPolicyMutateCRB object binding existing = Err ownerMismatch).
Proof.
  split; intros binding existing Hd.
  - unfold applyPolicyMutateFn, applyClusterPolicyMutateRB. by rewrite Hd.
  - unfold applyClusterPolicyMutateCRB. by rewrite Hd.
Qed.

(** ApplyPolicy against a binding owned by another object. *)
Lemma ApplyPolicy_owner_mismatch object objectKey resourceChangeByKarmada policy
    existing w :
  let key := (unstructured.GetNamespace object,
              GenerateBindingName (unstructured.GetKind object)
                (unstructured.GetName object)) in
  rbs w !! key = Some existing →
  ownerDiffers object (workv1alpha2.RBMeta existing) = true →
  resourceChangeByKarmada &&
    util.IsLazyActivationEnabled
      (policyv1alpha1.ActivationPreference_ (policyv1alpha1.PPSpec policy)) = false →
  let run := ApplyPP object objectKey resourceChangeByKarmada policy w in
  ((∃ e, run.1 = Err e) ∧ rbs run.2 = rbs w ∧ crbs run.2 = crbs w) ∧
  (∀ id w1, ClaimPolicyForObject object policy w = (Ok id, w1) →
     buildable object → (external w1).1 = Ok tt →
     run = (Err ownerMismatch,
            set_klog (klog (external w1).2
                        ++ ["Failed to apply policy(%s) for object: %s. error: %v"])
              (external w1).2)).
Proof.
  intros key Hst Hd Hgate run. subst run.
  pose proof (ClaimPolicyForObject_onlyTemplateWrites object policy w) as Hclaim.
  unfold ApplyPolicy, bind, try.
  destruct (ClaimPolicyForObject object policy w) as [[id|e] w1]; simpl in *.
  2:{ destruct Hclaim as (Hr & Hc & _). split; [eauto|]. by intros ? ? [=]. }
  destruct Hclaim as (Hr & Hc & _). rewrite Hgate.
  match goal with
  | |- context [BuildResourceBinding _ _ _ object ?l ?a ?s w1] =>
      set (labels := l); set (annotations := a); set (spec := s)
  end.
  destruct (BuildResourceBinding _ _ _ object labels annotations spec w1)
    as [[binding|e] w2] eqn:Hbuild; simpl.
  2:{ pose proof (BuildResourceBinding_preserves GenerateBindingName HookEnabled
                    GetReplicas touched object labels annotations spec w1) as Hb.
      rewrite Hbuild in Hb. simpl in Hb.
      apply touched_stores in Hb as (_ & _ & Hr2 & Hc2 & _).
      simpl. split; [split; [eauto | split; congruence]|].
      intros ? ? [= <- <-] Hok.
      destruct (BuildResourceBinding_buildable object labels annotations spec w1 Hok)
        as [b Hb']. congruence. }
  apply BuildResourceBinding_Ok in Hbuild as (-> & Hkey & _).
  assert (Hst1 : stored w1 !! ObjectKeyFromObject binding = Some existing).
  { rewrite Hkey. simpl. by rewrite Hr. }
  destruct (ownerDiffers_refused object) as [Hrefuse _].
  destruct (Hrefuse binding existing Hd) as [Hf _].
  split.
  - pose proof (upsert_refused DefaultRetrySteps binding existing
                  (applyPolicyMutateFn object binding)
                  (Errorf "timed out waiting for the condition") ownerMismatch w1
                  (applyPolicyMutateFn_no_conflict object binding) Hst1 Hf)
      as [[e He] Ht].
    unfold upsertRB. cbv zeta in He, Ht.
    destruct (RetryOnConflict _ _ _ _ w1) as [r w3]; simpl in *. subst r. simpl.
    apply touched_stores in Ht as (_ & _ & Hr3 & Hc3 & _).
    split; [eauto | split; congruence].
  - intros ? ? [= <- <-] _ Hext. unfold upsertRB, DefaultRetrySteps.
    by rewrite (upsert_refused_exactly _ binding existing _ _ ownerMismatch w1
                  ownerMismatch_not_conflict Hst1 Hf Hext).
Qed.
(** ApplyClusterPolicy against a ResourceBinding owned by another
    object. *)
Lemma ApplyClusterPolicy_owner_mismatch_RB object objectKey resourceChangeByKarmada policy
    existing w :
  let key := (unstructured.GetNamespace object,
              GenerateBindingName (unstructured.GetKind object)
                (unstructured.GetName object)) in
  unstructured.GetNamespace object ≠ "" →
  rbs w !! key = Some existing →
  ownerDiffers object (workv1alpha2.RBMeta existing) = true →
  resourceChangeByKarmada &&
    util.IsLazyActivationEnabled
      (policyv1alpha1.ActivationPreference_ (policyv1alpha1.CPPSpec policy)) = false →
  let run := ApplyCPP object objectKey resourceChangeByKarmada policy w in
  ((∃ e, run.1 = Err e) ∧ rbs run.2 = rbs w ∧ crbs run.2 = crbs w) ∧
  (∀ id w1, ClaimClusterPolicyForObject object policy w = (Ok id, w1) →
     buildable object → (external w1).1 = Ok tt →
     run = (Err ownerMismatch,
            set_klog (klog (external w1).2
                        ++ ["Failed to apply cluster policy(%s) for object: %s. error: %v"])
              (external w1).2)).
Proof.
  intros key Hscope Hst Hd Hgate run. subst run.
  pose proof (ClaimClusterPolicyForObject_onlyTemplateWrites object policy w) as Hclaim.
  unfold ApplyClusterPolicy, bind, try.
  destruct (ClaimClusterPolicyForObject object policy w) as [[id|e] w1]; simpl in *.
  2:{ destruct Hclaim as (Hr & Hc & _). split; [eauto|]. by intros ? ? [=]. }
  destruct Hclaim as (Hr & Hc & _). rewrite Hgate.
  destruct (decide _) as [_|Hn]; [|by destruct Hn].
  match goal with
  | |- context [BuildResourceBinding _ _ _ object ?l ?a ?s w1] =>
      set (labels := l); set (annotations := a); set (spec := s)
  end.
  destruct (BuildResourceBinding _ _ _ object labels annotations spec w1)
    as [[binding|e] w2] eqn:Hbuild; simpl.
  2:{ pose proof (BuildResourceBinding_preserves GenerateBindingName HookEnabled
                    GetReplicas touched object labels annotations spec w1) as Hb.
      rewrite Hbuild in Hb. simpl in Hb.
      apply touched_stores in Hb as (_ & _ & Hr2 & Hc2 & _).
      simpl. split; [split; [eauto | split; congruence]|].
      intros ? ? [= <- <-] Hok.
      destruct (BuildResourceBinding_buildable object labels annotations spec w1 Hok)
        as [b Hb']. congruence. }
  apply BuildResourceBinding_Ok in Hbuild as (-> & Hkey & _).
  assert (Hst1 : stored w1 !! ObjectKeyFromObject binding = Some existing).
  { rewrite Hkey. simpl. by rewrite ?Hr, ?Hc. }
  pose proof (proj2 (proj1 (ownerDiffers_refused object) binding existing Hd)) as Hf.
  split.
  - pose proof (upsert_refused DefaultRetrySteps binding existing
                  (applyClusterPolicyMutateRB object binding)
                  (Errorf "timed out waiting for the condition") ownerMismatch w1
                  (applyClusterPolicyMutateRB_no_conflict object binding) Hst1 Hf)
      as [[e He] Ht].
    unfold upsertRB. cbv zeta in He, Ht.
    destruct (RetryOnConflict _ _ _ _ w1) as [r w3]; simpl in *. subst r. simpl.
    apply touched_stores in Ht as (_ & _ & Hr3 & Hc3 & _).
    split; [eauto | split; congruence].
  - intros ? ? [= <- <-] _ Hext. unfold upsertRB, DefaultRetrySteps.
    by rewrite (upsert_refused_exactly _ binding existing _ _ ownerMismatch w1
                  ownerMismatch_not_conflict Hst1 Hf Hext).
Qed.

(** ApplyClusterPolicy against a ClusterResourceBinding owned by another
    object. *)
Lemma ApplyClusterPolicy_owner_mismatch_CRB object objectKey resourceChangeByKarmada policy
    existing w :
  let key := GenerateBindingName (unstructured.GetKind object)
               (unstructured.GetName object) in
  unstructured.GetNamespace object = "" →
  crbs w !! key = Some existing →
  ownerDiffers object (workv1alpha2.CRBMeta existing) = true →
  resourceChangeByKarmada &&
    util.IsLazyActivationEnabled
      (policyv1alpha1.ActivationPreference_ (policyv1alpha1.CPPSpec policy)) = false →
  let run := ApplyCPP object objectKey resourceChangeByKarmada policy w in
  ((∃ e, run.1 = Err e) ∧ rbs run.2 = rbs w ∧ crbs run.2 = crbs w) ∧
  (∀ id w1, ClaimClusterPolicyForObject object policy w = (Ok id, w1) →
     buildable object → (external w1).1 = Ok tt →
     run = (Err ownerMismatch,
            set_klog (klog (external w1).2
                        ++ ["Failed to apply cluster policy(%s) for object: %s. error: %v"])
              (external w1).2)).
Proof.
  intros key Hscope Hst Hd Hgate run. subst run.
  pose proof (ClaimClusterPolicyForObject_onlyTemplateWrites object policy w) as Hclaim.
  unfold ApplyClusterPolicy, bind, try.
  destruct (ClaimClusterPolicyForObject object policy w) as [[id|e] w1]; simpl in *.
  2:{ destruct Hclaim as (Hr & Hc & _). split; [eauto|]. by intros ? ? [=]. }
  destruct Hclaim as (Hr & Hc & _). rewrite Hgate.
  destruct (decide _) as [Hn|_]; [done|].
  match goal with
  | |- context [BuildClusterResourceBinding _ _ _ object ?l ?a ?s w1] =>
      set (labels := l); set (annotations := a); set (spec := s)
  end.
  destruct (BuildClusterResourceBinding _ _ _ object labels annotations spec w1)
    as [[binding|e] w2] eqn:Hbuild; simpl.
  2:{ pose proof (BuildClusterResourceBinding_preserves GenerateBindingName HookEnabled
                    GetReplicas touched object labels annotations spec w1) as Hb.
      rewrite Hbuild in Hb. simpl in Hb.
      apply touched_stores in Hb as (_ & _ & Hr2 & Hc2 & _).
      simpl. split; [split; [eauto | split; congruence]|].
      intros ? ? [= <- <-] Hok.
      destruct (BuildClusterResourceBinding_buildable object labels annotations spec w1 Hok)
        as [b Hb']. congruence. }
  apply BuildClusterResourceBinding_Ok in Hbuild as (-> & Hkey & _).
  assert (Hst1 : stored w1 !! ObjectKeyFromObject binding = Some existing).
  { rewrite Hkey. simpl. by rewrite ?Hr, ?Hc. }
  pose proof (proj2 (ownerDiffers_refused object) binding existing Hd) as Hf.
  split.
  - pose proof (upsert_refused DefaultRetrySteps binding existing
                  (applyClusterPolicyMutateCRB object binding)
                  (Errorf "timed out waiting for the condition") ownerMismatch w1
                  (applyClusterPolicyMutateCRB_no_conflict object binding) Hst1 Hf)
      as [[e He] Ht].
    unfold upsertCRB. cbv zeta in He, Ht.
    destruct (RetryOnConflict _ _ _ _ w1) as [r w3]; simpl in *. subst r. simpl.
    apply touched_stores in Ht as (_ & _ & Hr3 & Hc3 & _).
    split; [eauto | split; congruence].
  - intros ? ? [= <- <-] _ Hext. unfold upsertCRB, DefaultRetrySteps.
    by rewrite (upsert_refused_exactly _ binding existing _ _ ownerMismatch w1
                  ownerMismatch_not_conflict Hst1 Hf Hext).
Qed.

(** C2: a binding whose controller owner reference carries another UID
    than the resource template is refused by each of the three mutation
    callbacks; an apply that reaches the upsert of such a binding returns
    an error and leaves both binding stores as they were, whichever calls
    fail; and when the claim went through and the read of the binding is
    not failed from outside, the error the apply returns is the
    callback's, and the API server sees no write for the binding. *)
Theorem owner_mismatch_refuses_write
    (object : unstructured.Unstructured) (objectKey : keys.ClusterWideKey)
    (resourceChangeByKarmada : bool)
    (policy : policyv1alpha1.PropagationPolicy)
    (clusterPolicy : policyv1alpha1.ClusterPropagationPolicy)
    (existing : workv1alpha2.ResourceBinding)
    (existingCluster : workv1alpha2.ClusterResourceBinding) (w : World) :
  let name := GenerateBindingName (unstructured.GetKind object)
                (unstructured.GetName object) in
  let namespace := unstructured.GetNamespace object in
  let gate activation := resourceChangeByKarmada && util.IsLazyActivationEnabled activation in
  let refused (run : result OperationResult * World) failed claimed :=
    ((∃ e, run.1 = Err e) ∧ rbs run.2 = rbs w ∧ crbs run.2 = crbs w) ∧
    (∀ (id : string) w1, claimed = (Ok id, w1) →
       buildable object → (external w1).1 = Ok tt →
       run = (Err ownerMismatch,
              set_klog (klog (external w1).2 ++ [failed]) (external w1).2)) in
  (ownerDiffers object (workv1alpha2.RBMeta existing) = true →
   (∀ binding, applyPolicyMutateFn object binding existing = Err ownerMismatch ∧
               applyClusterPolicyMutateRB object binding existing = Err ownerMismatch) ∧
   (rbs w !! (namespace, name) = Some existing →
    gate (policyv1alpha1.ActivationPreference_ (policyv1alpha1.PPSpec policy)) = false →
    refused (ApplyPP object objectKey resourceChangeByKarmada policy w)
      "Failed to apply policy(%s) for object: %s. error: %v"
      (ClaimPolicyForObject object policy w)) ∧
   (namespace ≠ "" →
    rbs w !! (namespace, name) = Some existing →
    gate (policyv1alpha1.ActivationPreference_ (policyv1alpha1.CPPSpec clusterPolicy))
      = false →
    refused (ApplyCPP object objectKey resourceChangeByKarmada clusterPolicy w)
      "Failed to apply cluster policy(%s) for object: %s. error: %v"
      (ClaimClusterPolicyForObject object clusterPolicy w))) ∧
  (ownerDiffers object (workv1alpha2.CRBMeta existingCluster) = true →
   (∀ binding,
      applyClusterPolicyMutateCRB object binding existingCluster = Err ownerMismatch) ∧
   (namespace = "" →
    crbs w !! name = Some existingCluster →
    gate (policyv1alpha1.ActivationPreference_ (policyv1alpha1.CPPSpec clusterPolicy))
      = false →
    refused (ApplyCPP object objectKey resourceChangeByKarmada clusterPolicy w)
      "Failed to apply cluster policy(%s) for object: %s. error: %v"
      (ClaimClusterPolicyForObject object clusterPolicy w))).
Proof.
  intros name namespace gate refused. subst refused gate. cbv beta.
  split; intros Hd.
  - split; [intros binding; by apply ownerDiffers_refused|]. split.
    + intros Hst Hgate.
      exact (ApplyPolicy_owner_mismatch object objectKey resourceChangeByKarmada
               policy existing w Hst Hd Hgate).
    + intros Hns Hst Hgate.
      exact (ApplyClusterPolicy_owner_mismatch_RB object objectKey
               resourceChangeByKarmada clusterPolicy existing w Hns Hst Hd Hgate).
  - split; [intros binding; by apply ownerDiffers_refused|].
    intros Hns Hst Hgate.
    exact (ApplyClusterPolicy_owner_mismatch_CRB object objectKey
             resourceChangeByKarmada clusterPolicy existingCluster w Hns Hst Hd Hgate).
Qed.
End OwnerIdentity.

Lemma owner_mismatch_refuses_write_witness :
  (ApplyPolicy sample.GenerateBindingName sample.HookEnabled sample.GetReplicas
     sample.nginx sample.nginxKey false sample.pp2
     (sample.worldWithRB sample.staleRB)).1 = Err ownerMismatch ∧
  rbs (ApplyPolicy sample.GenerateBindingName sample.HookEnabled sample.GetReplicas
         sample.nginx sample.nginxKey false sample.pp2
         (sample.worldWithRB sample.staleRB)).2
    = rbs (sample.worldWithRB sample.staleRB) ∧
  (ApplyClusterPolicy sample.GenerateBindingName sample.HookEnabled sample.GetReplicas
     sample.teamA sample.teamAKey false sample.cpp2
     (sample.worldWithCRB sample.staleCRB)).1 = Err ownerMismatch.
Proof.
  split; [|split].
  - destruct (proj1 (owner_mismatch_refuses_write sample.GenerateBindingName
                       sample.HookEnabled sample.GetReplicas sample.nginx sample.nginxKey
                       false sample.pp2 sample.cpp2 sample.staleRB sample.staleCRB
                       (sample.worldWithRB sample.staleRB)) eq_refl)
      as (_ & Hpp & _).
    destruct (Hpp eq_refl eq_refl) as [_ Hexact].
    rewrite (Hexact "pp1-id" _ eq_refl (or_introl eq_refl) eq_refl). reflexivity.
  - destruct (proj1 (owner_mismatch_refuses_write sample.GenerateBindingName
                       sample.HookEnabled sample.GetReplicas sample.nginx sample.nginxKey
                       false sample.pp2 sample.cpp2 sample.staleRB sample.staleCRB
                       (sample.worldWithRB sample.staleRB)) eq_refl)
      as (_ & Hpp & _).
    destruct (Hpp eq_refl eq_refl) as [(_ & Hr & _) _]. exact Hr.
  - destruct (proj2 (owner_mismatch_refuses_write sample.GenerateBindingName
                       sample.HookEnabled sample.GetReplicas sample.teamA sample.teamAKey
                       false sample.pp2 sample.cpp2 sample.staleRB sample.staleCRB
                       (sample.worldWithCRB sample.staleCRB)) eq_refl)
      as (_ & Hcpp).
    destruct (Hcpp eq_refl eq_refl eq_refl) as [_ Hexact].
    rewrite (Hexact "cpp1-id" _ eq_refl (or_introl eq_refl) eq_refl). reflexivity.
Defined.

(** ** What a successful upsert leaves behind *)

Section ClientUpsert.
Context {K O : Type} `{ClientObject K O}.

(** After a successful upsert the store holds, at the key of the desired
    object, an object with that key: the desired object after the
    callback when nothing was stored ([P] is any property of the desired
    object that the callback keeps), and otherwise what the callback made
    of the stored object.  No other store changed. *)
Lemma upsert_succeeded (P : O → Prop) (steps : nat) (obj : O) (f : O → result O)
    (lastErr : error) w op w' :
  (∀ b e, f b = Err e → IsConflict e = false) →
  (∀ b b', P b → f b = Ok b' → P b') →
  P obj →
  RetryOnConflict steps (λ o, CreateOrUpdate o f) obj lastErr w = (Ok op, w') →
  let key := ObjectKeyFromObject obj in
  ∃ b' w0, touched w w0 ∧
    (w' = w0 ∨ w' = set_stored (<[key := b']> (stored w)) w0) ∧
    stored w' !! key = Some b' ∧ ObjectKeyFromObject b' = key ∧
    match stored w !! key with
    | None => op = OperationResultCreated ∧ P b'
    | Some existing => f existing = Ok b'
    end.
Proof.
  intros Hf HP Hobj Hrun key.
  pose proof Hrun as Hcases.
  apply upsert_cases in Hcases as (w0 & Ht & Hcases); [|done]. fold key in Hcases.
  destruct Hcases as [(_ & e & [=])|[(-> & [= ->] & b & Hb & Hfb & Hkey)|(b' & -> & Hkey & Hw)]].
  - exists b, w0. split; [done|]. split; [by left|].
    rewrite (touched_stored _ _ Ht), Hb. done.
  - exists b', w0. split; [done|]. split; [by right|].
    rewrite stored_set_stored, lookup_insert_eq. split; [done|]. split; [done|].
    destruct Hw as [([= ->] & Hnone)|([= ->] & existing & Hst & Hfe)].
    + rewrite Hnone. split; [done|].
      destruct (upsert_created P steps obj f lastErr w _ Hf HP (or_introl Hobj) Hrun)
        as (b'' & Hb'' & Hp).
      fold key in Hb''. rewrite stored_set_stored, lookup_insert_eq in Hb''.
      by injection Hb'' as <-.
    + by rewrite Hst.
Qed.
End ClientUpsert.

(** ** The binding an apply produces *)

Section Produced.
Variable GenerateBindingName : string → string → string.
Variable HookEnabled : unstructured.Unstructured → bool.
Variable GetReplicas : unstructured.Unstructured → result (Z * option string).

Local Abbreviation ApplyPP :=
  (ApplyPolicy GenerateBindingName HookEnabled GetReplicas).
Local Abbreviation ApplyCPP :=
  (ApplyClusterPolicy GenerateBindingName HookEnabled GetReplicas).

Lemma ApplyPolicy_Ok object objectKey resourceChangeByKarmada policy w op w' :
  ApplyPP object objectKey resourceChangeByKarmada policy w = (Ok op, w') →
  resourceChangeByKarmada &&
    util.IsLazyActivationEnabled
      (policyv1alpha1.ActivationPreference_ (policyv1alpha1.PPSpec policy)) = false →
  let key := (unstructured.GetNamespace object,
              GenerateBindingName (unstructured.GetKind object)
                (unstructured.GetName object)) in
  crbs w' = crbs w ∧
  ∃ b, rbs w' !! key = Some b ∧ ObjectKeyFromObject b = key ∧
       workv1alpha2.PropagateDeps (workv1alpha2.RBSpec b)
       = policyv1alpha1.PropagateDeps (policyv1alpha1.PPSpec policy).
Proof.
  intros Hrun Hgate key.
  pose proof (ClaimPolicyForObject_onlyTemplateWrites object policy w) as Hclaim.
  unfold ApplyPolicy, bind, try in Hrun.
  destruct (ClaimPolicyForObject object policy w) as [[id|e] w1]; simpl in *; [|done].
  destruct Hclaim as (Hr & Hc & _). rewrite Hgate in Hrun.
  match type of Hrun with
  | context [BuildResourceBinding _ _ _ object ?l ?a ?s w1] =>
      set (labels := l) in *; set (annotations := a) in *; set (spec := s) in *
  end.
  destruct (BuildResourceBinding _ _ _ object labels annotations spec w1)
    as [[binding|e] w2] eqn:Hbuild; simpl in Hrun; [|done].
  apply BuildResourceBinding_Ok in Hbuild as (-> & Hkey & _ & _ & Hdeps).
  unfold upsertRB in Hrun.
  destruct (RetryOnConflict _ _ _ _ w1) as [[op'|e] w3] eqn:Hup; simpl in Hrun; [|done].
  injection Hrun as <- <-.
  apply (upsert_succeeded
           (λ b, workv1alpha2.PropagateDeps (workv1alpha2.RBSpec b)
                 = policyv1alpha1.PropagateDeps spec)) in Hup
    as (b' & w0 & Ht & Hw & Hb' & Hkb & Hmatch);
    [|apply applyPolicyMutateFn_no_conflict| |done].
  2:{ intros b b2 _ Hb. pose proof (applyPolicyMutateFn_cases object binding b) as Hcs.
      rewrite Hb in Hcs. cbv zeta in Hcs. rewrite <- Hdeps. apply Hcs. }
  rewrite Hkey in *. fold key in Hb', Hkb, Hmatch, Hw.
  apply touched_stores in Ht as (_ & _ & Hr0 & Hc0 & _).
  split; [destruct Hw as [->| ->]; simpl; congruence|].
  exists b'. split; [done|]. split; [done|]. simpl in Hmatch.
  destruct (rbs w1 !! key) as [existing|]; [|apply Hmatch].
  pose proof (applyPolicyMutateFn_cases object binding existing) as Hcs.
  rewrite Hmatch in Hcs. cbv zeta in Hcs. rewrite <- Hdeps. apply Hcs.
Qed.

Lemma ApplyClusterPolicy_Ok_namespaced object objectKey resourceChangeByKarmada policy
    w op w' :
  ApplyCPP object objectKey resourceChangeByKarmada policy w = (Ok op, w') →
  resourceChangeByKarmada &&
    util.IsLazyActivationEnabled
      (policyv1alpha1.ActivationPreference_ (policyv1alpha1.CPPSpec policy)) = false →
  unstructured.GetNamespace object ≠ "" →
  let key := (unstructured.GetNamespace object,
              GenerateBindingName (unstructured.GetKind object)
                (unstructured.GetName object)) in
  crbs w' = crbs w ∧
  ∃ b, rbs w' !! key = Some b ∧ ObjectKeyFromObject b = key ∧
       workv1alpha2.PropagateDeps (workv1alpha2.RBSpec b)
       = policyv1alpha1.PropagateDeps (policyv1alpha1.CPPSpec policy).
Proof.
  intros Hrun Hgate Hns key.
  pose proof (ClaimClusterPolicyForObject_onlyTemplateWrites object policy w) as Hclaim.
  unfold ApplyClusterPolicy, bind, try in Hrun.
  destruct (ClaimClusterPolicyForObject object policy w) as [[id|e] w1];
    simpl in *; [|done].
  destruct Hclaim as (Hr & Hc & _). rewrite Hgate in Hrun.
  destruct (decide _) as [_|Hn] in Hrun; [|by destruct Hn].
  match type of Hrun with
  | context [BuildResourceBinding _ _ _ object ?l ?a ?s w1] =>
      set (labels := l) in *; set (annotations := a) in *; set (spec := s) in *
  end.
  destruct (BuildResourceBinding _ _ _ object labels annotations spec w1)
    as [[binding|e] w2] eqn:Hbuild; simpl in Hrun; [|done].
  apply BuildResourceBinding_Ok in Hbuild as (-> & Hkey & _ & _ & Hdeps).
  unfold upsertRB in Hrun.
  destruct (RetryOnConflict _ _ _ _ w1) as [[op'|e] w3] eqn:Hup; simpl in Hrun; [|done].
  injection Hrun as <- <-.
  apply (upsert_succeeded
           (λ b, workv1alpha2.PropagateDeps (workv1alpha2.RBSpec b)
                 = policyv1alpha1.PropagateDeps spec)) in Hup
    as (b' & w0 & Ht & Hw & Hb' & Hkb & Hmatch);
    [|apply applyClusterPolicyMutateRB_no_conflict| |done].
  2:{ intros b b2 _ Hb.
      pose proof (applyClusterPolicyMutateRB_cases object binding b) as Hcs.
      rewrite Hb in Hcs. cbv zeta in Hcs. rewrite <- Hdeps. apply Hcs. }
  rewrite Hkey in *. fold key in Hb', Hkb, Hmatch, Hw.
  apply touched_stores in Ht as (_ & _ & Hr0 & Hc0 & _).
  split; [destruct Hw as [->| ->]; simpl; congruence|].
  exists b'. split; [done|]. split; [done|]. simpl in Hmatch.
  destruct (rbs w1 !! key) as [existing|]; [|apply Hmatch].
  pose proof (applyClusterPolicyMutateRB_cases object binding existing) as Hcs.
  rewrite Hmatch in Hcs. cbv zeta in Hcs. rewrite <- Hdeps. apply Hcs.
Qed.

Lemma ApplyClusterPolicy_Ok_cluster_scoped object objectKey resourceChangeByKarmada
    policy w op w' :
  ApplyCPP object objectKey resourceChangeByKarmada policy w = (Ok op, w') →
  resourceChangeByKarmada &&
    util.IsLazyActivationEnabled
      (policyv1alpha1.ActivationPreference_ (policyv1alpha1.CPPSpec policy)) = false →
  unstructured.GetNamespace object = "" →
  let name := GenerateBindingName (unstructured.GetKind object)
                (unstructured.GetName object) in
  rbs w' = rbs w ∧
  ∃ b, crbs w' !! name = Some b ∧ ObjectKeyFromObject b = name ∧
       workv1alpha2.PropagateDeps (workv1alpha2.CRBSpec b)
       = match crbs w !! name with
         | None => policyv1alpha1.PropagateDeps (policyv1alpha1.CPPSpec policy)
         | Some existing => workv1alpha2.PropagateDeps (workv1alpha2.CRBSpec existing)
         end.
Proof.
  intros Hrun Hgate Hns name.
  pose proof (ClaimClusterPolicyForObject_onlyTemplateWrites object policy w) as Hclaim.
  unfold ApplyClusterPolicy, bind, try in Hrun.
  destruct (ClaimClusterPolicyForObject object policy w) as [[id|e] w1];
    simpl in *; [|done].
  destruct Hclaim as (Hr & Hc & _). rewrite Hgate in Hrun.
  destruct (decide _) as [Hn|_] in Hrun; [done|].
  match type of Hrun with
  | context [BuildClusterResourceBinding _ _ _ object ?l ?a ?s w1] =>
      set (labels := l) in *; set (annotations := a) in *; set (spec := s) in *
  end.
  destruct (BuildClusterResourceBinding _ _ _ object labels annotations spec w1)
    as [[binding|e] w2] eqn:Hbuild; simpl in Hrun; [|done].
  apply BuildClusterResourceBinding_Ok in Hbuild as (-> & Hkey & _ & _ & Hdeps).
  unfold upsertCRB in Hrun.
  destruct (RetryOnConflict _ _ _ _ w1) as [[op'|e] w3] eqn:Hup; simpl in Hrun; [|done].
  injection Hrun as <- <-.
  apply (upsert_succeeded
           (λ b, workv1alpha2.PropagateDeps (workv1alpha2.CRBSpec b)
                 = policyv1alpha1.PropagateDeps spec)) in Hup
    as (b' & w0 & Ht & Hw & Hb' & Hkb & Hmatch);
    [|apply applyClusterPolicyMutateCRB_no_conflict| |done].
  2:{ intros b b2 Hp Hb.
      pose proof (applyClusterPolicyMutateCRB_cases object binding b) as Hcs.
      rewrite Hb in Hcs. cbv zeta in Hcs. rewrite <- Hp. apply Hcs. }
  rewrite Hkey in *. fold name in Hb', Hkb, Hmatch, Hw.
  apply touched_stores in Ht as (_ & _ & Hr0 & Hc0 & _).
  split; [destruct Hw as [->| ->]; simpl; congruence|].
  exists b'. split; [done|]. split; [done|]. simpl in Hmatch. rewrite <- Hc.
  destruct (crbs w1 !! name) as [existing|]; [|apply Hmatch].
  pose proof (applyClusterPolicyMutateCRB_cases object binding existing) as Hcs.
  rewrite Hmatch in Hcs. cbv zeta in Hcs. apply Hcs.
Qed.
End Produced.

Section Scope.
Variable GenerateBindingName : string → string → string.
Variable HookEnabled : unstructured.Unstructured → bool.
Variable GetReplicas : unstructured.Unstructured → result (Z * option string).

Local Abbreviation ApplyPP :=
  (ApplyPolicy GenerateBindingName HookEnabled GetReplicas).
Local Abbreviation ApplyCPP :=
  (ApplyClusterPolicy GenerateBindingName HookEnabled GetReplicas).

(** C7: after a successful ApplyClusterPolicy that got past the lazy
    gate, a template with a namespace has a ResourceBinding of the
    generated name in its own namespace and no ClusterResourceBinding was
    touched; a template without namespace has a ClusterResourceBinding of
    the generated name and no ResourceBinding was touched. *)
Theorem cluster_policy_binding_scope
    (object : unstructured.Unstructured) (objectKey : keys.ClusterWideKey)
    (resourceChangeByKarmada : bool)
    (policy : policyv1alpha1.ClusterPropagationPolicy)
    (w w' : World) (op : OperationResult) :
  ApplyCPP object objectKey resourceChangeByKarmada policy w = (Ok op, w') →
  resourceChangeByKarmada &&
    util.IsLazyActivationEnabled
      (policyv1alpha1.ActivationPreference_ (policyv1alpha1.CPPSpec policy)) = false →
  let name := GenerateBindingName (unstructured.GetKind object)
                (unstructured.GetName object) in
  let namespace := unstructured.GetNamespace object in
  (namespace ≠ "" →
     crbs w' = crbs w ∧
     ∃ b, rbs w' !! (namespace, name) = Some b ∧
          metav1.ObjNamespace (workv1alpha2.RBMeta b) = namespace ∧
          metav1.ObjName (workv1alpha2.RBMeta b) = name) ∧
  (namespace = "" →
     rbs w' = rbs w ∧
     ∃ b, crbs w' !! name = Some b ∧ metav1.ObjName (workv1alpha2.CRBMeta b) = name).
Proof.
  intros Hrun Hgate name namespace. split; intros Hns.
  - destruct (ApplyClusterPolicy_Ok_namespaced _ _ _ _ _ _ _ _ _ _ Hrun Hgate Hns)
      as (Hc & b & Hb & Hkey & _).
    split; [done|]. exists b. split; [done|]. by injection Hkey.
  - destruct (ApplyClusterPolicy_Ok_cluster_scoped _ _ _ _ _ _ _ _ _ _ Hrun Hgate Hns)
      as (Hr & b & Hb & Hkey & _).
    split; [done|]. by exists b.
Qed.

(** C8, as the code has it: the desired ClusterResourceBinding is built
    with the policy's PropagateDeps, so a ClusterResourceBinding that an
    apply creates carries it; only the update callback leaves
    PropagateDeps out, so a ClusterResourceBinding that existed keeps the
    value it had.  A ResourceBinding carries the policy's PropagateDeps
    after every successful upsert. *)
Theorem PropagateDeps_of_bindings
    (object : unstructured.Unstructured) (objectKey : keys.ClusterWideKey)
    (resourceChangeByKarmada : bool)
    (policy : policyv1alpha1.PropagationPolicy)
    (clusterPolicy : policyv1alpha1.ClusterPropagationPolicy)
    (w w' : World) (op : OperationResult) :
  let name := GenerateBindingName (unstructured.GetKind object)
                (unstructured.GetName object) in
  let namespace := unstructured.GetNamespace object in
  let gate activation := resourceChangeByKarmada && util.IsLazyActivationEnabled activation in
  (∀ labels annotations policySpec w0 b w1,
     BuildClusterResourceBinding GenerateBindingName HookEnabled GetReplicas
       object labels annotations policySpec w0 = (Ok b, w1) →
     workv1alpha2.PropagateDeps (workv1alpha2.CRBSpec b)
     = policyv1alpha1.PropagateDeps policySpec) ∧
  (∀ binding existing updated,
     applyClusterPolicyMutateCRB object binding existing = Ok updated →
     workv1alpha2.PropagateDeps (workv1alpha2.CRBSpec updated)
     = workv1alpha2.PropagateDeps (workv1alpha2.CRBSpec existing)) ∧
  (ApplyCPP object objectKey resourceChangeByKarmada clusterPolicy w = (Ok op, w') →
   gate (policyv1alpha1.ActivationPreference_ (policyv1alpha1.CPPSpec clusterPolicy))
     = false →
   namespace = "" →
   ∃ b, crbs w' !! name = Some b ∧
        workv1alpha2.PropagateDeps (workv1alpha2.CRBSpec b)
        = match crbs w !! name with
          | None => policyv1alpha1.PropagateDeps (policyv1alpha1.CPPSpec clusterPolicy)
          | Some existing => workv1alpha2.PropagateDeps (workv1alpha2.CRBSpec existing)
          end) ∧
  (ApplyCPP object objectKey resourceChangeByKarmada clusterPolicy w = (Ok op, w') →
   gate (policyv1alpha1.ActivationPreference_ (policyv1alpha1.CPPSpec clusterPolicy))
     = false →
   namespace ≠ "" →
   ∃ b, rbs w' !! (namespace, name) = Some b ∧
        workv1alpha2.PropagateDeps (workv1alpha2.RBSpec b)
        = policyv1alpha1.PropagateDeps (policyv1alpha1.CPPSpec clusterPolicy)) ∧
  (ApplyPP object objectKey resourceChangeByKarmada policy w = (Ok op, w') →
   gate (policyv1alpha1.ActivationPreference_ (policyv1alpha1.PPSpec policy)) = false →
   ∃ b, rbs w' !! (namespace, name) = Some b ∧
        workv1alpha2.PropagateDeps (workv1alpha2.RBSpec b)
        = policyv1alpha1.PropagateDeps (policyv1alpha1.PPSpec policy)).
Proof.
  intros name namespace gate. subst gate. cbv beta.
  split; [|split; [|split; [|split]]].
  - intros labels annotations policySpec w0 b w1 Hb.
    by apply BuildClusterResourceBinding_Ok in Hb as (_ & _ & _ & _ & Hdeps).
  - intros binding existing updated Hu.
    pose proof (applyClusterPolicyMutateCRB_cases object binding existing) as Hcs.
    rewrite Hu in Hcs. cbv zeta in Hcs. apply Hcs.
  - intros Hrun Hgate Hns.
    destruct (ApplyClusterPolicy_Ok_cluster_scoped _ _ _ _ _ _ _ _ _ _ Hrun Hgate Hns)
      as (_ & b & Hb & _ & Hdeps). eauto.
  - intros Hrun Hgate Hns.
    destruct (ApplyClusterPolicy_Ok_namespaced _ _ _ _ _ _ _ _ _ _ Hrun Hgate Hns)
      as (_ & b & Hb & _ & Hdeps). eauto.
  - intros Hrun Hgate.
    destruct (ApplyPolicy_Ok _ _ _ _ _ _ _ _ _ _ Hrun Hgate) as (_ & b & Hb & _ & Hdeps).
    eauto.
Qed.
End Scope.

Lemma cluster_policy_binding_scope_witness :
  (∃ b, rbs (ApplyClusterPolicy sample.GenerateBindingName sample.HookEnabled
               sample.GetReplicas sample.nginx sample.nginxKey false sample.cpp2
               (sample.worldWith sample.nginxKey sample.nginx)).2
          !! ("default", "nginx-Deployment") = Some b ∧
        metav1.ObjNamespace (workv1alpha2.RBMeta b) = "default" ∧
        metav1.ObjName (workv1alpha2.RBMeta b) = "nginx-Deployment") ∧
  (∃ b, crbs (ApplyClusterPolicy sample.GenerateBindingName sample.HookEnabled
                sample.GetReplicas sample.teamA sample.teamAKey false sample.cpp2
                (sample.worldWith sample.teamAKey sample.teamA)).2
          !! "team-a-Namespace" = Some b ∧
        metav1.ObjName (workv1alpha2.CRBMeta b) = "team-a-Namespace").
Proof.
  split.
  - set (m := ApplyClusterPolicy sample.GenerateBindingName sample.HookEnabled
                sample.GetReplicas sample.nginx sample.nginxKey false sample.cpp2).
    set (w := sample.worldWith sample.nginxKey sample.nginx).
    destruct (cluster_policy_binding_scope sample.GenerateBindingName sample.HookEnabled
                sample.GetReplicas sample.nginx sample.nginxKey false sample.cpp2
                w (m w).2 OperationResultCreated
                (run_Ok m w OperationResultCreated eq_refl) eq_refl) as [Hns _].
    apply Hns. discriminate.
  - set (m := ApplyClusterPolicy sample.GenerateBindingName sample.HookEnabled
                sample.GetReplicas sample.teamA sample.teamAKey false sample.cpp2).
    set (w := sample.worldWith sample.teamAKey sample.teamA).
    destruct (cluster_policy_binding_scope sample.GenerateBindingName sample.HookEnabled
                sample.GetReplicas sample.teamA sample.teamAKey false sample.cpp2
                w (m w).2 OperationResultCreated
                (run_Ok m w OperationResultCreated eq_refl) eq_refl) as [_ Hcs].
    apply Hcs. reflexivity.
Defined.

(** C8, as the spec states it, fails: for team-a, which has no namespace,
    and a ClusterPropagationPolicy with [propagateDeps = true], the
    ClusterResourceBinding that the apply creates has PropagateDeps set,
    not left at its zero value. *)
Lemma created_CRB_carries_PropagateDeps :
  let run := ApplyClusterPolicy sample.GenerateBindingName sample.HookEnabled
               sample.GetReplicas sample.teamA sample.teamAKey false sample.cpp2
               (sample.worldWith sample.teamAKey sample.teamA) in
  run.1 = Ok OperationResultCreated ∧
  policyv1alpha1.PropagateDeps (policyv1alpha1.CPPSpec sample.cpp2) = true ∧
  (workv1alpha2.PropagateDeps ∘ workv1alpha2.CRBSpec <$> crbs run.2 !! "team-a-Namespace")
  = Some true.
Proof. repeat split; reflexivity. Qed.

Lemma PropagateDeps_of_bindings_witness :
  (∃ b, crbs (ApplyClusterPolicy sample.GenerateBindingName sample.HookEnabled
                sample.GetReplicas sample.teamA sample.teamAKey false sample.cpp2
                (sample.worldWith sample.teamAKey sample.teamA)).2
          !! "team-a-Namespace" = Some b ∧
        workv1alpha2.PropagateDeps (workv1alpha2.CRBSpec b) = true) ∧
  (∃ b, crbs (ApplyClusterPolicy sample.GenerateBindingName sample.HookEnabled
                sample.GetReplicas sample.teamA sample.teamAKey false sample.cpp2
                (sample.worldWithCRB sample.teamACRB)).2
          !! "team-a-Namespace" = Some b ∧
        workv1alpha2.PropagateDeps (workv1alpha2.CRBSpec b) = false).
Proof.
  split.
  - set (m := ApplyClusterPolicy sample.GenerateBindingName sample.HookEnabled
                sample.GetReplicas sample.teamA sample.teamAKey false sample.cpp2).
    set (w := sample.worldWith sample.teamAKey sample.teamA).
    exact (proj1 (proj2 (proj2
             (PropagateDeps_of_bindings sample.GenerateBindingName sample.HookEnabled
                sample.GetReplicas sample.teamA sample.teamAKey false sample.pp2
                sample.cpp2 w (m w).2 OperationResultCreated)))
             (run_Ok m w OperationResultCreated eq_refl) eq_refl eq_refl).
  - set (m := ApplyClusterPolicy sample.GenerateBindingName sample.HookEnabled
                sample.GetReplicas sample.teamA sample.teamAKey false sample.cpp2).
    set (w := sample.worldWithCRB sample.teamACRB).
    exact (proj1 (proj2 (proj2
             (PropagateDeps_of_bindings sample.GenerateBindingName sample.HookEnabled
                sample.GetReplicas sample.teamA sample.teamAKey false sample.pp2
                sample.cpp2 w (m w).2 OperationResultUpdated)))
             (run_Ok m w OperationResultUpdated eq_refl) eq_refl eq_refl).
Defined.

(** ** The dependency gate *)

#[global] Instance queuesKept_frame : Frame queuesKept.
Proof.
  split; try done.
  intros w1 w2 w3 [Hw1 Hp1] [Hw2 Hp2]. split; congruence.
Qed.

Lemma GetUnstructuredObject_queuesKept objectKey :
  preserves queuesKept (GetUnstructuredObject objectKey).
Proof.
  intros w. destruct (GetUnstructuredObject_reads objectKey w)
    as (_ & _ & _ & _ & _ & _ & Hw & Hp & _). by split.
Qed.

Section Matching.
Variable ResourceMatches :
  unstructured.Unstructured → policyv1alpha1.ResourceSelector → bool.

Lemma getMatchingLoop_queuesKept resourceSelectors waitKeys matchedResult :
  preserves queuesKept
    (getMatchingLoop ResourceMatches resourceSelectors waitKeys matchedResult).
Proof.
  revert matchedResult.
  induction waitKeys as [|waitKey rest IH]; intros matchedResult; simpl; [frame|].
  frame_step; [apply preserves_try, GetUnstructuredObject_queuesKept|].
  destruct a as [waitObj|err].
  - destruct (existsb _ _); apply IH.
  - frame_step; [frame | apply IH].
Qed.

Lemma GetMatching_queuesKept resourceSelectors :
  preserves queuesKept (GetMatching ResourceMatches resourceSelectors).
Proof. unfold GetMatching. frame. apply getMatchingLoop_queuesKept. Qed.

Lemma getMatchingLoop_sublist resourceSelectors waitKeys matchedResult w r w' :
  getMatchingLoop ResourceMatches resourceSelectors waitKeys matchedResult w = (r, w') →
  ∃ matched, r = Ok matched ∧ ∀ k, k ∈ matched → k ∈ matchedResult ∨ k ∈ waitKeys.
Proof.
  revert matchedResult w.
  induction waitKeys as [|waitKey rest IH]; intros matchedResult w; simpl.
  - intros [= <- <-]. exists matchedResult. split; [done|]. auto.
  - unfold bind, try.
    destruct (GetUnstructuredObject waitKey w) as [[waitObj|err] w1].
    + destruct (existsb _ _); intros Hrun;
        apply IH in Hrun as (matched & -> & Hsub); exists matched; (split; [done|]);
        intros k Hk; destruct (Hsub k Hk) as [Hin|Hin]; set_unfold; tauto.
    + simpl. intros Hrun.
      apply IH in Hrun as (matched & -> & Hsub). exists matched. split; [done|].
      intros k Hk. destruct (Hsub k Hk) as [Hin|Hin]; set_unfold; tauto.
Qed.

(** GetMatching answers keys of the waiting list, and never fails. *)
Lemma GetMatching_waiting resourceSelectors w r w' :
  GetMatching ResourceMatches resourceSelectors w = (r, w') →
  ∃ matched, r = Ok matched ∧ ∀ k, k ∈ matched → k ∈ waitingObjects w.
Proof.
  unfold GetMatching, bind, gets. intros Hrun.
  apply getMatchingLoop_sublist in Hrun as (matched & -> & Hsub).
  exists matched. split; [done|]. intros k Hk.
  destruct (Hsub k Hk) as [Hin|Hin]; [by apply elem_of_nil in Hin|].
  by apply elem_of_elements in Hin.
Qed.
End Matching.

Lemma enqueueDerived_waiting resources w :
  waitingObjects (enqueueDerived resources w).2 = waitingObjects w.
Proof.
  revert w. induction resources as [|r rest IH]; intros w; simpl; [done|].
  destruct (ConstructClusterWideKey r) as [resourceKey|err]; [|done].
  unfold bind, ProcessorAdd, modify. simpl. by rewrite IH.
Qed.

Section DependencyGate.
Variable ResourceMatches :
  unstructured.Unstructured → policyv1alpha1.ResourceSelector → bool.
Variable cleanPPUnmatchedRBs :
  string → string → string → list policyv1alpha1.ResourceSelector → M unit.
Variable listPPDerivedRBs :
  string → string → string → M (list workv1alpha2.ResourceBinding).
Variable cleanCPPUnmatchedRBs :
  string → string → list policyv1alpha1.ResourceSelector → M unit.
Variable cleanUnmatchedCRBs :
  string → string → list policyv1alpha1.ResourceSelector → M unit.
Variable listCPPDerivedRBs :
  string → string → M (list workv1alpha2.ResourceBinding).
Variable listCPPDerivedCRBs :
  string → string → M (list workv1alpha2.ClusterResourceBinding).
Variable IsDependentOverridesPresent : policyv1alpha1.PropagationPolicy → M bool.
Variable IsDependentClusterOverridesPresent :
  policyv1alpha1.ClusterPropagationPolicy → M bool.
Variable preemptionEnabled : policyv1alpha1.PreemptionBehavior → bool.
Variable handlePropagationPolicyPreemption :
  policyv1alpha1.PropagationPolicy → M unit.
Variable handleClusterPropagationPolicyPreemption :
  policyv1alpha1.ClusterPropagationPolicy → M unit.

(** The helpers defined outside detector.go work on bindings, templates
    and override policies; they do not touch the waiting list, and the
    presence check does not enqueue. *)
Hypothesis cleanPPUnmatchedRBs_waiting :
  ∀ id ns name rs, keepsWaiting (cleanPPUnmatchedRBs id ns name rs).
Hypothesis listPPDerivedRBs_waiting :
  ∀ id ns name, keepsWaiting (listPPDerivedRBs id ns name).
Hypothesis cleanCPPUnmatchedRBs_waiting :
  ∀ id name rs, keepsWaiting (cleanCPPUnmatchedRBs id name rs).
Hypothesis cleanUnmatchedCRBs_waiting :
  ∀ id name rs, keepsWaiting (cleanUnmatchedCRBs id name rs).
Hypothesis listCPPDerivedRBs_waiting :
  ∀ id name, keepsWaiting (listCPPDerivedRBs id name).
Hypothesis listCPPDerivedCRBs_waiting :
  ∀ id name, keepsWaiting (listCPPDerivedCRBs id name).
Hypothesis IsDependentOverridesPresent_queues :
  ∀ policy, preserves queuesKept (IsDependentOverridesPresent policy).
Hypothesis IsDependentClusterOverridesPresent_queues :
  ∀ policy, preserves queuesKept (IsDependentClusterOverridesPresent policy).

Local Abbreviation HandlePP :=
  (HandlePropagationPolicyCreationOrUpdate ResourceMatches cleanPPUnmatchedRBs
     listPPDerivedRBs IsDependentOverridesPresent preemptionEnabled
     handlePropagationPolicyPreemption).
Local Abbreviation HandleCPP :=
  (HandleClusterPropagationPolicyCreationOrUpdate ResourceMatches cleanCPPUnmatchedRBs
     cleanUnmatchedCRBs listCPPDerivedRBs listCPPDerivedCRBs
     IsDependentClusterOverridesPresent preemptionEnabled
     handleClusterPropagationPolicyPreemption).

(** C10: when the scan of the waiting list found a match and the
    dependent overrides are not present (or the presence check fails),
    the reconcile of the policy ends there with the error "waiting for
    dependent overrides": the world it leaves is the world the presence
    check left, the waiting list is the one the reconcile started with,
    every matched key is still in it, and the queue holds nothing beyond
    what the fanout to the derived bindings had put there. *)
Theorem missing_overrides_keep_waiting
    (policy : policyv1alpha1.PropagationPolicy)
    (clusterPolicy : policyv1alpha1.ClusterPropagationPolicy)
    (w w1 w2 w3 w4 : World)
    (derived : list workv1alpha2.ResourceBinding)
    (derivedCluster : list workv1alpha2.ClusterResourceBinding)
    (matchedKeys : list keys.ClusterWideKey) :
  let failed (run : result unit * World) (present : result bool * World) :=
    run = (Err waitingForOverrides, present.2) ∧
    waitingObjects run.2 = waitingObjects w ∧
    (∀ key, key ∈ matchedKeys → key ∈ waitingObjects run.2) ∧
    processor run.2 = processor w3 in
  (let meta := policyv1alpha1.PPMeta policy in
   let spec := policyv1alpha1.PPSpec policy in
   let policyID := util.GetLabelValue (metav1.Labels meta)
                     policyv1alpha1.PropagationPolicyPermanentIDLabel in
   cleanPPUnmatchedRBs policyID (metav1.ObjNamespace meta) (metav1.ObjName meta)
     (policyv1alpha1.ResourceSelectors spec) w = (Ok tt, w1) →
   listPPDerivedRBs policyID (metav1.ObjNamespace meta) (metav1.ObjName meta) w1
     = (Ok derived, w2) →
   enqueueDerived (map (λ rb, workv1alpha2.Resource (workv1alpha2.RBSpec rb)) derived) w2
     = (Ok tt, w3) →
   GetMatching ResourceMatches (policyv1alpha1.ResourceSelectors spec) w3
     = (Ok matchedKeys, w4) →
   matchedKeys ≠ [] →
   (IsDependentOverridesPresent policy w4).1 ≠ Ok true →
   failed (HandlePP policy w) (IsDependentOverridesPresent policy w4)) ∧
  (let meta := policyv1alpha1.CPPMeta clusterPolicy in
   let spec := policyv1alpha1.CPPSpec clusterPolicy in
   let policyID := util.GetLabelValue (metav1.Labels meta)
                     policyv1alpha1.ClusterPropagationPolicyPermanentIDLabel in
   (let* _ := cleanCPPUnmatchedRBs policyID (metav1.ObjName meta)
                (policyv1alpha1.ResourceSelectors spec) in
    cleanUnmatchedCRBs policyID (metav1.ObjName meta)
      (policyv1alpha1.ResourceSelectors spec)) w = (Ok tt, w1) →
   (let* rbList := listCPPDerivedRBs policyID (metav1.ObjName meta) in
    let* crbList := listCPPDerivedCRBs policyID (metav1.ObjName meta) in
    ret (rbList, crbList)) w1 = (Ok (derived, derivedCluster), w2) →
   (let* _ := enqueueDerived
                (map (λ rb, workv1alpha2.Resource (workv1alpha2.RBSpec rb)) derived) in
    enqueueDerived
      (map (λ crb, workv1alpha2.Resource (workv1alpha2.CRBSpec crb)) derivedCluster)) w2
     = (Ok tt, w3) →
   GetMatching ResourceMatches (policyv1alpha1.ResourceSelectors spec) w3
     = (Ok matchedKeys, w4) →
   matchedKeys ≠ [] →
   (IsDependentClusterOverridesPresent clusterPolicy w4).1 ≠ Ok true →
   failed (HandleCPP clusterPolicy w)
     (IsDependentClusterOverridesPresent clusterPolicy w4)).
Proof.
  intros failed. subst failed. cbv beta. split.
  - intros meta spec policyID Hclean Hlist Henq Hmatch Hne Hpresent.
    assert (Hlen : bool_decide (0 < length matchedKeys) = true).
    { apply bool_decide_eq_true. destruct matchedKeys; [done | simpl; lia]. }
    pose proof (IsDependentOverridesPresent_queues policy w4) as [Hpw Hpp].
    assert (Hrun : HandlePP policy w
                   = (Err waitingForOverrides, (IsDependentOverridesPresent policy w4).2)).
    { unfold HandlePropagationPolicyCreationOrUpdate. fold meta spec policyID.
      unfold bind at 1. rewrite Hclean. unfold bind at 1. rewrite Hlist.
      unfold bind at 1. rewrite Henq. unfold bind at 1. rewrite Hmatch.
      rewrite Hlen. unfold bind, try.
      destruct (IsDependentOverridesPresent policy w4) as [[[]|e] w5]; simpl in *; done. }
    rewrite Hrun. simpl. split; [done|].
    pose proof (GetMatching_queuesKept ResourceMatches
                  (policyv1alpha1.ResourceSelectors spec) w3) as [Hmw Hmp].
    rewrite Hmatch in Hmw, Hmp. simpl in Hmw, Hmp.
    pose proof (enqueueDerived_waiting
                  (map (λ rb, workv1alpha2.Resource (workv1alpha2.RBSpec rb)) derived) w2)
      as Hew.
    rewrite Henq in Hew. simpl in Hew.
    pose proof (listPPDerivedRBs_waiting policyID (metav1.ObjNamespace meta)
                  (metav1.ObjName meta) w1) as Hlw.
    rewrite Hlist in Hlw. simpl in Hlw.
    pose proof (cleanPPUnmatchedRBs_waiting policyID (metav1.ObjNamespace meta)
                  (metav1.ObjName meta) (policyv1alpha1.ResourceSelectors spec) w) as Hcw.
    rewrite Hclean in Hcw. simpl in Hcw.
    split; [congruence|]. split; [|congruence].
    intros key Hkey. rewrite Hpw, Hmw.
    apply GetMatching_waiting in Hmatch as (matched & [= <-] & Hsub). by apply Hsub.
  - intros meta spec policyID Hclean Hlist Henq Hmatch Hne Hpresent.
    assert (Hlen : bool_decide (0 < length matchedKeys) = true).
    { apply bool_decide_eq_true. destruct matchedKeys; [done | simpl; lia]. }
    pose proof (IsDependentClusterOverridesPresent_queues clusterPolicy w4) as [Hpw Hpp].
    unfold bind in Hclean, Hlist, Henq.
    destruct (cleanCPPUnmatchedRBs _ _ _ w) as [[[]|e] wa] eqn:Hc1; [|done].
    destruct (listCPPDerivedRBs _ _ w1) as [[rbsL|e] wb] eqn:Hl1; [|done].
    destruct (listCPPDerivedCRBs _ _ wb) as [[crbsL|e] wc] eqn:Hl2; [|done].
    injection Hlist as -> -> ->.
    destruct (enqueueDerived _ w2) as [[[]|e] wd] eqn:He1; [|done].
    assert (Hrun : HandleCPP clusterPolicy w
                   = (Err waitingForOverrides,
                      (IsDependentClusterOverridesPresent clusterPolicy w4).2)).
    { unfold HandleClusterPropagationPolicyCreationOrUpdate. fold meta spec policyID.
      unfold bind at 1. rewrite Hc1. unfold bind at 1. rewrite Hclean.
      unfold bind at 1. rewrite Hl1. unfold bind at 1. rewrite Hl2.
      unfold bind at 1. rewrite He1. unfold bind at 1. rewrite Henq.
      unfold bind at 1. rewrite Hmatch.
      rewrite Hlen. unfold bind, try.
      destruct (IsDependentClusterOverridesPresent clusterPolicy w4) as [[[]|e] w5];
        simpl in *; done. }
    rewrite Hrun. simpl. split; [done|].
    pose proof (GetMatching_queuesKept ResourceMatches
                  (policyv1alpha1.ResourceSelectors spec) w3) as [Hmw Hmp].
    rewrite Hmatch in Hmw, Hmp. simpl in Hmw, Hmp.
    pose proof (enqueueDerived_waiting
                  (map (λ rb, workv1alpha2.Resource (workv1alpha2.RBSpec rb)) derived) w2)
      as Hew1.
    rewrite He1 in Hew1. simpl in Hew1.
    pose proof (enqueueDerived_waiting
                  (map (λ crb, workv1alpha2.Resource (workv1alpha2.CRBSpec crb))
                     derivedCluster) wd) as Hew2.
    rewrite Henq in Hew2. simpl in Hew2.
    pose proof (listCPPDerivedRBs_waiting policyID (metav1.ObjName meta) w1) as Hlw1.
    rewrite Hl1 in Hlw1. simpl in Hlw1.
    pose proof (listCPPDerivedCRBs_waiting policyID (metav1.ObjName meta) wb) as Hlw2.
    rewrite Hl2 in Hlw2. simpl in Hlw2.
    pose proof (cleanCPPUnmatchedRBs_waiting policyID (metav1.ObjName meta)
                  (policyv1alpha1.ResourceSelectors spec) w) as Hcw1.
    rewrite Hc1 in Hcw1. simpl in Hcw1.
    pose proof (cleanUnmatchedCRBs_waiting policyID (metav1.ObjName meta)
                  (policyv1alpha1.ResourceSelectors spec) wa) as Hcw2.
    rewrite Hclean in Hcw2. simpl in Hcw2.
    split; [congruence|]. split; [|congruence].
    intros key Hkey. rewrite Hpw, Hmw.
    apply GetMatching_waiting in Hmatch as (matched & [= <-] & Hsub). by apply Hsub.
Qed.
End DependencyGate.

Lemma queuesKept_keepsWaiting {A} (m : M A) : preserves queuesKept m → keepsWaiting m.
Proof. intros Hm w. apply Hm. Qed.

Lemma GetResourceBindings_queuesKept labelKey labelValue :
  preserves queuesKept (GetResourceBindings labelKey labelValue).
Proof. unfold GetResourceBindings. frame. Qed.

Lemma GetClusterResourceBindings_queuesKept labelKey labelValue :
  preserves queuesKept (GetClusterResourceBindings labelKey labelValue).
Proof. unfold GetClusterResourceBindings. frame. Qed.

Lemma missing_overrides_keep_waiting_witness :
  let w := sample.worldWith sample.nginxKey sample.nginx in
  HandlePropagationPolicyCreationOrUpdate sample_helpers.ResourceMatches
    sample_helpers.cleanPPUnmatchedRBs sample_helpers.listPPDerivedRBs
    sample_helpers.overridesMissing sample_helpers.preemptionEnabled
    sample_helpers.noPreemption sample.deployments w
  = (Err waitingForOverrides, w) ∧
  HandleClusterPropagationPolicyCreationOrUpdate sample_helpers.ResourceMatches
    sample_helpers.cleanCPPUnmatchedRBs sample_helpers.cleanUnmatchedCRBs
    sample_helpers.listCPPDerivedRBs sample_helpers.listCPPDerivedCRBs
    sample_helpers.clusterOverridesMissing sample_helpers.preemptionEnabled
    sample_helpers.noClusterPreemption sample.clusterDeployments w
  = (Err waitingForOverrides, w).
Proof.
  intros w.
  pose proof (missing_overrides_keep_waiting sample_helpers.ResourceMatches
                sample_helpers.cleanPPUnmatchedRBs sample_helpers.listPPDerivedRBs
                sample_helpers.cleanCPPUnmatchedRBs sample_helpers.cleanUnmatchedCRBs
                sample_helpers.listCPPDerivedRBs sample_helpers.listCPPDerivedCRBs
                sample_helpers.overridesMissing sample_helpers.clusterOverridesMissing
                sample_helpers.preemptionEnabled sample_helpers.noPreemption
                sample_helpers.noClusterPreemption
                (λ _ _ _ _ _, eq_refl)
                (λ id _ _, queuesKept_keepsWaiting _
                   (GetResourceBindings_queuesKept _ id))
                (λ _ _ _ _, eq_refl)
                (λ _ _ _ _, eq_refl)
                (λ id _, queuesKept_keepsWaiting _
                   (GetResourceBindings_queuesKept _ id))
                (λ id _, queuesKept_keepsWaiting _
                   (GetClusterResourceBindings_queuesKept _ id))
                (λ _ _, conj eq_refl eq_refl)
                (λ _ _, conj eq_refl eq_refl)
                sample.deployments sample.clusterDeployments
                w w w w w [] [] [sample.nginxKey]) as [Hpp Hcpp].
  split.
  - apply Hpp; [reflexivity | reflexivity | reflexivity | reflexivity
                | discriminate | discriminate].
  - apply Hcpp; [reflexivity | reflexivity | reflexivity | reflexivity
                 | discriminate | discriminate].
Defined.

(** ** Marks lead bindings *)

#[global] Instance onlyBindingWrites_frame : Frame onlyBindingWrites.
Proof.
  split.
  - intros w. split; [done|]. exists []. by rewrite app_nil_r.
  - intros w1 w2 w3 (Ht1 & evs1 & Htr1 & Hf1) (Ht2 & evs2 & Htr2 & Hf2).
    split; [congruence|].
    exists (evs1 ++ evs2). rewrite Htr2, Htr1, <- app_assoc.
    split; [done | by apply Forall_app].
  - intros w fs. split; [done|]. exists []. by rewrite app_nil_r.
  - intros w l. split; [done|]. exists []. by rewrite app_nil_r.
Qed.

Lemma FetchResourceTemplate_preserves R `{!Frame R} objRef :
  preserves R (FetchResourceTemplate objRef).
Proof. unfold FetchResourceTemplate. frame. Qed.

Lemma CleanupResourceTemplateMarks_onlyTemplateWrites objRef cleanupFunc :
  preserves onlyTemplateWrites (CleanupResourceTemplateMarks objRef cleanupFunc).
Proof.
  unfold CleanupResourceTemplateMarks. frame_step.
  { apply preserves_try, FetchResourceTemplate_preserves, _. }
  destruct a as [workload|err]; [|destruct (IsNotFound err); frame].
  cbv zeta. frame_step; [frame|]. destruct a as [[]|err]; [|frame].
  frame_step; [|frame]. apply preserves_try, UpdateTemplate_onlyTemplateWrites.
Qed.



Lemma Get_preserves {K O : Type} `{ClientObject K O} R `{!Frame R} (key : K) :
  preserves R (Get key).
Proof. unfold Get. frame. Qed.












(** * Further properties of the reconcilers *)

(** ** Runs that succeed *)

Lemma bind_Ok {A B} (m : M A) (f : A → M B) w b w' :
  bind m f w = (Ok b, w') → ∃ a w1, m w = (Ok a, w1) ∧ f a w1 = (Ok b, w').
Proof. unfold bind. destruct (m w) as [[a|e] w1]; [eauto | done]. Qed.

Lemma try_Ok {A} (m : M A) w r w' : try m w = (Ok r, w') → m w = (r, w').
Proof. unfold try. destruct (m w). by intros [= <- <-]. Qed.

(** ** Fetching a resource template *)

Lemma GetUnstructuredObject_visible objectKey w object :
  (GetUnstructuredObject objectKey w).1 = Ok object →
  visible w objectKey = Some object ∧ klog (GetUnstructuredObject objectKey w).2 = klog w.
Proof.
  unfold GetUnstructuredObject, visible, bind, try, external, gets, klog_Error, modify,
    ret, fail.
  destruct w as [c t r cr p cp wo pr tr kl fs]; simpl.
  destruct fs as [|[e|] fs]; simpl; try done;
    destruct (c !! objectKey) as [o|]; simpl;
    repeat (match goal with
            | |- context [match ?l with [] => _ | _ => _ end] =>
                destruct l as [|[?|] ?]; simpl
            | |- context [match ?x !! ?k with _ => _ end] => destruct (x !! k); simpl
            end); try done; by intros [= ->].
Qed.

Lemma GetUnstructuredObject_failed objectKey w e :
  (GetUnstructuredObject objectKey w).1 = Err e →
  ∃ line, klog (GetUnstructuredObject objectKey w).2 = klog w ++ [line].
Proof.
  unfold GetUnstructuredObject, bind, try, external, gets, klog_Error, modify, ret, fail.
  destruct w as [c t r cr p cp wo pr tr kl fs]; simpl.
  destruct fs as [|[e'|] fs]; simpl;
    repeat (match goal with
            | |- context [match ?x !! ?k with _ => _ end] => destruct (x !! k); simpl
            | |- context [match ?l with [] => _ | _ => _ end] =>
                destruct l as [|[?|] ?]; simpl
            end); try done; eauto.
Qed.

Lemma GetUnstructuredObject_no_faults objectKey w :
  faults w = [] →
  (GetUnstructuredObject objectKey w).1
    = match visible w objectKey with Some o => Ok o | None => Err NotFound end ∧
  faults (GetUnstructuredObject objectKey w).2 = [].
Proof.
  unfold GetUnstructuredObject, visible, bind, try, external, gets, klog_Error, modify,
    ret, fail.
  destruct w as [c t r cr p cp wo pr tr kl fs]; simpl. intros ->. simpl.
  destruct (c !! objectKey) as [o|]; simpl; [done|].
  by destruct (t !! objectKey).
Qed.

(** X1: a fetch answers the copy of the template that the detector can see:
    the informer cache's, and the API server's only when the cache has
    none.  A fetch that succeeds logs nothing, a fetch that fails logs one
    line, and when no call fails the fetch answers the visible copy, or
    NotFound when there is none. *)
Theorem GetUnstructuredObject_cache_first (objectKey : keys.ClusterWideKey) (w : World) :
  let r := GetUnstructuredObject objectKey w in
  (∀ object, r.1 = Ok object → visible w objectKey = Some object ∧ klog r.2 = klog w) ∧
  (∀ e, r.1 = Err e → ∃ line, klog r.2 = klog w ++ [line]) ∧
  (faults w = [] →
   r.1 = match visible w objectKey with Some o => Ok o | None => Err NotFound end).
Proof.
  split; [|split].
  - apply GetUnstructuredObject_visible.
  - apply GetUnstructuredObject_failed.
  - intros Hf. by apply GetUnstructuredObject_no_faults.
Qed.

(** ** Reconcile: the template is gone, or cannot be fetched *)

(** X2: when the template cannot be fetched because it no longer exists,
    Reconcile takes its key off the waiting list and succeeds, so the
    worker forgets the key; no store is written, nothing is enqueued and
    no policy is looked up. *)
Theorem Reconcile_template_gone
    (propagateResource : unstructured.Unstructured → keys.ClusterWideKey → bool → M unit)
    (key : keys.ClusterWideKeyWithConfig) (e : error) (w : World) :
  (GetUnstructuredObject (keys.ClusterWideKey_ key) w).1 = Err e →
  IsNotFound e = true →
  let k := keys.ClusterWideKey_ key in
  let r := Reconcile propagateResource (QClusterWideKeyWithConfig key) w in
  r.1 = Ok tt ∧ (k ∉ waitingObjects r.2) ∧
  waitingObjects r.2 = waitingObjects w ∖ {[k]} ∧
  templates r.2 = templates w ∧ rbs r.2 = rbs w ∧ crbs r.2 = crbs w ∧
  processor r.2 = processor w ∧ trace r.2 = trace w ∧
  (worker (Reconcile propagateResource) (QClusterWideKeyWithConfig key) w).1 = Forget.
Proof.
  intros Hget Hnf k r.
  pose proof (GetUnstructuredObject_reads k w) as Hreads. cbv zeta in Hreads.
  subst r k. unfold worker, Reconcile, bind, try.
  destruct (GetUnstructuredObject _ w) as [[o|e'] w1] eqn:Hrun; simpl in *; [done|].
  injection Hget as ->. rewrite Hnf. unfold RemoveWaiting, modify. simpl.
  destruct Hreads as (_ & Ht & Hr & Hc & _ & _ & Hw & Hp & Htr).
  rewrite Hw. repeat split; try done.
  rewrite elem_of_difference, elem_of_singleton. tauto.
Qed.

Lemma Reconcile_template_gone_witness :
  let w := set_waitingObjects {[sample.nginxKey]} sample.emptyWorld in
  let r := Reconcile sample.propagateResource
             (QClusterWideKeyWithConfig (keys.mkClusterWideKeyWithConfig sample.nginxKey false))
             w in
  r.1 = Ok tt ∧ (sample.nginxKey ∉ waitingObjects r.2).
Proof.
  intros w r.
  destruct (Reconcile_template_gone sample.propagateResource
              (keys.mkClusterWideKeyWithConfig sample.nginxKey false) NotFound w)
    as (H1 & H2 & _); [reflexivity | reflexivity |].
  split; [exact H1 | exact H2].
Defined.

(** X3: when the fetch of the template fails with any error other than
    NotFound, Reconcile answers that error and the worker re-adds the key
    with rate limiting; the waiting list, the stores, the queue and the
    trace are as they were. *)
Theorem Reconcile_fetch_error
    (propagateResource : unstructured.Unstructured → keys.ClusterWideKey → bool → M unit)
    (key : keys.ClusterWideKeyWithConfig) (e : error) (w : World) :
  (GetUnstructuredObject (keys.ClusterWideKey_ key) w).1 = Err e →
  IsNotFound e = false →
  let r := Reconcile propagateResource (QClusterWideKeyWithConfig key) w in
  r.1 = Err e ∧
  waitingObjects r.2 = waitingObjects w ∧
  templates r.2 = templates w ∧ rbs r.2 = rbs w ∧ crbs r.2 = crbs w ∧
  processor r.2 = processor w ∧ trace r.2 = trace w ∧
  (worker (Reconcile propagateResource) (QClusterWideKeyWithConfig key) w).1
    = AddRateLimited.
Proof.
  intros Hget Hnf r.
  pose proof (GetUnstructuredObject_reads (keys.ClusterWideKey_ key) w) as Hreads.
  cbv zeta in Hreads.
  subst r. unfold worker, Reconcile, bind, try.
  destruct (GetUnstructuredObject _ w) as [[o|e'] w1] eqn:Hrun; simpl in *; [done|].
  injection Hget as ->. rewrite Hnf. unfold klog_Error, modify, fail. simpl.
  destruct Hreads as (_ & Ht & Hr & Hc & _ & _ & Hw & Hp & Htr). done.
Qed.

Lemma Reconcile_fetch_error_witness :
  let w := sample.unavailable (sample.worldWith sample.nginxKey sample.nginx) in
  let r := Reconcile sample.propagateResource
             (QClusterWideKeyWithConfig (keys.mkClusterWideKeyWithConfig sample.nginxKey false))
             w in
  r.1 = Err (Errorf "etcdserver: request timed out") ∧ waitingObjects r.2 = waitingObjects w.
Proof.
  intros w r.
  destruct (Reconcile_fetch_error sample.propagateResource
              (keys.mkClusterWideKeyWithConfig sample.nginxKey false)
              (Errorf "etcdserver: request timed out") w)
    as (H1 & H2 & _); [reflexivity | reflexivity |].
  split; [exact H1 | exact H2].
Defined.

(** ** The waiting list *)

(** X4: the waiting list behaves as a set of keys.  A key is waiting right
    after AddWaiting and not waiting right after RemoveWaiting; neither
    changes the answer for another key; adding a key that waits and
    removing one that does not change nothing, and removing a key just
    added restores the list. *)
Theorem waiting_list_membership (k k' : keys.ClusterWideKey) (w : World) :
  (isWaiting k (AddWaiting k w).2).1 = Ok true ∧
  (isWaiting k (RemoveWaiting k w).2).1 = Ok false ∧
  (k' ≠ k →
   (isWaiting k' (AddWaiting k w).2).1 = (isWaiting k' w).1 ∧
   (isWaiting k' (RemoveWaiting k w).2).1 = (isWaiting k' w).1) ∧
  (k ∈ waitingObjects w → waitingObjects (AddWaiting k w).2 = waitingObjects w) ∧
  (k ∉ waitingObjects w →
   waitingObjects (RemoveWaiting k w).2 = waitingObjects w ∧
   waitingObjects (RemoveWaiting k (AddWaiting k w).2).2 = waitingObjects w).
Proof.
  unfold isWaiting, AddWaiting, RemoveWaiting, gets, modify. simpl.
  split; [|split; [|split; [|split]]].
  - f_equal. apply bool_decide_eq_true_2, elem_of_union_l. by apply elem_of_singleton.
  - f_equal. apply bool_decide_eq_false_2.
    rewrite elem_of_difference, elem_of_singleton. tauto.
  - intros Hne. split; f_equal; apply bool_decide_ext.
    + rewrite elem_of_union, elem_of_singleton. tauto.
    + rewrite elem_of_difference, elem_of_singleton. tauto.
  - intros Hin. apply set_eq. intros x. rewrite elem_of_union, elem_of_singleton.
    split; [by intros [->|]|auto].
  - intros Hnot. split; apply set_eq; intros x;
      rewrite elem_of_difference, ?elem_of_union, elem_of_singleton;
      (split; [tauto|]); intros Hx; (split; [tauto|]); by intros ->.
Qed.

(** ** Scanning the waiting list *)

Section Scan.
Variable ResourceMatches :
  unstructured.Unstructured → policyv1alpha1.ResourceSelector → bool.

Lemma visible_reads objectKey w k :
  visible (GetUnstructuredObject objectKey w).2 k = visible w k.
Proof.
  destruct (GetUnstructuredObject_reads objectKey w) as (Hc & Ht & _).
  unfold visible. by rewrite Hc, Ht.
Qed.

Lemma getMatchingLoop_found resourceSelectors waitKeys matchedResult w :
  ∃ found,
    (getMatchingLoop ResourceMatches resourceSelectors waitKeys matchedResult w).1
      = Ok (matchedResult ++ found) ∧
    found `sublist_of` waitKeys ∧
    (∀ k, k ∈ found → selects ResourceMatches resourceSelectors w k = true) ∧
    (faults w = [] →
     ∀ k, k ∈ waitKeys → selects ResourceMatches resourceSelectors w k = true → k ∈ found).
Proof.
  revert matchedResult w.
  induction waitKeys as [|waitKey rest IH]; intros matchedResult w; simpl.
  - exists []. rewrite app_nil_r. split; [done|]. split; [done|].
    split; intros; by set_unfold.
  - unfold bind, try.
    pose proof (GetUnstructuredObject_visible waitKey w) as Hvis.
    pose proof (GetUnstructuredObject_no_faults waitKey w) as Hnf.
    pose proof (visible_reads waitKey w) as Hsame.
    destruct (GetUnstructuredObject waitKey w) as [[waitObj|err] w1]; simpl in *.
    + destruct (Hvis waitObj eq_refl) as [Hv _].
      assert (Hsel : selects ResourceMatches resourceSelectors w waitKey
                     = existsb (ResourceMatches waitObj) resourceSelectors)
        by (unfold selects; by rewrite Hv).
      assert (Hw1 : ∀ k, selects ResourceMatches resourceSelectors w1 k
                         = selects ResourceMatches resourceSelectors w k)
        by (intros k; unfold selects; by rewrite Hsame).
      destruct (existsb _ _) eqn:Hm.
      * destruct (IH (matchedResult ++ [waitKey]) w1) as (found & Hrun & Hsub & Hs & Hc).
        exists (waitKey :: found). rewrite Hrun, <- app_assoc. split; [done|].
        split; [by apply sublist_skip|]. split.
        -- intros k [->|Hk]%elem_of_cons; [done|]. rewrite <- Hw1. by apply Hs.
        -- intros Hf k [->|Hk]%elem_of_cons Hk'; [apply list_elem_of_here|].
           apply list_elem_of_further, Hc; [by apply Hnf | done | by rewrite Hw1].
      * destruct (IH matchedResult w1) as (found & Hrun & Hsub & Hs & Hc).
        exists found. split; [done|]. split; [by apply sublist_cons|]. split.
        -- intros k Hk. rewrite <- Hw1. by apply Hs.
        -- intros Hf k [->|Hk]%elem_of_cons Hk'; [congruence|].
           apply Hc; [by apply Hnf | done | by rewrite Hw1].
    + unfold klog_Error, modify. simpl.
      set (w2 := set_klog _ w1).
      assert (Hw2 : ∀ k, selects ResourceMatches resourceSelectors w2 k
                         = selects ResourceMatches resourceSelectors w k)
        by (intros k; unfold selects; by rewrite <- Hsame).
      destruct (IH matchedResult w2) as (found & Hrun & Hsub & Hs & Hc).
      exists found. split; [done|]. split; [by apply sublist_cons|]. split.
      * intros k Hk. rewrite <- Hw2. by apply Hs.
      * intros Hf k [->|Hk]%elem_of_cons Hk'.
        -- destruct (Hnf Hf) as [Hr _]. unfold selects in Hk'.
           destruct (visible w waitKey); [done | discriminate].
        -- apply Hc; [by apply Hnf | done | by rewrite Hw2].
Qed.

(** X5: GetMatching always answers, never changes the waiting list and
    lists no key twice.  Every key it lists is waiting and its visible
    template matches one of the selectors; when no call fails it lists
    every such key; with no selector it lists nothing. *)
Theorem GetMatching_scans_waiting_list
    (resourceSelectors : list policyv1alpha1.ResourceSelector) (w : World) :
  let r := GetMatching ResourceMatches resourceSelectors w in
  ∃ matchedResult, r.1 = Ok matchedResult ∧ NoDup matchedResult ∧
    waitingObjects r.2 = waitingObjects w ∧
    (∀ k, k ∈ matchedResult →
       k ∈ waitingObjects w ∧ selects ResourceMatches resourceSelectors w k = true) ∧
    (faults w = [] →
     ∀ k, k ∈ waitingObjects w → selects ResourceMatches resourceSelectors w k = true →
          k ∈ matchedResult) ∧
    (resourceSelectors = [] → matchedResult = []).
Proof.
  intros r. subst r.
  pose proof (GetMatching_queuesKept ResourceMatches resourceSelectors w) as [Hw _].
  unfold GetMatching, bind, gets in *. simpl in *.
  destruct (getMatchingLoop_found resourceSelectors (elements (waitingObjects w)) [] w)
    as (found & Hrun & Hsub & Hs & Hc).
  exists found. split; [done|].
  split; [exact (sublist_NoDup _ _ (NoDup_elements _) Hsub)|].
  split; [done|]. split; [|split].
  - intros k Hk. split; [|by apply Hs].
    apply elem_of_elements. by eapply elem_of_sublist.
  - intros Hf k Hk Hsel. apply Hc; [done | by apply elem_of_elements | done].
  - intros ->. destruct found as [|k ?]; [done|].
    specialize (Hs k (list_elem_of_here _ _)). unfold selects in Hs.
    by destruct (visible w k).
Qed.
End Scan.

(** ** What a claim writes *)

(** The labels a claim by a PropagationPolicy leaves without the label of
    the other scope. *)
Lemma excludeClusterPolicy_delete (labels : gmap string string) :
  (excludeClusterPolicy labels).2
    = delete policyv1alpha1.ClusterPropagationPolicyPermanentIDLabel labels.
Proof.
  unfold excludeClusterPolicy.
  destruct (labels !! _) eqn:Hl; simpl; [done|]. symmetry. by apply delete_id.
Qed.

Lemma UpdateTemplate_written o w w' :
  UpdateTemplate o w = (Ok tt, w') →
  templates w' = <[unstructured.keyOf o := o]> (templates w) ∧
  trace w' = trace w ++ [EvUpdateTemplate (unstructured.keyOf o) None] ∧
  rbs w' = rbs w ∧ crbs w' = crbs w ∧ waitingObjects w' = waitingObjects w ∧
  processor w' = processor w.
Proof.
  intros Hrun. apply apiWrite_Ok in Hrun as (w1 & Hext & _ & ->). simpl.
  apply external_stores in Hext as (-> & -> & -> & -> & -> & ->). done.
Qed.

(** A claim that succeeds answers the permanent ID of the policy. *)
Lemma ClaimPolicyForObject_id object policy id w w1 :
  ClaimPolicyForObject object policy w = (Ok id, w1) →
  id = util.GetLabelValue (metav1.Labels (policyv1alpha1.PPMeta policy))
         policyv1alpha1.PropagationPolicyPermanentIDLabel.
Proof.
  unfold ClaimPolicyForObject. cbv zeta.
  destruct (_ && _ && _); [by intros [= <- _]|].
  intros Hrun. apply bind_Ok in Hrun as (u & w2 & _ & Hret). by injection Hret as <- _.
Qed.

Lemma ClaimClusterPolicyForObject_id object policy id w w1 :
  ClaimClusterPolicyForObject object policy w = (Ok id, w1) →
  id = util.GetLabelValue (metav1.Labels (policyv1alpha1.CPPMeta policy))
         policyv1alpha1.ClusterPropagationPolicyPermanentIDLabel.
Proof.
  unfold ClaimClusterPolicyForObject. cbv zeta.
  destruct (decide _); [by intros [= <- _]|].
  intros Hrun. apply bind_Ok in Hrun as (u & w2 & _ & Hret). by injection Hret as <- _.
Qed.

(** X6: a successful ClaimPolicyForObject answers the permanent ID of the
    policy, and either changed nothing (the template already bore that ID
    and no ClusterPropagationPolicy label), or issued exactly one update
    that stores the template with the ID under the PropagationPolicy
    label, without the ClusterPropagationPolicy label, with the policy's
    namespace and name as annotations, and with every other label and
    annotation as it was. *)
Theorem ClaimPolicyForObject_marks (object : unstructured.Unstructured)
    (policy : policyv1alpha1.PropagationPolicy) (id : string) (w w1 : World) :
  ClaimPolicyForObject object policy w = (Ok id, w1) →
  let ppLabel := policyv1alpha1.PropagationPolicyPermanentIDLabel in
  let cppLabel := policyv1alpha1.ClusterPropagationPolicyPermanentIDLabel in
  let nsAnnotation := policyv1alpha1.PropagationPolicyNamespaceAnnotation in
  let nameAnnotation := policyv1alpha1.PropagationPolicyNameAnnotation in
  id = util.GetLabelValue (metav1.Labels (policyv1alpha1.PPMeta policy)) ppLabel ∧
  ((w1 = w ∧ unstructured.GetLabels object ≠ ∅ ∧
    util.GetLabelValue (unstructured.GetLabels object) ppLabel = id ∧
    unstructured.GetLabels object !! cppLabel = None) ∨
   (∃ claimed labels annotations,
      claimed = unstructured.SetAnnotations annotations
                  (unstructured.SetLabels labels object) ∧
      templates w1 = <[unstructured.keyOf object := claimed]> (templates w) ∧
      trace w1 = trace w ++ [EvUpdateTemplate (unstructured.keyOf object) None] ∧
      labels !! ppLabel = Some id ∧
      labels !! cppLabel = None ∧
      (∀ k, k ≠ ppLabel → k ≠ cppLabel → labels !! k = unstructured.GetLabels object !! k) ∧
      annotations !! nsAnnotation
        = Some (metav1.ObjNamespace (policyv1alpha1.PPMeta policy)) ∧
      annotations !! nameAnnotation
        = Some (metav1.ObjName (policyv1alpha1.PPMeta policy)) ∧
      (∀ k, k ≠ nsAnnotation → k ≠ nameAnnotation →
            annotations !! k = unstructured.GetAnnotations object !! k))).
Proof.
  intros Hrun ppLabel cppLabel nsAnnotation nameAnnotation.
  unfold ClaimPolicyForObject in Hrun. fold ppLabel in Hrun.
  set (policyID := util.GetLabelValue (metav1.Labels (policyv1alpha1.PPMeta policy)) ppLabel)
    in *.
  set (objLabels := unstructured.GetLabels object) in *.
  set (excluded := if bool_decide (0 < size objLabels)
                   then excludeClusterPolicy objLabels else (false, objLabels)) in *.
  assert (Hex2 : excluded.2 = delete cppLabel objLabels).
  { subst excluded. destruct (bool_decide (0 < size objLabels)) eqn:Hsz.
    - apply excludeClusterPolicy_delete.
    - simpl. apply bool_decide_eq_false in Hsz.
      assert (objLabels = ∅) as -> by (apply map_size_empty_inv; lia).
      by rewrite delete_empty. }
  destruct (bool_decide (0 < size objLabels) && negb excluded.1 && bool_decide _) eqn:Hc.
  - injection Hrun as <- <-. split; [done|]. left. split; [done|].
    apply andb_true_iff in Hc as [[Hsz Hex]%andb_true_iff Hid].
    apply bool_decide_eq_true in Hsz, Hid.
    assert (Hcpp : objLabels !! cppLabel = None).
    { subst excluded. rewrite bool_decide_eq_true_2 in Hex by done.
      unfold excludeClusterPolicy in Hex. fold cppLabel in Hex.
      by destruct (objLabels !! cppLabel). }
    split; [intros He; rewrite He, map_size_empty in Hsz; lia|].
    split; [|done].
    rewrite Hex2 in Hid. unfold util.GetLabelValue in *.
    by rewrite lookup_delete_ne in Hid.
  - clear Hc. unfold bind in Hrun.
    match type of Hrun with
    | context [UpdateTemplate ?o w] => set (objectCopy := o) in *
    end.
    destruct (UpdateTemplate objectCopy w) as [[[]|e] w2] eqn:Hupd; [|done].
    injection Hrun as <- <-. split; [done|]. right.
    apply UpdateTemplate_written in Hupd as (Ht & Htr & _).
    exists objectCopy. eexists _, _. split; [reflexivity|].
    split; [exact Ht|]. split; [exact Htr|].
    rewrite Hex2.
    split; [apply lookup_insert_eq|].
    split; [by rewrite lookup_insert_ne, lookup_delete_eq|].
    split; [intros k Hk1 Hk2; by rewrite lookup_insert_ne, lookup_delete_ne|].
    split; [by rewrite lookup_insert_ne, lookup_insert_eq|].
    split; [apply lookup_insert_eq|].
    intros k Hk1 Hk2. by rewrite !lookup_insert_ne.
Qed.

Lemma ClaimPolicyForObject_marks_witness :
  let w1 := (ClaimPolicyForObject sample.teamAClaimed sample.pp1
               (sample.worldWith sample.teamAKey sample.teamAClaimed)).2 in
  ∃ claimed, templates w1 !! sample.teamAKey = Some claimed ∧
    unstructured.GetLabels claimed
      !! policyv1alpha1.PropagationPolicyPermanentIDLabel = Some "pp1-id" ∧
    unstructured.GetLabels claimed
      !! policyv1alpha1.ClusterPropagationPolicyPermanentIDLabel = None.
Proof.
  intros w1.
  set (m := ClaimPolicyForObject sample.teamAClaimed sample.pp1).
  set (w := sample.worldWith sample.teamAKey sample.teamAClaimed).
  destruct (ClaimPolicyForObject_marks sample.teamAClaimed sample.pp1 "pp1-id" w (m w).2
              (run_Ok m w "pp1-id" eq_refl))
    as (_ & [(_ & _ & _ & Hw)
            |(claimed & labels & annotations & -> & Ht & _ & Hpp & Hcpp & _)]).
  - discriminate Hw.
  - exists (unstructured.SetAnnotations annotations
              (unstructured.SetLabels labels sample.teamAClaimed)).
    split; [subst w1; fold m w; rewrite Ht; apply lookup_insert_eq|].
    split; [exact Hpp | exact Hcpp].
Defined.

(** X7: a successful ClaimClusterPolicyForObject answers the permanent ID
    of the policy, and either changed nothing (the template already bore
    that ID), or issued exactly one update that stores the template with
    the ID under the ClusterPropagationPolicy label and the policy's name
    as annotation; every other label, the PropagationPolicy label
    included, and every other annotation are as they were. *)
Theorem ClaimClusterPolicyForObject_marks (object : unstructured.Unstructured)
    (policy : policyv1alpha1.ClusterPropagationPolicy) (id : string) (w w1 : World) :
  ClaimClusterPolicyForObject object policy w = (Ok id, w1) →
  let cppLabel := policyv1alpha1.ClusterPropagationPolicyPermanentIDLabel in
  let cppAnnotation := policyv1alpha1.ClusterPropagationPolicyAnnotation in
  id = util.GetLabelValue (metav1.Labels (policyv1alpha1.CPPMeta policy)) cppLabel ∧
  ((w1 = w ∧ util.GetLabelValue (unstructured.GetLabels object) cppLabel = id) ∨
   (∃ claimed labels annotations,
      claimed = unstructured.SetAnnotations annotations
                  (unstructured.SetLabels labels object) ∧
      templates w1 = <[unstructured.keyOf object := claimed]> (templates w) ∧
      trace w1 = trace w ++ [EvUpdateTemplate (unstructured.keyOf object) None] ∧
      labels !! cppLabel = Some id ∧
      (∀ k, k ≠ cppLabel → labels !! k = unstructured.GetLabels object !! k) ∧
      annotations !! cppAnnotation
        = Some (metav1.ObjName (policyv1alpha1.CPPMeta policy)) ∧
      (∀ k, k ≠ cppAnnotation →
            annotations !! k = unstructured.GetAnnotations object !! k))).
Proof.
  intros Hrun cppLabel cppAnnotation.
  unfold ClaimClusterPolicyForObject in Hrun. fold cppLabel in Hrun.
  destruct (decide _) as [Heq|Hne].
  - injection Hrun as <- <-. split; [done|]. by left.
  - unfold bind in Hrun.
    match type of Hrun with
    | context [UpdateTemplate ?o w] => set (objectCopy := o) in *
    end.
    destruct (UpdateTemplate objectCopy w) as [[[]|e] w2] eqn:Hupd; [|done].
    injection Hrun as <- <-. split; [done|]. right.
    apply UpdateTemplate_written in Hupd as (Ht & Htr & _).
    exists objectCopy. eexists _, _. split; [reflexivity|].
    split; [exact Ht|]. split; [exact Htr|].
    split; [apply lookup_insert_eq|].
    split; [intros k Hk; by rewrite lookup_insert_ne|].
    split; [apply lookup_insert_eq|].
    intros k Hk. by rewrite lookup_insert_ne.
Qed.

Lemma ClaimClusterPolicyForObject_marks_witness :
  let w1 := (ClaimClusterPolicyForObject sample.nginxClaimed sample.cpp1
               (sample.worldWith sample.nginxKey sample.nginxClaimed)).2 in
  ∃ claimed, templates w1 !! sample.nginxKey = Some claimed ∧
    unstructured.GetLabels claimed
      !! policyv1alpha1.ClusterPropagationPolicyPermanentIDLabel = Some "cpp1-id" ∧
    unstructured.GetLabels claimed
      !! policyv1alpha1.PropagationPolicyPermanentIDLabel = Some "pp1-id".
Proof.
  intros w1.
  set (m := ClaimClusterPolicyForObject sample.nginxClaimed sample.cpp1).
  set (w := sample.worldWith sample.nginxKey sample.nginxClaimed).
  destruct (ClaimClusterPolicyForObject_marks sample.nginxClaimed sample.cpp1 "cpp1-id" w
              (m w).2 (run_Ok m w "cpp1-id" eq_refl))
    as (_ & [(_ & Hw)|(claimed & labels & annotations & -> & Ht & _ & Hcpp & Hk & _)]).
  - discriminate Hw.
  - exists (unstructured.SetAnnotations annotations
              (unstructured.SetLabels labels sample.nginxClaimed)).
    split; [subst w1; fold m w; rewrite Ht; apply lookup_insert_eq|].
    split; [exact Hcpp|]. by rewrite Hk.
Defined.

(** ** Applying twice *)

Lemma external_no_faults w : faults w = [] → external w = (Ok tt, w).
Proof. unfold external. by intros ->. Qed.

Section ClientUpToDate.
Context {K O : Type} `{ClientObject K O}.

(** An upsert over a stored object that the callback leaves as it is
    reads once and writes nothing. *)
Lemma upsert_up_to_date (steps : nat) (obj b : O) (f : O → result O) (lastErr : error) w :
  faults w = [] →
  stored w !! ObjectKeyFromObject obj = Some b →
  f b = Ok b →
  ObjectKeyFromObject b = ObjectKeyFromObject obj →
  RetryOnConflict (S steps) (λ o, CreateOrUpdate o f) obj lastErr w
    = (Ok OperationResultNone, w).
Proof.
  intros Hf Hst Hfb Hkey. simpl.
  unfold bind, CreateOrUpdate, bind, try, Get, bind, gets.
  rewrite (external_no_faults w Hf). simpl. rewrite Hst. simpl.
  unfold mutate. rewrite Hfb, decide_True by done.
  by rewrite decide_True.
Qed.
End ClientUpToDate.

Lemma union_union_idemp (m1 m2 : gmap string string) : m1 ∪ (m1 ∪ m2) = m1 ∪ m2.
Proof. by rewrite (assoc_L (∪)), (idemp_L (∪)). Qed.

Lemma delete_union_delete (k : string) (m1 m2 : gmap string string) :
  delete k (m1 ∪ delete k (m1 ∪ m2)) = delete k (m1 ∪ m2).
Proof.
  apply map_eq. intros i. destruct (decide (i = k)) as [->|Hne].
  - by rewrite !lookup_delete_eq.
  - rewrite !lookup_delete_ne by done. rewrite !lookup_union, lookup_delete_ne by done.
    rewrite lookup_union. by destruct (m1 !! i), (m2 !! i).
Qed.

Lemma ownerDiffers_owners object m m' :
  metav1.OwnerReferences m' = metav1.OwnerReferences m →
  ownerDiffers object m' = ownerDiffers object m.
Proof. unfold ownerDiffers, metav1.GetControllerOfNoCopy. by intros ->. Qed.

Lemma ObjectMeta_ext (m m' : metav1.ObjectMeta) :
  metav1.ObjName m = metav1.ObjName m' →
  metav1.ObjNamespace m = metav1.ObjNamespace m' →
  metav1.ObjUID m = metav1.ObjUID m' →
  metav1.ResourceVersion m = metav1.ResourceVersion m' →
  metav1.Labels m = metav1.Labels m' →
  metav1.Annotations m = metav1.Annotations m' →
  metav1.OwnerReferences m = metav1.OwnerReferences m' →
  metav1.Finalizers m = metav1.Finalizers m' →
  metav1.DeletionTimestamp m = metav1.DeletionTimestamp m' →
  m = m'.
Proof. destruct m, m'. simpl. by intros -> -> -> -> -> -> -> -> ->. Qed.

Lemma ResourceBindingSpec_ext (s s' : workv1alpha2.ResourceBindingSpec) :
  workv1alpha2.Resource s = workv1alpha2.Resource s' →
  workv1alpha2.PropagateDeps s = workv1alpha2.PropagateDeps s' →
  workv1alpha2.ReplicaRequirements s = workv1alpha2.ReplicaRequirements s' →
  workv1alpha2.Replicas s = workv1alpha2.Replicas s' →
  workv1alpha2.Clusters s = workv1alpha2.Clusters s' →
  workv1alpha2.Placement s = workv1alpha2.Placement s' →
  workv1alpha2.SchedulerName s = workv1alpha2.SchedulerName s' →
  workv1alpha2.Failover s = workv1alpha2.Failover s' →
  workv1alpha2.ConflictResolution s = workv1alpha2.ConflictResolution s' →
  s = s'.
Proof. destruct s, s'. simpl. by intros -> -> -> -> -> -> -> -> ->. Qed.

(** Reading a field of an object after assignments to its fields. *)
Ltac fields :=
  cbn [metav1.ObjName metav1.ObjNamespace metav1.ObjUID metav1.ResourceVersion
       metav1.Labels metav1.Annotations metav1.OwnerReferences metav1.Finalizers
       metav1.DeletionTimestamp
       metav1.setLabels metav1.setAnnotations metav1.setOwnerReferences
       metav1.setFinalizers
       workv1alpha2.RBMeta workv1alpha2.RBSpec workv1alpha2.CRBMeta workv1alpha2.CRBSpec
       workv1alpha2.Resource workv1alpha2.PropagateDeps workv1alpha2.ReplicaRequirements
       workv1alpha2.Replicas workv1alpha2.Clusters workv1alpha2.Placement
       workv1alpha2.SchedulerName workv1alpha2.Failover workv1alpha2.ConflictResolution
       bindingspec.setResource bindingspec.setPropagateDeps
       bindingspec.setReplicaRequirements bindingspec.setReplicas bindingspec.setPlacement
       bindingspec.setSchedulerName bindingspec.setFailover
       bindingspec.setConflictResolution].

(** The callbacks are idempotent: what they made of a binding they leave
    as it is. *)
Lemma applyPolicyMutateFn_idempotent object binding b b' :
  ownerDiffers object (workv1alpha2.RBMeta binding) = false →
  applyPolicyMutateFn object binding b = Ok b' →
  applyPolicyMutateFn object binding b' = Ok b'.
Proof.
  intros Hown. unfold applyPolicyMutateFn.
  destruct (ownerDiffers object (workv1alpha2.RBMeta b)); [done|].
  intros [= <-].
  rewrite (ownerDiffers_owners object (workv1alpha2.RBMeta binding)), Hown by done.
  apply (f_equal Ok), f_equal2.
  - apply ObjectMeta_ext; fields; try reflexivity.
    + unfold util.DedupeAndMergeLabels.
      by rewrite !excludeClusterPolicy_delete, delete_union_delete.
    + unfold util.DedupeAndMergeAnnotations. by rewrite union_union_idemp.
  - apply ResourceBindingSpec_ext; fields; reflexivity.
Qed.

Lemma applyClusterPolicyMutateRB_idempotent object binding b b' :
  ownerDiffers object (workv1alpha2.RBMeta binding) = false →
  applyClusterPolicyMutateRB object binding b = Ok b' →
  applyClusterPolicyMutateRB object binding b' = Ok b'.
Proof.
  intros Hown. unfold applyClusterPolicyMutateRB.
  destruct (ownerDiffers object (workv1alpha2.RBMeta b)); [done|].
  intros [= <-].
  rewrite (ownerDiffers_owners object (workv1alpha2.RBMeta binding)), Hown by done.
  apply (f_equal Ok), f_equal2.
  - apply ObjectMeta_ext; fields; try reflexivity.
    + unfold util.DedupeAndMergeLabels. by rewrite union_union_idemp.
    + unfold util.DedupeAndMergeAnnotations. by rewrite union_union_idemp.
  - apply ResourceBindingSpec_ext; fields; reflexivity.
Qed.

Lemma applyClusterPolicyMutateCRB_idempotent object binding b b' :
  ownerDiffers object (workv1alpha2.CRBMeta binding) = false →
  applyClusterPolicyMutateCRB object binding b = Ok b' →
  applyClusterPolicyMutateCRB object binding b' = Ok b'.
Proof.
  intros Hown. unfold applyClusterPolicyMutateCRB.
  destruct (ownerDiffers object (workv1alpha2.CRBMeta b)); [done|].
  intros [= <-].
  rewrite (ownerDiffers_owners object (workv1alpha2.CRBMeta binding)), Hown by done.
  apply (f_equal Ok), f_equal2.
  - apply ObjectMeta_ext; fields; try reflexivity.
    + unfold util.DedupeAndMergeLabels. by rewrite union_union_idemp.
    + unfold util.DedupeAndMergeAnnotations. by rewrite union_union_idemp.
  - apply ResourceBindingSpec_ext; fields; reflexivity.
Qed.

(** A binding that is the desired one is left as it is by the callback
    that was built from it. *)
Lemma applyPolicyMutateFn_fixpoint object binding :
  ownerDiffers object (workv1alpha2.RBMeta binding) = false →
  metav1.Labels (workv1alpha2.RBMeta binding)
    !! policyv1alpha1.ClusterPropagationPolicyPermanentIDLabel = None →
  applyPolicyMutateFn object binding binding = Ok binding.
Proof.
  intros Hown Hcpp. unfold applyPolicyMutateFn. rewrite Hown.
  destruct binding as [m s]. apply (f_equal Ok), f_equal2.
  - apply ObjectMeta_ext; fields; try reflexivity.
    + unfold util.DedupeAndMergeLabels.
      rewrite excludeClusterPolicy_delete, (idemp_L (∪)). by apply delete_id.
    + unfold util.DedupeAndMergeAnnotations. by rewrite (idemp_L (∪)).
  - apply ResourceBindingSpec_ext; fields; reflexivity.
Qed.

Lemma applyClusterPolicyMutateRB_fixpoint object binding :
  ownerDiffers object (workv1alpha2.RBMeta binding) = false →
  applyClusterPolicyMutateRB object binding binding = Ok binding.
Proof.
  intros Hown. unfold applyClusterPolicyMutateRB. rewrite Hown.
  destruct binding as [m s]. apply (f_equal Ok), f_equal2.
  - apply ObjectMeta_ext; fields; try reflexivity.
    + unfold util.DedupeAndMergeLabels. by rewrite (idemp_L (∪)).
    + unfold util.DedupeAndMergeAnnotations. by rewrite (idemp_L (∪)).
  - apply ResourceBindingSpec_ext; fields; reflexivity.
Qed.

Lemma applyClusterPolicyMutateCRB_fixpoint object binding :
  ownerDiffers object (workv1alpha2.CRBMeta binding) = false →
  applyClusterPolicyMutateCRB object binding binding = Ok binding.
Proof.
  intros Hown. unfold applyClusterPolicyMutateCRB. rewrite Hown.
  destruct binding as [m s]. apply (f_equal Ok), f_equal2.
  - apply ObjectMeta_ext; fields; try reflexivity.
    + unfold util.DedupeAndMergeLabels. by rewrite (idemp_L (∪)).
    + unfold util.DedupeAndMergeAnnotations. by rewrite (idemp_L (∪)).
  - apply ResourceBindingSpec_ext; fields; reflexivity.
Qed.

Lemma ownerDiffers_NewControllerRef object (m : metav1.ObjectMeta) :
  metav1.OwnerReferences m = [NewControllerRef object] → ownerDiffers object m = false.
Proof.
  intros Hrefs. unfold ownerDiffers, metav1.GetControllerOfNoCopy. rewrite Hrefs. simpl.
  apply bool_decide_eq_false. by intros [].
Qed.

Section Desired.
Variable GenerateBindingName : string → string → string.
Variable HookEnabled : unstructured.Unstructured → bool.
Variable GetReplicas : unstructured.Unstructured → result (Z * option string).

(** The desired ResourceBinding, field by field.  Building reads the
    object and the policy only: the world plays no part in the result. *)
Lemma BuildResourceBinding_fields object labels annotations policySpec w b w1 :
  BuildResourceBinding GenerateBindingName HookEnabled GetReplicas
    object labels annotations policySpec w = (Ok b, w1) →
  (∀ w', BuildResourceBinding GenerateBindingName HookEnabled GetReplicas
           object labels annotations policySpec w' = (Ok b, w')) ∧
  workv1alpha2.RBMeta b
    = metav1.mkObjectMeta
        (GenerateBindingName (unstructured.GetKind object) (unstructured.GetName object))
        (unstructured.GetNamespace object) "" "" labels annotations
        [NewControllerRef object] [util.BindingControllerFinalizer] None ∧
  workv1alpha2.Resource (workv1alpha2.RBSpec b)
    = workv1alpha2.mkObjectReference (unstructured.GetAPIVersion object)
        (unstructured.GetKind object) (unstructured.GetNamespace object)
        (unstructured.GetName object) (unstructured.GetUID object)
        (unstructured.GetResourceVersion object) ∧
  workv1alpha2.Clusters (workv1alpha2.RBSpec b) = [] ∧
  workv1alpha2.PropagateDeps (workv1alpha2.RBSpec b)
    = policyv1alpha1.PropagateDeps policySpec ∧
  workv1alpha2.Placement (workv1alpha2.RBSpec b)
    = Some (policyv1alpha1.Placement policySpec) ∧
  workv1alpha2.SchedulerName (workv1alpha2.RBSpec b)
    = policyv1alpha1.SchedulerName policySpec ∧
  workv1alpha2.Failover (workv1alpha2.RBSpec b) = policyv1alpha1.Failover policySpec ∧
  workv1alpha2.ConflictResolution (workv1alpha2.RBSpec b)
    = policyv1alpha1.ConflictResolution policySpec ∧
  (workv1alpha2.Replicas (workv1alpha2.RBSpec b),
   workv1alpha2.ReplicaRequirements (workv1alpha2.RBSpec b))
    = (if HookEnabled object
       then match GetReplicas object with Ok v => v | Err _ => (0%Z, None) end
       else (0%Z, None)).
Proof.
  unfold BuildResourceBinding. cbv zeta.
  destruct (HookEnabled object).
  - destruct (GetReplicas object) as [[replicas requirements]|err]; [|done].
    intros [= <- <-]. done.
  - intros [= <- <-]. done.
Qed.

Lemma BuildClusterResourceBinding_fields object labels annotations policySpec w b w1 :
  BuildClusterResourceBinding GenerateBindingName HookEnabled GetReplicas
    object labels annotations policySpec w = (Ok b, w1) →
  (∀ w', BuildClusterResourceBinding GenerateBindingName HookEnabled GetReplicas
           object labels annotations policySpec w' = (Ok b, w')) ∧
  workv1alpha2.CRBMeta b
    = metav1.mkObjectMeta
        (GenerateBindingName (unstructured.GetKind object) (unstructured.GetName object))
        "" "" "" labels annotations
        [NewControllerRef object] [util.ClusterResourceBindingControllerFinalizer] None ∧
  workv1alpha2.Resource (workv1alpha2.CRBSpec b)
    = workv1alpha2.mkObjectReference (unstructured.GetAPIVersion object)
        (unstructured.GetKind object) ""
        (unstructured.GetName object) (unstructured.GetUID object)
        (unstructured.GetResourceVersion object) ∧
  workv1alpha2.Clusters (workv1alpha2.CRBSpec b) = [] ∧
  workv1alpha2.PropagateDeps (workv1alpha2.CRBSpec b)
    = policyv1alpha1.PropagateDeps policySpec ∧
  workv1alpha2.Placement (workv1alpha2.CRBSpec b)
    = Some (policyv1alpha1.Placement policySpec) ∧
  workv1alpha2.SchedulerName (workv1alpha2.CRBSpec b)
    = policyv1alpha1.SchedulerName policySpec ∧
  workv1alpha2.Failover (workv1alpha2.CRBSpec b) = policyv1alpha1.Failover policySpec ∧
  workv1alpha2.ConflictResolution (workv1alpha2.CRBSpec b)
    = policyv1alpha1.ConflictResolution policySpec ∧
  (workv1alpha2.Replicas (workv1alpha2.CRBSpec b),
   workv1alpha2.ReplicaRequirements (workv1alpha2.CRBSpec b))
    = (if HookEnabled object
       then match GetReplicas object with Ok v => v | Err _ => (0%Z, None) end
       else (0%Z, None)).
Proof.
  unfold BuildClusterResourceBinding. cbv zeta.
  destruct (HookEnabled object).
  - destruct (GetReplicas object) as [[replicas requirements]|err]; [|done].
    intros [= <- <-]. done.
  - intros [= <- <-]. done.
Qed.
End Desired.

(** ** What the operation result of an apply tells *)

Section ClientResult.
Context {K O : Type} `{ClientObject K O}.

(** What the result of an upsert tells about the store: an object that
    was up to date, an object that was missing and is now the desired
    one, or an object that the callback changed. *)
Lemma upsert_result (steps : nat) (obj : O) (f : O → result O) (lastErr : error)
    (op : OperationResult) w w' :
  (∀ b e, f b = Err e → IsConflict e = false) →
  f obj = Ok obj →
  RetryOnConflict steps (λ o, CreateOrUpdate o f) obj lastErr w = (Ok op, w') →
  let key := ObjectKeyFromObject obj in
  ∃ w0, touched w w0 ∧
    match op with
    | OperationResultNone =>
        w' = w0 ∧ ∃ b, stored w !! key = Some b ∧ f b = Ok b
    | OperationResultCreated =>
        stored w !! key = None ∧ w' = set_stored (<[key := obj]> (stored w)) w0
    | OperationResultUpdated =>
        ∃ existing b', stored w !! key = Some existing ∧ f existing = Ok b' ∧
          w' = set_stored (<[key := b']> (stored w)) w0
    end.
Proof.
  intros Hf Hfix Hup key.
  pose proof Hup as Hcases.
  apply upsert_cases in Hcases as (w0 & Ht & Hcases); [|done]. fold key in Hcases.
  exists w0. split; [done|].
  destruct Hcases as [(_ & e & [=])|[(-> & [= ->] & b & Hb & Hfb & _)|(b' & -> & _ & Hw)]].
  - eauto.
  - destruct Hw as [([= ->] & Hnone)|([= ->] & existing & Hst & Hfe)].
    + split; [done|].
      apply (upsert_created (λ b, b = obj)) in Hup as (b'' & Hb'' & ->);
        [| done | intros b b2 -> Hb2; congruence | by left].
      fold key in Hb''. rewrite stored_set_stored, lookup_insert_eq in Hb''.
      by injection Hb'' as ->.
    + eauto.
Qed.
End ClientResult.

Section OperationResults.
Variable GenerateBindingName : string → string → string.
Variable HookEnabled : unstructured.Unstructured → bool.
Variable GetReplicas : unstructured.Unstructured → result (Z * option string).

Local Abbreviation ApplyPP :=
  (ApplyPolicy GenerateBindingName HookEnabled GetReplicas).
Local Abbreviation ApplyCPP :=
  (ApplyClusterPolicy GenerateBindingName HookEnabled GetReplicas).
Local Abbreviation BuildRB :=
  (BuildResourceBinding GenerateBindingName HookEnabled GetReplicas).
Local Abbreviation BuildCRB :=
  (BuildClusterResourceBinding GenerateBindingName HookEnabled GetReplicas).

(** X8: what the operation result of a successful ApplyPolicy (past the
    lazy gate) says about the ResourceBinding store.  None: the store is
    unchanged and the stored binding is already what the mutation callback
    makes of it.  Created: there was no binding under the key and the
    store now holds the built binding there.  Updated: the binding under
    the key was replaced by what the callback makes of it.  The
    ClusterResourceBindings are untouched. *)
Theorem ApplyPolicy_operation_result (object : unstructured.Unstructured)
    (objectKey : keys.ClusterWideKey) (resourceChangeByKarmada : bool)
    (policy : policyv1alpha1.PropagationPolicy) (op : OperationResult) (w w' : World) :
  ApplyPP object objectKey resourceChangeByKarmada policy w = (Ok op, w') →
  resourceChangeByKarmada &&
    util.IsLazyActivationEnabled
      (policyv1alpha1.ActivationPreference_ (policyv1alpha1.PPSpec policy)) = false →
  let key := (unstructured.GetNamespace object,
              GenerateBindingName (unstructured.GetKind object)
                (unstructured.GetName object)) in
  let policyID := util.GetLabelValue (metav1.Labels (policyv1alpha1.PPMeta policy))
                    policyv1alpha1.PropagationPolicyPermanentIDLabel in
  crbs w' = crbs w ∧
  ∃ binding,
    (∀ w0, BuildRB object
             {[ policyv1alpha1.PropagationPolicyPermanentIDLabel := policyID ]}
             (<[ policyv1alpha1.PropagationPolicyNamespaceAnnotation :=
                   metav1.ObjNamespace (policyv1alpha1.PPMeta policy) ]>
              {[ policyv1alpha1.PropagationPolicyNameAnnotation :=
                   metav1.ObjName (policyv1alpha1.PPMeta policy) ]})
             (policyv1alpha1.PPSpec policy) w0 = (Ok binding, w0)) ∧
    match op with
    | OperationResultNone =>
        rbs w' = rbs w ∧
        ∃ b, rbs w !! key = Some b ∧ applyPolicyMutateFn object binding b = Ok b
    | OperationResultCreated =>
        rbs w !! key = None ∧ rbs w' = <[key := binding]> (rbs w)
    | OperationResultUpdated =>
        ∃ existing b', rbs w !! key = Some existing ∧
          applyPolicyMutateFn object binding existing = Ok b' ∧
          rbs w' = <[key := b']> (rbs w)
    end.
Proof.
  intros Hrun Hgate key policyID.
  pose proof (ClaimPolicyForObject_onlyTemplateWrites object policy w) as Hclaim.
  pose proof (ClaimPolicyForObject_id object policy) as Hid.
  unfold ApplyPolicy, bind, try in Hrun.
  destruct (ClaimPolicyForObject object policy w) as [[id|e] w1] eqn:Hcl;
    simpl in Hrun, Hclaim; [|done].
  rewrite (Hid id w w1 Hcl) in *. fold policyID in Hrun.
  destruct Hclaim as (Hr & Hc & _). rewrite Hgate in Hrun.
  match type of Hrun with
  | context [BuildResourceBinding _ _ _ object ?l ?a ?s w1] =>
      set (labels := l) in *; set (annotations := a) in *; set (spec := s) in *
  end.
  destruct (BuildRB object labels annotations spec w1) as [[binding|e] w2] eqn:Hbuild;
    simpl in Hrun; [|done].
  pose proof Hbuild as Hfields.
  apply BuildResourceBinding_fields in Hfields as (Hany & Hmeta & _).
  apply BuildResourceBinding_Ok in Hbuild as (-> & Hkey & _). fold key in Hkey.
  assert (Hfix : applyPolicyMutateFn object binding binding = Ok binding).
  { apply applyPolicyMutateFn_fixpoint.
    - apply ownerDiffers_NewControllerRef. by rewrite Hmeta.
    - rewrite Hmeta. simpl. subst labels. by rewrite lookup_singleton_ne. }
  unfold upsertRB in Hrun.
  destruct (RetryOnConflict _ _ _ _ w1) as [[op'|e] w3] eqn:Hup; simpl in Hrun; [|done].
  injection Hrun as <- <-.
  apply upsert_result in Hup as (w0 & Ht & Hop);
    [|apply applyPolicyMutateFn_no_conflict|done].
  rewrite Hkey in Hop. simpl in Hop. rewrite Hr in Hop.
  apply touched_stores in Ht as (_ & _ & Hr0 & Hc0 & _).
  destruct op'.
  - destruct Hop as (-> & b & Hb & Hfb). split; [congruence|].
    exists binding. split; [done|]. split; [congruence|]. eauto.
  - destruct Hop as (Hnone & ->). simpl. split; [congruence|].
    exists binding. done.
  - destruct Hop as (existing & b' & Hst & Hfe & ->). simpl. split; [congruence|].
    exists binding. split; [done|]. eauto.
Qed.

(** X9: the same reading of the operation result for a successful
    ApplyClusterPolicy: for a namespaced template it speaks of the
    ResourceBinding under (namespace, name) and the ClusterResourceBinding
    store is untouched; for a cluster-scoped template it speaks of the
    ClusterResourceBinding under the name and the ResourceBinding store is
    untouched. *)
Theorem ApplyClusterPolicy_operation_result (object : unstructured.Unstructured)
    (objectKey : keys.ClusterWideKey) (resourceChangeByKarmada : bool)
    (policy : policyv1alpha1.ClusterPropagationPolicy) (op : OperationResult)
    (w w' : World) :
  ApplyCPP object objectKey resourceChangeByKarmada policy w = (Ok op, w') →
  resourceChangeByKarmada &&
    util.IsLazyActivationEnabled
      (policyv1alpha1.ActivationPreference_ (policyv1alpha1.CPPSpec policy)) = false →
  let name := GenerateBindingName (unstructured.GetKind object)
                (unstructured.GetName object) in
  let policyID := util.GetLabelValue (metav1.Labels (policyv1alpha1.CPPMeta policy))
                    policyv1alpha1.ClusterPropagationPolicyPermanentIDLabel in
  let labels : gmap string string :=
    {[ policyv1alpha1.ClusterPropagationPolicyPermanentIDLabel := policyID ]} in
  let annotations : gmap string string :=
    {[ policyv1alpha1.ClusterPropagationPolicyAnnotation :=
         metav1.ObjName (policyv1alpha1.CPPMeta policy) ]} in
  (unstructured.GetNamespace object ≠ "" →
   let key := (unstructured.GetNamespace object, name) in
   crbs w' = crbs w ∧
   ∃ binding,
     (∀ w0, BuildRB object labels annotations (policyv1alpha1.CPPSpec policy) w0
            = (Ok binding, w0)) ∧
     match op with
     | OperationResultNone =>
         rbs w' = rbs w ∧
         ∃ b, rbs w !! key = Some b ∧ applyClusterPolicyMutateRB object binding b = Ok b
     | OperationResultCreated =>
         rbs w !! key = None ∧ rbs w' = <[key := binding]> (rbs w)
     | OperationResultUpdated =>
         ∃ existing b', rbs w !! key = Some existing ∧
           applyClusterPolicyMutateRB object binding existing = Ok b' ∧
           rbs w' = <[key := b']> (rbs w)
     end) ∧
  (unstructured.GetNamespace object = "" →
   rbs w' = rbs w ∧
   ∃ binding,
     (∀ w0, BuildCRB object labels annotations (policyv1alpha1.CPPSpec policy) w0
            = (Ok binding, w0)) ∧
     match op with
     | OperationResultNone =>
         crbs w' = crbs w ∧
         ∃ b, crbs w !! name = Some b ∧ applyClusterPolicyMutateCRB object binding b = Ok b
     | OperationResultCreated =>
         crbs w !! name = None ∧ crbs w' = <[name := binding]> (crbs w)
     | OperationResultUpdated =>
         ∃ existing b', crbs w !! name = Some existing ∧
           applyClusterPolicyMutateCRB object binding existing = Ok b' ∧
           crbs w' = <[name := b']> (crbs w)
     end).
Proof.
  intros Hrun Hgate name policyID labels annotations.
  pose proof (ClaimClusterPolicyForObject_onlyTemplateWrites object policy w) as Hclaim.
  pose proof (ClaimClusterPolicyForObject_id object policy) as Hid.
  unfold ApplyClusterPolicy, bind, try in Hrun.
  destruct (ClaimClusterPolicyForObject object policy w) as [[id|e] w1] eqn:Hcl;
    simpl in Hrun, Hclaim; [|done].
  rewrite (Hid id w w1 Hcl) in *.
  fold policyID in Hrun. fold labels annotations in Hrun.
  destruct Hclaim as (Hr & Hc & _). rewrite Hgate in Hrun.
  set (spec := policyv1alpha1.CPPSpec policy) in *.
  split; intros Hns; [intros key|].
  - rewrite decide_True in Hrun by done.
    destruct (BuildRB object labels annotations spec w1) as [[binding|e] w2] eqn:Hbuild;
      simpl in Hrun; [|done].
    pose proof Hbuild as Hfields.
    apply BuildResourceBinding_fields in Hfields as (Hany & Hmeta & _).
    apply BuildResourceBinding_Ok in Hbuild as (-> & Hkey & _). fold name key in Hkey.
    assert (Hfix : applyClusterPolicyMutateRB object binding binding = Ok binding).
    { apply applyClusterPolicyMutateRB_fixpoint, ownerDiffers_NewControllerRef.
      by rewrite Hmeta. }
    unfold upsertRB in Hrun.
    destruct (RetryOnConflict _ _ _ _ w1) as [[op'|e] w3] eqn:Hup; simpl in Hrun; [|done].
    injection Hrun as <- <-.
    apply upsert_result in Hup as (w0 & Ht & Hop);
      [|apply applyClusterPolicyMutateRB_no_conflict|done].
    rewrite Hkey in Hop. simpl in Hop. rewrite Hr in Hop.
    apply touched_stores in Ht as (_ & _ & Hr0 & Hc0 & _).
    destruct op'.
    + destruct Hop as (-> & b & Hb & Hfb). split; [congruence|].
      exists binding. split; [done|]. split; [congruence|]. eauto.
    + destruct Hop as (Hnone & ->). simpl. split; [congruence|].
      exists binding. done.
    + destruct Hop as (existing & b' & Hst & Hfe & ->). simpl. split; [congruence|].
      exists binding. split; [done|]. eauto.
  - rewrite decide_False in Hrun by (intros Hn; by apply Hn).
    destruct (BuildCRB object labels annotations spec w1) as [[binding|e] w2] eqn:Hbuild;
      simpl in Hrun; [|done].
    pose proof Hbuild as Hfields.
    apply BuildClusterResourceBinding_fields in Hfields as (Hany & Hmeta & _).
    apply BuildClusterResourceBinding_Ok in Hbuild as (-> & Hkey & _). fold name in Hkey.
    assert (Hfix : applyClusterPolicyMutateCRB object binding binding = Ok binding).
    { apply applyClusterPolicyMutateCRB_fixpoint, ownerDiffers_NewControllerRef.
      by rewrite Hmeta. }
    unfold upsertCRB in Hrun.
    destruct (RetryOnConflict _ _ _ _ w1) as [[op'|e] w3] eqn:Hup; simpl in Hrun; [|done].
    injection Hrun as <- <-.
    apply upsert_result in Hup as (w0 & Ht & Hop);
      [|apply applyClusterPolicyMutateCRB_no_conflict|done].
    rewrite Hkey in Hop. simpl in Hop. rewrite Hc in Hop.
    apply touched_stores in Ht as (_ & _ & Hr0 & Hc0 & _).
    destruct op'.
    + destruct Hop as (-> & b & Hb & Hfb). split; [congruence|].
      exists binding. split; [done|]. split; [congruence|]. eauto.
    + destruct Hop as (Hnone & ->). simpl. split; [congruence|].
      exists binding. done.
    + destruct Hop as (existing & b' & Hst & Hfe & ->). simpl. split; [congruence|].
      exists binding. split; [done|]. eauto.
Qed.
End OperationResults.

Section ClientSettled.
Context {K O : Type} `{ClientObject K O}.

(** After a successful upsert with an idempotent callback the stored
    object is one the callback leaves as it is. *)
Lemma upsert_settled (steps : nat) (obj : O) (f : O → result O) (lastErr : error)
    (op : OperationResult) w w' :
  (∀ b e, f b = Err e → IsConflict e = false) →
  f obj = Ok obj →
  (∀ b b', f b = Ok b' → f b' = Ok b') →
  RetryOnConflict steps (λ o, CreateOrUpdate o f) obj lastErr w = (Ok op, w') →
  ∃ b, stored w' !! ObjectKeyFromObject obj = Some b ∧ f b = Ok b ∧
       ObjectKeyFromObject b = ObjectKeyFromObject obj.
Proof.
  intros Hf Hfix Hidem Hup.
  apply (upsert_succeeded (λ b, f b = Ok b)) in Hup
    as (b' & w0 & _ & _ & Hb' & Hkey & Hmatch); [|done| |done].
  2:{ intros b b2 Hb Hb2. rewrite Hb in Hb2. by injection Hb2 as <-. }
  exists b'. split; [done|]. split; [|done].
  destruct (stored w !! ObjectKeyFromObject obj) as [existing|]; [eauto | apply Hmatch].
Qed.
End ClientSettled.

Section Twice.
Variable GenerateBindingName : string → string → string.
Variable HookEnabled : unstructured.Unstructured → bool.
Variable GetReplicas : unstructured.Unstructured → result (Z * option string).

Local Abbreviation ApplyPP :=
  (ApplyPolicy GenerateBindingName HookEnabled GetReplicas).
Local Abbreviation ApplyCPP :=
  (ApplyClusterPolicy GenerateBindingName HookEnabled GetReplicas).
Local Abbreviation BuildRB :=
  (BuildResourceBinding GenerateBindingName HookEnabled GetReplicas).
Local Abbreviation BuildCRB :=
  (BuildClusterResourceBinding GenerateBindingName HookEnabled GetReplicas).

(** X10: applying a PropagationPolicy is idempotent: once an apply has
    succeeded on a template that bears the policy's claim, a second apply
    in the world the first one left, with no call failing, answers
    OperationResultNone and changes nothing at all. *)
Theorem ApplyPolicy_twice (object : unstructured.Unstructured)
    (objectKey : keys.ClusterWideKey) (resourceChangeByKarmada : bool)
    (policy : policyv1alpha1.PropagationPolicy) (op : OperationResult) (w w1 : World) :
  let policyID := util.GetLabelValue (metav1.Labels (policyv1alpha1.PPMeta policy))
                    policyv1alpha1.PropagationPolicyPermanentIDLabel in
  unstructured.GetLabels object !! policyv1alpha1.PropagationPolicyPermanentIDLabel
    = Some policyID →
  unstructured.GetLabels object !! policyv1alpha1.ClusterPropagationPolicyPermanentIDLabel
    = None →
  ApplyPP object objectKey resourceChangeByKarmada policy w = (Ok op, w1) →
  faults w1 = [] →
  ApplyPP object objectKey resourceChangeByKarmada policy w1
    = (Ok OperationResultNone, w1).
Proof.
  intros policyID Hpp Hcpp Hrun Hnf.
  unfold ApplyPolicy, bind, try in Hrun |- *.
  rewrite (ClaimPolicyForObject_claimed object policy w Hpp Hcpp) in Hrun.
  rewrite (ClaimPolicyForObject_claimed object policy w1 Hpp Hcpp).
  fold policyID in Hrun |- *.
  destruct (resourceChangeByKarmada && _); [done|].
  match type of Hrun with
  | context [BuildResourceBinding _ _ _ object ?l ?a ?s w] =>
      set (labels := l) in *; set (annotations := a) in *; set (spec := s) in *
  end.
  destruct (BuildRB object labels annotations spec w) as [[binding|e] w2] eqn:Hbuild;
    simpl in Hrun; [|done].
  pose proof Hbuild as Hfields.
  apply BuildResourceBinding_fields in Hfields as (Hany & Hmeta & _).
  apply BuildResourceBinding_Ok in Hbuild as (-> & _).
  assert (Hown : ownerDiffers object (workv1alpha2.RBMeta binding) = false)
    by (apply ownerDiffers_NewControllerRef; by rewrite Hmeta).
  unfold upsertRB in Hrun.
  destruct (RetryOnConflict _ _ _ _ w) as [[op'|e] w3] eqn:Hup; simpl in Hrun; [|done].
  injection Hrun as <- <-.
  apply upsert_settled in Hup as (b & Hb & Hfb & Hkey);
    [| apply applyPolicyMutateFn_no_conflict
     | apply applyPolicyMutateFn_fixpoint; [done|];
       rewrite Hmeta; simpl; subst labels; by rewrite lookup_singleton_ne
     | intros b1 b2; by apply applyPolicyMutateFn_idempotent].
  assert (Hagain : upsertRB binding (applyPolicyMutateFn object binding) w3
                   = (Ok OperationResultNone, w3))
    by (unfold upsertRB, DefaultRetrySteps; by apply (upsert_up_to_date 4 binding b)).
  rewrite Hany. cbv beta iota. by rewrite Hagain.
Qed.

(** X11: applying a ClusterPropagationPolicy is idempotent: once an apply
    has succeeded on a template that bears the policy's claim, a second
    apply in the world the first one left, with no call failing, answers
    OperationResultNone and changes nothing at all. *)
Theorem ApplyClusterPolicy_twice (object : unstructured.Unstructured)
    (objectKey : keys.ClusterWideKey) (resourceChangeByKarmada : bool)
    (policy : policyv1alpha1.ClusterPropagationPolicy) (op : OperationResult)
    (w w1 : World) :
  let policyID := util.GetLabelValue (metav1.Labels (policyv1alpha1.CPPMeta policy))
                    policyv1alpha1.ClusterPropagationPolicyPermanentIDLabel in
  unstructured.GetLabels object !! policyv1alpha1.ClusterPropagationPolicyPermanentIDLabel
    = Some policyID →
  ApplyCPP object objectKey resourceChangeByKarmada policy w = (Ok op, w1) →
  faults w1 = [] →
  ApplyCPP object objectKey resourceChangeByKarmada policy w1
    = (Ok OperationResultNone, w1).
Proof.
  intros policyID Hcpp Hrun Hnf.
  unfold ApplyClusterPolicy, bind, try in Hrun |- *.
  rewrite (ClaimClusterPolicyForObject_claimed object policy w Hcpp) in Hrun.
  rewrite (ClaimClusterPolicyForObject_claimed object policy w1 Hcpp).
  fold policyID in Hrun |- *.
  destruct (resourceChangeByKarmada && _); [done|].
  set (labels := ({[ policyv1alpha1.ClusterPropagationPolicyPermanentIDLabel := policyID ]}
                  : gmap string string)) in *.
  set (annotations := ({[ policyv1alpha1.ClusterPropagationPolicyAnnotation :=
                            metav1.ObjName (policyv1alpha1.CPPMeta policy) ]}
                       : gmap string string)) in *.
  set (spec := policyv1alpha1.CPPSpec policy) in *.
  destruct (decide (unstructured.GetNamespace object ≠ "")) as [Hns|Hns].
  - destruct (BuildRB object labels annotations spec w) as [[binding|e] w2] eqn:Hbuild;
      simpl in Hrun; [|done].
    pose proof Hbuild as Hfields.
    apply BuildResourceBinding_fields in Hfields as (Hany & Hmeta & _).
    apply BuildResourceBinding_Ok in Hbuild as (-> & _).
    assert (Hown : ownerDiffers object (workv1alpha2.RBMeta binding) = false)
      by (apply ownerDiffers_NewControllerRef; by rewrite Hmeta).
    unfold upsertRB in Hrun.
    destruct (RetryOnConflict _ _ _ _ w) as [[op'|e] w3] eqn:Hup; simpl in Hrun; [|done].
    injection Hrun as <- <-.
    apply upsert_settled in Hup as (b & Hb & Hfb & Hkey);
      [| apply applyClusterPolicyMutateRB_no_conflict
       | by apply applyClusterPolicyMutateRB_fixpoint
       | intros b1 b2; by apply applyClusterPolicyMutateRB_idempotent].
    assert (Hagain : upsertRB binding (applyClusterPolicyMutateRB object binding) w3
                     = (Ok OperationResultNone, w3))
      by (unfold upsertRB, DefaultRetrySteps; by apply (upsert_up_to_date 4 binding b)).
    rewrite Hany. cbv beta iota. by rewrite Hagain.
  - destruct (BuildCRB object labels annotations spec w) as [[binding|e] w2] eqn:Hbuild;
      simpl in Hrun; [|done].
    pose proof Hbuild as Hfields.
    apply BuildClusterResourceBinding_fields in Hfields as (Hany & Hmeta & _).
    apply BuildClusterResourceBinding_Ok in Hbuild as (-> & _).
    assert (Hown : ownerDiffers object (workv1alpha2.CRBMeta binding) = false)
      by (apply ownerDiffers_NewControllerRef; by rewrite Hmeta).
    unfold upsertCRB in Hrun.
    destruct (RetryOnConflict _ _ _ _ w) as [[op'|e] w3] eqn:Hup; simpl in Hrun; [|done].
    injection Hrun as <- <-.
    apply upsert_settled in Hup as (b & Hb & Hfb & Hkey);
      [| apply applyClusterPolicyMutateCRB_no_conflict
       | by apply applyClusterPolicyMutateCRB_fixpoint
       | intros b1 b2; by apply applyClusterPolicyMutateCRB_idempotent].
    assert (Hagain : upsertCRB binding (applyClusterPolicyMutateCRB object binding) w3
                     = (Ok OperationResultNone, w3))
      by (unfold upsertCRB, DefaultRetrySteps; by apply (upsert_up_to_date 4 binding b)).
    rewrite Hany. cbv beta iota. by rewrite Hagain.
Qed.
End Twice.

Lemma ApplyPolicy_operation_result_witness :
  let w := sample.worldWith sample.nginxKey sample.nginx in
  let w' := (ApplyPolicy sample.GenerateBindingName sample.HookEnabled sample.GetReplicas
               sample.nginx sample.nginxKey false sample.pp2 w).2 in
  crbs w' = crbs w ∧
  ∃ binding, rbs w !! ("default", "nginx-Deployment") = None ∧
             rbs w' = <[("default", "nginx-Deployment") := binding]> (rbs w).
Proof.
  intros w w'.
  set (m := ApplyPolicy sample.GenerateBindingName sample.HookEnabled sample.GetReplicas
              sample.nginx sample.nginxKey false sample.pp2).
  destruct (ApplyPolicy_operation_result sample.GenerateBindingName sample.HookEnabled
              sample.GetReplicas sample.nginx sample.nginxKey false sample.pp2
              OperationResultCreated w (m w).2 (run_Ok m w _ eq_refl) eq_refl)
    as (Hc & binding & _ & Hop).
  split; [exact Hc|]. exists binding. exact Hop.
Defined.

Lemma ApplyClusterPolicy_operation_result_witness :
  let w := sample.worldWithCRB sample.teamACRB in
  let w' := (ApplyClusterPolicy sample.GenerateBindingName sample.HookEnabled
               sample.GetReplicas sample.teamA sample.teamAKey false sample.cpp2 w).2 in
  rbs w' = rbs w ∧
  ∃ existing b', crbs w !! "team-a-Namespace" = Some existing ∧
                 crbs w' = <["team-a-Namespace" := b']> (crbs w).
Proof.
  intros w w'.
  set (m := ApplyClusterPolicy sample.GenerateBindingName sample.HookEnabled
              sample.GetReplicas sample.teamA sample.teamAKey false sample.cpp2).
  destruct (proj2 (ApplyClusterPolicy_operation_result sample.GenerateBindingName
                     sample.HookEnabled sample.GetReplicas sample.teamA sample.teamAKey
                     false sample.cpp2 OperationResultUpdated w (m w).2
                     (run_Ok m w _ eq_refl) eq_refl) eq_refl)
    as (Hr & binding & _ & existing & b' & Hex & _ & Hw').
  split; [exact Hr|]. exists existing, b'. split; [exact Hex | exact Hw'].
Defined.

Lemma ApplyPolicy_twice_witness :
  let w1 := (ApplyPolicy sample.GenerateBindingName sample.HookEnabled sample.GetReplicas
               sample.nginxClaimed sample.nginxKey false sample.pp2
               (sample.worldWith sample.nginxKey sample.nginxClaimed)).2 in
  ApplyPolicy sample.GenerateBindingName sample.HookEnabled sample.GetReplicas
    sample.nginxClaimed sample.nginxKey false sample.pp2 w1
  = (Ok OperationResultNone, w1).
Proof.
  intros w1.
  set (m := ApplyPolicy sample.GenerateBindingName sample.HookEnabled sample.GetReplicas
              sample.nginxClaimed sample.nginxKey false sample.pp2).
  set (w := sample.worldWith sample.nginxKey sample.nginxClaimed).
  exact (ApplyPolicy_twice sample.GenerateBindingName sample.HookEnabled
           sample.GetReplicas sample.nginxClaimed sample.nginxKey false sample.pp2
           OperationResultCreated w (m w).2 eq_refl eq_refl
           (run_Ok m w _ eq_refl) eq_refl).
Defined.

Lemma ApplyClusterPolicy_twice_witness :
  let w1 := (ApplyClusterPolicy sample.GenerateBindingName sample.HookEnabled
               sample.GetReplicas sample.teamAClaimed sample.teamAKey false sample.cpp2
               (sample.worldWithCRB sample.teamACRB)).2 in
  ApplyClusterPolicy sample.GenerateBindingName sample.HookEnabled sample.GetReplicas
    sample.teamAClaimed sample.teamAKey false sample.cpp2 w1
  = (Ok OperationResultNone, w1).
Proof.
  intros w1.
  set (m := ApplyClusterPolicy sample.GenerateBindingName sample.HookEnabled
              sample.GetReplicas sample.teamAClaimed sample.teamAKey false sample.cpp2).
  set (w := sample.worldWithCRB sample.teamACRB).
  exact (ApplyClusterPolicy_twice sample.GenerateBindingName sample.HookEnabled
           sample.GetReplicas sample.teamAClaimed sample.teamAKey false sample.cpp2
           OperationResultUpdated w (m w).2 eq_refl
           (run_Ok m w _ eq_refl) eq_refl).
Defined.

(** ** Counting the calls to the API server *)

#[global] Instance quiet_frame : Frame quiet.
Proof.
  split; try done.
  intros w1 w2 w3 (? & ? & ? & ? & ? & ?) (? & ? & ? & ? & ? & ?).
  repeat split; congruence.
Qed.

Section appends.
Context (P : event → Prop).

Lemma appends_quiet {A} (m : M A) : preserves quiet m → appends 0 P m.
Proof.
  intros Hm w. destruct (Hm w) as (_ & _ & _ & _ & _ & Htr).
  exists []. by rewrite app_nil_r.
Qed.

Lemma appends_weaken (n n' : nat) {A} (m : M A) :
  (n ≤ n')%nat → appends n P m → appends n' P m.
Proof.
  intros Hle Hm w. destruct (Hm w) as (evs & Htr & Hlen & HP).
  exists evs. split; [done|]. split; [lia | done].
Qed.

Lemma appends_bind (n k : nat) {A B} (m : M A) (f : A → M B) :
  appends n P m → (∀ a, appends k P (f a)) → appends (n + k) P (bind m f).
Proof.
  intros Hm Hf w. unfold bind. destruct (Hm w) as (evs & Htr & Hlen & HP).
  destruct (m w) as [[a|e] w1]; simpl in *.
  - destruct (Hf a w1) as (evs' & Htr' & Hlen' & HP').
    exists (evs ++ evs'). rewrite Htr', Htr, <- app_assoc. split; [done|].
    rewrite length_app. split; [lia | by apply Forall_app].
  - exists evs. split; [done|]. split; [lia | done].
Qed.

Lemma appends_try (n : nat) {A} (m : M A) : appends n P m → appends n P (try m).
Proof. intros Hm w. unfold try. specialize (Hm w). by destruct (m w). Qed.

Lemma appends_apiWrite ev rejected store :
  (∀ o, P (ev o)) → (∀ w, trace (store w) = trace w) →
  appends 1 P (apiWrite ev rejected store).
Proof.
  intros Hev Hstore w. unfold apiWrite, bind, try, record, modify, gets, fail.
  pose proof (external_stores w) as Hext.
  destruct (external w) as [[[]|e] w1]; simpl.
  - destruct (Hext _ _ eq_refl) as (_ & _ & _ & Htr & _).
    destruct (rejected w1); simpl; [|rewrite Hstore; simpl]; rewrite Htr;
      eexists [_]; (split; [done|]); (split; [done|]); by repeat constructor.
  - destruct (Hext _ _ eq_refl) as (_ & _ & _ & Htr & _). rewrite Htr.
    eexists [_]. split; [done|]. split; [done|]. by repeat constructor.
Qed.

Lemma appends_RetryOnConflict {O A} (steps : nat)
    (attempt : O → M (result A * O)) (obj : O) (lastErr : error) :
  (∀ o, appends 1 P (attempt o)) →
  appends steps P (RetryOnConflict steps attempt obj lastErr).
Proof.
  intros Hat. revert obj lastErr.
  induction steps as [|n IH]; intros obj lastErr; simpl.
  - apply appends_quiet, preserves_fail, _.
  - apply (appends_bind 1 n); [apply Hat|].
    intros [[a|e] obj'].
    + apply (appends_weaken 0); [lia|]. apply appends_quiet, preserves_ret, _.
    + destruct (IsConflict e); [apply IH|].
      apply (appends_weaken 0); [lia|]. apply appends_quiet, preserves_fail, _.
Qed.
End appends.

(** A computation that makes calls of one kind, followed by one that
    makes calls of another kind. *)
Lemma appends_then (n k : nat) (P Q : event → Prop) {A B} (m : M A) (f : A → M B) w :
  appends n P m → (∀ a, appends k Q (f a)) →
  ∃ first second,
    trace (m w).2 = trace w ++ first ∧
    trace (bind m f w).2 = trace w ++ first ++ second ∧
    (List.length first ≤ n)%nat ∧ Forall P first ∧ (List.length second ≤ k)%nat ∧ Forall Q second.
Proof.
  intros Hm Hf. unfold bind. destruct (Hm w) as (evs & Htr & Hlen & HP).
  destruct (m w) as [[a|e] w1]; simpl in *.
  - destruct (Hf a w1) as (evs' & Htr' & Hlen' & HP').
    exists evs, evs'. rewrite Htr', Htr, <- app_assoc. done.
  - exists evs, []. rewrite app_nil_r. repeat split; try done. simpl. lia.
Qed.

Section ClientAppends.
Context {K O : Type} `{ClientObject K O}.
Context (P : event → Prop).
Hypothesis P_create : ∀ k o, P (createEvent k o).
Hypothesis P_update : ∀ k o, P (updateEvent k o).
Hypothesis set_stored_trace : ∀ s w, trace (set_stored s w) = trace w.

Lemma appends_Create (obj : O) : appends 1 P (Create obj).
Proof. apply appends_apiWrite; [apply P_create | intros w; apply set_stored_trace]. Qed.

Lemma appends_Update (obj : O) : appends 1 P (Update obj).
Proof. apply appends_apiWrite; [apply P_update | intros w; apply set_stored_trace]. Qed.

Lemma appends_ret {A} (a : A) : appends 0 P (ret a).
Proof. apply appends_quiet, preserves_ret, _. Qed.

(** One call of CreateOrUpdate writes at most once. *)
Lemma appends_CreateOrUpdate (obj : O) (f : O → result O) :
  appends 1 P (CreateOrUpdate obj f).
Proof.
  unfold CreateOrUpdate. cbv zeta.
  apply (appends_bind P 0 1); [apply appends_try, appends_quiet, Get_preserves, _|].
  intros [existing|e].
  - destruct (mutate _ _ existing) as [obj'|e'];
      [|apply (appends_weaken P 0); [lia | apply appends_ret]].
    destruct (decide _); [apply (appends_weaken P 0); [lia | apply appends_ret]|].
    apply (appends_bind P 1 0); [apply appends_try, appends_Update|].
    intros [[]|e']; apply appends_ret.
  - destruct (IsNotFound e); [|apply (appends_weaken P 0); [lia | apply appends_ret]].
    destruct (mutate _ _ obj) as [obj'|e'];
      [|apply (appends_weaken P 0); [lia | apply appends_ret]].
    apply (appends_bind P 1 0); [apply appends_try, appends_Create|].
    intros [[]|e']; apply appends_ret.
Qed.
End ClientAppends.

Lemma appends_upsertRB binding f : appends DefaultRetrySteps isBindingWrite (upsertRB binding f).
Proof.
  unfold upsertRB. apply appends_RetryOnConflict. intros o.
  by apply appends_CreateOrUpdate.
Qed.

Lemma appends_upsertCRB binding f :
  appends DefaultRetrySteps isBindingWrite (upsertCRB binding f).
Proof.
  unfold upsertCRB. apply appends_RetryOnConflict. intros o.
  by apply appends_CreateOrUpdate.
Qed.

Lemma appends_UpdateTemplate o : appends 1 isTemplateWrite (UpdateTemplate o).
Proof. by apply appends_apiWrite. Qed.

Lemma appends_ClaimPolicyForObject object policy :
  appends 1 isTemplateWrite (ClaimPolicyForObject object policy).
Proof.
  unfold ClaimPolicyForObject. cbv zeta.
  destruct (_ && _).
  - apply (appends_weaken _ 0); [lia|]. apply appends_quiet, preserves_ret, _.
  - apply (appends_bind _ 1 0); [apply appends_UpdateTemplate|].
    intros _. apply appends_quiet, preserves_ret, _.
Qed.

Lemma appends_ClaimClusterPolicyForObject object policy :
  appends 1 isTemplateWrite (ClaimClusterPolicyForObject object policy).
Proof.
  unfold ClaimClusterPolicyForObject. cbv zeta.
  destruct (decide _).
  - apply (appends_weaken _ 0); [lia|]. apply appends_quiet, preserves_ret, _.
  - apply (appends_bind _ 1 0); [apply appends_UpdateTemplate|].
    intros _. apply appends_quiet, preserves_ret, _.
Qed.

Section Bounded.
Variable GenerateBindingName : string → string → string.
Variable HookEnabled : unstructured.Unstructured → bool.
Variable GetReplicas : unstructured.Unstructured → result (Z * option string).

Local Abbreviation ApplyPP :=
  (ApplyPolicy GenerateBindingName HookEnabled GetReplicas).
Local Abbreviation ApplyCPP :=
  (ApplyClusterPolicy GenerateBindingName HookEnabled GetReplicas).

Ltac quiet_step :=
  first [ apply (appends_weaken _ 0); [lia|]; apply appends_quiet; frame
        | apply appends_quiet; frame ].

(** X12: whatever fails, an apply sends the API server at most one template
    update (the claim's), followed by at most DefaultRetrySteps binding
    writes (the attempts of the conflict retry), and nothing else. *)
Theorem apply_writes_are_bounded (object : unstructured.Unstructured)
    (objectKey : keys.ClusterWideKey) (resourceChangeByKarmada : bool)
    (policy : policyv1alpha1.PropagationPolicy)
    (clusterPolicy : policyv1alpha1.ClusterPropagationPolicy) (w : World) :
  (∃ templateWrites bindingWrites,
     trace (ClaimPolicyForObject object policy w).2 = trace w ++ templateWrites ∧
     trace (ApplyPP object objectKey resourceChangeByKarmada policy w).2
       = trace w ++ templateWrites ++ bindingWrites ∧
     (List.length templateWrites ≤ 1)%nat ∧ Forall isTemplateWrite templateWrites ∧
     (List.length bindingWrites ≤ DefaultRetrySteps)%nat ∧
     Forall isBindingWrite bindingWrites) ∧
  (∃ templateWrites bindingWrites,
     trace (ClaimClusterPolicyForObject object clusterPolicy w).2
       = trace w ++ templateWrites ∧
     trace (ApplyCPP object objectKey resourceChangeByKarmada clusterPolicy w).2
       = trace w ++ templateWrites ++ bindingWrites ∧
     (List.length templateWrites ≤ 1)%nat ∧ Forall isTemplateWrite templateWrites ∧
     (List.length bindingWrites ≤ DefaultRetrySteps)%nat ∧
     Forall isBindingWrite bindingWrites).
Proof.
  split.
  - unfold ApplyPolicy.
    match goal with
    | |- context [bind (try ?m) ?f] =>
        destruct (appends_then 1 DefaultRetrySteps isTemplateWrite isBindingWrite
                    (try m) f w) as (tw & bw & Htw & Hrest)
    end.
    + apply appends_try, appends_ClaimPolicyForObject.
    + intros [policyID|err]; [|quiet_step].
      destruct (_ && _); [quiet_step|]. cbv zeta.
      apply (appends_bind _ 0 DefaultRetrySteps).
      { apply appends_try, appends_quiet, BuildResourceBinding_preserves, _. }
      intros [binding|err]; [|quiet_step].
      apply (appends_bind _ DefaultRetrySteps 0); [apply appends_try, appends_upsertRB|].
      intros [op|err]; quiet_step.
    + exists tw, bw. split; [|done].
      unfold try in Htw. by destruct (ClaimPolicyForObject object policy w).
  - unfold ApplyClusterPolicy.
    match goal with
    | |- context [bind (try ?m) ?f] =>
        destruct (appends_then 1 DefaultRetrySteps isTemplateWrite isBindingWrite
                    (try m) f w) as (tw & bw & Htw & Hrest)
    end.
    + apply appends_try, appends_ClaimClusterPolicyForObject.
    + intros [policyID|err]; [|quiet_step].
      destruct (_ && _); [quiet_step|]. cbv zeta.
      destruct (decide _).
      * apply (appends_bind _ 0 DefaultRetrySteps).
        { apply appends_try, appends_quiet, BuildResourceBinding_preserves, _. }
        intros [binding|err]; [|quiet_step].
        apply (appends_bind _ DefaultRetrySteps 0); [apply appends_try, appends_upsertRB|].
        intros [op|err]; quiet_step.
      * apply (appends_bind _ 0 DefaultRetrySteps).
        { apply appends_try, appends_quiet, BuildClusterResourceBinding_preserves, _. }
        intros [binding|err]; [|quiet_step].
        apply (appends_bind _ DefaultRetrySteps 0); [apply appends_try, appends_upsertCRB|].
        intros [op|err]; quiet_step.
    + exists tw, bw. split; [|done].
      unfold try in Htw. by destruct (ClaimClusterPolicyForObject object clusterPolicy w).
Qed.
End Bounded.

(** ** Cleaning the marks of a deleted policy *)

Lemma external_run w r w1 : external w = (r, w1) → w1 = set_faults (faults w1) w.
Proof.
  unfold external. destruct w as [c t rb crb p cp wo pr tr kl fs].
  destruct fs as [|[e|] fs]; simpl; by intros [= <- <-].
Qed.

(** A write call, seen from the caller: it is recorded with its outcome,
    and the store changes exactly when the call succeeds. *)
Lemma apiWrite_run ev rejected store w r w' :
  apiWrite ev rejected store w = (r, w') →
  ∃ fs, let w1 := set_faults fs w in
    (r = Ok tt ∧ rejected w1 = None ∧ w' = store (set_trace (trace w ++ [ev None]) w1)) ∨
    (∃ e, r = Err e ∧ w' = set_trace (trace w ++ [ev (Some e)]) w1).
Proof.
  unfold apiWrite, bind, try, record, modify, gets, fail.
  destruct (external w) as [[[]|e] w1] eqn:Hext; apply external_run in Hext;
    intros Hrun; exists (faults w1); cbv zeta; rewrite <- Hext;
    assert (Htr : trace w1 = trace w) by (by rewrite Hext); rewrite <- Htr.
  - destruct (rejected w1) eqn:Hrej; injection Hrun as <- <-; eauto.
  - injection Hrun as <- <-; eauto.
Qed.

Lemma cleanupMarksFunc_meta (m : metav1.ObjectMeta) :
  let m' := cleanupMarksFunc m in
  metav1.ObjName m' = metav1.ObjName m ∧ metav1.ObjNamespace m' = metav1.ObjNamespace m ∧
  metav1.Labels m' = delete policyv1alpha1.PropagationPolicyPermanentIDLabel (metav1.Labels m) ∧
  metav1.Annotations m'
    = delete policyv1alpha1.PropagationPolicyNamespaceAnnotation
        (delete policyv1alpha1.PropagationPolicyNameAnnotation (metav1.Annotations m)) ∧
  metav1.OwnerReferences m' = metav1.OwnerReferences m ∧
  metav1.Finalizers m' = metav1.Finalizers m ∧
  cleanupMarksFunc m' = m'.
Proof.
  unfold cleanupMarksFunc, util.RemoveAnnotations, util.RemoveLabels,
    propagationPolicyMarkedLabels, propagationPolicyMarkedAnnotations.
  cbn [foldr]. repeat split.
  apply ObjectMeta_ext; fields; try reflexivity.
  - by rewrite delete_delete_eq.
  - rewrite (delete_delete _ policyv1alpha1.PropagationPolicyNameAnnotation
               policyv1alpha1.PropagationPolicyNamespaceAnnotation).
    by rewrite !delete_delete_eq.
Qed.

Lemma cleanupMarksFun_meta (m : metav1.ObjectMeta) :
  let m' := cleanupMarksFun m in
  metav1.ObjName m' = metav1.ObjName m ∧ metav1.ObjNamespace m' = metav1.ObjNamespace m ∧
  metav1.Labels m'
    = delete policyv1alpha1.ClusterPropagationPolicyPermanentIDLabel (metav1.Labels m) ∧
  metav1.Annotations m'
    = delete policyv1alpha1.ClusterPropagationPolicyAnnotation (metav1.Annotations m) ∧
  metav1.OwnerReferences m' = metav1.OwnerReferences m ∧
  metav1.Finalizers m' = metav1.Finalizers m ∧
  cleanupMarksFun m' = m'.
Proof.
  unfold cleanupMarksFun, util.RemoveAnnotations, util.RemoveLabels,
    clusterPropagationPolicyMarkedLabels, clusterPropagationPolicyMarkedAnnotations.
  cbn [foldr]. repeat split.
  apply ObjectMeta_ext; fields; try reflexivity; by rewrite delete_delete_eq.
Qed.

Section ClientCleanup.
Context {K O : Type} `{ClientObject K O}.
Variable clean : O → O.
Hypothesis clean_key : ∀ o, ObjectKeyFromObject (clean o) = ObjectKeyFromObject o.
Hypothesis clean_idem : ∀ o, clean (clean o) = clean o.
Variable attempt : O → M (result unit * O).

(** One attempt of a cleanup: the cleaned object is written, or nothing
    is, and the loop goes on with the cleaned object or with the stored
    one. *)
Hypothesis attempt_cases : ∀ obj w res w',
  attempt obj w = (res, w') →
  ∃ w0, touched w w0 ∧
    ((res = Ok (Ok tt, clean obj) ∧
      w' = set_stored (<[ObjectKeyFromObject obj := clean obj]> (stored w)) w0) ∨
     (∃ e obj', res = Ok (Err e, obj') ∧ w' = w0 ∧
        (obj' = clean obj ∨ stored w !! ObjectKeyFromObject obj = Some obj'))).

Lemma cleanup_retry (steps : nat) (obj : O) (lastErr : error) w r w' :
  wellKeyed (stored w) →
  RetryOnConflict steps attempt obj lastErr w = (r, w') →
  let key := ObjectKeyFromObject obj in
  ∃ w0, touched w w0 ∧
    ((∃ e, r = Err e ∧ w' = w0) ∨
     (r = Ok tt ∧
      ∃ b, (clean b = clean obj ∨ stored w !! key = Some b) ∧
           w' = set_stored (<[key := clean b]> (stored w)) w0)).
Proof.
  intros Hwk. revert obj lastErr w Hwk.
  induction steps as [|n IH]; intros obj lastErr w Hwk Hrun key; simpl in Hrun.
  - injection Hrun as <- <-. exists w. split; [apply touched_refl|]. left. eauto.
  - unfold bind in Hrun.
    destruct (attempt obj w) as [res w1] eqn:Hatt.
    apply attempt_cases in Hatt as (w0 & Ht0 & Hcases). fold key in Hcases.
    destruct Hcases as [(-> & ->)|(e & obj' & -> & -> & Hobj')].
    + injection Hrun as <- <-. exists w0. split; [done|]. right. split; [done|].
      exists obj. eauto.
    + destruct (IsConflict e); [|injection Hrun as <- <-; exists w0; eauto].
      assert (Hkey : ObjectKeyFromObject obj' = key).
      { destruct Hobj' as [->|Hst]; [apply clean_key | by apply Hwk in Hst]. }
      apply IH in Hrun as (w2 & Ht2 & Hcases);
        [|by rewrite (touched_stored _ _ Ht0)].
      rewrite Hkey, (touched_stored _ _ Ht0) in Hcases.
      exists w2. split; [by eapply touched_trans|].
      destruct Hcases as [?|(-> & b & Hb & ->)]; [by left|].
      right. split; [done|].
      destruct Hobj' as [->|Hst].
      * exists b. split; [|done]. destruct Hb as [Hb|Hb]; [|by right].
        left. by rewrite Hb, clean_idem.
      * destruct Hb as [Hb|Hb]; [|by exists b; eauto].
        exists obj'. split; [by right|]. by rewrite <- Hb.
Qed.
End ClientCleanup.


Lemma cleanupRBAttempt_cases cleanupFunc obj w res w' :
  cleanupRBAttempt cleanupFunc obj w = (res, w') →
  ∃ w0, touched w w0 ∧
    ((res = Ok (Ok tt, cleanedRB cleanupFunc obj) ∧
      w' = set_stored (<[ObjectKeyFromObject (cleanedRB cleanupFunc obj)
                         := cleanedRB cleanupFunc obj]> (stored w)) w0) ∨
     (∃ e obj', res = Ok (Err e, obj') ∧ w' = w0 ∧
        (obj' = cleanedRB cleanupFunc obj ∨
         stored w !! ObjectKeyFromObject (cleanedRB cleanupFunc obj) = Some obj'))).
Proof.
  unfold cleanupRBAttempt. cbv zeta. fold (cleanedRB cleanupFunc obj).
  set (rb := cleanedRB cleanupFunc obj).
  unfold bind, try, Update.
  destruct (apiWrite _ _ _ w) as [r1 w1] eqn:Hupd.
  apply apiWrite_cases in Hupd as (w0 & Ht0 & [(-> & _ & ->)|(e & -> & ->)]).
  - intros [= <- <-].
    exists (set_trace (trace w0 ++ [updateEvent (ObjectKeyFromObject rb) None]) w0).
    split; [|left; split; [done|]].
    + eapply touched_trans; [exact Ht0|]. apply touched_set_trace.
    + destruct (touched_stores _ _ Ht0) as (_ & _ & Hr & _). simpl. by rewrite Hr.
  - set (w2 := set_trace _ w0).
    assert (Ht2 : touched w w2)
      by (eapply touched_trans; [exact Ht0 | apply touched_set_trace]).
    destruct (Get (ObjectKeyFromObject rb) w2) as [got w3] eqn:Hget.
    apply Get_cases in Hget as (Ht3 & Hgot).
    rewrite (touched_stored _ _ Ht2) in Hgot.
    destruct got as [updated|e']; simpl.
    + intros [= <- <-]. exists w3. split; [by eapply touched_trans|].
      right. exists e, updated. split; [done|]. split; [done|]. right. by apply Hgot.
    + unfold klog_Error, modify. intros [= <- <-].
      eexists. split; [|right; exists e, rb; split; [done|]; split; [done|]; by left].
      eapply touched_trans; [eapply touched_trans; [exact Ht2 | exact Ht3]|].
      apply touched_set_klog.
Qed.

Lemma cleanupCRBAttempt_cases cleanupFunc obj w res w' :
  cleanupCRBAttempt cleanupFunc obj w = (res, w') →
  ∃ w0, touched w w0 ∧
    ((res = Ok (Ok tt, cleanedCRB cleanupFunc obj) ∧
      w' = set_stored (<[ObjectKeyFromObject (cleanedCRB cleanupFunc obj)
                         := cleanedCRB cleanupFunc obj]> (stored w)) w0) ∨
     (∃ e obj', res = Ok (Err e, obj') ∧ w' = w0 ∧
        (obj' = cleanedCRB cleanupFunc obj ∨
         stored w !! ObjectKeyFromObject (cleanedCRB cleanupFunc obj) = Some obj'))).
Proof.
  unfold cleanupCRBAttempt. cbv zeta. fold (cleanedCRB cleanupFunc obj).
  set (crb := cleanedCRB cleanupFunc obj).
  unfold bind, try, Update.
  destruct (apiWrite _ _ _ w) as [r1 w1] eqn:Hupd.
  apply apiWrite_cases in Hupd as (w0 & Ht0 & [(-> & _ & ->)|(e & -> & ->)]).
  - intros [= <- <-].
    exists (set_trace (trace w0 ++ [updateEvent (ObjectKeyFromObject crb) None]) w0).
    split; [|left; split; [done|]].
    + eapply touched_trans; [exact Ht0|]. apply touched_set_trace.
    + destruct (touched_stores _ _ Ht0) as (_ & _ & _ & Hc & _). simpl. by rewrite Hc.
  - set (w2 := set_trace _ w0).
    assert (Ht2 : touched w w2)
      by (eapply touched_trans; [exact Ht0 | apply touched_set_trace]).
    destruct (Get (ObjectKeyFromObject crb) w2) as [got w3] eqn:Hget.
    apply Get_cases in Hget as (Ht3 & Hgot).
    rewrite (touched_stored _ _ Ht2) in Hgot.
    destruct got as [updated|e']; simpl.
    + intros [= <- <-]. exists w3. split; [by eapply touched_trans|].
      right. exists e, updated. split; [done|]. split; [done|]. right. by apply Hgot.
    + unfold klog_Error, modify. intros [= <- <-].
      eexists. split; [|right; exists e, crb; split; [done|]; split; [done|]; by left].
      eapply touched_trans; [eapply touched_trans; [exact Ht2 | exact Ht3]|].
      apply touched_set_klog.
Qed.

(** The closures the deletion handlers pass to the cleanups. *)
Lemma cleanup_closure_cases (cleanupFunc : metav1.ObjectMeta → metav1.ObjectMeta) :
  cleanupFunc = cleanupMarksFunc ∨ cleanupFunc = cleanupMarksFun →
  (∀ m, metav1.ObjName (cleanupFunc m) = metav1.ObjName m) ∧
  (∀ m, metav1.ObjNamespace (cleanupFunc m) = metav1.ObjNamespace m) ∧
  (∀ m, cleanupFunc (cleanupFunc m) = cleanupFunc m).
Proof.
  intros [->| ->]; repeat split; intros m;
    first [apply (cleanupMarksFunc_meta m) | apply (cleanupMarksFun_meta m)].
Qed.

Lemma CleanupResourceBindingMarks_cases rb cleanupFunc w r w' :
  cleanupFunc = cleanupMarksFunc ∨ cleanupFunc = cleanupMarksFun →
  wellKeyed (rbs w) →
  CleanupResourceBindingMarks rb cleanupFunc w = (r, w') →
  let key := ObjectKeyFromObject rb in
  ∃ w0, touched w w0 ∧
    ((∃ e, r = Err e ∧ w' = w0) ∨
     (r = Ok tt ∧
      ∃ b, (b = rb ∨ rbs w !! key = Some b) ∧
           w' = set_rbs (<[key := cleanedRB cleanupFunc b]> (rbs w)) w0)).
Proof.
  intros Hf Hwk Hrun key.
  destruct (cleanup_closure_cases _ Hf) as (Hname & Hns & Hidem).
  assert (Hkey : ∀ o, ObjectKeyFromObject (cleanedRB cleanupFunc o) = ObjectKeyFromObject o).
  { intros o. unfold ObjectKeyFromObject; simpl. by rewrite Hname, Hns. }
  unfold CleanupResourceBindingMarks in Hrun.
  apply (cleanup_retry (cleanedRB cleanupFunc)) in Hrun as (w0 & Ht & Hcases);
    [| exact Hkey
     | intros o; unfold cleanedRB; simpl; by rewrite Hidem
     | intros obj w1 res w1' Hatt; rewrite <- (Hkey obj);
       by apply cleanupRBAttempt_cases
     | exact Hwk].
  exists w0. split; [done|].
  destruct Hcases as [?|(-> & b & Hb & ->)]; [by left|]. right. split; [done|].
  destruct Hb as [Hb|Hb].
  - exists rb. split; [by left|]. by rewrite Hb.
  - exists b. split; [by right|]. done.
Qed.

Lemma CleanupClusterResourceBindingMarks_cases crb cleanupFunc w r w' :
  cleanupFunc = cleanupMarksFunc ∨ cleanupFunc = cleanupMarksFun →
  wellKeyed (crbs w) →
  CleanupClusterResourceBindingMarks crb cleanupFunc w = (r, w') →
  let key := ObjectKeyFromObject crb in
  ∃ w0, touched w w0 ∧
    ((∃ e, r = Err e ∧ w' = w0) ∨
     (r = Ok tt ∧
      ∃ b, (b = crb ∨ crbs w !! key = Some b) ∧
           w' = set_crbs (<[key := cleanedCRB cleanupFunc b]> (crbs w)) w0)).
Proof.
  intros Hf Hwk Hrun key.
  destruct (cleanup_closure_cases _ Hf) as (Hname & Hns & Hidem).
  assert (Hkey : ∀ o, ObjectKeyFromObject (cleanedCRB cleanupFunc o) = ObjectKeyFromObject o).
  { intros o. unfold ObjectKeyFromObject; simpl. by rewrite Hname. }
  unfold CleanupClusterResourceBindingMarks in Hrun.
  apply (cleanup_retry (cleanedCRB cleanupFunc)) in Hrun as (w0 & Ht & Hcases);
    [| exact Hkey
     | intros o; unfold cleanedCRB; simpl; by rewrite Hidem
     | intros obj w1 res w1' Hatt; rewrite <- (Hkey obj);
       by apply cleanupCRBAttempt_cases
     | exact Hwk].
  exists w0. split; [done|].
  destruct Hcases as [?|(-> & b & Hb & ->)]; [by left|]. right. split; [done|].
  destruct Hb as [Hb|Hb].
  - exists crb. split; [by left|]. by rewrite Hb.
  - exists b. split; [by right|]. done.
Qed.

(** X13: in a store that keeps every binding under its own key,
    CleanupResourceBindingMarks, called with one of the two cleanup
    closures of the detector, touches nothing but the binding's own entry.
    When it fails the ResourceBinding store is as it was; when it succeeds
    the entry holds the given binding, or the stored one it re-read after a
    conflict, with the closure applied to its metadata and its spec
    untouched. *)
Theorem CleanupResourceBindingMarks_outcome (rb : workv1alpha2.ResourceBinding)
    (cleanupFunc : metav1.ObjectMeta → metav1.ObjectMeta) (w : World) :
  cleanupFunc = cleanupMarksFunc ∨ cleanupFunc = cleanupMarksFun →
  wellKeyed (rbs w) →
  let r := CleanupResourceBindingMarks rb cleanupFunc w in
  let key := ObjectKeyFromObject rb in
  templates r.2 = templates w ∧ crbs r.2 = crbs w ∧
  (∀ e, r.1 = Err e → rbs r.2 = rbs w) ∧
  (r.1 = Ok tt →
   ∃ b, (b = rb ∨ rbs w !! key = Some b) ∧
        rbs r.2 = <[key := cleanedRB cleanupFunc b]> (rbs w) ∧
        workv1alpha2.RBSpec (cleanedRB cleanupFunc b) = workv1alpha2.RBSpec b) ∧
  wellKeyed (rbs r.2).
Proof.
  intros Hf Hwk r key. subst r.
  destruct (CleanupResourceBindingMarks rb cleanupFunc w) as [r w'] eqn:Hrun.
  apply CleanupResourceBindingMarks_cases in Hrun as (w0 & Ht & Hcases); [|done..].
  fold key in Hcases.
  destruct (touched_stores _ _ Ht) as (_ & Htm & Hr & Hc & _). simpl.
  destruct Hcases as [(e & -> & ->)|(-> & b & Hb & ->)]; simpl.
  - split; [done|]. split; [done|]. split; [done|]. split; [done|]. by rewrite Hr.
  - split; [done|]. split; [done|]. split; [done|]. split; [eauto|].
    intros k b' [(<- & <-)|(Hne & Hk)]%lookup_insert_Some; [|by apply Hwk].
    destruct (cleanup_closure_cases _ Hf) as (Hname & Hns & _).
    unfold ObjectKeyFromObject; simpl. rewrite Hname, Hns.
    destruct Hb as [->|Hb]; [done|]. by apply Hwk in Hb.
Qed.

Lemma CleanupResourceBindingMarks_outcome_witness :
  let r := CleanupResourceBindingMarks sample.nginxRB cleanupMarksFunc
             sample.claimedWorld in
  ∃ b, rbs r.2 = <[("default", "nginx-Deployment") := cleanedRB cleanupMarksFunc b]>
                   (rbs sample.claimedWorld).
Proof.
  intros r.
  assert (Hwk : wellKeyed (rbs sample.claimedWorld)).
  { intros k b Hk.
    change (({[ ("default", "nginx-Deployment") := sample.nginxRB ]}
             : gmap (string * string) workv1alpha2.ResourceBinding) !! k = Some b) in Hk.
    apply lookup_singleton_Some in Hk as [<- <-]. reflexivity. }
  destruct (CleanupResourceBindingMarks_outcome sample.nginxRB cleanupMarksFunc
              sample.claimedWorld (or_introl eq_refl) Hwk)
    as (_ & _ & _ & Hok & _).
  destruct (Hok eq_refl) as (b & _ & Hb & _). exists b. exact Hb.
Defined.

(** X14: in a store that keeps every binding under its own key,
    CleanupClusterResourceBindingMarks, called with one of the two cleanup
    closures of the detector, touches nothing but the binding's own
    entry.  When it fails the ClusterResourceBinding store is as it was;
    when it succeeds the entry holds the given binding, or the stored one
    it re-read after a conflict, with the closure applied to its metadata
    and its spec untouched. *)
Theorem CleanupClusterResourceBindingMarks_outcome
    (crb : workv1alpha2.ClusterResourceBinding)
    (cleanupFunc : metav1.ObjectMeta → metav1.ObjectMeta) (w : World) :
  cleanupFunc = cleanupMarksFunc ∨ cleanupFunc = cleanupMarksFun →
  wellKeyed (crbs w) →
  let r := CleanupClusterResourceBindingMarks crb cleanupFunc w in
  let key := ObjectKeyFromObject crb in
  templates r.2 = templates w ∧ rbs r.2 = rbs w ∧
  (∀ e, r.1 = Err e → crbs r.2 = crbs w) ∧
  (r.1 = Ok tt →
   ∃ b, (b = crb ∨ crbs w !! key = Some b) ∧
        crbs r.2 = <[key := cleanedCRB cleanupFunc b]> (crbs w) ∧
        workv1alpha2.CRBSpec (cleanedCRB cleanupFunc b) = workv1alpha2.CRBSpec b) ∧
  wellKeyed (crbs r.2).
Proof.
  intros Hf Hwk r key. subst r.
  destruct (CleanupClusterResourceBindingMarks crb cleanupFunc w) as [r w'] eqn:Hrun.
  apply CleanupClusterResourceBindingMarks_cases in Hrun as (w0 & Ht & Hcases); [|done..].
  fold key in Hcases.
  destruct (touched_stores _ _ Ht) as (_ & Htm & Hr & Hc & _). simpl.
  destruct Hcases as [(e & -> & ->)|(-> & b & Hb & ->)]; simpl.
  - split; [done|]. split; [done|]. split; [done|]. split; [done|]. by rewrite Hc.
  - split; [done|]. split; [done|]. split; [done|]. split; [eauto|].
    intros k b' [(<- & <-)|(Hne & Hk)]%lookup_insert_Some; [|by apply Hwk].
    destruct (cleanup_closure_cases _ Hf) as (Hname & Hns & _).
    unfold ObjectKeyFromObject; simpl. rewrite Hname.
    destruct Hb as [->|Hb]; [done|]. by apply Hwk in Hb.
Qed.

Lemma CleanupClusterResourceBindingMarks_outcome_witness :
  let w := sample.worldWithCRB sample.teamACRB in
  let r := CleanupClusterResourceBindingMarks sample.teamACRB cleanupMarksFun w in
  ∃ b, crbs r.2 = <["team-a-Namespace" := cleanedCRB cleanupMarksFun b]> (crbs w).
Proof.
  intros w r.
  assert (Hwk : wellKeyed (crbs w)).
  { intros k b Hk.
    change (({[ "team-a-Namespace" := sample.teamACRB ]}
             : gmap string workv1alpha2.ClusterResourceBinding) !! k = Some b) in Hk.
    apply lookup_singleton_Some in Hk as [<- <-]. reflexivity. }
  destruct (CleanupClusterResourceBindingMarks_outcome sample.teamACRB cleanupMarksFun
              w (or_intror eq_refl) Hwk)
    as (_ & _ & _ & Hok & _).
  destruct (Hok eq_refl) as (b & _ & Hb & _). exists b. exact Hb.
Defined.

Lemma FetchResourceTemplate_quiet objRef : preserves quiet (FetchResourceTemplate objRef).
Proof. apply FetchResourceTemplate_preserves, _. Qed.

Lemma UpdateTemplate_failed o w e w' :
  UpdateTemplate o w = (Err e, w') →
  templates w' = templates w ∧ rbs w' = rbs w ∧ crbs w' = crbs w ∧
  trace w' = trace w ++ [EvUpdateTemplate (unstructured.keyOf o) (Some e)].
Proof.
  intros Hrun. apply apiWrite_run in Hrun as (fs & [([=] & _)|(e' & [= <-] & ->)]).
  done.
Qed.

(** X15: CleanupResourceTemplateMarks never writes a binding, and its
    fetch of the template writes nothing at all.  A template
    that no longer exists is a success without any write; any other fetch
    error is returned without any write; a fetched template is stored once
    with the closure applied, and when that update fails the templates are
    as they were. *)
Theorem CleanupResourceTemplateMarks_outcome (objRef : workv1alpha2.ObjectReference)
    (cleanupFunc : metav1.ObjectMeta → metav1.ObjectMeta) (w : World) :
  let fetched := FetchResourceTemplate objRef w in
  let r := CleanupResourceTemplateMarks objRef cleanupFunc w in
  rbs r.2 = rbs w ∧ crbs r.2 = crbs w ∧ quiet w fetched.2 ∧
  (∀ e, fetched.1 = Err e → IsNotFound e = true → r = (Ok tt, fetched.2)) ∧
  (∀ e, fetched.1 = Err e → IsNotFound e = false →
        r.1 = Err e ∧ templates r.2 = templates w ∧ trace r.2 = trace w) ∧
  (∀ workload, fetched.1 = Ok workload →
     let cleaned := unstructuredCleanup cleanupFunc workload in
     (r.1 = Ok tt →
      templates r.2 = <[unstructured.keyOf cleaned := cleaned]> (templates w) ∧
      trace r.2 = trace w ++ [EvUpdateTemplate (unstructured.keyOf cleaned) None]) ∧
     (∀ e, r.1 = Err e → templates r.2 = templates w)).
Proof.
  intros fetched r.
  destruct (CleanupResourceTemplateMarks_onlyTemplateWrites objRef cleanupFunc w)
    as (Hr & Hc & _). fold r in Hr, Hc.
  split; [done|]. split; [done|].
  pose proof (FetchResourceTemplate_quiet objRef w) as Hq. fold fetched in Hq.
  split; [exact Hq|].
  subst r. unfold CleanupResourceTemplateMarks, bind, try. fold fetched.
  destruct fetched as [[workload|e] w1]; simpl in *;
    destruct Hq as (Htm & _ & _ & _ & _ & Htr).
  - split; [done|]. split; [done|]. intros ? [= <-].
    pose proof (external_stores w1) as Hext.
    destruct (external w1) as [[[]|e] w2]; simpl;
      destruct (Hext _ _ eq_refl) as (Htm2 & _ & _ & Htr2 & _).
    + set (cleaned := unstructuredCleanup cleanupFunc workload).
      destruct (UpdateTemplate cleaned w2) as [[[]|e] w3] eqn:Hupd; simpl.
      * apply UpdateTemplate_written in Hupd as (Ht3 & Htr3 & _).
        split; [|done]. intros _. rewrite Ht3, Htr3. split; congruence.
      * apply UpdateTemplate_failed in Hupd as (Ht3 & _). split; [done|].
        intros _ _. congruence.
    + split; [done|]. intros _ _. congruence.
  - split; [|split; [|done]]; intros ? [= <-] Hnf; rewrite Hnf; simpl; [done|].
    split; [done|]. split; congruence.
Qed.

(** ** Marks lead bindings: the iterations of the deletion loops *)














(** The iteration for the binding of nginx when nothing fails: the
    template is updated, then the binding, and both lose the label. *)
Example ppDeletionBody_nginx :
  let run := ppDeletionBody sample.nginxRB [] sample.claimedWorld in
  run.1 = Ok [] ∧
  trace run.2 = [EvUpdateTemplate sample.nginxKey None;
                 EvUpdateRB ("default", "nginx-Deployment") None] ∧
  (unstructured.GetLabels <$> templates run.2 !! sample.nginxKey) = Some ∅ ∧
  (metav1.Labels ∘ workv1alpha2.RBMeta <$> rbs run.2 !! ("default", "nginx-Deployment"))
  = Some ∅.
Proof. repeat split; reflexivity. Qed.

(** ** After the deletion of a policy *)

#[global] Instance rbsKept_frame : Frame rbsKept.
Proof. split; try done. unfold rbsKept. intros w1 w2 w3 H1 H2. congruence. Qed.

Lemma CleanupClusterResourceBindingMarks_rbsKept crb cleanupFunc :
  preserves rbsKept (CleanupClusterResourceBindingMarks crb cleanupFunc).
Proof.
  unfold CleanupClusterResourceBindingMarks. apply preserves_RetryOnConflict; [apply _|].
  intros o. unfold cleanupCRBAttempt. cbv zeta.
  frame_step.
  { apply preserves_try, preserves_apiWrite; [apply _| |]; by intros. }
  destruct a as [[]|updateErr]; [frame|].
  frame_step; [apply preserves_try, Get_preserves, _|].
  destruct a; frame.
Qed.

Lemma cppDeletionBodyCRB_rbsKept binding errs :
  preserves rbsKept (cppDeletionBodyCRB binding errs).
Proof.
  unfold cppDeletionBodyCRB. frame_step.
  { apply preserves_try.
    apply (preserves_weaken onlyTemplateWrites);
      [by intros ? ? (? & _) | apply CleanupResourceTemplateMarks_onlyTemplateWrites]. }
  destruct a as [[]|err]; [|frame].
  frame_step; [apply preserves_try, CleanupClusterResourceBindingMarks_rbsKept|].
  destruct a; frame.
Qed.

Section Loop.
Variable cleanupFunc : metav1.ObjectMeta → metav1.ObjectMeta.
Variable body : workv1alpha2.ResourceBinding → list error → M (list error).
Variable labelKey policyID : string.

(** One iteration: either the binding was cleaned and no error was
    collected, or an error was collected and no binding changed. *)
Hypothesis body_cases : ∀ x errs w r w',
  wellKeyed (rbs w) →
  body x errs w = (r, w') →
  ∃ errs1, r = Ok errs1 ∧ crbs w' = crbs w ∧
    ((errs1 = errs ∧
      ∃ b, (b = x ∨ rbs w !! ObjectKeyFromObject x = Some b) ∧
           rbs w' = <[ObjectKeyFromObject x := cleanedRB cleanupFunc b]> (rbs w)) ∨
     ((∃ e, errs1 = errs ++ [e]) ∧ rbs w' = rbs w)).
Hypothesis cleanupFunc_name : ∀ m, metav1.ObjName (cleanupFunc m) = metav1.ObjName m.
Hypothesis cleanupFunc_namespace :
  ∀ m, metav1.ObjNamespace (cleanupFunc m) = metav1.ObjNamespace m.
Hypothesis cleanupFunc_label : ∀ m, metav1.Labels (cleanupFunc m) !! labelKey = None.

Lemma deletion_loop items errs w r w' :
  wellKeyed (rbs w) →
  forEach body items errs w = (r, w') →
  ∃ errs', r = Ok errs' ∧ errs `prefix_of` errs' ∧ wellKeyed (rbs w') ∧
    crbs w' = crbs w ∧
    (errs' = [] →
     (∀ k b, rbs w !! k = Some b →
             metav1.Labels (workv1alpha2.RBMeta b) !! labelKey = Some policyID →
             b ∈ items) →
     ∀ k b, rbs w' !! k = Some b →
            metav1.Labels (workv1alpha2.RBMeta b) !! labelKey ≠ Some policyID).
Proof.
  revert errs w. induction items as [|x rest IH]; intros errs w Hwk Hrun; simpl in Hrun.
  - injection Hrun as <- <-. exists errs. split; [done|]. split; [done|].
    split; [done|]. split; [done|].
    intros _ Hinv k b Hk Hl. specialize (Hinv k b Hk Hl). by apply elem_of_nil in Hinv.
  - unfold bind in Hrun. destruct (body x errs w) as [r1 w1] eqn:Hbody.
    apply body_cases in Hbody as (errs1 & -> & Hc1 & Hcases); [|done].
    assert (Hwk1 : wellKeyed (rbs w1)).
    { destruct Hcases as [(_ & b & Hb & ->)|(_ & ->)]; [|done].
      intros k b' [(<- & <-)|(Hne & Hk)]%lookup_insert_Some; [|by apply Hwk].
      unfold ObjectKeyFromObject; simpl.
      rewrite cleanupFunc_name, cleanupFunc_namespace.
      destruct Hb as [->|Hb]; [done|]. by apply Hwk in Hb. }
    apply IH in Hrun as (errs' & -> & Hpre & Hwk' & Hc' & Hpost); [|done].
    exists errs'. split; [done|].
    assert (Hpre1 : errs `prefix_of` errs1).
    { destruct Hcases as [(-> & _)|((e & ->) & _)]; [done|]. by apply prefix_app_r. }
    split; [by etrans|]. split; [done|]. split; [congruence|].
    intros -> Hinv. apply Hpost; [done|].
    apply prefix_nil_inv in Hpre as ->.
    destruct Hcases as [(_ & b & Hb & ->)|((e & He) & _)];
      [|by destruct errs].
    intros k b' [(<- & <-)|(Hne & Hk)]%lookup_insert_Some.
    + simpl. by rewrite cleanupFunc_label.
    + intros Hl. specialize (Hinv k b' Hk Hl).
      apply elem_of_cons in Hinv as [->|Hin]; [|done].
      by apply Hwk in Hk.
Qed.
End Loop.

Lemma ppDeletionBody_cases x errs w r w' :
  wellKeyed (rbs w) →
  ppDeletionBody x errs w = (r, w') →
  ∃ errs1, r = Ok errs1 ∧ crbs w' = crbs w ∧
    ((errs1 = errs ∧
      ∃ b, (b = x ∨ rbs w !! ObjectKeyFromObject x = Some b) ∧
           rbs w' = <[ObjectKeyFromObject x := cleanedRB cleanupMarksFunc b]> (rbs w)) ∨
     ((∃ e, errs1 = errs ++ [e]) ∧ rbs w' = rbs w)).
Proof.
  intros Hwk. unfold ppDeletionBody, bind, try.
  pose proof (CleanupResourceTemplateMarks_onlyTemplateWrites
                (workv1alpha2.Resource (workv1alpha2.RBSpec x)) cleanupMarksFunc w) as Ht.
  destruct (CleanupResourceTemplateMarks _ cleanupMarksFunc w) as [[[]|e] w1]; simpl in *;
    destruct Ht as (Hr & Hc & _).
  - destruct (CleanupResourceBindingMarks x cleanupMarksFunc w1) as [rb wb] eqn:Hclean.
    apply CleanupResourceBindingMarks_cases in Hclean as (w0 & Htch & Hcases);
      [| auto | by rewrite Hr].
    destruct (touched_stores _ _ Htch) as (_ & _ & Hr0 & Hc0 & _).
    destruct Hcases as [(e & -> & ->)|(-> & b & Hb & ->)]; simpl;
      intros [= <- <-]; eexists; (split; [done|]); simpl; (split; [congruence|]).
    + right. split; [eauto | congruence].
    + left. split; [done|]. exists b. rewrite <- Hr. eauto.
  - intros [= <- <-]. eexists. split; [done|]. split; [done|]. right. eauto.
Qed.

Lemma cppDeletionBodyRB_cases x errs w r w' :
  wellKeyed (rbs w) →
  cppDeletionBodyRB x errs w = (r, w') →
  ∃ errs1, r = Ok errs1 ∧ crbs w' = crbs w ∧
    ((errs1 = errs ∧
      ∃ b, (b = x ∨ rbs w !! ObjectKeyFromObject x = Some b) ∧
           rbs w' = <[ObjectKeyFromObject x := cleanedRB cleanupMarksFun b]> (rbs w)) ∨
     ((∃ e, errs1 = errs ++ [e]) ∧ rbs w' = rbs w)).
Proof.
  intros Hwk. unfold cppDeletionBodyRB, bind, try.
  pose proof (CleanupResourceTemplateMarks_onlyTemplateWrites
                (workv1alpha2.Resource (workv1alpha2.RBSpec x)) cleanupMarksFun w) as Ht.
  destruct (CleanupResourceTemplateMarks _ cleanupMarksFun w) as [[[]|e] w1]; simpl in *;
    destruct Ht as (Hr & Hc & _).
  - destruct (CleanupResourceBindingMarks x cleanupMarksFun w1) as [rb wb] eqn:Hclean.
    apply CleanupResourceBindingMarks_cases in Hclean as (w0 & Htch & Hcases);
      [| auto | by rewrite Hr].
    destruct (touched_stores _ _ Htch) as (_ & _ & Hr0 & Hc0 & _).
    destruct Hcases as [(e & -> & ->)|(-> & b & Hb & ->)]; simpl;
      intros [= <- <-]; eexists; (split; [done|]); simpl; (split; [congruence|]).
    + right. split; [eauto | congruence].
    + left. split; [done|]. exists b. rewrite <- Hr. eauto.
  - intros [= <- <-]. eexists. split; [done|]. split; [done|]. right. eauto.
Qed.

Lemma GetResourceBindings_complete labelKey policyID w items w1 :
  GetResourceBindings labelKey policyID w = (Ok items, w1) →
  rbs w1 = rbs w ∧ crbs w1 = crbs w ∧
  (∀ k b, rbs w !! k = Some b →
          metav1.Labels (workv1alpha2.RBMeta b) !! labelKey = Some policyID → b ∈ items) ∧
  ((∀ k b, rbs w !! k = Some b →
           metav1.Labels (workv1alpha2.RBMeta b) !! labelKey ≠ Some policyID) →
   items = []).
Proof.
  unfold GetResourceBindings, bind, gets.
  pose proof (external_stores w) as Hext.
  destruct (external w) as [[[]|e] w2]; [|done].
  destruct (Hext _ _ eq_refl) as (_ & Hr & Hc & _). intros [= <- <-].
  split; [done|]. split; [done|]. rewrite Hr. split.
  - intros k b Hk Hl. apply list_elem_of_filter. split; [done|].
    apply list_elem_of_fmap. exists (k, b). split; [done|]. by apply elem_of_map_to_list.
  - intros Hnone. apply elem_of_nil_inv. intros b [Hl Hb]%list_elem_of_filter.
    apply list_elem_of_fmap in Hb as ([k b'] & -> & Hkb%elem_of_map_to_list).
    by apply (Hnone k b').
Qed.

Lemma returnAggregate_Ok errs w w' :
  returnAggregate errs w = (Ok tt, w') → errs = [] ∧ w' = w.
Proof. unfold returnAggregate. destruct errs; simpl; [by intros [= <-] | done]. Qed.

Lemma pp_deletion_clears (policyID : string) (w w' : World) :
  wellKeyed (rbs w) →
  HandlePropagationPolicyDeletion policyID w = (Ok tt, w') →
  let label := policyv1alpha1.PropagationPolicyPermanentIDLabel in
  (∀ k b, rbs w' !! k = Some b →
          metav1.Labels (workv1alpha2.RBMeta b) !! label ≠ Some policyID) ∧
  wellKeyed (rbs w') ∧ crbs w' = crbs w.
Proof.
  intros Hwk Hrun label.
  unfold HandlePropagationPolicyDeletion, bind, try in Hrun.
  destruct (GetResourceBindings _ policyID w) as [[items|e] w1] eqn:Hlist; [|done].
  apply GetResourceBindings_complete in Hlist as (Hr1 & Hc1 & Hall & _).
  destruct (forEach ppDeletionBody items [] w1) as [r w2] eqn:Hloop.
  apply (deletion_loop cleanupMarksFunc ppDeletionBody label policyID) in Hloop
    as (errs & -> & _ & Hwk2 & Hc2 & Hpost);
    [| apply ppDeletionBody_cases
     | intros m; apply (cleanupMarksFunc_meta m)
     | intros m; apply (cleanupMarksFunc_meta m)
     | intros m; destruct (cleanupMarksFunc_meta m) as (_ & _ & -> & _);
       apply lookup_delete_eq
     | by rewrite Hr1].
  apply returnAggregate_Ok in Hrun as (-> & ->).
  assert (Hclear : ∀ k b, rbs w2 !! k = Some b →
                          metav1.Labels (workv1alpha2.RBMeta b) !! label ≠ Some policyID).
  { apply Hpost; [done|]. rewrite Hr1. exact Hall. }
  split; [done|]. split; [done | congruence].
Qed.

(** X16: when HandlePropagationPolicyDeletion succeeds (in a store that
    keeps every binding under its own key), no ResourceBinding bears the
    permanent ID of the policy any more: listing the bindings of the policy
    again finds none.  The ClusterResourceBindings are
    untouched. *)
Theorem HandlePropagationPolicyDeletion_clears_bindings (policyID : string)
    (w w' : World) :
  wellKeyed (rbs w) →
  HandlePropagationPolicyDeletion policyID w = (Ok tt, w') →
  let label := policyv1alpha1.PropagationPolicyPermanentIDLabel in
  (∀ k b, rbs w' !! k = Some b →
          metav1.Labels (workv1alpha2.RBMeta b) !! label ≠ Some policyID) ∧
  (∀ items w2, GetResourceBindings label policyID w' = (Ok items, w2) → items = []) ∧
  wellKeyed (rbs w') ∧ crbs w' = crbs w.
Proof.
  intros Hwk Hrun label.
  destruct (pp_deletion_clears policyID w w' Hwk Hrun) as (Hclear & Hwk' & Hcrbs).
  split; [exact Hclear|]. split; [|by split].
  intros items w2 Hlist.
  apply GetResourceBindings_complete in Hlist as (_ & _ & _ & Hempty).
  apply Hempty. intros k b Hb. by apply (Hclear k b).
Qed.


Lemma HandlePropagationPolicyDeletion_clears_bindings_witness :
  let w' := (HandlePropagationPolicyDeletion "old-id" sample.claimedWorld).2 in
  (HandlePropagationPolicyDeletion "old-id" sample.claimedWorld).1 = Ok tt ∧
  ∀ k b, rbs w' !! k = Some b →
         metav1.Labels (workv1alpha2.RBMeta b)
           !! policyv1alpha1.PropagationPolicyPermanentIDLabel ≠ Some "old-id".
Proof.
  intros w'. split; [reflexivity|].
  assert (Hwk : wellKeyed (rbs sample.claimedWorld)).
  { intros k b Hk.
    change (({[ ("default", "nginx-Deployment") := sample.nginxRB ]}
             : gmap (string * string) workv1alpha2.ResourceBinding) !! k = Some b) in Hk.
    apply lookup_singleton_Some in Hk as [<- <-]. reflexivity. }
  exact (proj1 (HandlePropagationPolicyDeletion_clears_bindings "old-id"
                  sample.claimedWorld w' Hwk
                  (run_Ok (HandlePropagationPolicyDeletion "old-id") sample.claimedWorld
                     tt eq_refl))).
Defined.

Lemma cpp_deletion_clears (policyID : string) (w w' : World) :
  wellKeyed (rbs w) →
  HandleClusterPropagationPolicyDeletion policyID w = (Ok tt, w') →
  let label := policyv1alpha1.ClusterPropagationPolicyPermanentIDLabel in
  (∀ k b, rbs w' !! k = Some b →
          metav1.Labels (workv1alpha2.RBMeta b) !! label ≠ Some policyID) ∧
  wellKeyed (rbs w').
Proof.
  intros Hwk Hrun label. move Hrun at bottom.
  unfold HandleClusterPropagationPolicyDeletion in Hrun.
  apply bind_Ok in Hrun as (crbsListed & w1 & Hclist%try_Ok & Hrun).
  apply bind_Ok in Hrun as (errs0 & w2 & Hphase1 & Hrun).
  apply bind_Ok in Hrun as (rbsListed & w3 & Hlist%try_Ok & Hrun).
  apply bind_Ok in Hrun as (errs & w4 & Hphase2 & Hrun).
  apply returnAggregate_Ok in Hrun as (-> & ->).
  assert (Hr1 : rbs w1 = rbs w).
  { unfold GetClusterResourceBindings, bind, gets in Hclist.
    pose proof (external_stores w) as Hext.
    destruct (external w) as [[[]|e] w0]; injection Hclist as <- <-;
      by destruct (Hext _ _ eq_refl) as (_ & -> & _). }
  assert (Hr2 : rbs w2 = rbs w1).
  { destruct crbsListed as [citems|e].
    - pose proof (preserves_forEach rbsKept cppDeletionBodyCRB citems []
                    cppDeletionBodyCRB_rbsKept w1) as Hkept.
      by rewrite Hphase1 in Hkept.
    - unfold bind, klog_Error, modify, ret in Hphase1. by injection Hphase1 as <- <-. }
  destruct rbsListed as [items|e];
    [|unfold bind, klog_Error, modify, ret in Hphase2; injection Hphase2 as Hnil _;
      by destruct errs0].
  apply GetResourceBindings_complete in Hlist as (Hr3 & _ & Hall & _).
  apply (deletion_loop cleanupMarksFun cppDeletionBodyRB label policyID) in Hphase2
    as (errs & Heq & _ & Hwk4 & _ & Hpost);
    [| apply cppDeletionBodyRB_cases
     | intros m; apply (cleanupMarksFun_meta m)
     | intros m; apply (cleanupMarksFun_meta m)
     | intros m; destruct (cleanupMarksFun_meta m) as (_ & _ & -> & _);
       apply lookup_delete_eq
     | by rewrite Hr3, Hr2, Hr1].
  assert (Hclear : ∀ k b, rbs w4 !! k = Some b →
                          metav1.Labels (workv1alpha2.RBMeta b) !! label ≠ Some policyID).
  { apply Hpost; [by injection Heq as <-|]. rewrite Hr3. exact Hall. }
  by split.
Qed.

(** X17: when HandleClusterPropagationPolicyDeletion succeeds (in a
    store that keeps every binding under its own key), no ResourceBinding
    bears the permanent ID of the policy any more: listing the
    ResourceBindings of the policy again finds none. *)
Theorem HandleClusterPropagationPolicyDeletion_clears_bindings (policyID : string)
    (w w' : World) :
  wellKeyed (rbs w) →
  HandleClusterPropagationPolicyDeletion policyID w = (Ok tt, w') →
  let label := policyv1alpha1.ClusterPropagationPolicyPermanentIDLabel in
  (∀ k b, rbs w' !! k = Some b →
          metav1.Labels (workv1alpha2.RBMeta b) !! label ≠ Some policyID) ∧
  (∀ items w2, GetResourceBindings label policyID w' = (Ok items, w2) → items = []) ∧
  wellKeyed (rbs w').
Proof.
  intros Hwk Hrun label.
  destruct (cpp_deletion_clears policyID w w' Hwk Hrun) as (Hclear & Hwk').
  split; [exact Hclear|]. split; [|done].
  intros items w2 Hlist.
  apply GetResourceBindings_complete in Hlist as (_ & _ & _ & Hempty).
  apply Hempty. intros k b Hb. by apply (Hclear k b).
Qed.

Lemma clusterWorld_wellKeyed : wellKeyed (rbs retiring.clusterWorld).
Proof.
  intros k b Hk.
  change (({[ ("default", "nginx-Deployment") := retiring.nginxRB ]}
           : gmap (string * string) workv1alpha2.ResourceBinding) !! k = Some b) in Hk.
  apply lookup_singleton_Some in Hk as [<- <-]. reflexivity.
Qed.

Lemma HandleClusterPropagationPolicyDeletion_clears_bindings_witness :
  let w := retiring.clusterWorld in
  let label := policyv1alpha1.ClusterPropagationPolicyPermanentIDLabel in
  let w' := (HandleClusterPropagationPolicyDeletion "cpp1-id" w).2 in
  (HandleClusterPropagationPolicyDeletion "cpp1-id" w).1 = Ok tt ∧
  (metav1.Labels ∘ workv1alpha2.RBMeta <$> rbs w !! ("default", "nginx-Deployment"))
    = Some {[ label := "cpp1-id" ]} ∧
  (metav1.Labels ∘ workv1alpha2.RBMeta <$> rbs w' !! ("default", "nginx-Deployment"))
    = Some ∅ ∧
  ∀ k b, rbs w' !! k = Some b →
         metav1.Labels (workv1alpha2.RBMeta b) !! label ≠ Some "cpp1-id".
Proof.
  intros w label w'. split; [reflexivity|]. split; [reflexivity|].
  split; [reflexivity|].
  exact (proj1 (HandleClusterPropagationPolicyDeletion_clears_bindings "cpp1-id" w w'
                  clusterWorld_wellKeyed
                  (run_Ok (HandleClusterPropagationPolicyDeletion "cpp1-id") w tt
                     eq_refl))).
Defined.

(** ** The finalizer of a policy *)

#[global] Instance policiesKept_frame : Frame policiesKept.
Proof.
  split; try done. intros w1 w2 w3 [H1 H1'] [H2 H2']. split; congruence.
Qed.

Lemma UpdateTemplate_policiesKept o : preserves policiesKept (UpdateTemplate o).
Proof. apply preserves_apiWrite; [apply _| |]; by intros. Qed.

Lemma CleanupResourceTemplateMarks_policiesKept objRef cleanupFunc :
  preserves policiesKept (CleanupResourceTemplateMarks objRef cleanupFunc).
Proof.
  unfold CleanupResourceTemplateMarks. frame_step.
  { apply preserves_try, FetchResourceTemplate_preserves, _. }
  destruct a as [workload|err]; [|destruct (IsNotFound err); frame].
  cbv zeta. frame_step; [frame|]. destruct a as [[]|err]; [|frame].
  frame_step; [|frame]. apply preserves_try, UpdateTemplate_policiesKept.
Qed.

Lemma CleanupResourceBindingMarks_policiesKept rb cleanupFunc :
  preserves policiesKept (CleanupResourceBindingMarks rb cleanupFunc).
Proof.
  unfold CleanupResourceBindingMarks. apply preserves_RetryOnConflict; [apply _|].
  intros o. unfold cleanupRBAttempt. cbv zeta.
  frame_step.
  { apply preserves_try, preserves_apiWrite; [apply _| |]; by intros. }
  destruct a as [[]|updateErr]; [frame|].
  frame_step; [apply preserves_try, Get_preserves, _|].
  destruct a; frame.
Qed.

Lemma CleanupClusterResourceBindingMarks_policiesKept crb cleanupFunc :
  preserves policiesKept (CleanupClusterResourceBindingMarks crb cleanupFunc).
Proof.
  unfold CleanupClusterResourceBindingMarks. apply preserves_RetryOnConflict; [apply _|].
  intros o. unfold cleanupCRBAttempt. cbv zeta.
  frame_step.
  { apply preserves_try, preserves_apiWrite; [apply _| |]; by intros. }
  destruct a as [[]|updateErr]; [frame|].
  frame_step; [apply preserves_try, Get_preserves, _|].
  destruct a; frame.
Qed.

Lemma returnAggregate_preserves R `{!Frame R} errs : preserves R (returnAggregate errs).
Proof. unfold returnAggregate. destruct (NewAggregate errs); frame. Qed.

Lemma HandlePropagationPolicyDeletion_policiesKept policyID :
  preserves policiesKept (HandlePropagationPolicyDeletion policyID).
Proof.
  unfold HandlePropagationPolicyDeletion. frame_step.
  { unfold GetResourceBindings. frame. }
  destruct a as [items|err]; [|frame].
  frame_step; [|apply returnAggregate_preserves, _].
  apply preserves_forEach; [apply _|]. intros x es. unfold ppDeletionBody.
  frame_step; [apply preserves_try, CleanupResourceTemplateMarks_policiesKept|].
  destruct a as [[]|err]; [|frame].
  frame_step; [apply preserves_try, CleanupResourceBindingMarks_policiesKept|].
  destruct a; frame.
Qed.

Lemma HandleClusterPropagationPolicyDeletion_policiesKept policyID :
  preserves policiesKept (HandleClusterPropagationPolicyDeletion policyID).
Proof.
  unfold HandleClusterPropagationPolicyDeletion. frame_step.
  { unfold GetClusterResourceBindings. frame. }
  frame_step.
  { destruct a as [items|err]; [|frame].
    apply preserves_forEach; [apply _|]. intros x es. unfold cppDeletionBodyCRB.
    frame_step; [apply preserves_try, CleanupResourceTemplateMarks_policiesKept|].
    destruct a as [[]|err]; [|frame].
    frame_step; [apply preserves_try, CleanupClusterResourceBindingMarks_policiesKept|].
    destruct a; frame. }
  frame_step.
  { unfold GetResourceBindings. frame. }
  frame_step; [|apply returnAggregate_preserves, _].
  destruct a1 as [items|err]; [|frame].
  apply preserves_forEach; [apply _|]. intros x es. unfold cppDeletionBodyRB.
  frame_step; [apply preserves_try, CleanupResourceTemplateMarks_policiesKept|].
  destruct a1 as [[]|err]; [|frame].
  frame_step; [apply preserves_try, CleanupResourceBindingMarks_policiesKept|].
  destruct a1; frame.
Qed.

#[global] Instance crbsKept_frame : Frame crbsKept.
Proof. split; try done. unfold crbsKept. intros w1 w2 w3 H1 H2. congruence. Qed.

#[global] Instance crbsStripped_frame labelKey labelValue :
  Frame (crbsStripped labelKey labelValue).
Proof.
  split.
  - intros w Hwk. by split.
  - intros w1 w2 w3 H12 H23 Hwk1.
    destruct (H12 Hwk1) as [Hwk2 Hkept2]. destruct (H23 Hwk2) as [Hwk3 Hkept3].
    split; [done|]. intros k b Hb Hl. apply Hkept2; [|done]. by apply Hkept3.
  - intros w fs Hwk. by split.
  - intros w l Hwk. by split.
Qed.

Lemma crbsKept_crbsStripped labelKey labelValue w w' :
  crbsKept w w' → crbsStripped labelKey labelValue w w'.
Proof. unfold crbsKept. intros Hc Hwk. rewrite Hc. by split. Qed.

Lemma CleanupResourceTemplateMarks_crbsKept objRef cleanupFunc :
  preserves crbsKept (CleanupResourceTemplateMarks objRef cleanupFunc).
Proof.
  apply (preserves_weaken onlyTemplateWrites);
    [by intros ? ? (_ & ? & _) | apply CleanupResourceTemplateMarks_onlyTemplateWrites].
Qed.

Lemma CleanupResourceBindingMarks_crbsKept rb cleanupFunc :
  preserves crbsKept (CleanupResourceBindingMarks rb cleanupFunc).
Proof.
  unfold CleanupResourceBindingMarks. apply preserves_RetryOnConflict; [apply _|].
  intros o. unfold cleanupRBAttempt. cbv zeta.
  frame_step.
  { apply preserves_try, preserves_apiWrite; [apply _| |]; by intros. }
  destruct a as [[]|updateErr]; [frame|].
  frame_step; [apply preserves_try, Get_preserves, _|].
  destruct a; frame.
Qed.

(** The cleanup of a ClusterResourceBinding with the closure of the
    cluster policies writes the binding without the policy's label, or
    not at all. *)
Lemma CleanupClusterResourceBindingMarks_crbsStripped crb policyID :
  preserves
    (crbsStripped policyv1alpha1.ClusterPropagationPolicyPermanentIDLabel policyID)
    (CleanupClusterResourceBindingMarks crb cleanupMarksFun).
Proof.
  intros w Hwk.
  destruct (CleanupClusterResourceBindingMarks crb cleanupMarksFun w) as [r w'] eqn:Hrun.
  apply CleanupClusterResourceBindingMarks_cases in Hrun as (w0 & Htch & Hcases);
    [| by right | done].
  destruct (touched_stores _ _ Htch) as (_ & _ & _ & Hc0 & _).
  cbn [snd]. destruct Hcases as [(e & _ & ->)|(_ & b & Hb & ->)].
  - rewrite Hc0. by split.
  - cbn. split.
    + intros k b' [(<- & <-)|(Hne & Hk)]%lookup_insert_Some; [|by apply Hwk].
      unfold ObjectKeyFromObject; simpl.
      destruct Hb as [->|Hb]; [done|]. by apply Hwk in Hb.
    + intros k b' [(<- & <-)|(Hne & Hk)]%lookup_insert_Some Hl; [|done].
      exfalso. simpl in Hl. by rewrite lookup_delete_eq in Hl.
Qed.

Lemma HandleClusterPropagationPolicyDeletion_crbsStripped policyID :
  preserves
    (crbsStripped policyv1alpha1.ClusterPropagationPolicyPermanentIDLabel policyID)
    (HandleClusterPropagationPolicyDeletion policyID).
Proof.
  pose proof (crbsKept_crbsStripped
                policyv1alpha1.ClusterPropagationPolicyPermanentIDLabel policyID) as Hkept.
  unfold HandleClusterPropagationPolicyDeletion. frame_step.
  { unfold GetClusterResourceBindings. frame. }
  frame_step.
  { destruct a as [items|err]; [|frame].
    apply preserves_forEach; [apply _|]. intros x es. unfold cppDeletionBodyCRB.
    frame_step.
    { apply preserves_try, (preserves_weaken crbsKept); [exact Hkept|].
      apply CleanupResourceTemplateMarks_crbsKept. }
    destruct a as [[]|err]; [|frame].
    frame_step; [apply preserves_try, CleanupClusterResourceBindingMarks_crbsStripped|].
    destruct a; frame. }
  frame_step.
  { unfold GetResourceBindings. frame. }
  frame_step; [|apply returnAggregate_preserves, _].
  destruct a1 as [items|err]; [|frame].
  apply preserves_forEach; [apply _|]. intros x es. unfold cppDeletionBodyRB.
  frame_step.
  { apply preserves_try, (preserves_weaken crbsKept); [exact Hkept|].
    apply CleanupResourceTemplateMarks_crbsKept. }
  destruct a1 as [[]|err]; [|frame].
  frame_step.
  { apply preserves_try, (preserves_weaken crbsKept); [exact Hkept|].
    apply CleanupResourceBindingMarks_crbsKept. }
  destruct a1; frame.
Qed.

Lemma RemoveFinalizer_removes finalizer m :
  (finalizer ∉ metav1.Finalizers (RemoveFinalizer finalizer m).2) ∧
  ((RemoveFinalizer finalizer m).1 = false → finalizer ∉ metav1.Finalizers m).
Proof.
  unfold RemoveFinalizer. simpl. split.
  - intros [Hne _]%list_elem_of_filter. done.
  - intros Hlen%bool_decide_eq_false Hin. apply Hlen. clear Hlen.
    intros Hlen. pose proof (length_filter_lt (λ f, f ≠ finalizer) _ _ Hin) as Hlt.
    rewrite Hlen in Hlt. specialize (Hlt ltac:(by intros [])). lia.
Qed.

Section PolicyReconcile.
Variable ResourceMatches :
  unstructured.Unstructured → policyv1alpha1.ResourceSelector → bool.
Variable cleanPPUnmatchedRBs :
  string → string → string → list policyv1alpha1.ResourceSelector → M unit.
Variable listPPDerivedRBs :
  string → string → string → M (list workv1alpha2.ResourceBinding).
Variable cleanCPPUnmatchedRBs :
  string → string → list policyv1alpha1.ResourceSelector → M unit.
Variable cleanUnmatchedCRBs :
  string → string → list policyv1alpha1.ResourceSelector → M unit.
Variable listCPPDerivedRBs :
  string → string → M (list workv1alpha2.ResourceBinding).
Variable listCPPDerivedCRBs :
  string → string → M (list workv1alpha2.ClusterResourceBinding).
Variable IsDependentOverridesPresent : policyv1alpha1.PropagationPolicy → M bool.
Variable IsDependentClusterOverridesPresent :
  policyv1alpha1.ClusterPropagationPolicy → M bool.
Variable preemptionEnabled : policyv1alpha1.PreemptionBehavior → bool.
Variable handlePropagationPolicyPreemption :
  policyv1alpha1.PropagationPolicy → M unit.
Variable handleClusterPropagationPolicyPreemption :
  policyv1alpha1.ClusterPropagationPolicy → M unit.

Local Abbreviation ReconcilePP :=
  (ReconcilePropagationPolicy ResourceMatches cleanPPUnmatchedRBs listPPDerivedRBs
     IsDependentOverridesPresent preemptionEnabled handlePropagationPolicyPreemption).
Local Abbreviation ReconcileCPP :=
  (ReconcileClusterPropagationPolicy ResourceMatches cleanCPPUnmatchedRBs
     cleanUnmatchedCRBs listCPPDerivedRBs listCPPDerivedCRBs
     IsDependentClusterOverridesPresent preemptionEnabled
     handleClusterPropagationPolicyPreemption).

(** X18: the finalizer of a PropagationPolicy that is being deleted goes
    only after the cleanup.  Whatever fails, reconciling such a policy
    either leaves the stored policies as they were, or succeeds having
    stored the policy without the detector's finalizer, and then (in a
    store that keeps every binding under its own key) no ResourceBinding
    bears the policy's permanent ID.  The ClusterPropagationPolicies are
    untouched. *)
Theorem finalizer_outlives_failed_cleanup (ckey : keys.ClusterWideKey)
    (p : policyv1alpha1.PropagationPolicy) (t : Z) (w : World) :
  pps w !! (keys.Namespace ckey, keys.Name ckey) = Some p →
  metav1.DeletionTimestamp (policyv1alpha1.PPMeta p) = Some t →
  let r := ReconcilePP (QClusterWideKey ckey) w in
  let label := policyv1alpha1.PropagationPolicyPermanentIDLabel in
  let policyID := util.GetLabelValue (metav1.Labels (policyv1alpha1.PPMeta p)) label in
  let released :=
    policyv1alpha1.mkPropagationPolicy
      (RemoveFinalizer util.PropagationPolicyControllerFinalizer
         (policyv1alpha1.PPMeta p)).2
      (policyv1alpha1.PPSpec p) in
  cpps r.2 = cpps w ∧
  (pps r.2 = pps w ∨
   (r.1 = Ok tt ∧ pps r.2 = <[ppKey p := released]> (pps w) ∧
    (util.PropagationPolicyControllerFinalizer
       ∉ metav1.Finalizers (policyv1alpha1.PPMeta released)) ∧
    (wellKeyed (rbs w) →
     ∀ k b, rbs r.2 !! k = Some b →
            metav1.Labels (workv1alpha2.RBMeta b) !! label ≠ Some policyID))).
Proof.
  intros Hp Ht r label policyID released. subst r.
  unfold ReconcilePropagationPolicy, bind, try, gets, ret, fail, klog_Error, modify.
  destruct (external w) as [[[]|e0] w0] eqn:Hext; apply external_run in Hext.
  2:{ cbn [fst snd]. destruct (IsNotFound e0); cbn [fst snd]; rewrite Hext; cbn; auto. }
  assert (Hw0 : pps w0 = pps w ∧ cpps w0 = cpps w ∧ rbs w0 = rbs w)
    by (by rewrite Hext).
  destruct Hw0 as (Hp0 & Hc0 & Hr0). rewrite Hp0, Hp. cbv beta iota.
  destruct (external w0) as [[[]|e1] w1] eqn:Hext1; apply external_run in Hext1.
  2:{ cbn [fst snd]. rewrite Hext1. cbn. split; [done|]. by left. }
  assert (Hw1 : pps w1 = pps w ∧ cpps w1 = cpps w ∧ rbs w1 = rbs w)
    by (rewrite Hext1; cbn; by rewrite Hp0, Hc0, Hr0).
  destruct Hw1 as (Hp1 & Hc1 & Hr1). cbv beta iota.
  unfold deletionTimestampIsZero. rewrite Ht. cbn [negb]. fold label policyID.
  pose proof (HandlePropagationPolicyDeletion_policiesKept policyID w1) as [Hp2 Hc2].
  pose proof (pp_deletion_clears policyID w1) as Hclears.
  destruct (HandlePropagationPolicyDeletion policyID w1) as [[[]|e2] w2];
    cbn [fst snd] in Hp2, Hc2 |- *.
  2:{ split; [congruence|]. left. congruence. }
  destruct (RemoveFinalizer_removes util.PropagationPolicyControllerFinalizer
              (policyv1alpha1.PPMeta p)) as [Hgone _].
  fold released.
  destruct (RemoveFinalizer util.PropagationPolicyControllerFinalizer
              (policyv1alpha1.PPMeta p)).1.
  2:{ cbn [fst snd]. split; [congruence|]. left. congruence. }
  unfold UpdatePP.
  destruct (apiWrite _ _ _ w2) as [ru w3] eqn:Hupd.
  apply apiWrite_run in Hupd as (fs & [(-> & _ & ->)|(e3 & -> & ->)]); cbn [fst snd].
  - split; [cbn; congruence|]. right. split; [done|].
    split; [cbn; change (ppKey released) with (ppKey p); congruence|]. split; [done|].
    intros Hwk. apply (Hclears w2); [by rewrite Hr1 | done].
  - split; [cbn; congruence|]. left. cbn. congruence.
Qed.

Lemma deleting_cluster_policy_crbsStripped (ckey : keys.ClusterWideKey)
    (p : policyv1alpha1.ClusterPropagationPolicy) (t : Z) (w : World) :
  cpps w !! keys.Name ckey = Some p →
  metav1.DeletionTimestamp (policyv1alpha1.CPPMeta p) = Some t →
  crbsStripped policyv1alpha1.ClusterPropagationPolicyPermanentIDLabel
    (util.GetLabelValue (metav1.Labels (policyv1alpha1.CPPMeta p))
       policyv1alpha1.ClusterPropagationPolicyPermanentIDLabel)
    w (ReconcileCPP (QClusterWideKey ckey) w).2.
Proof.
  intros Hp Ht.
  set (label := policyv1alpha1.ClusterPropagationPolicyPermanentIDLabel).
  set (policyID := util.GetLabelValue (metav1.Labels (policyv1alpha1.CPPMeta p)) label).
  assert (Hkept : ∀ w', crbs w' = crbs w → crbsStripped label policyID w w')
    by (intros w' Hc; by apply crbsKept_crbsStripped).
  unfold ReconcileClusterPropagationPolicy, bind, try, gets, ret, fail, klog_Error, modify.
  destruct (external w) as [[[]|e0] w0] eqn:Hext; apply external_run in Hext.
  2:{ cbn [fst snd]. destruct (IsNotFound e0); cbn [fst snd]; apply Hkept;
        rewrite Hext; reflexivity. }
  assert (Hw0 : cpps w0 = cpps w ∧ crbs w0 = crbs w) by (by rewrite Hext).
  destruct Hw0 as (Hp0 & Hc0). rewrite Hp0, Hp. cbv beta iota.
  destruct (external w0) as [[[]|e1] w1] eqn:Hext1; apply external_run in Hext1.
  2:{ cbn [fst snd]. apply Hkept. rewrite Hext1. cbn. exact Hc0. }
  assert (Hc1 : crbs w1 = crbs w) by (rewrite Hext1; cbn; exact Hc0).
  cbv beta iota.
  unfold deletionTimestampIsZero. rewrite Ht. cbn [negb]. fold label policyID.
  pose proof (HandleClusterPropagationPolicyDeletion_crbsStripped policyID w1) as Hs.
  fold label in Hs.
  assert (Hafter : ∀ w', crbs w' = crbs (HandleClusterPropagationPolicyDeletion policyID w1).2 →
                         crbsStripped label policyID w w').
  { intros w' Hc. eapply frame_trans; [apply (Hkept w1 Hc1)|].
    eapply frame_trans; [exact Hs|]. by apply crbsKept_crbsStripped. }
  destruct (HandleClusterPropagationPolicyDeletion policyID w1) as [[[]|e2] w2];
    cbn [fst snd] in Hafter |- *.
  2:{ by apply Hafter. }
  destruct (RemoveFinalizer util.ClusterPropagationPolicyControllerFinalizer
              (policyv1alpha1.CPPMeta p)).1.
  2:{ cbn [fst snd]. by apply Hafter. }
  unfold UpdateCPP.
  destruct (apiWrite _ _ _ w2) as [ru w3] eqn:Hupd.
  apply apiWrite_run in Hupd as (fs & [(-> & _ & ->)|(e3 & -> & ->)]); cbn [fst snd];
    by apply Hafter.
Qed.

(** X19: reconciling a ClusterPropagationPolicy that is being deleted never
    touches the PropagationPolicies and, whatever fails, either leaves the
    stored cluster policies as they were, or succeeds having stored the
    policy without the detector's finalizer; in that case (in a store
    that keeps every binding under its own key) no ResourceBinding bears
    the policy's permanent ID.  The ClusterResourceBindings are written
    only to take the policy's label off them: one that still bears the
    permanent ID after the reconcile is stored exactly as it was before.
    The theorem does not say that none is left: see
    [skipped_cluster_binding_keeps_its_marks] below. *)
Theorem deleting_cluster_policy_is_released (ckey : keys.ClusterWideKey)
    (p : policyv1alpha1.ClusterPropagationPolicy) (t : Z) (w : World) :
  cpps w !! keys.Name ckey = Some p →
  metav1.DeletionTimestamp (policyv1alpha1.CPPMeta p) = Some t →
  let r := ReconcileCPP (QClusterWideKey ckey) w in
  let label := policyv1alpha1.ClusterPropagationPolicyPermanentIDLabel in
  let policyID := util.GetLabelValue (metav1.Labels (policyv1alpha1.CPPMeta p)) label in
  let released :=
    policyv1alpha1.mkClusterPropagationPolicy
      (RemoveFinalizer util.ClusterPropagationPolicyControllerFinalizer
         (policyv1alpha1.CPPMeta p)).2
      (policyv1alpha1.CPPSpec p) in
  pps r.2 = pps w ∧
  (cpps r.2 = cpps w ∨
   (r.1 = Ok tt ∧ cpps r.2 = <[cppKey p := released]> (cpps w) ∧
    (util.ClusterPropagationPolicyControllerFinalizer
       ∉ metav1.Finalizers (policyv1alpha1.CPPMeta released)) ∧
    (wellKeyed (rbs w) →
     ∀ k b, rbs r.2 !! k = Some b →
            metav1.Labels (workv1alpha2.RBMeta b) !! label ≠ Some policyID))) ∧
  (wellKeyed (crbs w) →
   ∀ k b, crbs r.2 !! k = Some b →
          metav1.Labels (workv1alpha2.CRBMeta b) !! label = Some policyID →
          crbs w !! k = Some b).
Proof.
  intros Hp Ht r label policyID released.
  cut (pps r.2 = pps w ∧
       (cpps r.2 = cpps w ∨
        (r.1 = Ok tt ∧ cpps r.2 = <[cppKey p := released]> (cpps w) ∧
         (util.ClusterPropagationPolicyControllerFinalizer
            ∉ metav1.Finalizers (policyv1alpha1.CPPMeta released)) ∧
         (wellKeyed (rbs w) →
          ∀ k b, rbs r.2 !! k = Some b →
                 metav1.Labels (workv1alpha2.RBMeta b) !! label ≠ Some policyID)))).
  { intros [Hpps Hcases]. split; [done|]. split; [done|].
    intros Hwk. by apply (deleting_cluster_policy_crbsStripped ckey p t w Hp Ht). }
  subst r.
  unfold ReconcileClusterPropagationPolicy, bind, try, gets, ret, fail, klog_Error, modify.
  destruct (external w) as [[[]|e0] w0] eqn:Hext; apply external_run in Hext.
  2:{ cbn [fst snd]. destruct (IsNotFound e0); cbn [fst snd]; rewrite Hext; cbn; auto. }
  assert (Hw0 : pps w0 = pps w ∧ cpps w0 = cpps w ∧ rbs w0 = rbs w)
    by (by rewrite Hext).
  destruct Hw0 as (Hp0 & Hc0 & Hr0). rewrite Hc0, Hp. cbv beta iota.
  destruct (external w0) as [[[]|e1] w1] eqn:Hext1; apply external_run in Hext1.
  2:{ cbn [fst snd]. rewrite Hext1. cbn. split; [done|]. by left. }
  assert (Hw1 : pps w1 = pps w ∧ cpps w1 = cpps w ∧ rbs w1 = rbs w)
    by (rewrite Hext1; cbn; by rewrite Hp0, Hc0, Hr0).
  destruct Hw1 as (Hp1 & Hc1 & Hr1). cbv beta iota.
  unfold deletionTimestampIsZero. rewrite Ht. cbn [negb]. fold label policyID.
  pose proof (HandleClusterPropagationPolicyDeletion_policiesKept policyID w1)
    as [Hp2 Hc2].
  pose proof (cpp_deletion_clears policyID w1) as Hclears.
  destruct (HandleClusterPropagationPolicyDeletion policyID w1) as [[[]|e2] w2];
    cbn [fst snd] in Hp2, Hc2 |- *.
  2:{ split; [congruence|]. left. congruence. }
  destruct (RemoveFinalizer_removes util.ClusterPropagationPolicyControllerFinalizer
              (policyv1alpha1.CPPMeta p)) as [Hgone _].
  fold released.
  destruct (RemoveFinalizer util.ClusterPropagationPolicyControllerFinalizer
              (policyv1alpha1.CPPMeta p)).1.
  2:{ cbn [fst snd]. split; [congruence|]. left. congruence. }
  unfold UpdateCPP.
  destruct (apiWrite _ _ _ w2) as [ru w3] eqn:Hupd.
  apply apiWrite_run in Hupd as (fs & [(-> & _ & ->)|(e3 & -> & ->)]); cbn [fst snd].
  - split; [cbn; congruence|]. right. split; [done|].
    split; [cbn; rewrite Hc2, Hc1; reflexivity|]. split; [done|].
    intros Hwk. apply (Hclears w2); [by rewrite Hr1 | done].
  - split; [cbn; congruence|]. left. cbn. congruence.
Qed.

(** X20: reconciling the key of a policy that is not stored writes nothing
    and enqueues nothing.  It succeeds, unless the read itself fails with
    an error other than NotFound, which is returned; with no failing call
    the world is exactly as it was. *)
Theorem reconcile_of_a_missing_policy (ckey : keys.ClusterWideKey) (w : World) :
  (pps w !! (keys.Namespace ckey, keys.Name ckey) = None →
   let r := ReconcilePP (QClusterWideKey ckey) w in
   quiet w r.2 ∧ queuesKept w r.2 ∧
   (r.1 = Ok tt ∨ ∃ e, r.1 = Err e ∧ IsNotFound e = false ∧ head (faults w) = Some (Some e)) ∧
   (faults w = [] → r = (Ok tt, w))) ∧
  (cpps w !! keys.Name ckey = None →
   let r := ReconcileCPP (QClusterWideKey ckey) w in
   quiet w r.2 ∧ queuesKept w r.2 ∧
   (r.1 = Ok tt ∨ ∃ e, r.1 = Err e ∧ IsNotFound e = false ∧ head (faults w) = Some (Some e)) ∧
   (faults w = [] → r = (Ok tt, w))).
Proof.
  split; intros Hp r; subst r;
    unfold ReconcilePropagationPolicy, ReconcileClusterPropagationPolicy,
      bind, try, gets, ret, fail, klog_Error, modify, external;
    destruct w as [c tm rb crb p cp wo pr tr kl fs]; simpl in *;
    destruct fs as [|[e|] fs]; simpl; rewrite ?Hp; simpl;
    try destruct (IsNotFound e) eqn:Hnf; simpl;
    repeat split; eauto; try discriminate.
Qed.
End PolicyReconcile.


Lemma retiring_wellKeyed : wellKeyed (rbs retiring.world).
Proof.
  intros k b Hk.
  change (({[ ("default", "nginx-Deployment") := sample.nginxRB ]}
           : gmap (string * string) workv1alpha2.ResourceBinding) !! k = Some b) in Hk.
  apply lookup_singleton_Some in Hk as [<- <-]. reflexivity.
Qed.

Lemma finalizer_outlives_failed_cleanup_witness :
  let r := ReconcilePropagationPolicy sample_helpers.ResourceMatches
             sample_helpers.cleanPPUnmatchedRBs sample_helpers.listPPDerivedRBs
             sample_helpers.overridesMissing sample_helpers.preemptionEnabled
             sample_helpers.noPreemption (QClusterWideKey retiring.ppKey)
             retiring.world in
  r.1 = Ok tt ∧
  ∀ k b, rbs r.2 !! k = Some b →
         metav1.Labels (workv1alpha2.RBMeta b)
           !! policyv1alpha1.PropagationPolicyPermanentIDLabel ≠ Some "old-id".
Proof.
  intros r.
  destruct (finalizer_outlives_failed_cleanup sample_helpers.ResourceMatches
              sample_helpers.cleanPPUnmatchedRBs sample_helpers.listPPDerivedRBs
              sample_helpers.overridesMissing sample_helpers.preemptionEnabled
              sample_helpers.noPreemption retiring.ppKey retiring.pp 1730000000%Z
              retiring.world eq_refl eq_refl)
    as (_ & [Hsame|(Hok & _ & _ & Hclear)]).
  - exfalso.
    apply (f_equal (λ m, fmap (λ q, metav1.Finalizers (policyv1alpha1.PPMeta q))
                           (m !! ("default", "pp1")))) in Hsame.
    vm_compute in Hsame. discriminate Hsame.
  - split; [exact Hok|]. exact (Hclear retiring_wellKeyed).
Defined.

Lemma deleting_cluster_policy_is_released_witness :
  let w := retiring.clusterWorld in
  let label := policyv1alpha1.ClusterPropagationPolicyPermanentIDLabel in
  let r := ReconcileClusterPropagationPolicy sample_helpers.ResourceMatches
             sample_helpers.cleanCPPUnmatchedRBs sample_helpers.cleanUnmatchedCRBs
             sample_helpers.listCPPDerivedRBs sample_helpers.listCPPDerivedCRBs
             sample_helpers.clusterOverridesMissing sample_helpers.preemptionEnabled
             sample_helpers.noClusterPreemption (QClusterWideKey retiring.cppKey) w in
  r.1 = Ok tt ∧
  (metav1.Labels ∘ workv1alpha2.RBMeta <$> rbs w !! ("default", "nginx-Deployment"))
    = Some {[ label := "cpp1-id" ]} ∧
  (metav1.Finalizers ∘ policyv1alpha1.CPPMeta) <$> (cpps r.2 !! "cpp1") = Some [] ∧
  ∀ k b, rbs r.2 !! k = Some b →
         metav1.Labels (workv1alpha2.RBMeta b) !! label ≠ Some "cpp1-id".
Proof.
  intros w label r.
  destruct (deleting_cluster_policy_is_released sample_helpers.ResourceMatches
              sample_helpers.cleanCPPUnmatchedRBs sample_helpers.cleanUnmatchedCRBs
              sample_helpers.listCPPDerivedRBs sample_helpers.listCPPDerivedCRBs
              sample_helpers.clusterOverridesMissing sample_helpers.preemptionEnabled
              sample_helpers.noClusterPreemption retiring.cppKey retiring.cpp
              1730000000%Z w eq_refl eq_refl)
    as (_ & [Hsame|(Hok & Hcpps & _ & Hclear)] & _).
  - exfalso.
    apply (f_equal (λ m, fmap (λ q, metav1.Finalizers (policyv1alpha1.CPPMeta q))
                           (m !! "cpp1"))) in Hsame.
    vm_compute in Hsame. discriminate Hsame.
  - split; [exact Hok|]. split; [reflexivity|].
    split; [fold r in Hcpps; rewrite Hcpps; reflexivity|].
    exact (Hclear clusterWorld_wellKeyed).
Defined.

(** The loop over the ClusterResourceBindings logs a failed template
    cleanup and goes on without collecting the error.  So when the fetch
    of team-a fails, the reconcile still succeeds and removes the
    finalizer, while the binding of team-a and team-a itself keep the
    label of the policy. *)
Example skipped_cluster_binding_keeps_its_marks :
  let outage := Errorf "etcdserver: request timed out" in
  let w := set_faults [None; None; None; Some outage] retiring.clusterWorld in
  let label := policyv1alpha1.ClusterPropagationPolicyPermanentIDLabel in
  let r := ReconcileClusterPropagationPolicy sample_helpers.ResourceMatches
             sample_helpers.cleanCPPUnmatchedRBs sample_helpers.cleanUnmatchedCRBs
             sample_helpers.listCPPDerivedRBs sample_helpers.listCPPDerivedCRBs
             sample_helpers.clusterOverridesMissing sample_helpers.preemptionEnabled
             sample_helpers.noClusterPreemption (QClusterWideKey retiring.cppKey) w in
  r.1 = Ok tt ∧
  (metav1.Finalizers ∘ policyv1alpha1.CPPMeta) <$> (cpps r.2 !! "cpp1") = Some [] ∧
  (metav1.Labels ∘ workv1alpha2.CRBMeta <$> crbs r.2 !! "team-a-Namespace")
    = Some {[ label := "cpp1-id" ]} ∧
  (unstructured.GetLabels <$> templates r.2 !! sample.teamAKey)
    = Some {[ label := "cpp1-id" ]}.
Proof. repeat split; vm_compute; reflexivity. Qed.

(** ** Releasing the waiting templates a policy matches *)

Lemma releaseMatched_released matchedKeys w :
  releaseMatched matchedKeys w = (Ok tt, released matchedKeys w).
Proof.
  revert w. induction matchedKeys as [|key rest IH]; intros w.
  - destruct w as [c t r cr p cp wo pr tr kl fs].
    unfold released, set_processor, set_waitingObjects. cbn.
    assert (Hwo : wo ∖ ∅ = wo).
    { apply set_eq. intros x. rewrite elem_of_difference, elem_of_empty. tauto. }
    by rewrite app_nil_r, Hwo.
  - cbn [releaseMatched]. unfold bind, RemoveWaiting, ProcessorAdd, modify.
    rewrite IH. destruct w as [c t r cr p cp wo pr tr kl fs].
    unfold released, set_processor, set_waitingObjects. cbn.
    assert (Hwo : wo ∖ {[key]} ∖ list_to_set rest = wo ∖ ({[key]} ∪ list_to_set rest)).
    { apply set_eq. intros x. rewrite !elem_of_difference, elem_of_union. tauto. }
    by rewrite <- app_assoc, Hwo.
Qed.

Lemma keepsWaiting_run {A} (m : M A) w r w' :
  keepsWaiting m → m w = (r, w') → waitingObjects w' = waitingObjects w.
Proof. intros Hm Hrun. specialize (Hm w). by rewrite Hrun in Hm. Qed.

(** The scan of the waiting list, the check of the overrides and the
    release, from the world [w3] the fanout to the derived bindings
    left: the run succeeds exactly when the scan answers keys, the
    overrides are found present if there is a key, and then the keys are
    released in the world the check left. *)
Lemma scan_and_release {P}
    (ResourceMatches : unstructured.Unstructured → policyv1alpha1.ResourceSelector → bool)
    (present : P → M bool) (policy : P)
    (resourceSelectors : list policyv1alpha1.ResourceSelector) w3 w' :
  (let* matchedKeys := GetMatching ResourceMatches resourceSelectors in
   let* _ :=
     if bool_decide (0 < length matchedKeys) then
       let* present := try (present policy) in
       match present with
       | Ok true => ret tt
       | _ => fail waitingForOverrides
       end
     else ret tt in
   let* _ := releaseMatched matchedKeys in
   ret tt) w3 = (Ok tt, w') ↔
  ∃ matchedKeys w4 w5,
    GetMatching ResourceMatches resourceSelectors w3 = (Ok matchedKeys, w4) ∧
    (matchedKeys = [] ∧ w5 = w4 ∨
     matchedKeys ≠ [] ∧ present policy w4 = (Ok true, w5)) ∧
    w' = released matchedKeys w5.
Proof.
  split.
  - intros Hrun.
    apply bind_Ok in Hrun as (matchedKeys & w4 & Hmatch & Hrun).
    apply bind_Ok in Hrun as ([] & w5 & Hgate & Hrun).
    apply bind_Ok in Hrun as ([] & w6 & Hrun & Hret).
    unfold ret in Hret. injection Hret as <-.
    rewrite releaseMatched_released in Hrun. injection Hrun as <-.
    exists matchedKeys, w4, w5. split; [done|]. split; [|done].
    destruct (bool_decide (0 < length matchedKeys)) eqn:Hlen.
    + right. split.
      { apply bool_decide_eq_true in Hlen. intros ->. simpl in Hlen. lia. }
      unfold bind, try, ret, fail in Hgate.
      destruct (present policy w4) as [[[]|e] wp]; cbn [fst snd] in *;
        [|discriminate Hgate..].
      by injection Hgate as <-.
    + left. apply bool_decide_eq_false in Hlen.
      unfold ret in Hgate. injection Hgate as <-.
      split; [|done]. destruct matchedKeys; [done|]. simpl in Hlen. lia.
  - intros (matchedKeys & w4 & w5 & Hmatch & Hgate & ->).
    unfold bind at 1. rewrite Hmatch.
    destruct Hgate as [[-> ->]|[Hne Hpresent]].
    + cbn [length]. rewrite bool_decide_eq_false_2 by lia.
      unfold bind, ret. by rewrite releaseMatched_released.
    + rewrite bool_decide_eq_true_2
        by (destruct matchedKeys; [done | simpl; lia]).
      unfold bind, try, ret. rewrite Hpresent. cbv beta iota.
      by rewrite releaseMatched_released.
Qed.

(** What the release does to the queues. *)
Lemma released_queues matchedKeys w5 :
  waitingObjects (released matchedKeys w5)
    = waitingObjects w5 ∖ list_to_set matchedKeys ∧
  processor (released matchedKeys w5)
    = processor w5 ++ map (λ k, keys.mkClusterWideKeyWithConfig k true) matchedKeys ∧
  (∀ k, k ∈ waitingObjects w5 →
        k ∈ waitingObjects (released matchedKeys w5) ∨
        keys.mkClusterWideKeyWithConfig k true ∈ processor (released matchedKeys w5)).
Proof.
  split; [done|]. split; [done|]. intros k Hk. cbn.
  destruct (decide (k ∈ matchedKeys)) as [Hin|Hnin].
  - right. apply elem_of_app. right. apply list_elem_of_fmap. by exists k.
  - left. apply elem_of_difference. split; [done|]. by rewrite elem_of_list_to_set.
Qed.

Section Release.
Variable ResourceMatches :
  unstructured.Unstructured → policyv1alpha1.ResourceSelector → bool.
Variable cleanPPUnmatchedRBs :
  string → string → string → list policyv1alpha1.ResourceSelector → M unit.
Variable listPPDerivedRBs :
  string → string → string → M (list workv1alpha2.ResourceBinding).
Variable cleanCPPUnmatchedRBs :
  string → string → list policyv1alpha1.ResourceSelector → M unit.
Variable cleanUnmatchedCRBs :
  string → string → list policyv1alpha1.ResourceSelector → M unit.
Variable listCPPDerivedRBs :
  string → string → M (list workv1alpha2.ResourceBinding).
Variable listCPPDerivedCRBs :
  string → string → M (list workv1alpha2.ClusterResourceBinding).
Variable IsDependentOverridesPresent : policyv1alpha1.PropagationPolicy → M bool.
Variable IsDependentClusterOverridesPresent :
  policyv1alpha1.ClusterPropagationPolicy → M bool.
Variable preemptionEnabled : policyv1alpha1.PreemptionBehavior → bool.
Variable handlePropagationPolicyPreemption :
  policyv1alpha1.PropagationPolicy → M unit.
Variable handleClusterPropagationPolicyPreemption :
  policyv1alpha1.ClusterPropagationPolicy → M unit.

(** As for the dependency gate: the helpers defined outside detector.go
    do not touch the waiting list, and the presence check does not
    enqueue. *)
Hypothesis cleanPPUnmatchedRBs_waiting :
  ∀ id ns name rs, keepsWaiting (cleanPPUnmatchedRBs id ns name rs).
Hypothesis listPPDerivedRBs_waiting :
  ∀ id ns name, keepsWaiting (listPPDerivedRBs id ns name).
Hypothesis cleanCPPUnmatchedRBs_waiting :
  ∀ id name rs, keepsWaiting (cleanCPPUnmatchedRBs id name rs).
Hypothesis cleanUnmatchedCRBs_waiting :
  ∀ id name rs, keepsWaiting (cleanUnmatchedCRBs id name rs).
Hypothesis listCPPDerivedRBs_waiting :
  ∀ id name, keepsWaiting (listCPPDerivedRBs id name).
Hypothesis listCPPDerivedCRBs_waiting :
  ∀ id name, keepsWaiting (listCPPDerivedCRBs id name).
Hypothesis IsDependentOverridesPresent_queues :
  ∀ policy, preserves queuesKept (IsDependentOverridesPresent policy).
Hypothesis IsDependentClusterOverridesPresent_queues :
  ∀ policy, preserves queuesKept (IsDependentClusterOverridesPresent policy).

Local Abbreviation HandlePP :=
  (HandlePropagationPolicyCreationOrUpdate ResourceMatches cleanPPUnmatchedRBs
     listPPDerivedRBs IsDependentOverridesPresent preemptionEnabled
     handlePropagationPolicyPreemption).
Local Abbreviation HandleCPP :=
  (HandleClusterPropagationPolicyCreationOrUpdate ResourceMatches cleanCPPUnmatchedRBs
     cleanUnmatchedCRBs listCPPDerivedRBs listCPPDerivedCRBs
     IsDependentClusterOverridesPresent preemptionEnabled
     handleClusterPropagationPolicyPreemption).

(** The keys of a scan are waiting, each listed once, and neither the scan
    nor the check of the overrides touches the queues. *)
Lemma scanned_keys {P} (present : P → M bool) (policy : P)
    (resourceSelectors : list policyv1alpha1.ResourceSelector)
    (matchedKeys : list keys.ClusterWideKey) (w3 w4 w5 : World) :
  (∀ p, preserves queuesKept (present p)) →
  GetMatching ResourceMatches resourceSelectors w3 = (Ok matchedKeys, w4) →
  (matchedKeys = [] ∧ w5 = w4 ∨
   matchedKeys ≠ [] ∧ present policy w4 = (Ok true, w5)) →
  NoDup matchedKeys ∧ (∀ k, k ∈ matchedKeys → k ∈ waitingObjects w3) ∧
  waitingObjects w5 = waitingObjects w3 ∧ processor w5 = processor w3.
Proof.
  intros Hpresent Hmatch Hgate.
  pose proof (GetMatching_queuesKept ResourceMatches resourceSelectors w3) as [Hmw Hmp].
  rewrite Hmatch in Hmw, Hmp. simpl in Hmw, Hmp.
  assert (Hq5 : queuesKept w4 w5).
  { destruct Hgate as [[_ ->]|[_ Hp]]; [by split|].
    pose proof (Hpresent policy w4) as Hq. by rewrite Hp in Hq. }
  destruct Hq5 as [Hw5 Hp5].
  unfold GetMatching, bind, gets in Hmatch. simpl in Hmatch.
  destruct (getMatchingLoop_found ResourceMatches resourceSelectors
              (elements (waitingObjects w3)) [] w3) as (found & Hf & Hsub & _).
  rewrite Hmatch in Hf. injection Hf as ->.
  split; [exact (sublist_NoDup _ _ (NoDup_elements _) Hsub)|].
  split; [|split; congruence].
  intros k Hk. apply elem_of_elements. by eapply elem_of_sublist.
Qed.

(** X21: with preemption off, HandlePropagationPolicyCreationOrUpdate
    succeeds exactly when its steps do: the cleanup of the bindings that no
    longer match, the listing of the derived bindings, their enqueueing,
    the scan of the waiting list in the world these left and, if the scan
    answered a key, a check that found the dependent overrides present.
    The world it leaves is then the world the check left with the scanned
    keys taken off the waiting list and appended to the queue, once each,
    in the order of the scan, marked as changed by Karmada.  Given that the
    helpers leave the waiting list alone and the check leaves the queues
    alone, the scanned keys are distinct and were waiting at the start, no
    other key leaves the waiting list, and the keys are queued behind
    everything the fanout had queued. *)
Theorem matched_templates_are_released (policy : policyv1alpha1.PropagationPolicy)
    (w : World) :
  preemptionEnabled (policyv1alpha1.Preemption (policyv1alpha1.PPSpec policy)) = false →
  let meta := policyv1alpha1.PPMeta policy in
  let resourceSelectors :=
    policyv1alpha1.ResourceSelectors (policyv1alpha1.PPSpec policy) in
  let policyID := util.GetLabelValue (metav1.Labels meta)
                    policyv1alpha1.PropagationPolicyPermanentIDLabel in
  let run w1 derived w2 w3 matchedKeys w4 w5 :=
    cleanPPUnmatchedRBs policyID (metav1.ObjNamespace meta) (metav1.ObjName meta)
      resourceSelectors w = (Ok tt, w1) ∧
    listPPDerivedRBs policyID (metav1.ObjNamespace meta) (metav1.ObjName meta) w1
      = (Ok derived, w2) ∧
    enqueueDerived
      (map (λ rb, workv1alpha2.Resource (workv1alpha2.RBSpec rb)) derived) w2
      = (Ok tt, w3) ∧
    GetMatching ResourceMatches resourceSelectors w3 = (Ok matchedKeys, w4) ∧
    (matchedKeys = [] ∧ w5 = w4 ∨
     matchedKeys ≠ [] ∧ IsDependentOverridesPresent policy w4 = (Ok true, w5)) in
  (∀ w', HandlePP policy w = (Ok tt, w') →
     ∃ w1 derived w2 w3 matchedKeys w4 w5,
       run w1 derived w2 w3 matchedKeys w4 w5 ∧
       w' = released matchedKeys w5 ∧
       NoDup matchedKeys ∧
       (∀ k, k ∈ matchedKeys → k ∈ waitingObjects w) ∧
       waitingObjects w' = waitingObjects w ∖ list_to_set matchedKeys ∧
       processor w'
         = processor w3 ++ map (λ k, keys.mkClusterWideKeyWithConfig k true) matchedKeys ∧
       (∀ k, k ∈ waitingObjects w →
             k ∈ waitingObjects w' ∨
             keys.mkClusterWideKeyWithConfig k true ∈ processor w')) ∧
  (∀ w1 derived w2 w3 matchedKeys w4 w5,
     run w1 derived w2 w3 matchedKeys w4 w5 →
     HandlePP policy w = (Ok tt, released matchedKeys w5)).
Proof.
  intros Hpre meta resourceSelectors policyID run. subst run. cbv beta. split.
  - intros w' Hrun.
    unfold HandlePropagationPolicyCreationOrUpdate in Hrun. cbv zeta in Hrun.
    fold meta resourceSelectors policyID in Hrun.
    apply bind_Ok in Hrun as ([] & w1 & Hclean & Hrun).
    apply bind_Ok in Hrun as (derived & w2 & Hlist & Hrun).
    apply bind_Ok in Hrun as ([] & w3 & Henq & Hrun).
    rewrite Hpre in Hrun.
    apply scan_and_release in Hrun as (matchedKeys & w4 & w5 & Hmatch & Hgate & ->).
    assert (Hw3 : waitingObjects w3 = waitingObjects w).
    { pose proof (enqueueDerived_waiting
                    (map (λ rb, workv1alpha2.Resource (workv1alpha2.RBSpec rb)) derived)
                    w2) as Hew.
      rewrite Henq in Hew. cbn [snd] in Hew.
      pose proof (keepsWaiting_run _ _ _ _ (listPPDerivedRBs_waiting _ _ _) Hlist).
      pose proof (keepsWaiting_run _ _ _ _ (cleanPPUnmatchedRBs_waiting _ _ _ _) Hclean).
      congruence. }
    destruct (scanned_keys IsDependentOverridesPresent policy resourceSelectors
                matchedKeys w3 w4 w5 IsDependentOverridesPresent_queues Hmatch Hgate)
      as (Hdup & Hsub & Hw5 & Hp5).
    destruct (released_queues matchedKeys w5) as (Hrw & Hrp & Hrk).
    exists w1, derived, w2, w3, matchedKeys, w4, w5.
    split; [done|]. split; [done|]. split; [done|].
    split; [intros k Hk; rewrite <- Hw3; by apply Hsub|].
    split; [rewrite Hrw; congruence|]. split; [rewrite Hrp; congruence|].
    intros k Hk. apply Hrk. congruence.
  - intros w1 derived w2 w3 matchedKeys w4 w5 (Hclean & Hlist & Henq & Hmatch & Hgate).
    unfold HandlePropagationPolicyCreationOrUpdate. cbv zeta.
    fold meta resourceSelectors policyID.
    unfold bind at 1. rewrite Hclean. unfold bind at 1. rewrite Hlist.
    unfold bind at 1. rewrite Henq. rewrite Hpre.
    apply scan_and_release. eauto 10.
Qed.

(** X22: with preemption off,
    HandleClusterPropagationPolicyCreationOrUpdate succeeds exactly when
    its steps do: the two cleanups of the bindings that no longer match,
    the two listings of the derived bindings, their enqueueing, the scan
    of the waiting list in the world these left and, if the scan answered
    a key, a check that found the dependent overrides present.  The world
    it leaves is then the world the check left with the scanned keys taken
    off the waiting list and appended to the queue, once each, in the
    order of the scan, marked as changed by Karmada.  Given that the
    helpers leave the waiting list alone and the check leaves the queues
    alone, the scanned keys are distinct and were waiting at the start, no
    other key leaves the waiting list, and the keys are queued behind
    everything the fanout had queued. *)
Theorem matched_templates_are_released_cluster
    (policy : policyv1alpha1.ClusterPropagationPolicy) (w : World) :
  preemptionEnabled (policyv1alpha1.Preemption (policyv1alpha1.CPPSpec policy)) = false →
  let meta := policyv1alpha1.CPPMeta policy in
  let resourceSelectors :=
    policyv1alpha1.ResourceSelectors (policyv1alpha1.CPPSpec policy) in
  let policyID := util.GetLabelValue (metav1.Labels meta)
                    policyv1alpha1.ClusterPropagationPolicyPermanentIDLabel in
  let run w1 w2 derived w3 clusterDerived w4 w5 w6 matchedKeys w7 w8 :=
    cleanCPPUnmatchedRBs policyID (metav1.ObjName meta) resourceSelectors w
      = (Ok tt, w1) ∧
    cleanUnmatchedCRBs policyID (metav1.ObjName meta) resourceSelectors w1
      = (Ok tt, w2) ∧
    listCPPDerivedRBs policyID (metav1.ObjName meta) w2 = (Ok derived, w3) ∧
    listCPPDerivedCRBs policyID (metav1.ObjName meta) w3 = (Ok clusterDerived, w4) ∧
    enqueueDerived
      (map (λ rb, workv1alpha2.Resource (workv1alpha2.RBSpec rb)) derived) w4
      = (Ok tt, w5) ∧
    enqueueDerived
      (map (λ crb, workv1alpha2.Resource (workv1alpha2.CRBSpec crb)) clusterDerived) w5
      = (Ok tt, w6) ∧
    GetMatching ResourceMatches resourceSelectors w6 = (Ok matchedKeys, w7) ∧
    (matchedKeys = [] ∧ w8 = w7 ∨
     matchedKeys ≠ [] ∧ IsDependentClusterOverridesPresent policy w7 = (Ok true, w8)) in
  (∀ w', HandleCPP policy w = (Ok tt, w') →
     ∃ w1 w2 derived w3 clusterDerived w4 w5 w6 matchedKeys w7 w8,
       run w1 w2 derived w3 clusterDerived w4 w5 w6 matchedKeys w7 w8 ∧
       w' = released matchedKeys w8 ∧
       NoDup matchedKeys ∧
       (∀ k, k ∈ matchedKeys → k ∈ waitingObjects w) ∧
       waitingObjects w' = waitingObjects w ∖ list_to_set matchedKeys ∧
       processor w'
         = processor w6 ++ map (λ k, keys.mkClusterWideKeyWithConfig k true) matchedKeys ∧
       (∀ k, k ∈ waitingObjects w →
             k ∈ waitingObjects w' ∨
             keys.mkClusterWideKeyWithConfig k true ∈ processor w')) ∧
  (∀ w1 w2 derived w3 clusterDerived w4 w5 w6 matchedKeys w7 w8,
     run w1 w2 derived w3 clusterDerived w4 w5 w6 matchedKeys w7 w8 →
     HandleCPP policy w = (Ok tt, released matchedKeys w8)).
Proof.
  intros Hpre meta resourceSelectors policyID run. subst run. cbv beta. split.
  - intros w' Hrun.
    unfold HandleClusterPropagationPolicyCreationOrUpdate in Hrun. cbv zeta in Hrun.
    fold meta resourceSelectors policyID in Hrun.
    apply bind_Ok in Hrun as ([] & w1 & Hclean1 & Hrun).
    apply bind_Ok in Hrun as ([] & w2 & Hclean2 & Hrun).
    apply bind_Ok in Hrun as (derived & w3 & Hlist1 & Hrun).
    apply bind_Ok in Hrun as (clusterDerived & w4 & Hlist2 & Hrun).
    apply bind_Ok in Hrun as ([] & w5 & Henq1 & Hrun).
    apply bind_Ok in Hrun as ([] & w6 & Henq2 & Hrun).
    rewrite Hpre in Hrun.
    apply scan_and_release in Hrun as (matchedKeys & w7 & w8 & Hmatch & Hgate & ->).
    assert (Hw6 : waitingObjects w6 = waitingObjects w).
    { pose proof (enqueueDerived_waiting
                    (map (λ rb, workv1alpha2.Resource (workv1alpha2.RBSpec rb)) derived)
                    w4) as Hew1.
      rewrite Henq1 in Hew1. cbn [snd] in Hew1.
      pose proof (enqueueDerived_waiting
                    (map (λ crb, workv1alpha2.Resource (workv1alpha2.CRBSpec crb))
                       clusterDerived) w5) as Hew2.
      rewrite Henq2 in Hew2. cbn [snd] in Hew2.
      pose proof (keepsWaiting_run _ _ _ _ (listCPPDerivedCRBs_waiting _ _) Hlist2).
      pose proof (keepsWaiting_run _ _ _ _ (listCPPDerivedRBs_waiting _ _) Hlist1).
      pose proof (keepsWaiting_run _ _ _ _ (cleanUnmatchedCRBs_waiting _ _ _) Hclean2).
      pose proof (keepsWaiting_run _ _ _ _ (cleanCPPUnmatchedRBs_waiting _ _ _) Hclean1).
      congruence. }
    destruct (scanned_keys IsDependentClusterOverridesPresent policy resourceSelectors
                matchedKeys w6 w7 w8 IsDependentClusterOverridesPresent_queues
                Hmatch Hgate)
      as (Hdup & Hsub & Hw8 & Hp8).
    destruct (released_queues matchedKeys w8) as (Hrw & Hrp & Hrk).
    exists w1, w2, derived, w3, clusterDerived, w4, w5, w6, matchedKeys, w7, w8.
    split; [done|]. split; [done|]. split; [done|].
    split; [intros k Hk; rewrite <- Hw6; by apply Hsub|].
    split; [rewrite Hrw; congruence|]. split; [rewrite Hrp; congruence|].
    intros k Hk. apply Hrk. congruence.
  - intros w1 w2 derived w3 clusterDerived w4 w5 w6 matchedKeys w7 w8
      (Hclean1 & Hclean2 & Hlist1 & Hlist2 & Henq1 & Henq2 & Hmatch & Hgate).
    unfold HandleClusterPropagationPolicyCreationOrUpdate. cbv zeta.
    fold meta resourceSelectors policyID.
    unfold bind at 1. rewrite Hclean1. unfold bind at 1. rewrite Hclean2.
    unfold bind at 1. rewrite Hlist1. unfold bind at 1. rewrite Hlist2.
    unfold bind at 1. rewrite Henq1. unfold bind at 1. rewrite Henq2. rewrite Hpre.
    apply scan_and_release. eauto 10.
Qed.
End Release.


Lemma matched_templates_are_released_witness :
  let w := sample.worldWith sample.nginxKey sample.nginx in
  let w' := released [sample.nginxKey] w in
  HandlePropagationPolicyCreationOrUpdate sample_helpers.ResourceMatches
    sample_helpers.cleanPPUnmatchedRBs sample_helpers.listPPDerivedRBs
    releasing.overridesPresent sample_helpers.preemptionEnabled
    sample_helpers.noPreemption sample.deployments w = (Ok tt, w') ∧
  waitingObjects w = {[ sample.nginxKey ]} ∧
  (sample.nginxKey ∉ waitingObjects w') ∧
  processor w' = [keys.mkClusterWideKeyWithConfig sample.nginxKey true].
Proof.
  intros w w'. split; [|split; [reflexivity|split; [|reflexivity]]].
  - apply (proj2 (matched_templates_are_released sample_helpers.ResourceMatches
             sample_helpers.cleanPPUnmatchedRBs sample_helpers.listPPDerivedRBs
             releasing.overridesPresent sample_helpers.preemptionEnabled
             sample_helpers.noPreemption
             (λ _ _ _ _ _, eq_refl)
             (λ id _ _, queuesKept_keepsWaiting _
                (GetResourceBindings_queuesKept _ id))
             (λ _ _, conj eq_refl eq_refl)
             sample.deployments w eq_refl) w [] w w [sample.nginxKey] w w).
    repeat split; try reflexivity. right. split; [discriminate | reflexivity].
  - intros Hin. destruct (released_queues [sample.nginxKey] w) as (Hrw & _).
    fold w' in Hrw. rewrite Hrw in Hin. apply elem_of_difference in Hin as [_ Hn].
    apply Hn. apply elem_of_list_to_set, list_elem_of_here.
Defined.

Lemma matched_templates_are_released_cluster_witness :
  let w := sample.worldWith sample.nginxKey sample.nginx in
  let w' := released [sample.nginxKey] w in
  HandleClusterPropagationPolicyCreationOrUpdate sample_helpers.ResourceMatches
    sample_helpers.cleanCPPUnmatchedRBs sample_helpers.cleanUnmatchedCRBs
    sample_helpers.listCPPDerivedRBs sample_helpers.listCPPDerivedCRBs
    releasing.clusterOverridesPresent sample_helpers.preemptionEnabled
    sample_helpers.noClusterPreemption sample.clusterDeployments w = (Ok tt, w') ∧
  waitingObjects w = {[ sample.nginxKey ]} ∧
  (sample.nginxKey ∉ waitingObjects w') ∧
  processor w' = [keys.mkClusterWideKeyWithConfig sample.nginxKey true].
Proof.
  intros w w'. split; [|split; [reflexivity|split; [|reflexivity]]].
  - apply (proj2 (matched_templates_are_released_cluster sample_helpers.ResourceMatches
             sample_helpers.cleanCPPUnmatchedRBs sample_helpers.cleanUnmatchedCRBs
             sample_helpers.listCPPDerivedRBs sample_helpers.listCPPDerivedCRBs
             releasing.clusterOverridesPresent sample_helpers.preemptionEnabled
             sample_helpers.noClusterPreemption
             (λ _ _ _ _, eq_refl)
             (λ _ _ _ _, eq_refl)
             (λ id _, queuesKept_keepsWaiting _
                (GetResourceBindings_queuesKept _ id))
             (λ id _, queuesKept_keepsWaiting _
                (GetClusterResourceBindings_queuesKept _ id))
             (λ _ _, conj eq_refl eq_refl)
             sample.clusterDeployments w eq_refl)
             w w [] w [] w w w [sample.nginxKey] w w).
    repeat split; try reflexivity. right. split; [discriminate | reflexivity].
  - intros Hin. destruct (released_queues [sample.nginxKey] w) as (Hrw & _).
    fold w' in Hrw. rewrite Hrw in Hin. apply elem_of_difference in Hin as [_ Hn].
    apply Hn. apply elem_of_list_to_set, list_elem_of_here.
Defined.

#[global] Instance unchanged_frame : Frame unchanged.
Proof.
  split.
  - intros w. split; [apply quiet_frame|]. split; [done|]. by split.
  - intros w1 w2 w3 (Hq1 & Hc1 & Hk1) (Hq2 & Hc2 & Hk2).
    split; [eapply quiet_frame; eauto|]. split; [congruence|].
    destruct Hk1, Hk2. split; congruence.
  - intros w fs. split; [apply quiet_frame|]. split; [done|]. by split.
  - intros w l. split; [apply quiet_frame|]. split; [done|]. by split.
Qed.

(** ** Looking for the policy of a template *)

Lemma external_unchanged : preserves unchanged external.
Proof. frame. Qed.

Lemma collectPolicies_run policyObjects policyList w :
  let r := collectPolicies policyObjects policyList w in
  unchanged w r.2 ∧
  (∀ l, r.1 = Ok l →
        l = policyList
            ++ filter (λ p, metav1.DeletionTimestamp (policyv1alpha1.PPMeta p) = None)
                 policyObjects) ∧
  (faults w = [] → ∃ l, r = (Ok l, w)).
Proof.
  revert policyList w. induction policyObjects as [|policy rest IH]; intros policyList w.
  - cbn. split; [apply frame_refl|]. split; [|eauto].
    intros l [= <-]. by rewrite app_nil_r.
  - cbv zeta. cbn [collectPolicies]. unfold bind, try.
    pose proof (external_unchanged w) as Hext.
    pose proof (external_no_faults w) as Hnf.
    destruct (external w) as [[[]|err] w1]; cbn [fst snd] in *.
    + unfold deletionTimestampIsZero. rewrite filter_cons.
      destruct (metav1.DeletionTimestamp (policyv1alpha1.PPMeta policy)) as [t|] eqn:Ht;
        cbn [negb].
      * destruct (IH policyList w1) as (Hu & Hl & Hf).
        split; [eapply frame_trans; eauto|]. split.
        -- intros l Hrl. rewrite decide_False by done. by apply Hl.
        -- intros Hw. specialize (Hnf Hw). injection Hnf as <-. by apply Hf.
      * destruct (IH (policyList ++ [policy]) w1) as (Hu & Hl & Hf).
        split; [eapply frame_trans; eauto|]. split.
        -- intros l Hrl. rewrite decide_True by done.
           rewrite (Hl l Hrl), <- app_assoc. done.
        -- intros Hw. specialize (Hnf Hw). injection Hnf as <-. by apply Hf.
    + unfold klog_Error, modify, fail. cbn [fst snd].
      split; [eapply frame_trans; [exact Hext|apply frame_klog]|].
      split; [done|]. intros Hw. by specialize (Hnf Hw).
Qed.

Lemma collectClusterPolicies_run policyObjects policyList w :
  let r := collectClusterPolicies policyObjects policyList w in
  unchanged w r.2 ∧
  (∀ l, r.1 = Ok l →
        l = policyList
            ++ filter (λ p, metav1.DeletionTimestamp (policyv1alpha1.CPPMeta p) = None)
                 policyObjects) ∧
  (faults w = [] → ∃ l, r = (Ok l, w)).
Proof.
  revert policyList w. induction policyObjects as [|policy rest IH]; intros policyList w.
  - cbn. split; [apply frame_refl|]. split; [|eauto].
    intros l [= <-]. by rewrite app_nil_r.
  - cbv zeta. cbn [collectClusterPolicies]. unfold bind, try.
    pose proof (external_unchanged w) as Hext.
    pose proof (external_no_faults w) as Hnf.
    destruct (external w) as [[[]|err] w1]; cbn [fst snd] in *.
    + unfold deletionTimestampIsZero. rewrite filter_cons.
      destruct (metav1.DeletionTimestamp (policyv1alpha1.CPPMeta policy)) as [t|] eqn:Ht;
        cbn [negb].
      * destruct (IH policyList w1) as (Hu & Hl & Hf).
        split; [eapply frame_trans; eauto|]. split.
        -- intros l Hrl. rewrite decide_False by done. by apply Hl.
        -- intros Hw. specialize (Hnf Hw). injection Hnf as <-. by apply Hf.
      * destruct (IH (policyList ++ [policy]) w1) as (Hu & Hl & Hf).
        split; [eapply frame_trans; eauto|]. split.
        -- intros l Hrl. rewrite decide_True by done.
           rewrite (Hl l Hrl), <- app_assoc. done.
        -- intros Hw. specialize (Hnf Hw). injection Hnf as <-. by apply Hf.
    + unfold klog_Error, modify, fail. cbn [fst snd].
      split; [eapply frame_trans; [exact Hext|apply frame_klog]|].
      split; [done|]. intros Hw. by specialize (Hnf Hw).
Qed.

(** The policies a lookup may answer: stored in [namespace], not being
    deleted. *)
Lemma live_in_namespace (namespace : string) (p : policyv1alpha1.PropagationPolicy) w :
  p ∈ filter (λ p, metav1.DeletionTimestamp (policyv1alpha1.PPMeta p) = None)
        (filter (λ kv, kv.1.1 = namespace) (map_to_list (pps w))).*2
  ↔ (∃ name, pps w !! (namespace, name) = Some p) ∧
    metav1.DeletionTimestamp (policyv1alpha1.PPMeta p) = None.
Proof.
  rewrite list_elem_of_filter, list_elem_of_fmap. split.
  - intros [Hlive ([[ns name] q] & -> & Hin)]. split; [|done].
    apply list_elem_of_filter in Hin as [Hns Hin]. simpl in Hns. subst ns.
    apply elem_of_map_to_list in Hin. eauto.
  - intros [[name Hp] Hlive]. split; [done|]. exists ((namespace, name), p).
    split; [done|]. apply list_elem_of_filter. split; [done|].
    by apply elem_of_map_to_list.
Qed.

Lemma live_in_cluster (p : policyv1alpha1.ClusterPropagationPolicy) w :
  p ∈ filter (λ p, metav1.DeletionTimestamp (policyv1alpha1.CPPMeta p) = None)
        (map_to_list (cpps w)).*2
  ↔ (∃ name, cpps w !! name = Some p) ∧
    metav1.DeletionTimestamp (policyv1alpha1.CPPMeta p) = None.
Proof.
  rewrite list_elem_of_filter, list_elem_of_fmap. split.
  - intros [Hlive ([name q] & -> & Hin)]. split; [|done].
    apply elem_of_map_to_list in Hin. eauto.
  - intros [[name Hp] Hlive]. split; [done|]. exists (name, p).
    split; [done|]. by apply elem_of_map_to_list.
Qed.

Section Candidates.
Variable getHighestPriorityPropagationPolicy :
  list policyv1alpha1.PropagationPolicy → unstructured.Unstructured →
  keys.ClusterWideKey → option policyv1alpha1.PropagationPolicy.
Variable getHighestPriorityClusterPropagationPolicy :
  list policyv1alpha1.ClusterPropagationPolicy → unstructured.Unstructured →
  keys.ClusterWideKey → option policyv1alpha1.ClusterPropagationPolicy.

(** X23: LookForMatchedPolicy writes nothing and enqueues nothing.  For a
    cluster-scoped template it answers no policy without listing any.
    Given a priority comparison that answers one of its candidates, the
    policy it answers is stored in the namespace of the template and is not
    being deleted; and when no call fails, the comparison is run on exactly
    the policies of that namespace that are not being deleted (or is not
    run at all when the namespace has no policy). *)
Theorem LookForMatchedPolicy_candidates (object : unstructured.Unstructured)
    (objectKey : keys.ClusterWideKey) (w : World) :
  (∀ l p, getHighestPriorityPropagationPolicy l object objectKey = Some p → p ∈ l) →
  let r := LookForMatchedPolicy getHighestPriorityPropagationPolicy object objectKey w in
  let live p := (∃ name, pps w !! (keys.Namespace objectKey, name) = Some p) ∧
                metav1.DeletionTimestamp (policyv1alpha1.PPMeta p) = None in
  unchanged w r.2 ∧
  (keys.Namespace objectKey = "" → r = (Ok None, w)) ∧
  (∀ p, r.1 = Ok (Some p) → keys.Namespace objectKey ≠ "" ∧ live p) ∧
  (faults w = [] → keys.Namespace objectKey ≠ "" →
   ∃ policyList,
     (∀ p, p ∈ policyList ↔ live p) ∧
     (r = (Ok (getHighestPriorityPropagationPolicy policyList object objectKey), w) ∨
      (policyList = [] ∧ r = (Ok None, w)))).
Proof.
  intros Hmember r live. subst r live. cbv beta. unfold LookForMatchedPolicy.
  destruct (decide (keys.Namespace objectKey = "")) as [Hns|Hns].
  { unfold ret. cbn [fst snd]. split; [apply frame_refl|]. split; [done|].
    split; [by intros p [=]|].
    intros _ Hne. by destruct Hne. }
  unfold listPropagationPolicies. unfold bind, try, gets, ret. cbv beta.
  pose proof (external_unchanged w) as Hext.
  pose proof (external_no_faults w) as Hnf.
  destruct (external w) as [[[]|err] w1]; cbn [fst snd] in *.
  - cbv beta iota.
    assert (Hpps : pps w1 = pps w)
      by (destruct Hext as ((_ & _ & _ & Hp & _) & _); exact Hp).
    rewrite Hpps.
    pose proof (live_in_namespace (keys.Namespace objectKey)) as Hlive.
    destruct ((filter (λ kv, kv.1.1 = keys.Namespace objectKey) (map_to_list (pps w))).*2)
      as [|policy rest] eqn:Hlisted.
    + unfold ret. cbn [fst snd]. split; [done|]. split; [done|].
      split; [by intros p [=]|].
      intros Hw _. specialize (Hnf Hw). injection Hnf as <-.
      exists []. split; [|by right]. intros p. rewrite <- Hlive.
      rewrite Hlisted. done.
    + destruct (collectPolicies_run (policy :: rest) [] w1) as (Hu & Hl & Hf).
      destruct (collectPolicies (policy :: rest) [] w1) as [[policyList|err] w2];
        cbn [fst snd] in *.
      * specialize (Hl _ eq_refl). rewrite app_nil_l in Hl.
        split; [eapply frame_trans; [|exact Hu]; done|]. split; [done|]. split.
        -- intros p [= Hp]. split; [done|]. apply Hmember in Hp.
           rewrite Hl, <- Hlisted in Hp. by apply Hlive in Hp.
        -- intros Hw _. specialize (Hnf Hw). injection Hnf as <-.
           destruct (Hf Hw) as (l & [= <- <-]).
           exists policyList. split; [|by left].
           intros p. rewrite <- Hlive, Hlisted, Hl. done.
      * split; [eapply frame_trans; [|exact Hu]; done|]. split; [done|]. split; [done|].
        intros Hw _. specialize (Hnf Hw). injection Hnf as <-.
        by destruct (Hf Hw) as (l & [=]).
  - unfold klog_Error, modify, fail. cbn [fst snd].
    split; [eapply frame_trans; [exact Hext|apply frame_klog]|].
    split; [done|]. split; [done|]. intros Hw. by specialize (Hnf Hw).
Qed.

(** X24: LookForMatchedClusterPolicy writes nothing and enqueues nothing.
    Given a priority comparison that answers one of its candidates, the
    policy it answers is stored and is not being deleted; and when no call
    fails, the comparison is run on exactly the cluster policies that are
    not being deleted (or is not run at all when there is no cluster
    policy), whatever the namespace of the template. *)
Theorem LookForMatchedClusterPolicy_candidates (object : unstructured.Unstructured)
    (objectKey : keys.ClusterWideKey) (w : World) :
  (∀ l p, getHighestPriorityClusterPropagationPolicy l object objectKey = Some p → p ∈ l) →
  let r := LookForMatchedClusterPolicy getHighestPriorityClusterPropagationPolicy
             object objectKey w in
  let live p := (∃ name, cpps w !! name = Some p) ∧
                metav1.DeletionTimestamp (policyv1alpha1.CPPMeta p) = None in
  unchanged w r.2 ∧
  (∀ p, r.1 = Ok (Some p) → live p) ∧
  (faults w = [] →
   ∃ policyList,
     (∀ p, p ∈ policyList ↔ live p) ∧
     (r = (Ok (getHighestPriorityClusterPropagationPolicy policyList object objectKey), w) ∨
      (policyList = [] ∧ r = (Ok None, w)))).
Proof.
  intros Hmember r live. subst r live. cbv beta. unfold LookForMatchedClusterPolicy.
  unfold listClusterPropagationPolicies. unfold bind, try, gets, ret. cbv beta.
  pose proof (external_unchanged w) as Hext.
  pose proof (external_no_faults w) as Hnf.
  destruct (external w) as [[[]|err] w1]; cbn [fst snd] in *.
  - cbv beta iota.
    assert (Hcpps : cpps w1 = cpps w)
      by (destruct Hext as ((_ & _ & _ & _ & Hp & _) & _); exact Hp).
    rewrite Hcpps.
    pose proof live_in_cluster as Hlive.
    destruct ((map_to_list (cpps w)).*2) as [|policy rest] eqn:Hlisted.
    + unfold ret. cbn [fst snd]. split; [done|]. split; [by intros p [=]|].
      intros Hw. specialize (Hnf Hw). injection Hnf as <-.
      exists []. split; [|by right]. intros p. rewrite <- Hlive.
      rewrite Hlisted. done.
    + destruct (collectClusterPolicies_run (policy :: rest) [] w1) as (Hu & Hl & Hf).
      destruct (collectClusterPolicies (policy :: rest) [] w1) as [[policyList|err] w2];
        cbn [fst snd] in *.
      * specialize (Hl _ eq_refl). rewrite app_nil_l in Hl.
        split; [eapply frame_trans; [|exact Hu]; done|]. split.
        -- intros p [= Hp]. apply Hmember in Hp.
           rewrite Hl, <- Hlisted in Hp. by apply Hlive in Hp.
        -- intros Hw. specialize (Hnf Hw). injection Hnf as <-.
           destruct (Hf Hw) as (l & [= <- <-]).
           exists policyList. split; [|by left].
           intros p. rewrite <- Hlive, Hlisted, Hl. done.
      * split; [eapply frame_trans; [|exact Hu]; done|]. split; [done|].
        intros Hw. specialize (Hnf Hw). injection Hnf as <-.
        by destruct (Hf Hw) as (l & [=]).
  - unfold klog_Error, modify, fail. cbn [fst snd].
    split; [eapply frame_trans; [exact Hext|apply frame_klog]|].
    split; [done|]. intros Hw. by specialize (Hnf Hw).
Qed.
End Candidates.


Lemma firstListed_member {P} (l : list P) object objectKey p :
  matching.firstListed l object objectKey = Some p → p ∈ l.
Proof. destruct l; [done|]. intros [= ->]. apply list_elem_of_here. Qed.

Lemma LookForMatchedPolicy_candidates_witness :
  let r := LookForMatchedPolicy matching.firstListed sample.nginx sample.nginxKey
             matching.world in
  r.1 = Ok (Some matching.pp2) ∧
  keys.Namespace sample.nginxKey ≠ "" ∧
  (∃ name, pps matching.world !! (keys.Namespace sample.nginxKey, name)
           = Some matching.pp2) ∧
  metav1.DeletionTimestamp (policyv1alpha1.PPMeta matching.pp2) = None.
Proof.
  intros r. split; [reflexivity|].
  apply (LookForMatchedPolicy_candidates matching.firstListed sample.nginx
           sample.nginxKey matching.world
           (λ l p, firstListed_member l sample.nginx sample.nginxKey p)).
  reflexivity.
Defined.

Lemma LookForMatchedClusterPolicy_candidates_witness :
  let r := LookForMatchedClusterPolicy matching.firstListed sample.nginx sample.nginxKey
             matching.world in
  r.1 = Ok (Some matching.cpp2) ∧
  (∃ name, cpps matching.world !! name = Some matching.cpp2) ∧
  metav1.DeletionTimestamp (policyv1alpha1.CPPMeta matching.cpp2) = None.
Proof.
  intros r. split; [reflexivity|].
  apply (LookForMatchedClusterPolicy_candidates matching.firstListed sample.nginx
           sample.nginxKey matching.world
           (λ l p, firstListed_member l sample.nginx sample.nginxKey p)).
  reflexivity.
Defined.
